(** * SkedAI: the booking agent's time parser, slot search and dialogue turn

    A shallow embedding of [backend/app/booking_agent.py] and
    [backend/app/calendar_service.py].

    Conventions of the embedding.
    - Python [str] is [string]; the embedding is that of ASCII text:
      on a text that [Str.is_ascii] accepts, [Str.lower], [Str.int] and
      the character classes of [Re] are Python's.  Bytes above 127
      belong to no character class and are left alone by [Str.lower],
      which is not what Python does with the characters they would
      encode; a theorem about every text of some shape takes the text,
      where that matters, to be ASCII ([Str.is_ascii]).
    - A Python call that may raise returns an [outcome]: [Returned v] or
      [Raised e].  A function returning Python's [None] returns
      [Returned None] at an option type: returning [None] and raising are
      different events, and the code under study treats them differently.
    - A [datetime] keeps its date as the proleptic Gregorian ordinal
      ([date.toordinal()], 1 = 0001-01-01 ... 3652059 = 9999-12-31) and its
      wall-clock fields as they are; [weekday()] is [(ordinal + 6) mod 7].
      Arithmetic on a pytz-aware value is wall-clock arithmetic that keeps
      the [tzinfo] it started with.
    - The clock is read once per parse: every [datetime.now(tz)] inside one
      call of [_parse_time_advanced] is the argument [now]. *)

From Stdlib Require Import ZArith NArith List String Ascii Bool Lia Arith.
From Stdlib Require Import DecimalString Sorted.
Import ListNotations.
Open Scope string_scope.
Open Scope Z_scope.

(** ** Outcomes of Python calls *)

Inductive exn : Type :=
| OverflowError
| ValueError
| TypeError
| AttributeError
| KeyError
| HttpError (reason : option string)
| OtherError (msg : string).

Inductive outcome (A : Type) : Type :=
| Returned (a : A)
| Raised (e : exn).
Arguments Returned {A} a.
Arguments Raised {A} e.

Definition obind {A B} (x : outcome A) (f : A -> outcome B) : outcome B :=
  match x with
  | Returned a => f a
  | Raised e => Raised e
  end.

Notation "x <- c ;; k" := (obind c (fun x => k))
  (at level 61, c at next level, right associativity).

(** ** Strings *)

Module Str.

Definition is_upper (a : ascii) : bool :=
  let n := N_of_ascii a in ((65 <=? n) && (n <=? 90))%N.

Definition lower_char (a : ascii) : ascii :=
  if is_upper a then ascii_of_N (N_of_ascii a + 32) else a.

(** [str.lower()], on ASCII text. *)
Fixpoint lower (s : string) : string :=
  match s with
  | EmptyString => EmptyString
  | String a t => String (lower_char a) (lower t)
  end.

(** A text of ASCII characters only. *)
Definition is_ascii (s : string) : bool :=
  forallb (fun a => (N_of_ascii a <? 128)%N) (list_ascii_of_string s).

(** [s[n:]] *)
Fixpoint drop (n : nat) (s : string) : string :=
  match n, s with
  | O, _ => s
  | S n', String _ t => drop n' t
  | S _, EmptyString => EmptyString
  end.

(** [s[:n]] *)
Fixpoint take (n : nat) (s : string) : string :=
  match n, s with
  | O, _ => EmptyString
  | S n', String a t => String a (take n' t)
  | S _, EmptyString => EmptyString
  end.

(** [needle in hay] *)
Fixpoint contains (needle hay : string) : bool :=
  if prefix needle hay then true
  else match hay with
       | EmptyString => false
       | String _ t => contains needle t
       end.

Definition is_digit (a : ascii) : bool :=
  let n := N_of_ascii a in ((48 <=? n) && (n <=? 57))%N.

Definition digit_val (a : ascii) : Z := Z.of_N (N_of_ascii a) - 48.

Fixpoint all_digits (s : string) : bool :=
  match s with
  | EmptyString => true
  | String a t => is_digit a && all_digits t
  end.

Fixpoint int_acc (acc : Z) (s : string) : Z :=
  match s with
  | EmptyString => acc
  | String a t => int_acc (10 * acc + digit_val a) t
  end.

(** [sys.int_max_str_digits], as CPython sets it. *)
Definition MAX_STR_DIGITS : nat := 4300.

(** [int(s)] on text: a non-empty run of decimal digits, at most
    [MAX_STR_DIGITS] of them (leading zeros count), else [ValueError]. *)
Definition int (s : string) : outcome Z :=
  match s with
  | EmptyString => Raised ValueError
  | _ => if all_digits s && (String.length s <=? MAX_STR_DIGITS)%nat
         then Returned (int_acc 0 s)
         else Raised ValueError
  end.

(** [int(x)] where [x] may be [None] ([TypeError]). *)
Definition int_opt (x : option string) : outcome Z :=
  match x with
  | Some s => int s
  | None => Raised TypeError
  end.

(** Python truthiness of an optional string: [None] and [''] are false. *)
Definition truthy (x : option string) : bool :=
  match x with
  | Some (String _ _) => true
  | _ => false
  end.

(** [c.isspace()] on ASCII, the class [\s] of [re]. *)
Definition is_space (a : ascii) : bool :=
  let n := N_of_ascii a in
  (((9 <=? n) && (n <=? 13)) || ((28 <=? n) && (n <=? 32)))%N.

Fixpoint lstrip (s : string) : string :=
  match s with
  | String a t => if is_space a then lstrip t else s
  | EmptyString => EmptyString
  end.

Fixpoint rstrip (s : string) : string :=
  match s with
  | String a t =>
      match rstrip t with
      | EmptyString => if is_space a then EmptyString else String a EmptyString
      | t' => String a t'
      end
  | EmptyString => EmptyString
  end.

(** [str.strip()] *)
Definition strip (s : string) : string := rstrip (lstrip s).

End Str.

(** ** The fragment of [re] the agent's patterns use

    Literals, the classes [\d], [\w], [\s], sequence, ordered alternation,
    greedy [?], greedy [*] and [+] on a class, and numbered capturing
    groups.  Matching is Python's: backtracking, first alternative first,
    longest repetition first; [search] scans start positions left to
    right. *)

Module Re.

Inductive cclass : Type := Digit | Word | Space.

(** The classes [\d], [\w] and [\s], on ASCII text. *)
Definition in_class (c : cclass) (a : ascii) : bool :=
  let n := N_of_ascii a in
  match c with
  | Digit => Str.is_digit a
  | Word => (Str.is_digit a
             || ((65 <=? n) && (n <=? 90))
             || ((97 <=? n) && (n <=? 122))
             || (n =? 95))%N
  | Space => Str.is_space a
  end.

Inductive regex : Type :=
| Lit (s : string)
| Cls (c : cclass)
| Seq (r1 r2 : regex)
| Alt (r1 r2 : regex)
| Opt (r : regex)
| Star (c : cclass)
| Plus (c : cclass)
| Grp (n : nat) (r : regex).

Definition captures : Type := list (nat * string).

(** The text consumed between two suffixes of the subject. *)
Definition consumed (s s' : string) : string :=
  Str.take (String.length s - String.length s') s.

Section Matcher.
Context {A : Type}.

Fixpoint star_match (c : cclass) (k : string -> option A) (s : string)
    : option A :=
    match s with
    | String a t =>
        if in_class c a then
          match star_match c k t with
          | Some r => Some r
          | None => k s
          end
        else k s
    | EmptyString => k s
    end.

Fixpoint re_match (r : regex) (s : string) (caps : captures)
           (k : string -> captures -> option A) : option A :=
    match r with
    | Lit l => if prefix l s then k (Str.drop (String.length l) s) caps
               else None
    | Cls c =>
        match s with
        | String a t => if in_class c a then k t caps else None
        | EmptyString => None
        end
    | Seq r1 r2 =>
        re_match r1 s caps (fun s' caps' => re_match r2 s' caps' k)
    | Alt r1 r2 =>
        match re_match r1 s caps k with
        | Some x => Some x
        | None => re_match r2 s caps k
        end
    | Opt r1 =>
        match re_match r1 s caps k with
        | Some x => Some x
        | None => k s caps
        end
    | Star c => star_match c (fun s' => k s' caps) s
    | Plus c =>
        match s with
        | String a t =>
            if in_class c a then star_match c (fun s' => k s' caps) t
            else None
        | EmptyString => None
        end
    | Grp n r1 =>
        re_match r1 s caps
                 (fun s' caps' => k s' ((n, consumed s s') :: caps'))
    end.
End Matcher.

(** [len(match.groups())]: the number of groups of the pattern. *)
Fixpoint ngroups (r : regex) : nat :=
  match r with
  | Lit _ | Cls _ | Star _ | Plus _ => 0
  | Seq r1 r2 | Alt r1 r2 => ngroups r1 + ngroups r2
  | Opt r1 => ngroups r1
  | Grp _ r1 => S (ngroups r1)
  end.

Record match_obj : Type := mkMatch {
  whole : string;          (* group(0) *)
  caps : captures;
  groups_len : nat
}.

Fixpoint lookup (n : nat) (c : captures) : option string :=
  match c with
  | [] => None
  | (m, s) :: t => if Nat.eqb n m then Some s else lookup n t
  end.

(** [match.group(n)], [None] for a group that took no part. *)
Definition group (m : match_obj) (n : nat) : option string :=
  lookup n (caps m).

Definition match_here (r : regex) (s : string) : option match_obj :=
  re_match r s [] (fun s' c => Some (mkMatch (consumed s s') c (ngroups r))).

(** [re.search(r, s)] *)
Fixpoint search (r : regex) (s : string) : option match_obj :=
  match match_here r s with
  | Some m => Some m
  | None =>
      match s with
      | EmptyString => None
      | String _ t => search r t
      end
  end.

(** Pattern text helpers. *)
Definition opt_s : regex := Opt (Lit "s").
Definition digit12 : regex := Seq (Cls Digit) (Opt (Cls Digit)).
Definition digit2 : regex := Seq (Cls Digit) (Cls Digit).
Definition ampm : regex := Alt (Lit "am") (Lit "pm").

Fixpoint seqs (l : list regex) : regex :=
  match l with
  | [] => Lit ""
  | [r] => r
  | r :: t => Seq r (seqs t)
  end.

End Re.

(** ** [datetime], [time] and [timedelta] *)

Definition US_PER_SECOND : Z := 1000000.
Definition US_PER_MINUTE : Z := 60 * US_PER_SECOND.
Definition US_PER_HOUR : Z := 60 * US_PER_MINUTE.
Definition US_PER_DAY : Z := 24 * US_PER_HOUR.
Definition MAXORDINAL : Z := 3652059.

(** [datetime.time] *)
Record time : Type := mkTime {
  t_hour : Z;
  t_minute : Z;
  t_second : Z;
  t_microsecond : Z
}.

(** A timezone-aware [datetime.datetime]. *)
Record datetime : Type := mkDatetime {
  ordinal : Z;
  hour : Z;
  minute : Z;
  second : Z;
  microsecond : Z;
  tzinfo : string
}.

Definition valid_fields (h m s us : Z) : bool :=
  (0 <=? h) && (h <=? 23) && (0 <=? m) && (m <=? 59)
  && (0 <=? s) && (s <=? 59) && (0 <=? us) && (us <=? 999999).

Definition valid_time (t : time) : bool :=
  valid_fields (t_hour t) (t_minute t) (t_second t) (t_microsecond t).

Definition valid_datetime (d : datetime) : bool :=
  (1 <=? ordinal d) && (ordinal d <=? MAXORDINAL)
  && valid_fields (hour d) (minute d) (second d) (microsecond d).

Definition fields_us (h m s us : Z) : Z :=
  h * US_PER_HOUR + m * US_PER_MINUTE + s * US_PER_SECOND + us.

(** Microseconds since midnight. *)
Definition time_us (t : time) : Z :=
  fields_us (t_hour t) (t_minute t) (t_second t) (t_microsecond t).

Definition tod_us (d : datetime) : Z :=
  fields_us (hour d) (minute d) (second d) (microsecond d).

(** Microseconds since the start of ordinal day 0: the order of two values
    that carry the same [tzinfo]. *)
Definition dt_us (d : datetime) : Z := ordinal d * US_PER_DAY + tod_us d.

Definition dt_leb (a b : datetime) : bool := dt_us a <=? dt_us b.
Definition dt_ltb (a b : datetime) : bool := dt_us a <? dt_us b.

(** [timedelta(...)] as a number of microseconds. *)
Definition timedelta (days hours minutes : Z) : Z :=
  days * US_PER_DAY + hours * US_PER_HOUR + minutes * US_PER_MINUTE.

(** [d + delta]: [OverflowError] when the date leaves year 1 .. 9999
    (an over-large [timedelta], which Python refuses to build with the
    same exception, always does). *)
Definition dt_add (d : datetime) (delta : Z) : outcome datetime :=
  let total := tod_us d + delta in
  let day := ordinal d + total / US_PER_DAY in
  let rem := total mod US_PER_DAY in
  if (1 <=? day) && (day <=? MAXORDINAL) then
    Returned (mkDatetime day
                (rem / US_PER_HOUR)
                ((rem mod US_PER_HOUR) / US_PER_MINUTE)
                ((rem mod US_PER_MINUTE) / US_PER_SECOND)
                (rem mod US_PER_SECOND)
                (tzinfo d))
  else Raised OverflowError.

(** [d.replace(hour=h, minute=m)] *)
Definition replace_hm (d : datetime) (h m : Z) : outcome datetime :=
  if (0 <=? h) && (h <=? 23) && (0 <=? m) && (m <=? 59) then
    Returned (mkDatetime (ordinal d) h m (second d) (microsecond d)
                         (tzinfo d))
  else Raised ValueError.

(** [d.replace(hour=h, minute=m, second=0, microsecond=0)] *)
Definition replace_hm00 (d : datetime) (h m : Z) : outcome datetime :=
  if (0 <=? h) && (h <=? 23) && (0 <=? m) && (m <=? 59) then
    Returned (mkDatetime (ordinal d) h m 0 0 (tzinfo d))
  else Raised ValueError.

(** [d.weekday()], Monday = 0. *)
Definition weekday (d : datetime) : Z := (ordinal d + 6) mod 7.

(** [d.time()] *)
Definition dt_time (d : datetime) : time :=
  mkTime (hour d) (minute d) (second d) (microsecond d).

Definition time_leb (a b : time) : bool := time_us a <=? time_us b.

(** ** The agent's data *)

Inductive Intent : Type :=
| BOOK_MEETING
| CHECK_AVAILABILITY
| RESCHEDULE_MEETING
| CANCEL_MEETING
| LIST_MEETINGS
| GREETING
| UNCLEAR.

Record ParsedBookingRequest : Type := mkRequest {
  intent : Intent;
  summary : option string;
  start_time : option datetime;
  end_time : option datetime;
  duration : Z;
  attendees : list string;
  description : option string;
  meeting_type : string;
  urgency : string;
  flexibility : string
}.

(** What [run] appends to the history: [{"user", "timestamp"}], with
    ["assistant"] added once the turn has its response. *)
Record history_entry : Type := mkEntry {
  h_user : string;
  h_timestamp : string;
  h_assistant : option string
}.

(** [context.pending_booking] holds either [request.__dict__] or the
    reschedule handler's [{"action": "reschedule", "meeting": ...}]. *)
Inductive pending : Type :=
| PendingRequest (r : ParsedBookingRequest)
| PendingReschedule (reference : string).

Record ConversationContext : Type := mkContext {
  user_id : string;
  last_intent : option Intent;
  pending_booking : option pending;
  conversation_history : list history_entry;
  user_timezone : string;
  preferred_meeting_duration : Z;
  business_hours_start : time;
  business_hours_end : time
}.

(** [ConversationContext()] *)
Definition default_context : ConversationContext :=
  mkContext "default_user" None None [] "Asia/Kolkata" 60
            (mkTime 9 0 0 0) (mkTime 17 0 0 0).

Definition set_pending (c : ConversationContext) (p : option pending)
  : ConversationContext :=
  mkContext (user_id c) (last_intent c) p (conversation_history c)
            (user_timezone c) (preferred_meeting_duration c)
            (business_hours_start c) (business_hours_end c).

Definition set_last_intent (c : ConversationContext) (i : option Intent)
  : ConversationContext :=
  mkContext (user_id c) i (pending_booking c) (conversation_history c)
            (user_timezone c) (preferred_meeting_duration c)
            (business_hours_start c) (business_hours_end c).

Definition set_history (c : ConversationContext) (h : list history_entry)
  : ConversationContext :=
  mkContext (user_id c) (last_intent c) (pending_booking c) h
            (user_timezone c) (preferred_meeting_duration c)
            (business_hours_start c) (business_hours_end c).

(** ** The deterministic time parser *)

Import Re.

(** The [weekdays] dict of [_parse_next_weekday] and [_parse_weekday_time]. *)
Definition weekdays : list (string * Z) :=
  [("monday", 0); ("tuesday", 1); ("wednesday", 2); ("thursday", 3);
   ("friday", 4); ("saturday", 5); ("sunday", 6);
   ("mon", 0); ("tue", 1); ("wed", 2); ("thu", 3); ("fri", 4);
   ("sat", 5); ("sun", 6)].

Fixpoint dict_get (k : string) (d : list (string * Z)) : option Z :=
  match d with
  | [] => None
  | (k', v) :: t => if String.eqb k k' then Some v else dict_get k t
  end.

(** The shared am/pm adjustment:
    [if ampm: if ampm.lower() == 'pm' and hour != 12: hour += 12
              elif ampm.lower() == 'am' and hour == 12: hour = 0]. *)
Definition adjust_ampm (hour : Z) (ampm : option string) : Z :=
  if Str.truthy ampm then
    match ampm with
    | Some a =>
        if String.eqb (Str.lower a) "pm" && negb (hour =? 12) then hour + 12
        else if String.eqb (Str.lower a) "am" && (hour =? 12) then 0
        else hour
    | None => hour
    end
  else hour.

(** [int(match.group(i)) if match.group(i) else 0] *)
Definition int_or_zero (g : option string) : outcome Z :=
  if Str.truthy g then Str.int_opt g else Returned 0.

(** [g.lower()] on a group that may be [None]. *)
Definition lower_opt (g : option string) : outcome string :=
  match g with
  | Some s => Returned (Str.lower s)
  | None => Raised AttributeError
  end.

(** The regular expressions of [relative_patterns], each under the pattern
    text of the source. *)

(** The tail every clock pattern shares:
    [(\d{1,2}):?(\d{2})?\s*] with groups [g] and [g + 1]. *)
Definition clock (g : nat) : list regex :=
  [Grp g digit12; Opt (Lit ":"); Opt (Grp (S g) digit2); Star Space].

(** [in (\d+) (?:hour|hr)s?] *)
Definition pat_in_hours : regex :=
  seqs [Lit "in "; Grp 1 (Plus Digit); Lit " ";
        Alt (Lit "hour") (Lit "hr"); opt_s].

(** [in (\d+) (?:minute|min)s?] *)
Definition pat_in_minutes : regex :=
  seqs [Lit "in "; Grp 1 (Plus Digit); Lit " ";
        Alt (Lit "minute") (Lit "min"); opt_s].

(** [tomorrow at (\d{1,2}):?(\d{2})?\s*(am|pm)?] *)
Definition pat_tomorrow_at : regex :=
  seqs (Lit "tomorrow at " :: clock 1 ++ [Opt (Grp 3 ampm)]).

(** [next (\w+)] *)
Definition pat_next : regex := seqs [Lit "next "; Grp 1 (Plus Word)].

(** [(\w+) at (\d{1,2}):?(\d{2})?\s*(am|pm)?] *)
Definition pat_weekday_at : regex :=
  seqs (Grp 1 (Plus Word) :: Lit " at " :: clock 2 ++ [Opt (Grp 4 ampm)]).

(** [at (\d{1,2}):?(\d{2})?\s*(am|pm)?] *)
Definition pat_at : regex :=
  seqs (Lit "at " :: clock 1 ++ [Opt (Grp 3 ampm)]).

(** [(\d{1,2}):?(\d{2})?\s*(am|pm)] *)
Definition pat_clock_ampm : regex := seqs (clock 1 ++ [Grp 3 ampm]).

(** [end of (?:the )?week] *)
Definition pat_end_of_week : regex :=
  seqs [Lit "end of "; Opt (Lit "the "); Lit "week"].

(** [beginning of (?:the )?week] *)
Definition pat_beginning_of_week : regex :=
  seqs [Lit "beginning of "; Opt (Lit "the "); Lit "week"].

(** [next week same time] *)
Definition pat_next_week_same_time : regex := Lit "next week same time".

Section Parser.
Variable ctx : ConversationContext.
Variable now : datetime.

Definition _parse_tomorrow_time (m : match_obj) : outcome (option datetime) :=
    hour <- Str.int_opt (group m 1) ;;
    minute <- int_or_zero (group m 2) ;;
    let hour := adjust_ampm hour (group m 3) in
    tomorrow <- dt_add now (timedelta 1 0 0) ;;
    r <- replace_hm00 tomorrow hour minute ;;
    Returned (Some r).

Definition _parse_today_time (m : match_obj) : outcome (option datetime) :=
    hour <- Str.int_opt (group m 1) ;;
    minute <- int_or_zero (group m 2) ;;
    let ampm := if (3 <=? groups_len m)%nat then group m 3 else None in
    let hour := adjust_ampm hour ampm in
    target_time <- replace_hm00 now hour minute ;;
    if dt_leb target_time now then
      r <- dt_add target_time (timedelta 1 0 0) ;;
      Returned (Some r)
    else Returned (Some target_time).

Definition _parse_next_weekday (m : match_obj) : outcome (option datetime) :=
    weekday_name <- lower_opt (group m 1) ;;
    match dict_get weekday_name weekdays with
    | None => Returned None
    | Some target_weekday =>
        let days_ahead := target_weekday - weekday now in
        let days_ahead := if days_ahead <=? 0 then days_ahead + 7
                          else days_ahead in
        target_date <- dt_add now (timedelta days_ahead 0 0) ;;
        r <- replace_hm00 target_date
                          (t_hour (business_hours_start ctx))
                          (t_minute (business_hours_start ctx)) ;;
        Returned (Some r)
    end.

Definition _parse_weekday_time (m : match_obj) : outcome (option datetime) :=
    weekday_name <- lower_opt (group m 1) ;;
    hour <- Str.int_opt (group m 2) ;;
    minute <- int_or_zero (group m 3) ;;
    let hour := adjust_ampm hour (group m 4) in
    match dict_get weekday_name weekdays with
    | None => Returned None
    | Some target_weekday =>
        let days_ahead := target_weekday - weekday now in
        days_ahead <-
          (if days_ahead <? 0 then Returned (days_ahead + 7)
           else if days_ahead =? 0 then
             target_time <- replace_hm00 now hour minute ;;
             if dt_leb target_time now then Returned 7
             else Returned days_ahead
           else Returned days_ahead) ;;
        target_date <- dt_add now (timedelta days_ahead 0 0) ;;
        r <- replace_hm00 target_date hour minute ;;
        Returned (Some r)
    end.

Definition _get_end_of_week : outcome datetime :=
    let days_until_friday := 4 - weekday now in
    let days_until_friday := if days_until_friday <? 0
                             then days_until_friday + 7
                             else days_until_friday in
    friday <- dt_add now (timedelta days_until_friday 0 0) ;;
    replace_hm00 friday (t_hour (business_hours_end ctx))
                 (t_minute (business_hours_end ctx)).

Definition _get_beginning_of_week : outcome datetime :=
    let days_until_monday := 7 - weekday now in
    monday <- dt_add now (timedelta days_until_monday 0 0) ;;
    replace_hm00 monday (t_hour (business_hours_start ctx))
                 (t_minute (business_hours_start ctx)).

  (** [relative_patterns], in the order of the source. *)
Definition relative_patterns
    : list (regex * (match_obj -> outcome (option datetime))) :=
    [ (pat_in_hours,
       fun m => n <- Str.int_opt (group m 1) ;;
                r <- dt_add now (timedelta 0 n 0) ;; Returned (Some r));
      (pat_in_minutes,
       fun m => n <- Str.int_opt (group m 1) ;;
                r <- dt_add now (timedelta 0 0 n) ;; Returned (Some r));
      (pat_tomorrow_at, _parse_tomorrow_time);
      (pat_next, _parse_next_weekday);
      (pat_weekday_at, _parse_weekday_time);
      (pat_at, _parse_today_time);
      (pat_clock_ampm, _parse_today_time);
      (pat_end_of_week,
       fun _ => r <- _get_end_of_week ;; Returned (Some r));
      (pat_beginning_of_week,
       fun _ => r <- _get_beginning_of_week ;; Returned (Some r));
      (pat_next_week_same_time,
       fun _ => r <- dt_add now (timedelta 7 0 0) ;; Returned (Some r)) ].

  (** The loop of [_parse_time_advanced]:
      [for pattern, parser in patterns:
         match = re.search(pattern, user_input.lower())
         if match:
           try: return parser(match)
           except: continue
       return None] *)
Fixpoint first_resolving
           (ps : list (regex * (match_obj -> outcome (option datetime))))
           (text : string) : option datetime :=
    match ps with
    | [] => None
    | (pattern, parser) :: rest =>
        match search pattern (Str.lower text) with
        | Some m =>
            match parser m with
            | Returned v => v
            | Raised _ => first_resolving rest text
            end
        | None => first_resolving rest text
        end
    end.

Definition _parse_time_advanced (user_input : string) : option datetime :=
    first_resolving relative_patterns user_input.

  (** *** The fallback extractor *)

  (** [duration_patterns]: the pattern text (the loop inspects it with
      ['hour' in pattern]) next to its regex. *)
Definition duration_patterns : list (string * regex) :=
    [ ("(\d+)\s*(?:hour|hr)s?",
       seqs [Grp 1 (Plus Digit); Star Space;
             Alt (Lit "hour") (Lit "hr"); opt_s]);
      ("(\d+)\s*(?:minute|min)s?",
       seqs [Grp 1 (Plus Digit); Star Space;
             Alt (Lit "minute") (Lit "min"); opt_s]);
      ("(\d+)\s*h\s*(\d+)\s*m",
       seqs [Grp 1 (Plus Digit); Star Space; Lit "h"; Star Space;
             Grp 2 (Plus Digit); Star Space; Lit "m"]) ].

Fixpoint parse_duration (ps : list (string * regex)) (text : string)
           (default : Z) : outcome Z :=
    match ps with
    | [] => Returned default
    | (pattern, rx) :: rest =>
        match search rx text with
        | Some m =>
            if (groups_len m =? 1)%nat then
              num <- Str.int_opt (group m 1) ;;
              if Str.contains "hour" pattern || Str.contains "hr" pattern
              then Returned (num * 60)
              else Returned num
            else
              hours <- Str.int_opt (group m 1) ;;
              minutes <- Str.int_opt (group m 2) ;;
              Returned (hours * 60 + minutes)
        | None => parse_duration rest text default
        end
    end.

Definition _fallback_parsing (user_input : string)
    : outcome ParsedBookingRequest :=
    let user_input_lower := Str.lower user_input in
    let summary :=
      if Str.contains "interview" user_input_lower then "Interview"
      else if Str.contains "call" user_input_lower then "Call"
      else if Str.contains "appointment" user_input_lower then "Appointment"
      else if Str.contains "standup" user_input_lower then "Standup"
      else "Meeting" in
    duration <- parse_duration duration_patterns user_input_lower
                               (preferred_meeting_duration ctx) ;;
    let start_time := _parse_time_advanced user_input_lower in
    Returned
      (mkRequest BOOK_MEETING (Some summary) start_time None duration []
                 None "meeting" "normal"
                 (if existsb (fun word => Str.contains word user_input_lower)
                             ["flexible"; "around"; "roughly"]
                  then "flexible" else "rigid")).

  (** [_check_business_hours] *)
Definition _check_business_hours (dt : datetime) : bool :=
    time_leb (business_hours_start ctx) (dt_time dt)
    && time_leb (dt_time dt) (business_hours_end ctx).

End Parser.

(** ** Phrases and helpers of the parser claims *)

(** Days from today to the next day of week [i], today excluded. *)
Definition days_to_next (now : datetime) (i : Z) : Z :=
  if i - weekday now <=? 0 then i - weekday now + 7 else i - weekday now.

(** The days [_parse_weekday_time] adds for a day name of the dict and a
    well-formed clock time. *)
Definition weekday_time_days (now : datetime) (i h M : Z) : Z :=
  let d := i - weekday now in
  if d <? 0 then d + 7
  else if d =? 0 then
    if dt_leb (mkDatetime (ordinal now) h M 0 0 (tzinfo now)) now then 7
    else d
  else d.

(** *** The weekday phrases *)

Definition digit_char (d : Z) : ascii := ascii_of_N (48 + Z.to_N d).

(** Two decimal digits, as in ["05"]. *)
Definition show2 (n : Z) : string :=
  String (digit_char (n / 10)) (String (digit_char (n mod 10)) "").

(** One or two decimal digits, as in ["5"] and ["15"]. *)
Definition show (n : Z) : string :=
  if n <? 10 then String (digit_char n) "" else show2 n.

(** The phrase "w at H", "w at H:MM", "w at Ham", "w at H:MMpm", ... *)
Definition weekday_phrase (w : string) (H : Z) (mm : option Z)
           (ap : option string) : string :=
  w ++ " at " ++ show H
    ++ match mm with Some M => ":" ++ show2 M | None => "" end
    ++ match ap with Some a => a | None => "" end.

Definition weekday_names : list string := map fst weekdays.
Definition hours_written : list Z := map Z.of_nat (seq 0 24).
Definition minutes_written : list (option Z) :=
  None :: map (fun n => Some (Z.of_nat n)) (seq 0 60).
Definition ampm_written : list (option string) :=
  [None; Some "am"; Some "pm"].

Definition opt_string_eqb (a b : option string) : bool :=
  match a, b with
  | Some x, Some y => String.eqb x y
  | None, None => true
  | _, _ => false
  end.

Definition is_none {A} (x : option A) : bool :=
  match x with None => true | Some _ => false end.

Definition outcome_Z_eqb (a : outcome Z) (v : Z) : bool :=
  match a with Returned x => x =? v | Raised _ => false end.

(** How the loop sees one weekday phrase: the four earlier patterns do
    not match it, the fifth does, with the groups as written. *)
Definition weekday_phrase_scanned (w : string) (H : Z) (mm : option Z)
           (ap : option string) : bool :=
  let s := Str.lower (weekday_phrase w H mm ap) in
  is_none (search pat_in_hours s)
  && is_none (search pat_in_minutes s)
  && is_none (search pat_tomorrow_at s)
  && is_none (search pat_next s)
  && match search pat_weekday_at s with
     | Some m =>
         opt_string_eqb (group m 1) (Some w)
         && outcome_Z_eqb (Str.int_opt (group m 2)) H
         && outcome_Z_eqb (int_or_zero (group m 3))
                          (match mm with Some M => M | None => 0 end)
         && opt_string_eqb (group m 4) ap
     | None => false
     end.

(** How the loop sees "next w": the three earlier patterns do not match,
    the fourth does and captures the name. *)
Definition next_phrase_scanned (w : string) : bool :=
  let s := Str.lower ("next " ++ w) in
  is_none (search pat_in_hours s)
  && is_none (search pat_in_minutes s)
  && is_none (search pat_tomorrow_at s)
  && match search pat_next s with
     | Some m => opt_string_eqb (group m 1) (Some w)
     | None => false
     end.

(** A Wednesday morning (2024-04-24, 10:30:15.000250) and the Monday
    before it. *)
Definition sample_now : datetime :=
  mkDatetime 739000 10 30 15 250 "Asia/Kolkata".

Definition sample_monday : datetime :=
  mkDatetime 738998 10 30 15 250 "Asia/Kolkata".

(** ** The orchestrator and its collaborators

    The calendar service and the language model are outside the agent.
    Each is an oracle: its answer may depend on everything asked of the
    calendar so far, and it may raise.  The agent's state is its
    [ConversationContext] and the log of calendar operations it has
    attempted, oldest first. *)

Inductive cal_call : Type :=
| CheckAvailability (start : datetime) (duration_minutes : Z)
| CreateEvent (summary : option string) (start : datetime)
              (duration_minutes : Z) (description : option string)
| OtherCall (name : string).

Record agent_state : Type := mkState {
  context : ConversationContext;
  calendar_log : list cal_call
}.

(** Computations of the agent: a result or an exception, and the state
    as the computation left it. *)
Definition M (A : Type) : Type := agent_state -> outcome A * agent_state.

Definition mret {A} (a : A) : M A := fun st => (Returned a, st).

Definition mraise {A} (e : exn) : M A := fun st => (Raised e, st).

Definition mbind {A B} (c : M A) (f : A -> M B) : M B :=
  fun st =>
    match c st with
    | (Returned a, st') => f a st'
    | (Raised e, st') => (Raised e, st')
    end.

Notation "x <~ c ;; k" := (mbind c (fun x => k))
  (at level 61, c at next level, right associativity).

(** Lifting a pure call that may raise. *)
Definition lift {A} (x : outcome A) : M A := fun st => (x, st).

Definition get_context : M ConversationContext :=
  fun st => (Returned (context st), st).

Definition put_context (c : ConversationContext) : M unit :=
  fun st => (Returned tt, mkState c (calendar_log st)).

(** [try: body except Exception: return handler] *)
Definition try_except {A} (body : M A) (handler : A) : agent_state -> A * agent_state :=
  fun st =>
    match body st with
    | (Returned a, st') => (a, st')
    | (Raised _, st') => (handler, st')
    end.

(** [l[-n:]] *)
Definition lastn {A} (n : nat) (l : list A) : list A :=
  skipn (List.length l - n) l.

(** [l[:n]] is [firstn n l]. *)

Definition bytes (l : list N) : string :=
  fold_right (fun n s => String (ascii_of_N n) s) "" l.

(** The line feed, and the bullet as the source file spells it. *)
Definition nl : string := bytes [10%N].
Definition bullet : string := bytes [195; 162; 226; 130; 172; 194; 162]%N.

(** [str(n)] for an [int]. *)
Definition show_Z (n : Z) : string := NilZero.string_of_int (Z.to_int n).

(** What the extraction chain's reply amounts to once [json.loads] and the
    field lookups have run: text that is not JSON, or the request built
    from the decoded object. *)
Inductive llm_extraction : Type :=
| InvalidJson
| Details (r : ParsedBookingRequest).

(** A measure for the [while] of the slot search: how many times its test
    can still succeed from [current].  The loop is run with one unit of
    fuel more, for the test that fails ([scan_day_fuel] below: more fuel
    changes nothing). *)
Definition scan_bound (end_time current : datetime) (duration increment : Z)
  : nat :=
  Z.to_nat ((dt_us end_time - dt_us current - duration * US_PER_MINUTE)
              / (increment * US_PER_MINUTE) + 1).

(** How one day's scan ends: [return suggestions] from inside the loop, or
    the loop test failing. *)
Inductive scan_result : Type :=
| Full (suggestions : list datetime)
| More (suggestions : list datetime).

Section Agent.
  (** The calendar service, as the agent sees it. *)
Variable check_availability :
    list cal_call -> datetime -> Z -> outcome bool.
Variable create_event :
    list cal_call -> option string -> datetime -> Z -> option string
    -> outcome string.
  (** The language model's chains. *)
Variable response_chain :
    string -> string -> string -> ConversationContext -> outcome string.
Variable intent_chain : string -> ConversationContext -> outcome string.
Variable extraction_chain :
    string -> datetime -> ConversationContext -> outcome llm_extraction.
  (** [strftime('%A, %B %d at %I:%M %p')] and [strftime('%I:%M %p')]. *)
Variable strftime : datetime -> string.
Variable time_strftime : time -> string.

Definition call_check_availability (start : datetime) (duration : Z)
    : M bool :=
    fun st =>
      (check_availability (calendar_log st) start duration,
       mkState (context st)
               (calendar_log st ++ [CheckAvailability start duration])%list).

Definition call_create_event (summary : option string) (start : datetime)
             (duration : Z) (description : option string) : M string :=
    fun st =>
      (create_event (calendar_log st) summary start duration description,
       mkState (context st)
               (calendar_log st
                ++ [CreateEvent summary start duration description])%list).

  (** The [while] loop of [_suggest_alternative_times] for one day. *)
Fixpoint scan_day (fuel : nat) (end_time : datetime)
           (duration increment : Z) (current_time : datetime)
           (suggestions : list datetime) : M scan_result :=
    match fuel with
    | O => mret (More suggestions)
    | S fuel' =>
        slot_end <~ lift (dt_add current_time (timedelta 0 0 duration)) ;;
        if dt_leb slot_end end_time then
          free <~ call_check_availability current_time duration ;;
          let suggestions' :=
            if free then (suggestions ++ [current_time])%list
            else suggestions in
          if free && (5 <=? List.length suggestions')%nat then
            mret (Full suggestions')
          else
            next <~ lift (dt_add current_time (timedelta 0 0 increment)) ;;
            scan_day fuel' end_time duration increment next suggestions'
        else mret (More suggestions)
    end.

  (** The [for day_offset in range(search_days)] loop, from [day_offset]
      on, with [remaining] days to go. *)
Fixpoint scan_days (remaining : nat) (day_offset : Z)
           (base_time : datetime) (duration first_inc last_inc : Z)
           (suggestions : list datetime) : M (list datetime) :=
    match remaining with
    | O => mret suggestions
    | S remaining' =>
        ctx <~ get_context ;;
        current_day <~ lift (dt_add base_time (timedelta day_offset 0 0)) ;;
        start_time <~ lift (replace_hm current_day
                              (t_hour (business_hours_start ctx))
                              (t_minute (business_hours_start ctx))) ;;
        end_time <~ lift (replace_hm current_day
                            (t_hour (business_hours_end ctx))
                            (t_minute (business_hours_end ctx))) ;;
        let increment := if day_offset =? 0 then first_inc else last_inc in
        r <~ scan_day (S (scan_bound end_time start_time duration increment))
                      end_time duration increment start_time suggestions ;;
        match r with
        | Full l => mret l
        | More l =>
            scan_days remaining' (day_offset + 1) base_time duration
                      first_inc last_inc l
        end
    end.

Definition _suggest_alternative_times (requested_time : datetime)
             (duration : Z) (flexibility : string) : M (list datetime) :=
    let '(search_days, time_increments) :=
      if String.eqb flexibility "very_flexible" then (14%nat, [30; 60; 120])
      else if String.eqb flexibility "flexible" then (7%nat, [30; 60])
      else (2%nat, [30]) in
    scan_days search_days 0 requested_time duration
              (hd 0 time_increments) (last time_increments 0) [].

  (** [_generate_response]: the model's wording of [default_response], or
      [default_response] itself when the chain raises. *)
Definition _generate_response (situation default_response : string)
    : M string :=
    fun st =>
      let ctx := context st in
      let user_input :=
        match lastn 1 (conversation_history ctx) with
        | e :: _ => h_user e
        | [] => ""
        end in
      match response_chain situation user_input default_response ctx with
      | Returned content => (Returned (Str.strip content), st)
      | Raised _ => (Returned default_response, st)
      end.

Definition unclear_time_text (summary_lower : string) : string :=
    "I'd be happy to book a " ++ summary_lower
    ++ " for you! Could you please specify when you'd like to schedule it? You can say things like 'tomorrow at 3pm', 'next Monday at 10am', or 'in 2 hours'.".

Definition booking_error_text : string :=
    "I encountered an error while processing your booking request. Please try again or contact support if the issue persists.".

  (** The body of the [try] in [_handle_booking_request]. *)
Definition booking_body (request : ParsedBookingRequest) : M string :=
    match start_time request with
    | None =>
        s <~ lift (lower_opt (summary request)) ;;
        _generate_response "unclear_time" (unclear_time_text s)
    | Some start =>
        ctx <~ get_context ;;
        if negb (_check_business_hours ctx start) then
          _generate_response "outside_business_hours"
            ("The requested time (" ++ strftime start
             ++ ") is outside business hours ("
             ++ time_strftime (business_hours_start ctx) ++ " - "
             ++ time_strftime (business_hours_end ctx)
             ++ "). Would you like me to suggest times during business hours?")
        else
          free <~ call_check_availability start (duration request) ;;
          if free then
            result <~ call_create_event (summary request) start
                                        (duration request)
                                        (description request) ;;
            ctx <~ get_context ;;
            _ <~ put_context
                   (set_pending (set_last_intent ctx (Some BOOK_MEETING))
                                None) ;;
            s <~ lift (lower_opt (summary request)) ;;
            _generate_response "booking_successful"
              ("Perfect! I've successfully booked your " ++ s ++ " for "
               ++ strftime start ++ " (" ++ show_Z (duration request)
               ++ " minutes). You should receive a calendar invitation shortly.")
          else
            alternatives <~ _suggest_alternative_times
                              start (duration request)
                              (flexibility request) ;;
            match alternatives with
            | _ :: _ =>
                ctx <~ get_context ;;
                _ <~ put_context
                       (set_pending ctx (Some (PendingRequest request))) ;;
                let alt_text :=
                  String.concat nl
                    (map (fun alt => bullet ++ " " ++ strftime alt)
                         (firstn 3 alternatives)) in
                _generate_response "time_conflict_with_alternatives"
                  ("I'm sorry, but " ++ strftime start
                   ++ " is already booked. Here are some available alternatives:"
                   ++ nl ++ nl ++ alt_text ++ nl ++ nl
                   ++ "Would any of these work for you? Just let me know which one you prefer!")
            | [] =>
                _generate_response "no_alternatives"
                  ("Unfortunately, " ++ strftime start
                   ++ " is already booked, and I couldn't find any suitable alternatives in the next few days. Could you suggest a different time or date range?")
            end
    end.

Definition _handle_booking_request (request : ParsedBookingRequest)
    : agent_state -> string * agent_state :=
    try_except (booking_body request) booking_error_text.

End Agent.

(** *** Reading the results of the search *)

Definition suggestions_of (r : scan_result) : list datetime :=
  match r with Full l | More l => l end.

Definition is_check (c : cal_call) : bool :=
  match c with CheckAvailability _ _ => true | _ => false end.

Definition log_check (st : agent_state) (start : datetime) (duration : Z)
  : agent_state :=
  mkState (context st)
          (calendar_log st ++ [CheckAvailability start duration])%list.

(** The order of two slots of one search. *)
Definition earlier (a b : datetime) : Prop := dt_us a < dt_us b.

(** The window of day [k] of a search: from the business-hours start to
    the business-hours end of that day, both moved by the seconds and
    microseconds of the requested time. *)
Definition in_window (ctx : ConversationContext) (requested : datetime)
           (duration k : Z) (a : datetime) : Prop :=
  let day := (ordinal requested + k) * US_PER_DAY in
  let shift := second requested * US_PER_SECOND + microsecond requested in
  day + t_hour (business_hours_start ctx) * US_PER_HOUR
  + t_minute (business_hours_start ctx) * US_PER_MINUTE + shift
  <= dt_us a
  /\ dt_us a + duration * US_PER_MINUTE
     <= day + t_hour (business_hours_end ctx) * US_PER_HOUR
        + t_minute (business_hours_end ctx) * US_PER_MINUTE + shift.

(** The first slot the search probes: the business-hours start on the
    requested time's own day (seconds and microseconds are those of the
    requested time, which [replace(hour=, minute=)] leaves alone). *)
Definition opening_slot (ctx : ConversationContext) (requested : datetime)
  : datetime :=
  mkDatetime (ordinal requested)
             (t_hour (business_hours_start ctx))
             (t_minute (business_hours_start ctx))
             (second requested) (microsecond requested) (tzinfo requested).

Definition minute_of_day (h m : Z) : Z := h * 60 + m.

(** The cases of the booking handler once the request has a start time
    inside business hours, by the answers of the calendar. *)
Section BookingPaths.
Variable check_availability :
    list cal_call -> datetime -> Z -> outcome bool.
Variable create_event :
    list cal_call -> option string -> datetime -> Z -> option string
    -> outcome string.

Inductive booking_path (request : ParsedBookingRequest) (start : datetime)
            (st st' : agent_state) : Prop :=
  | path_check_raised e :
      check_availability (calendar_log st) start (duration request)
      = Raised e ->
      st' = log_check st start (duration request) ->
      booking_path request start st st'
  | path_create_raised e :
      check_availability (calendar_log st) start (duration request)
      = Returned true ->
      create_event (calendar_log (log_check st start (duration request)))
                   (summary request) start (duration request)
                   (description request) = Raised e ->
      context st' = context st ->
      booking_path request start st st'
  | path_success result :
      check_availability (calendar_log st) start (duration request)
      = Returned true ->
      create_event (calendar_log (log_check st start (duration request)))
                   (summary request) start (duration request)
                   (description request) = Returned result ->
      context st'
      = set_pending (set_last_intent (context st) (Some BOOK_MEETING)) None ->
      booking_path request start st st'
  | path_search_raised e :
      check_availability (calendar_log st) start (duration request)
      = Returned false ->
      fst (_suggest_alternative_times check_availability start (duration request) (flexibility request)
                  (log_check st start (duration request))) = Raised e ->
      st' = snd (_suggest_alternative_times check_availability start (duration request) (flexibility request)
                        (log_check st start (duration request))) ->
      booking_path request start st st'
  | path_alternatives a rest :
      check_availability (calendar_log st) start (duration request)
      = Returned false ->
      _suggest_alternative_times check_availability start (duration request) (flexibility request)
             (log_check st start (duration request))
      = (Returned (a :: rest),
         mkState (context st) (calendar_log st')) ->
      context st'
      = set_pending (context st) (Some (PendingRequest request)) ->
      booking_path request start st st'
  | path_no_alternatives :
      check_availability (calendar_log st) start (duration request)
      = Returned false ->
      _suggest_alternative_times check_availability start (duration request) (flexibility request)
             (log_check st start (duration request)) = (Returned [], st') ->
      booking_path request start st st'.

End BookingPaths.

(** *** Sample collaborators *)

(** A calendar with every slot taken. *)
Definition always_busy : list cal_call -> datetime -> Z -> outcome bool :=
  fun _ _ _ => Returned false.

(** A calendar with every slot free. *)
Definition always_free : list cal_call -> datetime -> Z -> outcome bool :=
  fun _ _ _ => Returned true.

(** A calendar taken until 16:00 every day. *)
Definition busy_before_16 : list cal_call -> datetime -> Z -> outcome bool :=
  fun _ t _ => Returned (16 <=? hour t).

Definition create_ok
  : list cal_call -> option string -> datetime -> Z -> option string
    -> outcome string :=
  fun _ _ _ _ _ => Returned "booked".

(** A language model that is down: every chain raises. *)
Definition llm_down
  : string -> string -> string -> ConversationContext -> outcome string :=
  fun _ _ _ _ => Raised (OtherError "unavailable").

Definition no_strftime : datetime -> string := fun _ => "".
Definition no_time_strftime : time -> string := fun _ => "".

Definition fresh_state : agent_state := mkState default_context [].

(** ** One turn of the dialogue: [run] *)

Definition greeting_text : string :=
  "Hello! I'm your AI scheduling assistant. I can help you book meetings, check your availability, and manage your calendar. What would you like to do today?"%string.

Definition run_error_text : string :=
  "I apologize, but I encountered an unexpected error. Please try rephrasing your request or contact support if the issue persists."%string.

(** The [intent_mapping] dict of [_recognize_intent], with its default. *)
Definition intent_mapping (s : string) : Intent :=
  if String.eqb s "book_meeting" then BOOK_MEETING
  else if String.eqb s "check_availability" then CHECK_AVAILABILITY
  else if String.eqb s "reschedule_meeting" then RESCHEDULE_MEETING
  else if String.eqb s "cancel_meeting" then CANCEL_MEETING
  else if String.eqb s "list_meetings" then LIST_MEETINGS
  else if String.eqb s "greeting" then GREETING
  else UNCLEAR.

(** [history[-1]["assistant"] = response]; [IndexError] on an empty list. *)
Fixpoint set_last_assistant (h : list history_entry) (response : string)
  : outcome (list history_entry) :=
  match h with
  | [] => Raised (OtherError "IndexError")
  | [e] => Returned [mkEntry (h_user e) (h_timestamp e) (Some response)]
  | e :: t => t' <- set_last_assistant t response ;; Returned (e :: t')
  end.

(** What one of the other handlers (availability, listing, cancelling,
    rescheduling, unclear) does to the agent: a response, the value it
    leaves in [pending_booking], and the calendar operations it made.
    Each of them catches its own exceptions and none writes the
    conversation history. *)
Record handled : Type := mkHandled {
  response : string;
  pending_after : option pending;
  calls_made : list cal_call
}.

Section Run.
Variable check_availability :
    list cal_call -> datetime -> Z -> outcome bool.
Variable create_event :
    list cal_call -> option string -> datetime -> Z -> option string
    -> outcome string.
Variable response_chain :
    string -> string -> string -> ConversationContext -> outcome string.
Variable intent_chain : string -> ConversationContext -> outcome string.
Variable extraction_chain :
    string -> datetime -> ConversationContext -> outcome llm_extraction.
Variable strftime : datetime -> string.
Variable time_strftime : time -> string.
Variable other_handlers :
    Intent -> string -> datetime -> agent_state -> handled.

Definition _recognize_intent (user_input : string)
             (ctx : ConversationContext) : Intent :=
    match intent_chain user_input ctx with
    | Returned content => intent_mapping (Str.lower (Str.strip content))
    | Raised _ => UNCLEAR
    end.

  (** [_extract_booking_details]: the model's reply when it decodes, the
      fallback extractor when it does not or when anything in the [try]
      raises. *)
Definition _extract_booking_details (user_input : string) (now : datetime)
    : M ParsedBookingRequest :=
    fun st =>
      match extraction_chain user_input now (context st) with
      | Returned (Details r) => (Returned r, st)
      | Returned InvalidJson =>
          (_fallback_parsing (context st) now user_input, st)
      | Raised _ => (_fallback_parsing (context st) now user_input, st)
      end.

  (** The dispatch on the intent, inside the [try] of [run]. *)
Definition dispatch (intent : Intent) (user_input : string)
             (now : datetime) : M string :=
    match intent with
    | GREETING => mret greeting_text
    | BOOK_MEETING =>
        booking_request <~ _extract_booking_details user_input now ;;
        fun st =>
          let (r, st') :=
            _handle_booking_request check_availability create_event
              response_chain strftime time_strftime booking_request st in
          (Returned r, st')
    | _ =>
        fun st =>
          let h := other_handlers intent user_input now st in
          (Returned (response h),
           mkState (set_pending (context st) (pending_after h))
                   (calendar_log st ++ calls_made h)%list)
    end.

Definition run (user_input timestamp : string) (now : datetime)
    : agent_state -> string * agent_state :=
    fun st =>
      let ctx := context st in
      let history :=
        (conversation_history ctx
           ++ [mkEntry user_input timestamp None])%list in
      let history :=
        if (10 <? List.length history)%nat then lastn 10 history
        else history in
      let st := mkState (set_history ctx history) (calendar_log st) in
      let intent := _recognize_intent user_input (context st) in
      match (r <~ dispatch intent user_input now ;;
             ctx <~ get_context ;;
             h <~ lift (set_last_assistant (conversation_history ctx) r) ;;
             _ <~ put_context
                    (set_last_intent (set_history ctx h) (Some intent)) ;;
             mret r) st with
      | (Returned r, st') => (r, st')
      | (Raised _, st') => (run_error_text, st')
      end.

  (** A turn as the caller supplies it: the text, the wall-clock stamp of
      the history entry, and the agent's clock. *)
Record turn : Type := mkTurn {
    turn_text : string;
    turn_timestamp : string;
    turn_now : datetime
  }.

Fixpoint run_turns (turns : list turn) (st : agent_state) : agent_state :=
    match turns with
    | [] => st
    | t :: rest =>
        run_turns rest
                  (snd (run (turn_text t) (turn_timestamp t) (turn_now t) st))
    end.
End Run.

(** ** The calendar service ([calendar_service.py])

    [EnhancedCalendarService] wraps the remote calendar API.  The API, the
    clock and the text codecs are parameters; every call of the API may
    raise.  Python values the operations hand back are kept in one type,
    so that what an operation returns on failure can be compared across
    operations. *)

Module Calendar.

(** An event as the API lists it (a JSON object: any key may be missing). *)
Record time_ref : Type := mkTimeRef {
  r_dateTime : option string;
  r_date : option string
}.

Record api_event : Type := mkApiEvent {
  e_id : option string;
  e_summary : option string;
  e_status : option string;
  e_start : option time_ref;
  e_end : option time_ref;
  e_description : option string;
  e_location : option string;
  e_attendees : list (option string)
}.

(** An entry of the list [get_upcoming_events] returns. *)
Record formatted_event : Type := mkFormatted {
  f_id : option string;
  f_summary : string;
  f_start_time : datetime;
  f_end_time : datetime;
  f_duration : Z;
  f_description : string;
  f_location : string;
  f_attendees : list string
}.

(** The body [create_event] and [reschedule_event] send. *)
Record event_body : Type := mkBody {
  b_summary : string;
  b_description : string;
  b_start : string * string;
  b_end : string * string;
  b_location : option string;
  b_attendees : list string
}.

(** What an operation returns. *)
Inductive pyvalue : Type :=
| PBool (b : bool)
| PStr (s : string)
| PEvents (l : list formatted_event)
| PIntervals (l : list (datetime * datetime)).

(** The fail-soft values: [False] and the empty list. *)
Definition fail_soft (v : pyvalue) : Prop :=
  v = PBool false \/ v = PEvents [] \/ v = PIntervals [].

Inductive api_request : Type :=
| EventsList (timeMin timeMax : string) (maxResults : option Z)
| EventsInsert (body : event_body)
| EventsDelete (eventId : string)
| EventsGet (eventId : string)
| EventsUpdate (eventId : string) (start_ end_ : string * string)
               (description : string).

Record service : Type := mkService {
  _events_cache : list (string * pyvalue);
  _cache_expiry : list (string * Z);
  _last_request_time : Z;
  clock_ms : Z;                     (* [time.time()], in milliseconds *)
  requests : list api_request       (* what was sent to the API, oldest first *)
}.

(** The glyphs of the messages, as the source file spells them. *)
Definition glyph_done : string := bytes [195; 162; 197; 147; 226; 128; 166]%N.
Definition glyph_date : string :=
  bytes [195; 176; 197; 184; 226; 128; 156; 226; 128; 166]%N.
Definition glyph_timer : string :=
  bytes [195; 162; 194; 177; 195; 175; 194; 184]%N.
Definition glyph_link : string :=
  bytes [195; 176; 197; 184; 226; 128; 157; 226; 128; 148]%N.

Definition _cache_duration : Z := 300000.
Definition _min_request_interval : Z := 100.

Definition S (A : Type) : Type := service -> outcome A * service.

Definition ret {A} (a : A) : S A := fun s => (Returned a, s).
Definition raise {A} (e : exn) : S A := fun s => (Raised e, s).
Definition bind {A B} (c : S A) (f : A -> S B) : S B :=
  fun s =>
    match c s with
    | (Returned a, s') => f a s'
    | (Raised e, s') => (Raised e, s')
    end.
Definition lift_outcome {A} (x : outcome A) : S A := fun s => (x, s).

Notation "x <~~ c ;; k" := (bind c (fun x => k))
  (at level 61, c at next level, right associativity).

(** [try: body except HttpError as e: on_http(e) except Exception: other] *)
Definition try_except2 (body : S pyvalue) (on_http : option string -> pyvalue)
           (on_other : exn -> pyvalue) : service -> pyvalue * service :=
  fun s =>
    match body s with
    | (Returned v, s') => (v, s')
    | (Raised (HttpError reason), s') => (on_http reason, s')
    | (Raised e, s') => (on_other e, s')
    end.

Fixpoint assoc {V} (k : string) (d : list (string * V)) : option V :=
  match d with
  | [] => None
  | (k', v) :: t => if String.eqb k k' then Some v else assoc k t
  end.

Definition assoc_set {V} (k : string) (v : V) (d : list (string * V))
  : list (string * V) :=
  (k, v) :: filter (fun kv => negb (String.eqb k (fst kv))) d.

Section Service.
  (** The remote API: the answer to a request, given the requests before
      it. *)
Variable api_list : list api_request -> api_request
                      -> outcome (list api_event).
Variable api_insert : list api_request -> api_request
                        -> outcome (option string * option string).
Variable api_delete : list api_request -> api_request -> outcome unit.
Variable api_get : list api_request -> api_request -> outcome api_event.
Variable api_update : list api_request -> api_request -> outcome unit.
  (** [datetime.fromisoformat], [isoformat], [strftime], the cache key
      ([md5] of the call), the text of an exception, and the minutes
      between two parsed instants. *)
Variable fromisoformat : string -> outcome datetime.
Variable isoformat : datetime -> string.
Variable strftime : string -> datetime -> string.
Variable _get_cache_key : string -> list (string * string) -> string.
Variable str_exn : exn -> string.
Variable minutes_between : datetime -> datetime -> Z.
Variable str_replace_Z : string -> string.
Variable GOOGLE_CALENDAR_ID : string.

Definition send {A} (f : list api_request -> api_request -> outcome A)
             (r : api_request) : S A :=
    fun s =>
      (f (requests s) r,
       mkService (_events_cache s) (_cache_expiry s) (_last_request_time s)
                 (clock_ms s) (requests s ++ [r])%list).

Definition _rate_limit : S unit :=
    fun s =>
      let time_since_last := clock_ms s - _last_request_time s in
      let clock' :=
        if time_since_last <? _min_request_interval
        then clock_ms s + (_min_request_interval - time_since_last)
        else clock_ms s in
      (Returned tt,
       mkService (_events_cache s) (_cache_expiry s) clock' clock'
                 (requests s)).

Definition _is_cache_valid (cache_key : string) : S bool :=
    fun s =>
      match assoc cache_key (_cache_expiry s) with
      | None => (Returned false, s)
      | Some expiry => (Returned (clock_ms s <? expiry), s)
      end.

Definition _set_cache (cache_key : string) (data : pyvalue) : S unit :=
    fun s =>
      (Returned tt,
       mkService (assoc_set cache_key data (_events_cache s))
                 (assoc_set cache_key (clock_ms s + _cache_duration)
                            (_cache_expiry s))
                 (_last_request_time s) (clock_ms s) (requests s)).

  (** [self._events_cache[cache_key]] *)
Definition cache_get (cache_key : string) : S pyvalue :=
    fun s =>
      match assoc cache_key (_events_cache s) with
      | Some v => (Returned v, s)
      | None => (Raised KeyError, s)
      end.

Definition _clear_all_caches : S unit :=
    fun s =>
      (Returned tt,
       mkService [] [] (_last_request_time s) (clock_ms s) (requests s)).

Definition _clear_cache_for_timerange : S unit :=
    fun s =>
      let keep (k : string) :=
        negb (prefix "check_availability" k || prefix "upcoming_events" k) in
      (Returned tt,
       mkService (filter (fun kv => keep (fst kv)) (_events_cache s))
                 (filter (fun kv => keep (fst kv)) (_cache_expiry s))
                 (_last_request_time s) (clock_ms s) (requests s)).

  (** [_parse_datetime]: catches everything and returns [None]. *)
Definition _parse_datetime (dt_string : option string) : option datetime :=
    match dt_string with
    | None => None
    | Some s =>
        match (if Str.contains "T" s then fromisoformat (str_replace_Z s)
               else fromisoformat s) with
        | Returned d => Some d
        | Raised _ => None
        end
    end.

  (** [event['start'].get('dateTime', event['start'].get('date'))] *)
Definition time_text (r : option time_ref) : outcome (option string) :=
    match r with
    | None => Raised KeyError
    | Some t =>
        Returned (match r_dateTime t with
                  | Some s => Some s
                  | None => r_date t
                  end)
    end.

Definition get_or {A} (x : option A) (default : A) : A :=
    match x with Some a => a | None => default end.

Definition is_cancelled (e : api_event) : bool :=
    String.eqb (Str.lower (get_or (e_status e) "")) "cancelled".

Definition zone_of (d : datetime) : string := tzinfo d.

  (** *** [check_availability] *)

Fixpoint log_conflicts (active : list api_event) : outcome unit :=
    match active with
    | [] => Returned tt
    | e :: t => _ <- time_text (e_start e) ;; log_conflicts t
    end.

Definition check_availability_body (start_time : datetime)
             (duration_minutes buffer_minutes : Z) : S pyvalue :=
    _ <~~ _rate_limit ;;
    check_start <~~ lift_outcome
                      (dt_add start_time (- timedelta 0 0 buffer_minutes)) ;;
    end_time <~~ lift_outcome
                   (dt_add start_time (timedelta 0 0 duration_minutes)) ;;
    check_end <~~ lift_outcome
                    (dt_add end_time (timedelta 0 0 buffer_minutes)) ;;
    let cache_key :=
      _get_cache_key "check_availability"
                     [("start", isoformat check_start);
                      ("end", isoformat check_end)] in
    valid <~~ _is_cache_valid cache_key ;;
    if valid then cache_get cache_key
    else
      events <~~ send api_list
                   (EventsList (isoformat check_start) (isoformat check_end)
                               None) ;;
      let active_events := filter (fun e => negb (is_cancelled e)) events in
      let is_available := (List.length active_events =? 0)%nat in
      _ <~~ _set_cache cache_key (PBool is_available) ;;
      _ <~~ (if is_available then ret tt
             else lift_outcome (log_conflicts active_events)) ;;
      ret (PBool is_available).

Definition check_availability (start_time : datetime)
             (duration_minutes buffer_minutes : Z)
    : service -> pyvalue * service :=
    try_except2 (check_availability_body start_time duration_minutes
                                         buffer_minutes)
                (fun _ => PBool false) (fun _ => PBool false).

  (** *** [create_event] *)

Definition create_event_body (created_at : datetime) (summary : string)
             (start_time : datetime) (duration_minutes : Z)
             (description : string) (attendees : list string)
             (location : string) : S pyvalue :=
    _ <~~ _rate_limit ;;
    end_time <~~ lift_outcome
                   (dt_add start_time (timedelta 0 0 duration_minutes)) ;;
    let metadata :=
      (nl ++ nl ++ "--- Event Details ---" ++ nl ++ "Duration: "
          ++ show_Z duration_minutes ++ " minutes" ++ nl ++ "Created: "
          ++ strftime "%Y-%m-%d %H:%M:%S" created_at ++ " UTC" ++ nl
          ++ "Created by: AI Scheduling Assistant")%string in
    let event_data :=
      mkBody summary (description ++ metadata)%string
             (isoformat start_time, zone_of start_time)
             (isoformat end_time, zone_of end_time)
             (if String.eqb location "" then None else Some location)
             attendees in
    created <~~ send api_insert (EventsInsert event_data) ;;
    _ <~~ _clear_cache_for_timerange ;;
    let event_link := get_or (snd created) "" in
    let message :=
      (glyph_done ++ " Successfully booked: " ++ summary ++ nl
           ++ glyph_date ++ " "
           ++ strftime "%A, %B %d at %I:%M %p" start_time ++ nl
           ++ glyph_timer ++ " Duration: " ++ show_Z duration_minutes
           ++ " minutes")%string in
    ret (PStr (if String.eqb event_link "" then message
               else (message ++ nl ++ glyph_link ++ " [View in Calendar]("
                             ++ event_link ++ ")")%string)).

Definition create_event (created_at : datetime) (summary : string)
             (start_time : datetime) (duration_minutes : Z)
             (description : string) (attendees : list string)
             (location : string) : service -> pyvalue * service :=
    try_except2 (create_event_body created_at summary start_time
                                   duration_minutes description attendees
                                   location)
                (fun reason =>
                   PStr (" Failed to create event: "
                           ++ get_or reason "Unknown error")%string)
                (fun e =>
                   PStr (" Failed to create event: " ++ str_exn e)%string).

  (** *** [get_upcoming_events] *)

Fixpoint format_events (events : list api_event)
    : outcome (list formatted_event) :=
    match events with
    | [] => Returned []
    | event :: rest =>
        if is_cancelled event then format_events rest
        else
          start_text <- time_text (e_start event) ;;
          end_text <- time_text (e_end event) ;;
          tail <- format_events rest ;;
          match _parse_datetime start_text, _parse_datetime end_text with
          | Some start_dt, Some end_dt =>
              Returned
                (mkFormatted (e_id event)
                             (get_or (e_summary event) "Untitled Meeting")
                             start_dt end_dt (minutes_between start_dt end_dt)
                             (get_or (e_description event) "")
                             (get_or (e_location event) "")
                             (map (fun a => get_or a "") (e_attendees event))
                   :: tail)
          | _, _ => Returned tail
          end
    end.

Definition get_upcoming_events_body (now : datetime) (limit days_ahead : Z)
    : S pyvalue :=
    _ <~~ _rate_limit ;;
    future_time <~~ lift_outcome (dt_add now (timedelta days_ahead 0 0)) ;;
    let cache_key :=
      _get_cache_key "upcoming_events"
                     [("limit", show_Z limit); ("start", isoformat now);
                      ("end", isoformat future_time)] in
    valid <~~ _is_cache_valid cache_key ;;
    if valid then cache_get cache_key
    else
      events <~~ send api_list
                   (EventsList (isoformat now) (isoformat future_time)
                               (Some limit)) ;;
      formatted_events <~~ lift_outcome (format_events events) ;;
      _ <~~ _set_cache cache_key (PEvents formatted_events) ;;
      ret (PEvents formatted_events).

Definition get_upcoming_events (now : datetime) (limit days_ahead : Z)
    : service -> pyvalue * service :=
    try_except2 (get_upcoming_events_body now limit days_ahead)
                (fun _ => PEvents []) (fun _ => PEvents []).

  (** *** [_find_event_by_reference] *)

Fixpoint find_in (reference_text : string) (events : list formatted_event)
    : option string :=
    match events with
    | [] => None
    | event :: rest =>
        if Str.contains reference_text (Str.lower (f_summary event))
        then f_id event
        else if Str.contains reference_text
                  (Str.lower (strftime "%I:%M %p" (f_start_time event)))
             then f_id event
             else find_in reference_text rest
    end.

  (** Iterating over what [get_upcoming_events] returned: a list, or the
      characters of a cached string, or [TypeError] on a bool. *)
Definition _find_event_by_reference (now : datetime)
             (reference : option string) : S (option string) :=
    fun s =>
      let (recent, s') := get_upcoming_events now 50 7 s in
      match recent with
      | PEvents events =>
          (Returned (find_in (Str.lower (get_or reference "")) events), s')
      | _ => (Returned None, s')
      end.

Definition truthy_id (x : option string) : bool := Str.truthy x.

  (** *** [cancel_event] *)

Definition cancel_event_body (now : datetime) (reference : option string)
    : S pyvalue :=
    _ <~~ _rate_limit ;;
    event_id <~~ _find_event_by_reference now reference ;;
    if negb (truthy_id event_id) then ret (PBool false)
    else
      _ <~~ send api_delete (EventsDelete (get_or event_id "")) ;;
      _ <~~ _clear_all_caches ;;
      ret (PBool true).

Definition cancel_event (now : datetime) (reference : option string)
    : service -> pyvalue * service :=
    try_except2 (cancel_event_body now reference)
                (fun _ => PBool false) (fun _ => PBool false).

  (** *** [reschedule_event] *)

  (** [if new_duration:] *)
Definition duration_given (d : option Z) : bool :=
    match d with
    | Some n => negb (n =? 0)
    | None => false
    end.

Definition reschedule_event_body (now : datetime)
             (reference : option string) (new_start_time : datetime)
             (new_duration : option Z) : S pyvalue :=
    _ <~~ _rate_limit ;;
    event_id <~~ _find_event_by_reference now reference ;;
    if negb (truthy_id event_id) then ret (PBool false)
    else
      existing <~~ send api_get (EventsGet (get_or event_id "")) ;;
      new_end_time <~~
        lift_outcome
          (if duration_given new_duration then
             dt_add new_start_time (timedelta 0 0 (get_or new_duration 0))
           else
             start_text <- time_text (e_start existing) ;;
             end_text <- time_text (e_end existing) ;;
             match _parse_datetime start_text, _parse_datetime end_text with
             | Some original_start, Some original_end =>
                 dt_add new_start_time
                        (minutes_between original_start original_end
                         * US_PER_MINUTE)
             | _, _ => Raised TypeError
             end) ;;
      let reschedule_note :=
        (nl ++ nl ++ "--- Rescheduled ---" ++ nl ++ "Moved to: "
            ++ strftime "%Y-%m-%d %H:%M:%S" new_start_time ++ " UTC" ++ nl
            ++ "Rescheduled by: AI Scheduling Assistant")%string in
      _ <~~ send api_update
              (EventsUpdate (get_or event_id "")
                            (isoformat new_start_time, zone_of new_start_time)
                            (isoformat new_end_time, zone_of new_end_time)
                            (get_or (e_description existing) ""
                               ++ reschedule_note)%string) ;;
      _ <~~ _clear_all_caches ;;
      ret (PBool true).

Definition reschedule_event (now : datetime) (reference : option string)
             (new_start_time : datetime) (new_duration : option Z)
    : service -> pyvalue * service :=
    try_except2 (reschedule_event_body now reference new_start_time
                                       new_duration)
                (fun _ => PBool false) (fun _ => PBool false).

  (** *** [get_busy_times] *)

Fixpoint busy_intervals (events : list api_event)
    : outcome (list (datetime * datetime)) :=
    match events with
    | [] => Returned []
    | event :: rest =>
        if is_cancelled event then busy_intervals rest
        else
          start_text <- time_text (e_start event) ;;
          end_text <- time_text (e_end event) ;;
          tail <- busy_intervals rest ;;
          match _parse_datetime start_text, _parse_datetime end_text with
          | Some s0, Some e0 => Returned ((s0, e0) :: tail)
          | _, _ => Returned tail
          end
    end.

Definition get_busy_times_body (start_time end_time : datetime)
    : S pyvalue :=
    _ <~~ _rate_limit ;;
    events <~~ send api_list
                 (EventsList (isoformat start_time) (isoformat end_time)
                             None) ;;
    busy <~~ lift_outcome (busy_intervals events) ;;
    ret (PIntervals busy).

Definition get_busy_times (start_time end_time : datetime)
    : service -> pyvalue * service :=
    try_except2 (get_busy_times_body start_time end_time)
                (fun _ => PIntervals []) (fun _ => PIntervals []).

End Service.

(** *** A failing API *)

Definition quota_exceeded {A} : list api_request -> api_request -> outcome A :=
  fun _ _ => Raised (HttpError (Some "quota exceeded")).

Definition no_isoformat : datetime -> string := fun _ => "".
Definition no_format : string -> datetime -> string := fun _ _ => "".
Definition no_key : string -> list (string * string) -> string :=
  fun _ _ => "".
Definition no_text : exn -> string := fun _ => "".
Definition no_parse : string -> outcome datetime :=
  fun _ => Raised ValueError.
Definition no_minutes : datetime -> datetime -> Z := fun _ _ => 0.
Definition no_replace : string -> string := fun s => s.

Definition idle_service : service := mkService [] [] 0 1000 [].

Definition some_slot : datetime := mkDatetime 739001 14 0 0 0 "Asia/Kolkata".

End Calendar.
(** ** What a pattern matched

    A declarative reading of the patterns, against which the matcher is
    checked: the text a pattern matches, the groups it holds, the groups
    that take part in every match, and the patterns that cannot fail. *)

Fixpoint all_in_class (c : cclass) (s : string) : bool :=
  match s with
  | EmptyString => true
  | String a t => in_class c a && all_in_class c t
  end.

Inductive matches : regex -> string -> Prop :=
| matches_lit l : matches (Lit l) l
| matches_cls c a : in_class c a = true -> matches (Cls c) (String a "")
| matches_seq r1 r2 s1 s2 :
    matches r1 s1 -> matches r2 s2 -> matches (Seq r1 r2) (s1 ++ s2)
| matches_alt_l r1 r2 s : matches r1 s -> matches (Alt r1 r2) s
| matches_alt_r r1 r2 s : matches r2 s -> matches (Alt r1 r2) s
| matches_opt_none r : matches (Opt r) ""
| matches_opt_some r s : matches r s -> matches (Opt r) s
| matches_star c s : all_in_class c s = true -> matches (Star c) s
| matches_plus c a s :
    in_class c a = true -> all_in_class c s = true ->
    matches (Plus c) (String a s)
| matches_grp n r s : matches r s -> matches (Grp n r) s.

(** The groups of a pattern, each with what it encloses. *)
Fixpoint bodies (r : regex) : list (nat * regex) :=
  match r with
  | Lit _ | Cls _ | Star _ | Plus _ => []
  | Seq r1 r2 | Alt r1 r2 => (bodies r1 ++ bodies r2)%list
  | Opt r1 => bodies r1
  | Grp n r1 => (n, r1) :: bodies r1
  end.

(** The groups outside every [?] and [|]: they take part in every match. *)
Fixpoint mandatory (r : regex) : list nat :=
  match r with
  | Seq r1 r2 => (mandatory r1 ++ mandatory r2)%list
  | Grp n r1 => n :: mandatory r1
  | _ => []
  end.

(** Patterns made of optional parts only: they match at every position. *)
Fixpoint always (r : regex) : bool :=
  match r with
  | Opt _ | Star _ => true
  | Seq r1 r2 => always r1 && always r2
  | Grp _ r1 => always r1
  | _ => false
  end.

(** A captured group of [r]: its number is one of [r]'s and its text is
    matched by what the group encloses. *)
Definition captured_ok (r : regex) (e : nat * string) : Prop :=
  exists r1, In (fst e, r1) (bodies r) /\ matches r1 (snd e).

(** [s] occurs in [hay] from position [pre] on. *)
Definition occurs_in (s hay : string) : Prop :=
  exists pre post, hay = (pre ++ s ++ post)%string.

(** The least number of characters a pattern matches. *)
Fixpoint min_len (r : regex) : nat :=
  match r with
  | Lit l => String.length l
  | Cls _ | Plus _ => 1
  | Seq r1 r2 => min_len r1 + min_len r2
  | Alt r1 r2 => Nat.min (min_len r1) (min_len r2)
  | Opt _ | Star _ => 0
  | Grp _ r1 => min_len r1
  end.
(** ** More phrases of the parser *)

(** The units of the first two patterns, with the microseconds of one. *)
Definition offset_units : list (string * Z) :=
  [("hour", US_PER_HOUR); ("hr", US_PER_HOUR);
   ("minute", US_PER_MINUTE); ("min", US_PER_MINUTE)].

(** The text starts a new word, or ends. *)
Definition word_ends (rest : string) : Prop :=
  match rest with
  | String a _ => in_class Word a = false
  | EmptyString => True
  end.

(** The summaries and flexibilities the fallback extractor can give. *)
Definition fallback_summaries : list (option string) :=
  [Some "Interview"; Some "Call"; Some "Appointment"; Some "Standup";
   Some "Meeting"].

Definition fallback_flexibilities : list string := ["flexible"; "rigid"].

(** *** Clock phrases, as the loop sees them *)

(** Hours as one or two digits can spell them. *)
Definition hours_two_digits : list Z := map Z.of_nat (seq 0 100).

Definition clock_minute (mm : option Z) : Z :=
  match mm with Some M => M | None => 0 end.

(** The clock text "H", "H:MM", "Ham", "H:MMpm", ... *)
Definition clock_phrase (H : Z) (mm : option Z) (ap : option string)
  : string :=
  (show H ++ match mm with Some M => ":" ++ show2 M | None => "" end
          ++ match ap with Some a => a | None => "" end)%string.

(** The groups of a clock match, read as the resolvers read them. *)
Definition clock_groups (m : match_obj) (g : nat) (H : Z) (mm : option Z)
           (ap : option string) : bool :=
  outcome_Z_eqb (Str.int_opt (group m g)) H
  && outcome_Z_eqb (int_or_zero (group m (S g))) (clock_minute mm)
  && opt_string_eqb (group m (S (S g))) ap.

(** "tomorrow at <clock>": the first two patterns and the fourth do not
    match; the third does, and so does the fifth, with "tomorrow" in the
    place of the day name. *)
Definition tomorrow_phrase_scanned (H : Z) (mm : option Z)
           (ap : option string) : bool :=
  let s := Str.lower ("tomorrow at " ++ clock_phrase H mm ap)%string in
  is_none (search pat_in_hours s)
  && is_none (search pat_in_minutes s)
  && match search pat_tomorrow_at s with
     | Some m => clock_groups m 1 H mm ap
     | None => false
     end
  && is_none (search pat_next s)
  && match search pat_weekday_at s with
     | Some m => opt_string_eqb (group m 1) (Some "tomorrow")
                 && clock_groups m 2 H mm ap
     | None => false
     end.

(** "at <clock>": the first five patterns do not match, the sixth does;
    of the later ones only the seventh can match, with the same groups. *)
Definition at_phrase_scanned (H : Z) (mm : option Z) (ap : option string)
  : bool :=
  let s := Str.lower ("at " ++ clock_phrase H mm ap)%string in
  is_none (search pat_in_hours s)
  && is_none (search pat_in_minutes s)
  && is_none (search pat_tomorrow_at s)
  && is_none (search pat_next s)
  && is_none (search pat_weekday_at s)
  && match search pat_at s with
     | Some m => clock_groups m 1 H mm ap && (groups_len m =? 3)%nat
     | None => false
     end
  && match search pat_clock_ampm s with
     | Some m => clock_groups m 1 H mm ap && (groups_len m =? 3)%nat
     | None => true
     end
  && is_none (search pat_end_of_week s)
  && is_none (search pat_beginning_of_week s)
  && is_none (search pat_next_week_same_time s).

(** "<clock>am" and "<clock>pm" on their own: only the seventh pattern
    matches. *)
Definition bare_phrase_scanned (H : Z) (mm : option Z) (a : string) : bool :=
  let s := Str.lower (clock_phrase H mm (Some a)) in
  is_none (search pat_in_hours s)
  && is_none (search pat_in_minutes s)
  && is_none (search pat_tomorrow_at s)
  && is_none (search pat_next s)
  && is_none (search pat_weekday_at s)
  && is_none (search pat_at s)
  && match search pat_clock_ampm s with
     | Some m => clock_groups m 1 H mm (Some a) && (groups_len m =? 3)%nat
     | None => false
     end
  && is_none (search pat_end_of_week s)
  && is_none (search pat_beginning_of_week s)
  && is_none (search pat_next_week_same_time s).

(** The next occurrence of the clock time [h:M]: today when that is still
    ahead of [now], tomorrow otherwise. *)
Definition next_occurrence (now : datetime) (h M : Z) : datetime :=
  let today := mkDatetime (ordinal now) h M 0 0 (tzinfo now) in
  if dt_ltb now today then today
  else mkDatetime (ordinal now + 1) h M 0 0 (tzinfo now).

(** *** Durations as written *)

Definition numbers_two_digits : list Z := map Z.of_nat (seq 0 100).

(** How the duration patterns read "H hours M minutes" and "Hh Mm" (the
    default [-1] tells a text no pattern matched). *)
Definition duration_forms_read (H M : Z) : bool :=
  let read text := parse_duration duration_patterns (Str.lower text) (-1) in
  outcome_Z_eqb (read (show H ++ " hours " ++ show M ++ " minutes")%string)
                (60 * H)
  && outcome_Z_eqb (read (show H ++ " hr " ++ show M ++ " min")%string)
                   (60 * H)
  && outcome_Z_eqb (read (show H ++ "h " ++ show M ++ "m")%string)
                   (60 * H + M)
  && outcome_Z_eqb (read (show H ++ "h " ++ show M ++ "min")%string) M
  && outcome_Z_eqb (read (show M ++ " minutes")%string) M.
(** ** The other handlers of the agent *)

(** [search_days] of [_suggest_alternative_times]. *)
Definition search_days (flexibility : string) : Z :=
  if String.eqb flexibility "very_flexible" then 14
  else if String.eqb flexibility "flexible" then 7
  else 2.

(** *** [_extract_time_range] *)

(** [while current < end: slots.append(current); current += step] *)
Fixpoint slots_until (fuel : nat) (end_ : datetime) (step : Z)
         (current : datetime) (slots : list datetime)
  : outcome (list datetime) :=
  match fuel with
  | O => Returned slots
  | S fuel' =>
      if dt_ltb current end_ then
        next <- dt_add current step ;;
        slots_until fuel' end_ step next (slots ++ [current])%list
      else Returned slots
  end.

(** How many times the test of that loop can succeed from [current]; the
    loop is run with one unit of fuel more, for the test that fails. *)
Definition slots_bound (end_ current : datetime) (step : Z) : nat :=
  Z.to_nat ((dt_us end_ - dt_us current) / step + 1).

Section TimeRange.
Variable ctx : ConversationContext.
Variable now : datetime.

  (** [for day in range(5)], from [day] on. *)
Fixpoint week_slots (remaining : nat) (day : Z) (next_monday : datetime)
           (slots : list datetime) : outcome (list datetime) :=
    match remaining with
    | O => Returned slots
    | S remaining' =>
        d <- dt_add next_monday (timedelta day 0 0) ;;
        day_start <- replace_hm d (t_hour (business_hours_start ctx))
                                (t_minute (business_hours_start ctx)) ;;
        day_end <- replace_hm day_start (t_hour (business_hours_end ctx))
                              (t_minute (business_hours_end ctx)) ;;
        slots' <- slots_until
                    (S (slots_bound day_end day_start (timedelta 0 2 0)))
                    day_end (timedelta 0 2 0) day_start slots ;;
        week_slots remaining' (day + 1) next_monday slots'
    end.

Definition _extract_time_range (user_input : string)
    : outcome (list datetime) :=
    if Str.contains "tomorrow" (Str.lower user_input) then
      tomorrow <- dt_add now (timedelta 1 0 0) ;;
      start_time <- replace_hm tomorrow (t_hour (business_hours_start ctx))
                               (t_minute (business_hours_start ctx)) ;;
      end_of_day <- replace_hm tomorrow (t_hour (business_hours_end ctx))
                               (t_minute (business_hours_end ctx)) ;;
      slots_until (S (slots_bound end_of_day start_time (timedelta 0 1 0)))
                  end_of_day (timedelta 0 1 0) start_time []
    else if Str.contains "next week" (Str.lower user_input) then
      next_monday <- dt_add now (timedelta (7 - weekday now) 0 0) ;;
      week_slots 5 0 next_monday []
    else Returned [].
End TimeRange.

(** *** [_extract_meeting_reference] *)

(** [{"reference": ..., "type": ...}] *)
Record meeting_reference : Type := mkReference {
  reference : string;
  reference_type : string
}.

(** [a|b|c] of literal words. *)
Fixpoint alts (l : list string) : regex :=
  match l with
  | [] => Lit ""
  | [s] => Lit s
  | s :: t => Alt (Lit s) (alts t)
  end.

(** [(\d{1,2}:\d{2})\s*(am|pm)?] *)
Definition pat_ref_clock : regex :=
  seqs [Grp 1 (seqs [digit12; Lit ":"; digit2]); Star Space;
        Opt (Grp 2 ampm)].

Definition day_words : list string :=
  ["tomorrow"; "today"; "monday"; "tuesday"; "wednesday"; "thursday";
   "friday"; "saturday"; "sunday"].

(** [(tomorrow|today|monday|tuesday|wednesday|thursday|friday|saturday|sunday)] *)
Definition pat_ref_day : regex := Grp 1 (alts day_words).

(** [meeting with (\w+)] *)
Definition pat_ref_with : regex :=
  seqs [Lit "meeting with "; Grp 1 (Plus Word)].

(** [(\w+) meeting] *)
Definition pat_ref_titled : regex :=
  seqs [Grp 1 (Plus Word); Lit " meeting"].

Definition reference_patterns : list regex :=
  [pat_ref_clock; pat_ref_day; pat_ref_with; pat_ref_titled].

Fixpoint first_match (ps : list regex) (text : string) : option match_obj :=
  match ps with
  | [] => None
  | p :: rest =>
      match search p text with
      | Some m => Some m
      | None => first_match rest text
      end
  end.

Definition _extract_meeting_reference (user_input : string)
  : option meeting_reference :=
  match first_match reference_patterns (Str.lower user_input) with
  | Some m => Some (mkReference (whole m) "pattern_match")
  | None => None
  end.

(** *** The texts of the handlers *)

Definition availability_prompt_text : string :=
  "I'd be happy to check your availability! Please specify a time range, like 'What's available tomorrow afternoon?' or 'Show me free slots next week'.".

Definition availability_none_text : string :=
  "I don't see any available slots in the requested time range. Would you like me to check a different time period?".

Definition availability_error_text : string :=
  "I encountered an error while checking availability. Please try again.".

Definition list_none_text : string :=
  "You don't have any upcoming meetings scheduled. Would you like to book a new one?".

Definition list_error_text : string :=
  "I'm having trouble accessing your calendar right now. Please try again in a moment.".

Definition cancel_prompt_text : string :=
  "I'd be happy to help cancel a meeting! Could you please specify which meeting you'd like to cancel? You can mention the time, title, or say something like 'cancel my 3pm meeting tomorrow'.".

Definition cancel_done_text : string :=
  "I've successfully cancelled your meeting. You should receive a cancellation notification shortly.".

Definition cancel_not_found_text : string :=
  "I couldn't find that meeting in your calendar. Could you please check the details and try again?".

Definition cancel_error_text : string :=
  "I encountered an error while trying to cancel the meeting. Please try again or contact support.".

Definition reschedule_prompt_text : string :=
  "I'd be happy to help reschedule a meeting! Please specify which meeting you'd like to reschedule and the new time. For example: 'reschedule my 3pm meeting to 4pm tomorrow'.".

Definition reschedule_ask_time_text : string :=
  "I found the meeting you want to reschedule. What's the new time you'd prefer?".

Definition reschedule_trouble_text : string :=
  "I had trouble rescheduling the meeting. Please check the meeting details and try again.".

Definition reschedule_no_alternatives_text : string :=
  "The requested time isn't available and I couldn't find suitable alternatives. Could you suggest a different time?".

Definition reschedule_error_text : string :=
  "I encountered an error while trying to reschedule the meeting. Please try again.".

(** A meeting as [get_upcoming_events] lists it, read with [dict.get]. *)
Record listed_meeting : Type := mkListed {
  l_start_time : option datetime;
  l_summary : option string;
  l_duration : option Z
}.

Section Handlers.
Variable check_availability :
    list cal_call -> datetime -> Z -> outcome bool.
Variable get_upcoming_events :
    list cal_call -> Z -> outcome (list listed_meeting).
Variable cancel_event :
    list cal_call -> meeting_reference -> outcome bool.
Variable reschedule_event :
    list cal_call -> meeting_reference -> datetime -> Z -> outcome bool.
Variable extraction_chain :
    string -> datetime -> ConversationContext -> outcome llm_extraction.
Variable strftime : datetime -> string.

Definition call_other {A} (name : string)
             (answer : list cal_call -> outcome A) : M A :=
    fun st =>
      (answer (calendar_log st),
       mkState (context st) (calendar_log st ++ [OtherCall name])%list).

  (** *** [_handle_availability_check] *)

  (** [for slot_start in time_slots: if check_availability(...): append] *)
Fixpoint check_slots (time_slots : list datetime)
           (available_slots : list datetime) : M (list datetime) :=
    match time_slots with
    | [] => mret available_slots
    | slot_start :: rest =>
        ctx <~ get_context ;;
        free <~ call_check_availability check_availability slot_start
                  (preferred_meeting_duration ctx) ;;
        check_slots rest (if free then (available_slots ++ [slot_start])%list
                          else available_slots)
    end.

Definition slots_text (slots : list datetime) : string :=
    String.concat nl
      (map (fun slot => (bullet ++ " " ++ strftime slot)%string)
           (firstn 10 slots)).

Definition availability_body (user_input : string) (now : datetime)
    : M string :=
    ctx <~ get_context ;;
    time_slots <~ lift (_extract_time_range ctx now user_input) ;;
    match time_slots with
    | [] => mret availability_prompt_text
    | _ :: _ =>
        available_slots <~ check_slots time_slots [] ;;
        match available_slots with
        | _ :: _ =>
            mret ("Here are your available time slots:" ++ nl ++ nl
                    ++ slots_text available_slots ++ nl ++ nl
                    ++ "Would you like to book any of these times?")%string
        | [] => mret availability_none_text
        end
    end.

Definition _handle_availability_check (user_input : string)
             (now : datetime) : agent_state -> string * agent_state :=
    try_except (availability_body user_input now) availability_error_text.

  (** *** [_handle_list_meetings] *)

  (** One pass of [for i, meeting in enumerate(upcoming_meetings, 1)]. *)
Fixpoint meetings_text (i : Z) (meetings : list listed_meeting)
           (text : string) : string :=
    match meetings with
    | [] => text
    | meeting :: rest =>
        let title := match l_summary meeting with
                     | Some s => s
                     | None => "Untitled Meeting"
                     end in
        let duration := match l_duration meeting with
                        | Some d => show_Z d
                        | None => "Unknown duration"
                        end in
        meetings_text (i + 1) rest
          match l_start_time meeting with
          | Some start_time =>
              (text ++ show_Z i ++ ". **" ++ title ++ "**" ++ nl ++ "   "
                    ++ Calendar.glyph_date ++ " " ++ strftime start_time
                    ++ nl ++ "   " ++ Calendar.glyph_timer ++ " "
                    ++ duration ++ " minutes" ++ nl ++ nl)%string
          | None => text
          end
    end.

Definition list_body : M string :=
    upcoming_meetings <~ call_other "get_upcoming_events"
                           (fun log => get_upcoming_events log 10) ;;
    match upcoming_meetings with
    | [] => mret list_none_text
    | _ :: _ =>
        mret (meetings_text 1 upcoming_meetings
                ("Here are your upcoming meetings:" ++ nl ++ nl)
                ++ "Would you like to reschedule or cancel any of these meetings?")%string
    end.

Definition _handle_list_meetings : agent_state -> string * agent_state :=
    try_except list_body list_error_text.

  (** *** [_handle_cancel_meeting] *)

Definition cancel_body (user_input : string) : M string :=
    match _extract_meeting_reference user_input with
    | None => mret cancel_prompt_text
    | Some meeting_info =>
        cancelled <~ call_other "cancel_event"
                       (fun log => cancel_event log meeting_info) ;;
        if cancelled : bool then mret cancel_done_text
        else mret cancel_not_found_text
    end.

Definition _handle_cancel_meeting (user_input : string)
    : agent_state -> string * agent_state :=
    try_except (cancel_body user_input) cancel_error_text.

  (** *** [_handle_reschedule_meeting] *)

Definition reschedule_body (user_input : string) (now : datetime)
    : M string :=
    let meeting_info := _extract_meeting_reference user_input in
    new_time_info <~ _extract_booking_details extraction_chain user_input
                       now ;;
    match meeting_info with
    | None => mret reschedule_prompt_text
    | Some info =>
        match start_time new_time_info with
        | None =>
            ctx <~ get_context ;;
            _ <~ put_context
                   (set_pending ctx
                      (Some (PendingReschedule (reference info)))) ;;
            mret reschedule_ask_time_text
        | Some start =>
            free <~ call_check_availability check_availability start
                      (duration new_time_info) ;;
            if free then
              success <~ call_other "reschedule_event"
                           (fun log => reschedule_event log info start
                                         (duration new_time_info)) ;;
              if success : bool then
                mret ("Perfect! I've rescheduled your meeting to "
                        ++ strftime start
                        ++ ". All attendees will be notified of the change.")%string
              else mret reschedule_trouble_text
            else
              alternatives <~ _suggest_alternative_times check_availability
                                start (duration new_time_info) "flexible" ;;
              match alternatives with
              | _ :: _ =>
                  mret ("The requested new time is not available. Here are some alternatives:"
                          ++ nl ++ nl
                          ++ String.concat nl
                               (map (fun alt =>
                                       (bullet ++ " " ++ strftime alt)%string)
                                    (firstn 3 alternatives))
                          ++ nl ++ nl ++ "Which time works best for you?")%string
              | [] => mret reschedule_no_alternatives_text
              end
        end
    end.

Definition _handle_reschedule_meeting (user_input : string)
             (now : datetime) : agent_state -> string * agent_state :=
    try_except (reschedule_body user_input now) reschedule_error_text.

End Handlers.

(** *** Preferences and the summary of the conversation *)

Definition set_timezone (c : ConversationContext) (tz : string)
  : ConversationContext :=
  mkContext (user_id c) (last_intent c) (pending_booking c)
            (conversation_history c) tz (preferred_meeting_duration c)
            (business_hours_start c) (business_hours_end c).

Definition set_business_hours (c : ConversationContext) (s e : time)
  : ConversationContext :=
  mkContext (user_id c) (last_intent c) (pending_booking c)
            (conversation_history c) (user_timezone c)
            (preferred_meeting_duration c) s e.

Definition set_duration (c : ConversationContext) (d : Z)
  : ConversationContext :=
  mkContext (user_id c) (last_intent c) (pending_booking c)
            (conversation_history c) (user_timezone c) d
            (business_hours_start c) (business_hours_end c).

(** [set_user_preferences]: each argument is applied when it is truthy. *)
Definition set_user_preferences (timezone : option string)
           (business_hours : option (time * time))
           (default_duration : option Z) (c : ConversationContext)
  : ConversationContext :=
  let c := match timezone with
           | Some (String a t) => set_timezone c (String a t)
           | _ => c
           end in
  let c := match business_hours with
           | Some (s, e) => set_business_hours c s e
           | None => c
           end in
  match default_duration with
  | Some d => if d =? 0 then c else set_duration c d
  | None => c
  end.

(** [Intent.value] *)
Definition intent_value (i : Intent) : string :=
  match i with
  | BOOK_MEETING => "book_meeting"
  | CHECK_AVAILABILITY => "check_availability"
  | RESCHEDULE_MEETING => "reschedule_meeting"
  | CANCEL_MEETING => "cancel_meeting"
  | LIST_MEETINGS => "list_meetings"
  | GREETING => "greeting"
  | UNCLEAR => "unclear"
  end.

(** Six decimal digits, as in [".000250"]. *)
Definition show6 (n : Z) : string :=
  (show2 (n / 10000)%Z ++ show2 ((n / 100) mod 100)%Z
     ++ show2 (n mod 100)%Z)%string.

(** [str(t)] for a [datetime.time]: ["HH:MM:SS"], with [".ffffff"] when
    the microseconds are not zero. *)
Definition str_time (t : time) : string :=
  (show2 (t_hour t) ++ ":" ++ show2 (t_minute t) ++ ":" ++ show2 (t_second t)
     ++ if (t_microsecond t =? 0)%Z then ""
        else "." ++ show6 (t_microsecond t))%string.

Record conversation_summary : Type := mkSummary {
  cs_last_intent : option string;
  cs_has_pending_booking : bool;
  cs_conversation_length : nat;
  cs_user_timezone : string;
  cs_business_hours : string
}.

Definition get_conversation_summary (c : ConversationContext)
  : conversation_summary :=
  mkSummary (option_map intent_value (last_intent c))
            (match pending_booking c with Some _ => true | None => false end)
            (List.length (conversation_history c))
            (user_timezone c)
            (str_time (business_hours_start c) ++ " - "
               ++ str_time (business_hours_end c))%string.
(** ** Texts of the booking handler, by name *)

Definition booking_done_text (summary_lower when_ : string) (duration : Z)
  : string :=
  ("Perfect! I've successfully booked your " ++ summary_lower ++ " for "
     ++ when_ ++ " (" ++ show_Z duration
     ++ " minutes). You should receive a calendar invitation shortly.")%string.

Definition outside_hours_text (when_ opens closes : string) : string :=
  ("The requested time (" ++ when_ ++ ") is outside business hours ("
     ++ opens ++ " - " ++ closes
     ++ "). Would you like me to suggest times during business hours?")%string.

(** A calendar whose [create_event] reports a failure, as a text. *)
Definition create_fails
  : list cal_call -> option string -> datetime -> Z -> option string
    -> outcome string :=
  fun _ _ _ _ _ => Returned " Failed to create event: quota exceeded".

Definition closing_time_request : ParsedBookingRequest :=
  mkRequest BOOK_MEETING (Some "Meeting")
            (Some (mkDatetime 739001 17 0 0 0 "Asia/Kolkata"))
            None 60 [] None "meeting" "normal" "rigid".

Definition afternoon_request : ParsedBookingRequest :=
  mkRequest BOOK_MEETING (Some "Meeting")
            (Some (mkDatetime 739001 14 0 0 0 "Asia/Kolkata"))
            None 60 [] None "meeting" "normal" "rigid".

(** A calendar that is free in the minute of 09:00 only, every day. *)
Definition free_at_nine : list cal_call -> datetime -> Z -> outcome bool :=
  fun _ t _ => Returned ((hour t =? 9)%Z && (minute t =? 0)%Z).
(** ** Reading the slots of a time range *)

(** The instants [first], [first + step], ... strictly before [close], on
    the microsecond scale. *)
Definition stamps (first close step : Z) : list Z :=
  map (fun i => first + Z.of_nat i * step)
      (seq 0 (Z.to_nat ((close - first + step - 1) / step))).

(** The business-hours start and end [k] days after [now], with the
    seconds and microseconds of [now] ([replace(hour=, minute=)] keeps
    them). *)
Definition day_open (ctx : ConversationContext) (now : datetime) (k : Z) : Z :=
  (ordinal now + k) * US_PER_DAY
  + t_hour (business_hours_start ctx) * US_PER_HOUR
  + t_minute (business_hours_start ctx) * US_PER_MINUTE
  + second now * US_PER_SECOND + microsecond now.

Definition day_close (ctx : ConversationContext) (now : datetime) (k : Z) : Z :=
  (ordinal now + k) * US_PER_DAY
  + t_hour (business_hours_end ctx) * US_PER_HOUR
  + t_minute (business_hours_end ctx) * US_PER_MINUTE
  + second now * US_PER_SECOND + microsecond now.

(** The listing of free slots in the availability answer. *)
Definition availability_listing (strftime : datetime -> string)
           (free : list datetime) : string :=
  ("Here are your available time slots:" ++ nl ++ nl
     ++ slots_text strftime free ++ nl ++ nl
     ++ "Would you like to book any of these times?")%string.

(** A calendar that is free in the afternoon only. *)
Definition free_after_noon : list cal_call -> datetime -> Z -> outcome bool :=
  fun _ t _ => Returned (12 <=? hour t).
(** ** The routes' reading of a response ([routes.py]) *)

(** [any(phrase in response.lower() for phrase in phrases)], under
    [if response:]. *)
Definition any_phrase (phrases : list string) (response : string) : bool :=
  match response with
  | EmptyString => false
  | _ => existsb (fun phrase => Str.contains phrase (Str.lower response))
                 phrases
  end.

(** [success] of the [DELETE /meetings] route, as a function of
    [response = agent.run(request.message)]. *)
Definition cancel_success : string -> bool :=
  any_phrase ["successfully cancelled"; "cancelled"; "meeting canceled";
              "appointment cancelled"; "event removed"].

(** [success] of the [POST /book] route, as a function of
    [response = agent.run(request.message)]. *)
Definition book_success : string -> bool :=
  any_phrase ["successfully booked"; "booking confirmed"; "meeting scheduled";
              "appointment created"; "event added"].

(** ** The agent on top of the calendar service

    The handlers call the service's operations; here an operation of the
    service, on a given state of the service, stands for the agent's
    collaborator. *)

Section OnService.
Variable api_list : list Calendar.api_request -> Calendar.api_request
                      -> outcome (list Calendar.api_event).
Variable api_delete : list Calendar.api_request -> Calendar.api_request
                        -> outcome unit.
Variable fromisoformat : string -> outcome datetime.
Variable isoformat : datetime -> string.
Variable strftime : string -> datetime -> string.
Variable _get_cache_key : string -> list (string * string) -> string.
Variable minutes_between : datetime -> datetime -> Z.
Variable str_replace_Z : string -> string.
  (** [datetime.now(pytz.UTC)] at the call, and the service as it is. *)
Variable utc_now : datetime.
Variable service : Calendar.service.

Definition to_listed (e : Calendar.formatted_event) : listed_meeting :=
    mkListed (Some (Calendar.f_start_time e)) (Some (Calendar.f_summary e))
             (Some (Calendar.f_duration e)).

  (** [self.calendar_service.get_upcoming_events(limit=limit)], as the
      list handler reads it: a list of events; a falsy value of another
      type (which only a cache entry of another operation could be) reads
      as no meeting; [enumerate(True)] raises [TypeError]; a character or
      a tuple has no [get]. *)
Definition service_get_upcoming_events
    : list cal_call -> Z -> outcome (list listed_meeting) :=
    fun _ limit =>
      match fst (Calendar.get_upcoming_events api_list fromisoformat
                   isoformat _get_cache_key minutes_between str_replace_Z
                   utc_now limit 30 service) with
      | Calendar.PEvents l => Returned (map to_listed l)
      | Calendar.PBool false => Returned []
      | Calendar.PBool true => Raised TypeError
      | Calendar.PStr EmptyString => Returned []
      | Calendar.PStr (String _ _) => Raised AttributeError
      | Calendar.PIntervals [] => Returned []
      | Calendar.PIntervals (_ :: _) => Raised AttributeError
      end.

  (** [self.calendar_service.cancel_event(meeting_info)], read by
      [if cancelled:]; the operation returns booleans only. *)
Definition service_cancel_event
    : list cal_call -> meeting_reference -> outcome bool :=
    fun _ meeting_info =>
      match fst (Calendar.cancel_event api_list api_delete fromisoformat
                   isoformat strftime _get_cache_key minutes_between
                   str_replace_Z utc_now (Some (reference meeting_info))
                   service) with
      | Calendar.PBool b => Returned b
      | Calendar.PStr s => Returned (negb (String.eqb s EmptyString))
      | Calendar.PEvents l => Returned (negb (Nat.eqb (List.length l) 0))
      | Calendar.PIntervals l => Returned (negb (Nat.eqb (List.length l) 0))
      end.
End OnService.

(** A clock reading in UTC. *)
Definition sample_utc_now : datetime := mkDatetime 739000 5 0 15 250 "UTC".

(** The agent's state when [run] has entered the user's text in the
    history and cut it to its last ten entries, before the intent is
    recognised. *)
Definition turn_entered (user_input timestamp : string) (st : agent_state)
  : agent_state :=
  mkState (set_history (context st)
             (lastn 10 (conversation_history (context st)
                          ++ [mkEntry user_input timestamp None])%list))
          (calendar_log st).

(** *** Collaborators for a cancelling and for a booking turn *)

(** An intent model that answers with one intent name. *)
Definition says_cancel : string -> ConversationContext -> outcome string :=
  fun _ _ => Returned "cancel_meeting"%string.

Definition says_book : string -> ConversationContext -> outcome string :=
  fun _ _ => Returned "book_meeting"%string.

(** A calendar that cancels what it is asked to. *)
Definition cancels_all : list cal_call -> meeting_reference -> outcome bool :=
  fun _ _ => Returned true.

(** The other handlers of the agent on that calendar; only the cancel
    handler's part is filled in. *)
Definition cancelling_handlers
  : Intent -> string -> datetime -> agent_state -> handled :=
  fun _ user_input _ st =>
    let res := _handle_cancel_meeting cancels_all user_input st in
    mkHandled (fst res) (pending_booking (context (snd res)))
              (skipn (List.length (calendar_log st))
                     (calendar_log (snd res))).

(** An extraction model that answers with the afternoon request. *)
Definition extracts_afternoon
  : string -> datetime -> ConversationContext -> outcome llm_extraction :=
  fun _ _ _ => Returned (Details afternoon_request).
(** ** The calendar service between calls *)

(** Time passing between two calls of the service: [time.time()] has
    moved on by [ms] milliseconds when the next call starts. *)
Definition elapse (ms : Z) (s : Calendar.service) : Calendar.service :=
  Calendar.mkService (Calendar._events_cache s) (Calendar._cache_expiry s)
                     (Calendar._last_request_time s)
                     (Calendar.clock_ms s + ms) (Calendar.requests s).

(** The shape of what [hashlib.md5(...).hexdigest()] returns: 32
    characters among [0-9a-f]. *)
Definition is_hex (a : ascii) : bool :=
  let n := N_of_ascii a in
  (((48 <=? n) && (n <=? 57)) || ((97 <=? n) && (n <=? 102)))%N.

Definition hexdigest (s : string) : bool :=
  (String.length s =? 32)%nat && forallb is_hex (list_ascii_of_string s).

(** [a] is [b] with some elements left out, the order kept. *)
Inductive subseq {A : Type} : list A -> list A -> Prop :=
| subseq_nil : subseq [] []
| subseq_skip x l l' : subseq l l' -> subseq l (x :: l')
| subseq_keep x l l' : subseq l l' -> subseq (x :: l) (x :: l').

(** *** An API with an empty calendar that accepts every request *)

Definition empty_calendar
  : list Calendar.api_request -> Calendar.api_request
    -> outcome (list Calendar.api_event) :=
  fun _ _ => Returned [].

Definition accepts_insert
  : list Calendar.api_request -> Calendar.api_request
    -> outcome (option string * option string) :=
  fun _ _ => Returned (Some "evt1", None).

(** A key function with the shape of a digest. *)
Definition digest_key : string -> list (string * string) -> string :=
  fun method _ =>
    if String.eqb method "check_availability"
    then "c0a1b2c3d4e5f60718293a4b5c6d7e8f"%string
    else "0f1e2d3c4b5a69788796a5b4c3d2e1f0"%string.

(** *** Reading the listing *)

(** What an entry of the listing takes from the event of the API. *)
Definition formats (minutes_between : datetime -> datetime -> Z)
           (e : Calendar.api_event) (f : Calendar.formatted_event) : Prop :=
  Calendar.f_id f = Calendar.e_id e
  /\ Calendar.f_summary f
     = Calendar.get_or (Calendar.e_summary e) "Untitled Meeting"%string
  /\ Calendar.f_duration f
     = minutes_between (Calendar.f_start_time f) (Calendar.f_end_time f)
  /\ Calendar.f_description f
     = Calendar.get_or (Calendar.e_description e) ""%string
  /\ Calendar.f_location f
     = Calendar.get_or (Calendar.e_location e) ""%string.

(** The two tests of [_find_event_by_reference] on one event: the
    reference is in the lower-cased title, or in the lower-cased start
    time written with ['%I:%M %p']. *)
Definition refers_to (strftime : string -> datetime -> string)
           (reference_text : string) (event : Calendar.formatted_event)
  : bool :=
  Str.contains reference_text (Str.lower (Calendar.f_summary event))
  || Str.contains reference_text
       (Str.lower (strftime "%I:%M %p"%string (Calendar.f_start_time event))).

(** An event that is not cancelled and lacks its ['start'] or ['end']. *)
Definition lacks_time (e : Calendar.api_event) : bool :=
  negb (Calendar.is_cancelled e)
  && match Calendar.e_start e, Calendar.e_end e with
     | Some _, Some _ => false
     | _, _ => true
     end.

(** *** A calendar with one cancelled and one active event *)

Definition two_events : list Calendar.api_event :=
  [Calendar.mkApiEvent (Some "evt1") (Some "Old standup") (Some "Cancelled")
     (Some (Calendar.mkTimeRef (Some "2024-04-25T10:00:00+05:30") None))
     (Some (Calendar.mkTimeRef (Some "2024-04-25T10:30:00+05:30") None))
     None None [];
   Calendar.mkApiEvent (Some "evt2") None (Some "confirmed")
     (Some (Calendar.mkTimeRef (Some "2024-04-25T14:00:00+05:30") None))
     (Some (Calendar.mkTimeRef (Some "2024-04-25T14:30:00+05:30") None))
     None None []]%string.

Definition lists_two_events
  : list Calendar.api_request -> Calendar.api_request
    -> outcome (list Calendar.api_event) :=
  fun _ _ => Returned two_events.

Definition parses_to_some_slot : string -> outcome datetime :=
  fun _ => Returned Calendar.some_slot.

Definition accepts_delete
  : list Calendar.api_request -> Calendar.api_request -> outcome unit :=
  fun _ _ => Returned tt.

(** ['%I:%M %p'] of every start as one text. *)
Definition fixed_clock_text : string -> datetime -> string :=
  fun _ _ => "02:00 PM"%string.

(** * Proofs *)

Open Scope list_scope.

(** ** Arithmetic of [datetime] *)

Lemma valid_fields_bounds h m s us :
  valid_fields h m s us = true ->
  0 <= h <= 23 /\ 0 <= m <= 59 /\ 0 <= s <= 59 /\ 0 <= us <= 999999.
Proof.
  unfold valid_fields. rewrite !andb_true_iff, !Z.leb_le. lia.
Qed.

Lemma valid_datetime_bounds d :
  valid_datetime d = true ->
  1 <= ordinal d <= MAXORDINAL
  /\ 0 <= hour d <= 23 /\ 0 <= minute d <= 59
  /\ 0 <= second d <= 59 /\ 0 <= microsecond d <= 999999.
Proof.
  unfold valid_datetime. rewrite !andb_true_iff, !Z.leb_le.
  intros [Ho Hf]. apply valid_fields_bounds in Hf. lia.
Qed.

Lemma fields_us_range h m s us :
  valid_fields h m s us = true -> 0 <= fields_us h m s us < US_PER_DAY.
Proof.
  intros H. apply valid_fields_bounds in H.
  unfold fields_us, US_PER_DAY, US_PER_HOUR, US_PER_MINUTE, US_PER_SECOND.
  lia.
Qed.

Lemma tod_us_range d :
  valid_datetime d = true -> 0 <= tod_us d < US_PER_DAY.
Proof.
  unfold valid_datetime, tod_us. rewrite andb_true_iff.
  intros [_ H]. now apply fields_us_range.
Qed.

(** Splitting a count of microseconds back into its fields. *)
Lemma fields_us_split h m s us :
  valid_fields h m s us = true ->
  let r := fields_us h m s us in
  r / US_PER_HOUR = h
  /\ (r mod US_PER_HOUR) / US_PER_MINUTE = m
  /\ (r mod US_PER_MINUTE) / US_PER_SECOND = s
  /\ r mod US_PER_SECOND = us.
Proof.
  intros H. apply valid_fields_bounds in H. cbv zeta.
  unfold fields_us, US_PER_HOUR, US_PER_MINUTE, US_PER_SECOND.
  assert (E1 : (h * (60 * (60 * 1000000)) + m * (60 * 1000000)
                + s * 1000000 + us) / (60 * (60 * 1000000)) = h).
  { symmetry. apply Z.div_unique with (r := m * (60 * 1000000) + s * 1000000 + us); lia. }
  assert (E2 : (h * (60 * (60 * 1000000)) + m * (60 * 1000000)
                + s * 1000000 + us) mod (60 * (60 * 1000000))
               = m * (60 * 1000000) + s * 1000000 + us).
  { symmetry. apply Z.mod_unique with (q := h); lia. }
  assert (E3 : (h * (60 * (60 * 1000000)) + m * (60 * 1000000)
                + s * 1000000 + us) mod (60 * 1000000)
               = s * 1000000 + us).
  { symmetry. apply Z.mod_unique with (q := h * 60 + m); lia. }
  assert (E4 : (h * (60 * (60 * 1000000)) + m * (60 * 1000000)
                + s * 1000000 + us) mod 1000000 = us).
  { symmetry. apply Z.mod_unique with (q := h * 3600 + m * 60 + s); lia. }
  rewrite E1, E2, E3, E4. repeat split.
  - symmetry. apply Z.div_unique with (r := s * 1000000 + us); lia.
  - symmetry. apply Z.div_unique with (r := us); lia.
Qed.

(** Adding whole days moves the date and nothing else. *)
Lemma dt_add_days now k :
  valid_datetime now = true ->
  1 <= ordinal now + k <= MAXORDINAL ->
  dt_add now (timedelta k 0 0)
  = Returned (mkDatetime (ordinal now + k) (hour now) (minute now)
                         (second now) (microsecond now) (tzinfo now)).
Proof.
  intros Hv Hr. unfold dt_add, timedelta.
  pose proof (tod_us_range now Hv) as Ht.
  assert (Hd : US_PER_DAY > 0) by (unfold US_PER_DAY, US_PER_HOUR, US_PER_MINUTE, US_PER_SECOND; lia).
  replace (tod_us now + (k * US_PER_DAY + 0 * US_PER_HOUR + 0 * US_PER_MINUTE))
    with (tod_us now + k * US_PER_DAY) by lia.
  rewrite Z.div_add by lia. rewrite Z.mod_add by lia.
  rewrite Z.div_small by lia. rewrite Z.mod_small by lia.
  rewrite Z.add_0_l.
  replace ((1 <=? ordinal now + k) && (ordinal now + k <=? MAXORDINAL)) with true
    by (symmetry; apply andb_true_iff; rewrite !Z.leb_le; lia).
  unfold valid_datetime in Hv. apply andb_true_iff in Hv as [_ Hf].
  destruct (fields_us_split _ _ _ _ Hf) as (E1 & E2 & E3 & E4).
  unfold tod_us. rewrite E1, E2, E3, E4. reflexivity.
Qed.

(** Days outside the calendar raise. *)
Lemma dt_add_days_overflow now k :
  valid_datetime now = true ->
  MAXORDINAL < ordinal now + k ->
  dt_add now (timedelta k 0 0) = Raised OverflowError.
Proof.
  intros Hv Hr. unfold dt_add, timedelta.
  pose proof (tod_us_range now Hv) as Ht.
  assert (Hd : US_PER_DAY > 0) by (unfold US_PER_DAY, US_PER_HOUR, US_PER_MINUTE, US_PER_SECOND; lia).
  replace (tod_us now + (k * US_PER_DAY + 0 * US_PER_HOUR + 0 * US_PER_MINUTE))
    with (tod_us now + k * US_PER_DAY) by lia.
  rewrite Z.div_add by lia. rewrite Z.div_small by lia. rewrite Z.add_0_l.
  replace (ordinal now + k <=? MAXORDINAL) with false
    by (symmetry; apply Z.leb_gt; lia).
  now rewrite andb_false_r.
Qed.

Lemma replace_hm00_ok d h m :
  0 <= h <= 23 -> 0 <= m <= 59 ->
  replace_hm00 d h m = Returned (mkDatetime (ordinal d) h m 0 0 (tzinfo d)).
Proof.
  intros Hh Hm. unfold replace_hm00.
  replace ((0 <=? h) && (h <=? 23) && (0 <=? m) && (m <=? 59)) with true;
    [reflexivity|].
  symmetry. rewrite !andb_true_iff, !Z.leb_le. lia.
Qed.

Lemma weekday_range d : 0 <= weekday d <= 6.
Proof. unfold weekday. pose proof (Z.mod_pos_bound (ordinal d + 6) 7); lia. Qed.

Lemma weekdays_range w i : dict_get w weekdays = Some i -> 0 <= i <= 6.
Proof.
  unfold weekdays. simpl.
  repeat (destruct (String.eqb w _); [intros [= <-]; lia|]).
  discriminate.
Qed.

(** ** The parser on the phrases of the specification *)

(** The search half of one loop step is a closed computation on a closed
    text; the resolver half is where [now] enters. *)
Ltac run_search :=
  match goal with
  | |- context [search ?p ?s] =>
      let r := eval vm_compute in (search p s) in
      change (search p s) with r
  end.

Ltac run_contains :=
  match goal with
  | |- context [Str.contains ?p ?s] =>
      let r := eval vm_compute in (Str.contains p s) in
      change (Str.contains p s) with r
  end.

Ltac run_ampm :=
  match goal with
  | |- context [adjust_ampm ?h ?g] =>
      let r := eval vm_compute in (adjust_ampm h g) in
      change (adjust_ampm h g) with r
  end.

Ltac run_closed :=
  unfold existsb; repeat run_search; repeat run_contains; cbv beta iota.

(** *** What the resolvers return *)

Lemma _parse_tomorrow_time_spec now m H M :
  Str.int_opt (group m 1) = Returned H ->
  int_or_zero (group m 2) = Returned M ->
  0 <= adjust_ampm H (group m 3) <= 23 ->
  0 <= M <= 59 ->
  valid_datetime now = true ->
  ordinal now < MAXORDINAL ->
  _parse_tomorrow_time now m
  = Returned (Some (mkDatetime (ordinal now + 1)
                      (adjust_ampm H (group m 3)) M 0 0 (tzinfo now))).
Proof.
  intros E1 E2 Hh Hm Hv Hmax.
  pose proof (valid_datetime_bounds now Hv) as Hb.
  unfold _parse_tomorrow_time. rewrite E1, E2. cbn [obind].
  rewrite (dt_add_days _ _ Hv) by (unfold MAXORDINAL in *; lia). cbn [obind].
  rewrite replace_hm00_ok by assumption. reflexivity.
Qed.

Lemma days_to_next_spec now i :
  0 <= i <= 6 ->
  1 <= days_to_next now i <= 7
  /\ (ordinal now + days_to_next now i + 6) mod 7 = i
  /\ (weekday now = i -> days_to_next now i = 7).
Proof.
  intros Hi. pose proof (weekday_range now) as Hw.
  unfold days_to_next.
  assert (Hmod : forall k, (ordinal now + k + 6) mod 7
                           = (weekday now + k) mod 7).
  { intros k. unfold weekday.
    replace (ordinal now + k + 6) with ((ordinal now + 6) + k) by lia.
    now rewrite Z.add_mod_idemp_l by lia. }
  destruct (Z.leb_spec (i - weekday now) 0); repeat split; try lia.
  - rewrite Hmod.
    replace (weekday now + (i - weekday now + 7)) with (i + 1 * 7) by lia.
    rewrite Z.mod_add by lia. apply Z.mod_small; lia.
  - rewrite Hmod.
    replace (weekday now + (i - weekday now)) with i by lia.
    apply Z.mod_small; lia.
Qed.

Lemma _parse_next_weekday_spec ctx now m w i :
  group m 1 = Some w ->
  dict_get (Str.lower w) weekdays = Some i ->
  valid_time (business_hours_start ctx) = true ->
  valid_datetime now = true ->
  ordinal now + 7 <= MAXORDINAL ->
  _parse_next_weekday ctx now m
  = Returned (Some (mkDatetime (ordinal now + days_to_next now i)
                      (t_hour (business_hours_start ctx))
                      (t_minute (business_hours_start ctx))
                      0 0 (tzinfo now))).
Proof.
  intros Eg Ed Hbs Hv Hmax.
  pose proof (valid_datetime_bounds now Hv) as Hb.
  pose proof (weekdays_range _ _ Ed) as Hi.
  pose proof (days_to_next_spec now i Hi) as (Hk & _ & _).
  apply valid_fields_bounds in Hbs.
  unfold _parse_next_weekday. rewrite Eg. cbn [lower_opt obind].
  rewrite Ed. fold (days_to_next now i).
  rewrite (dt_add_days _ _ Hv) by (unfold MAXORDINAL in *; lia). cbn [obind].
  rewrite replace_hm00_ok by lia. reflexivity.
Qed.

(** A name outside the [weekdays] dict is answered with [None], returned
    and not raised. *)
Lemma _parse_next_weekday_unknown ctx now m w :
  group m 1 = Some w ->
  dict_get (Str.lower w) weekdays = None ->
  _parse_next_weekday ctx now m = Returned None.
Proof.
  intros Eg Ed. unfold _parse_next_weekday.
  rewrite Eg. cbn [lower_opt obind]. now rewrite Ed.
Qed.

(** ** Claims about the parser *)

(** C1 (evaluation at the failing input): on the text
    "next week same time" the parser returns [None] whatever the context
    and the clock: the fourth pattern, [next (\w+)], matches "next week",
    its resolver returns [None] for the unknown day name "week", and the
    loop returns that value; the tenth pattern, which would give
    [now + 7 days], is not reached. *)
Theorem next_week_same_time_unresolved :
  forall ctx now,
    _parse_time_advanced ctx now "next week same time" = None.
Proof.
  intros ctx now.
  unfold _parse_time_advanced, relative_patterns, first_resolving.
  run_closed.
  rewrite (_parse_next_weekday_unknown ctx now _ "week"); reflexivity.
Qed.

(** C5: the fallback extractor on "book a call for 45 min tomorrow at 2pm"
    gives summary "Call", 45 minutes, tomorrow at 14:00:00 in the clock's
    timezone, flexibility "rigid" (whenever tomorrow is a date). *)
Theorem fallback_call_45_min_tomorrow_2pm :
  forall ctx now,
    valid_datetime now = true ->
    ordinal now < MAXORDINAL ->
    _fallback_parsing ctx now "book a call for 45 min tomorrow at 2pm"
    = Returned (mkRequest BOOK_MEETING (Some "Call")
                  (Some (mkDatetime (ordinal now + 1) 14 0 0 0 (tzinfo now)))
                  None 45 [] None "meeting" "normal" "rigid").
Proof.
  intros ctx now Hv Hmax.
  unfold _fallback_parsing, duration_patterns, parse_duration.
  unfold _parse_time_advanced, relative_patterns, first_resolving.
  run_closed.
  match goal with
  | |- context [_parse_tomorrow_time now ?m] =>
      rewrite (_parse_tomorrow_time_spec now m 2 0 eq_refl eq_refl)
  end; repeat run_ampm;
  [reflexivity | lia | lia | assumption | assumption].
Qed.

Lemma fallback_call_45_min_tomorrow_2pm_witness :
  _fallback_parsing default_context sample_now
                    "book a call for 45 min tomorrow at 2pm"
  = Returned (mkRequest BOOK_MEETING (Some "Call")
                (Some (mkDatetime 739001 14 0 0 0 "Asia/Kolkata"))
                None 45 [] None "meeting" "normal" "rigid").
Proof.
  apply (fallback_call_45_min_tomorrow_2pm default_context sample_now).
  - reflexivity.
  - reflexivity.
Defined.

(** *** The tenth pattern is never reached *)

Lemma prefix_app l : forall s, prefix l s = true -> exists rest, s = (l ++ rest)%string.
Proof.
  induction l as [|a l IH]; intros s H.
  - exists s. reflexivity.
  - destruct s as [|b s]; [discriminate|].
    cbn in H. destruct (ascii_dec a b) as [->|]; [|discriminate].
    destruct (IH s H) as [rest ->]. exists rest. reflexivity.
Qed.

Lemma star_match_some {A} c (k : string -> option A) s r :
  star_match c k s = Some r -> exists s', k s' = Some r.
Proof.
  induction s as [|a t IH]; cbn; intros H.
  - eauto.
  - destruct (in_class c a); [|eauto].
    destruct (star_match c k t) as [r'|] eqn:E; [|eauto].
    injection H as ->. now apply IH.
Qed.

(** Where "next week same time" starts, [next (\w+)] matches too. *)
Lemma next_matches_where_same_time_does s m :
  match_here pat_next_week_same_time s = Some m ->
  exists m', match_here pat_next s = Some m'.
Proof.
  unfold match_here, pat_next_week_same_time. cbn [re_match].
  destruct (prefix "next week same time" s) eqn:Hp; [|discriminate].
  intros _. apply prefix_app in Hp. destruct Hp as [rest ->].
  cbn. eexists. reflexivity.
Qed.

Lemma search_next_of_same_time s :
  forall m, search pat_next_week_same_time s = Some m ->
            exists m', search pat_next s = Some m'.
Proof.
  induction s as [|a t IH]; intros m H.
  - cbn in H. discriminate.
  - cbn [search] in H |- *.
    destruct (match_here pat_next_week_same_time (String a t)) as [m0|] eqn:E.
    + apply next_matches_where_same_time_does in E. destruct E as [m' ->].
      eauto.
    + destruct (match_here pat_next (String a t)); [eauto|].
      now apply (IH m).
Qed.

(** A match of [next (\w+)] always has its group. *)
Lemma match_here_next_group s m :
  match_here pat_next s = Some m -> exists w, group m 1 = Some w.
Proof.
  unfold match_here, pat_next. cbn [seqs re_match].
  destruct (prefix "next " s); [|discriminate].
  destruct (Str.drop _ s) as [|a t]; [discriminate|].
  destruct (in_class Word a); [|discriminate].
  intros H. apply star_match_some in H. destruct H as [s' H].
  injection H as <-. eexists. reflexivity.
Qed.

Lemma search_next_group s :
  forall m, search pat_next s = Some m -> exists w, group m 1 = Some w.
Proof.
  induction s as [|a t IH]; intros m H; cbn [search] in H.
  - destruct (match_here pat_next "") eqn:E; [|discriminate].
    injection H as ->. now apply match_here_next_group in E.
  - destruct (match_here pat_next (String a t)) eqn:E.
    + injection H as ->. now apply match_here_next_group in E.
    + now apply IH.
Qed.

(** [_parse_next_weekday] raises only when the date it adds to is too
    close to the end of the calendar for seven more days. *)
Lemma _parse_next_weekday_raises ctx now m w e :
  group m 1 = Some w ->
  valid_time (business_hours_start ctx) = true ->
  valid_datetime now = true ->
  _parse_next_weekday ctx now m = Raised e ->
  dt_add now (timedelta 7 0 0) = Raised OverflowError.
Proof.
  intros Eg Hbs Hv. pose proof (valid_datetime_bounds _ Hv) as Hb.
  unfold _parse_next_weekday. rewrite Eg. cbn [lower_opt obind].
  destruct (dict_get (Str.lower w) weekdays) as [i|] eqn:Ed; [|discriminate].
  pose proof (weekdays_range _ _ Ed) as Hi.
  pose proof (days_to_next_spec now i Hi) as (Hk & _ & _).
  fold (days_to_next now i).
  destruct (Z_le_gt_dec (ordinal now + days_to_next now i) MAXORDINAL).
  - rewrite (dt_add_days _ _ Hv) by lia. cbn [obind].
    apply valid_fields_bounds in Hbs.
    rewrite replace_hm00_ok by lia. discriminate.
  - intros _. apply dt_add_days_overflow; [exact Hv | lia].
Qed.

Lemma first_resolving_same_after_hit l1 p f text m v :
  search p (Str.lower text) = Some m ->
  f m = Returned v ->
  forall l2 l2',
    first_resolving (l1 ++ (p, f) :: l2) text
    = first_resolving (l1 ++ (p, f) :: l2') text.
Proof.
  intros E1 E2 l2 l2'. induction l1 as [|[p' f'] l1 IH]; cbn [app].
  - cbn [first_resolving]. now rewrite E1, E2.
  - cbn [first_resolving]. rewrite IH. reflexivity.
Qed.

Lemma first_resolving_dead_last ps p f text :
  (forall m, search p (Str.lower text) = Some m -> exists e, f m = Raised e) ->
  first_resolving (ps ++ [(p, f)]) text = first_resolving ps text.
Proof.
  intros Hdead. induction ps as [|[p' f'] ps IH]; cbn [app].
  - cbn [first_resolving].
    destruct (search p (Str.lower text)) as [m|] eqn:E; [|reflexivity].
    destruct (Hdead m eq_refl) as [e ->]. reflexivity.
  - cbn [first_resolving]. rewrite IH. reflexivity.
Qed.

(** No text at all is resolved by the tenth pattern: the parser is the
    loop over the first nine.  Whenever "next week same time" occurs,
    [next (\w+)] has matched before it and either returned, or raised for
    a date from which seven more days raise as well. *)
Theorem next_week_same_time_pattern_is_dead ctx now text :
  valid_time (business_hours_start ctx) = true ->
  valid_datetime now = true ->
  _parse_time_advanced ctx now text
  = first_resolving (removelast (relative_patterns ctx now)) text.
Proof.
  intros Hbs Hv. unfold _parse_time_advanced, relative_patterns.
  cbn [removelast].
  match goal with
  | |- first_resolving [?p1; ?p2; ?p3; (?p4, ?f4); ?p5; ?p6; ?p7; ?p8; ?p9;
                           (?p10, ?f10)] _ = _ =>
      change (first_resolving
                ([p1; p2; p3] ++ (p4, f4)
                              :: ([p5; p6; p7; p8; p9] ++ [(p10, f10)])) text
              = first_resolving
                  ([p1; p2; p3] ++ (p4, f4) :: [p5; p6; p7; p8; p9]) text);
      destruct (search p4 (Str.lower text)) as [m4|] eqn:E4;
      [destruct (f4 m4) as [v|e] eqn:Ef|]
  end.
  - now apply first_resolving_same_after_hit with (m := m4) (v := v).
  - rewrite app_comm_cons, app_assoc.
    apply first_resolving_dead_last. intros m _.
    destruct (search_next_group _ _ E4) as [w Eg].
    rewrite (_parse_next_weekday_raises ctx now m4 w e Eg Hbs Hv Ef).
    eexists. reflexivity.
  - rewrite app_comm_cons, app_assoc.
    apply first_resolving_dead_last. intros m E10.
    apply search_next_of_same_time in E10. destruct E10 as [m' E10].
    rewrite E10 in E4. discriminate.
Qed.

(** *** The weekday phrases, scanned *)

Lemma weekday_phrases_scanned :
  forallb (fun w =>
    forallb (fun H =>
      forallb (fun mm =>
        forallb (fun ap => weekday_phrase_scanned w H mm ap) ampm_written)
        minutes_written)
      hours_written)
    weekday_names = true.
Proof. vm_compute. reflexivity. Qed.

Lemma next_phrases_scanned :
  forallb next_phrase_scanned weekday_names = true.
Proof. vm_compute. reflexivity. Qed.

Lemma is_none_true {A} (x : option A) : is_none x = true -> x = None.
Proof. destruct x; [discriminate | reflexivity]. Qed.

Lemma opt_string_eqb_eq a b : opt_string_eqb a b = true -> a = b.
Proof.
  destruct a, b; simpl; try discriminate; try reflexivity.
  intros H. apply String.eqb_eq in H. now subst.
Qed.

Lemma outcome_Z_eqb_eq a v : outcome_Z_eqb a v = true -> a = Returned v.
Proof.
  destruct a; simpl; [|discriminate].
  intros H. apply Z.eqb_eq in H. now subst.
Qed.

Lemma dict_get_In w i : dict_get w weekdays = Some i -> In w weekday_names.
Proof.
  unfold weekday_names.
  generalize weekdays. intros d. induction d as [|[k v] d IH]; simpl.
  - discriminate.
  - destruct (String.eqb_spec w k).
    + intros _. left. now subst.
    + intros H. right. now apply IH.
Qed.

Lemma weekday_names_lower w : In w weekday_names -> Str.lower w = w.
Proof.
  unfold weekday_names, weekdays. simpl.
  intros H. repeat (destruct H as [<- | H]; [reflexivity|]). destruct H.
Qed.

Lemma In_hours_written H : 0 <= H <= 23 -> In H hours_written.
Proof.
  intros Hr. unfold hours_written. apply in_map_iff.
  exists (Z.to_nat H). split; [lia|]. apply in_seq. lia.
Qed.

Lemma In_minutes_written mm :
  match mm with Some M => 0 <= M <= 59 | None => True end ->
  In mm minutes_written.
Proof.
  unfold minutes_written. destruct mm as [M|]; intros Hr.
  - right. apply in_map_iff. exists (Z.to_nat M). split.
    + f_equal. lia.
    + apply in_seq. lia.
  - now left.
Qed.

(** One step of the loop, for a pattern that does not match. *)
Lemma first_resolving_skip p f rest text :
  search p (Str.lower text) = None ->
  first_resolving ((p, f) :: rest) text = first_resolving rest text.
Proof. intros E. simpl. now rewrite E. Qed.

(** One step of the loop, for a pattern that matches and resolves. *)
Lemma first_resolving_hit p f rest text m v :
  search p (Str.lower text) = Some m ->
  f m = Returned v ->
  first_resolving ((p, f) :: rest) text = v.
Proof. intros E1 E2. simpl. now rewrite E1, E2. Qed.

Lemma _parse_weekday_time_spec now m w i H M :
  group m 1 = Some w ->
  dict_get (Str.lower w) weekdays = Some i ->
  Str.int_opt (group m 2) = Returned H ->
  int_or_zero (group m 3) = Returned M ->
  0 <= adjust_ampm H (group m 4) <= 23 ->
  0 <= M <= 59 ->
  valid_datetime now = true ->
  ordinal now + 7 <= MAXORDINAL ->
  _parse_weekday_time now m
  = Returned (Some (mkDatetime
                      (ordinal now
                       + weekday_time_days now i (adjust_ampm H (group m 4)) M)
                      (adjust_ampm H (group m 4)) M 0 0 (tzinfo now))).
Proof.
  intros Eg Ed E2 E3 Hh HM Hv Hmax.
  pose proof (valid_datetime_bounds now Hv) as Hb.
  pose proof (weekdays_range _ _ Ed) as Hi.
  pose proof (weekday_range now) as Hw.
  unfold _parse_weekday_time. rewrite Eg. cbn [lower_opt obind].
  rewrite E2, E3. cbn [obind]. rewrite Ed.
  set (h := adjust_ampm H (group m 4)) in *.
  assert (Hk : 0 <= weekday_time_days now i h M <= 7).
  { unfold weekday_time_days.
    destruct (Z.ltb_spec (i - weekday now) 0); [lia|].
    destruct (Z.eqb_spec (i - weekday now) 0); [|lia].
    destruct (dt_leb _ now); lia. }
  assert (E : (if i - weekday now <? 0 then Returned (i - weekday now + 7)
               else if i - weekday now =? 0 then
                 target_time <- replace_hm00 now h M ;;
                 (if dt_leb target_time now then Returned 7
                  else Returned (i - weekday now))
               else Returned (i - weekday now))
              = Returned (weekday_time_days now i h M)).
  { unfold weekday_time_days.
    destruct (i - weekday now <? 0); [reflexivity|].
    destruct (i - weekday now =? 0); [|reflexivity].
    rewrite replace_hm00_ok by assumption. cbn [obind].
    destruct (dt_leb _ now); reflexivity. }
  rewrite E. cbn [obind].
  rewrite (dt_add_days _ _ Hv) by (unfold MAXORDINAL in *; lia).
  cbn [obind]. rewrite replace_hm00_ok by assumption. reflexivity.
Qed.

(** C3: for every day name [w] of the dict, "next w" is the next day of
    that name strictly after today, seven days ahead when today is that
    day, at the business-hours start; and "w at H[:MM][am|pm]", when [w]
    is today's name, is today if that time is strictly after now and seven
    days ahead otherwise. *)
Theorem weekday_phrases_resolve :
  forall ctx now w i,
    dict_get w weekdays = Some i ->
    valid_time (business_hours_start ctx) = true ->
    valid_datetime now = true ->
    ordinal now + 7 <= MAXORDINAL ->
    (exists k,
        1 <= k <= 7
        /\ (weekday now = i -> k = 7)
        /\ (ordinal now + k + 6) mod 7 = i
        /\ _parse_time_advanced ctx now ("next " ++ w)
           = Some (mkDatetime (ordinal now + k)
                     (t_hour (business_hours_start ctx))
                     (t_minute (business_hours_start ctx))
                     0 0 (tzinfo now)))
    /\ (forall H mm ap,
           0 <= H <= 23 ->
           match mm with Some M => 0 <= M <= 59 | None => True end ->
           In ap ampm_written ->
           adjust_ampm H ap <= 23 ->
           weekday now = i ->
           let h := adjust_ampm H ap in
           let M := match mm with Some M => M | None => 0 end in
           let today := mkDatetime (ordinal now) h M 0 0 (tzinfo now) in
           _parse_time_advanced ctx now (weekday_phrase w H mm ap)
           = Some (if dt_ltb now today then today
                   else mkDatetime (ordinal now + 7) h M 0 0 (tzinfo now))).
Proof.
  intros ctx now w i Hd Hbs Hv Hmax.
  pose proof (dict_get_In _ _ Hd) as Hin.
  pose proof (weekday_names_lower _ Hin) as Hlow.
  pose proof (weekdays_range _ _ Hd) as Hi.
  split.
  - exists (days_to_next now i).
    destruct (days_to_next_spec now i Hi) as (Hk & Hwd & Htoday).
    repeat split; try lia; try assumption.
    pose proof (proj1 (forallb_forall _ _) next_phrases_scanned w Hin) as Hs.
    unfold next_phrase_scanned in Hs.
    repeat rewrite andb_true_iff in Hs.
    destruct Hs as (((N1 & N2) & N3) & Hm).
    apply is_none_true in N1, N2, N3.
    destruct (search pat_next _) as [m|] eqn:Em; [|discriminate].
    apply opt_string_eqb_eq in Hm.
    unfold _parse_time_advanced, relative_patterns.
    rewrite !first_resolving_skip by assumption.
    apply first_resolving_hit with (m := m); [assumption|].
    apply _parse_next_weekday_spec with (w := w); try assumption.
    now rewrite Hlow.
  - intros H mm ap HH Hmm Hap Hh Htoday h M today.
    pose proof (proj1 (forallb_forall _ _) weekday_phrases_scanned w Hin)
      as Hs.
    pose proof (proj1 (forallb_forall _ _) Hs H (In_hours_written H HH))
      as Hs1.
    pose proof (proj1 (forallb_forall _ _) Hs1 mm (In_minutes_written mm Hmm))
      as Hs2.
    pose proof (proj1 (forallb_forall _ _) Hs2 ap Hap) as Hs3.
    clear Hs Hs1 Hs2. unfold weekday_phrase_scanned in Hs3.
    repeat rewrite andb_true_iff in Hs3.
    destruct Hs3 as ((((N1 & N2) & N3) & N4) & Hm).
    apply is_none_true in N1, N2, N3, N4.
    destruct (search pat_weekday_at _) as [m|] eqn:Em; [|discriminate].
    repeat rewrite andb_true_iff in Hm.
    destruct Hm as (((G1 & G2) & G3) & G4).
    apply opt_string_eqb_eq in G1, G4.
    apply outcome_Z_eqb_eq in G2, G3.
    assert (Hh0 : 0 <= adjust_ampm H ap).
    { destruct Hap as [<-|[<-|[<-|[]]]]; unfold adjust_ampm; simpl;
        repeat match goal with |- context [if ?b then _ else _] =>
                                 destruct b end; lia. }
    assert (HM : 0 <= M <= 59).
    { subst M. destruct mm; lia. }
    unfold _parse_time_advanced, relative_patterns.
    rewrite !first_resolving_skip by assumption.
    apply first_resolving_hit with (m := m); [assumption|].
    rewrite (_parse_weekday_time_spec now m w i H M); try assumption.
    + rewrite G4. fold h. do 2 f_equal.
      unfold weekday_time_days. rewrite Htoday, Z.sub_diag. simpl.
      fold today. unfold dt_ltb, dt_leb.
      destruct (Z.leb_spec (dt_us today) (dt_us now));
        destruct (Z.ltb_spec (dt_us now) (dt_us today)); try lia.
      * reflexivity.
      * now rewrite Z.add_0_r.
    + now rewrite Hlow.
    + rewrite G4. lia.
Qed.

Lemma weekday_phrases_resolve_witness :
  _parse_time_advanced default_context sample_monday "next monday"
  = Some (mkDatetime 739005 9 0 0 0 "Asia/Kolkata")
  /\ _parse_time_advanced default_context sample_monday "monday at 3:30pm"
     = Some (mkDatetime 738998 15 30 0 0 "Asia/Kolkata")
  /\ _parse_time_advanced default_context sample_monday "monday at 9"
     = Some (mkDatetime 739005 9 0 0 0 "Asia/Kolkata").
Proof.
  destruct (weekday_phrases_resolve default_context sample_monday "monday" 0
              eq_refl eq_refl eq_refl) as [[k (Hk & H7 & _ & E)] Hat].
  { unfold MAXORDINAL. simpl. lia. }
  rewrite (H7 eq_refl) in E.
  split; [exact E|]. split.
  - apply (Hat 3 (Some 30) (Some "pm")).
    + lia.
    + lia.
    + right; right; left; reflexivity.
    + vm_compute. discriminate.
    + reflexivity.
  - apply (Hat 9 None None).
    + lia.
    + exact I.
    + left; reflexivity.
    + vm_compute. discriminate.
    + reflexivity.
Defined.

(** ** Arithmetic of [dt_add] on the microsecond scale *)

Lemma US_PER_DAY_eq : US_PER_DAY = 86400000000.
Proof. reflexivity. Qed.

(** The fields of a time of day, recomposed. *)
Lemma fields_of_us r :
  0 <= r < US_PER_DAY ->
  valid_fields (r / US_PER_HOUR) ((r mod US_PER_HOUR) / US_PER_MINUTE)
               ((r mod US_PER_MINUTE) / US_PER_SECOND) (r mod US_PER_SECOND)
  = true
  /\ fields_us (r / US_PER_HOUR) ((r mod US_PER_HOUR) / US_PER_MINUTE)
               ((r mod US_PER_MINUTE) / US_PER_SECOND) (r mod US_PER_SECOND)
     = r.
Proof.
  intros Hr. rewrite US_PER_DAY_eq in Hr.
  unfold valid_fields, fields_us, US_PER_HOUR, US_PER_MINUTE, US_PER_SECOND.
  change (60 * (60 * 1000000)) with 3600000000.
  change (60 * 1000000) with 60000000.
  pose proof (Z.div_mod r 3600000000 ltac:(lia)) as E1.
  pose proof (Z.mod_pos_bound r 3600000000 ltac:(lia)) as B1.
  pose proof (Z.div_mod (r mod 3600000000) 60000000 ltac:(lia)) as E2.
  pose proof (Z.mod_pos_bound (r mod 3600000000) 60000000 ltac:(lia)) as B2.
  pose proof (Z.div_mod (r mod 60000000) 1000000 ltac:(lia)) as E3.
  pose proof (Z.mod_pos_bound (r mod 60000000) 1000000 ltac:(lia)) as B3.
  assert (M1 : (r mod 3600000000) mod 60000000 = r mod 60000000).
  { apply Z.mod_mod_divide. exists 60. reflexivity. }
  assert (M2 : (r mod 60000000) mod 1000000 = r mod 1000000).
  { apply Z.mod_mod_divide. exists 60. reflexivity. }
  pose proof (Z.mod_pos_bound r 60000000 ltac:(lia)) as B4.
  pose proof (Z.mod_pos_bound r 1000000 ltac:(lia)) as B5.
  rewrite M1 in E2. rewrite M2 in E3.
  assert (Q1 : 0 <= r / 3600000000 <= 23).
  { split; [apply Z.div_pos; lia|].
    apply Z.lt_succ_r. apply Z.div_lt_upper_bound; lia. }
  assert (Q2 : 0 <= (r mod 3600000000) / 60000000 <= 59).
  { split; [apply Z.div_pos; lia|].
    apply Z.lt_succ_r. apply Z.div_lt_upper_bound; lia. }
  assert (Q3 : 0 <= (r mod 60000000) / 1000000 <= 59).
  { split; [apply Z.div_pos; lia|].
    apply Z.lt_succ_r. apply Z.div_lt_upper_bound; lia. }
  split.
  - rewrite !andb_true_iff, !Z.leb_le. lia.
  - lia.
Qed.

(** [dt_add] is addition on [dt_us], and raises exactly when the day of
    the sum is no date. *)
Lemma dt_add_spec d delta :
  valid_datetime d = true ->
  let t := dt_us d + delta in
  if (1 <=? t / US_PER_DAY) && (t / US_PER_DAY <=? MAXORDINAL) then
    exists d', dt_add d delta = Returned d'
               /\ valid_datetime d' = true
               /\ dt_us d' = t
               /\ tzinfo d' = tzinfo d
  else dt_add d delta = Raised OverflowError.
Proof.
  intros Hv t. unfold dt_add.
  assert (Hd : 0 < US_PER_DAY) by (rewrite US_PER_DAY_eq; lia).
  assert (Eday : ordinal d + (tod_us d + delta) / US_PER_DAY
                 = t / US_PER_DAY).
  { unfold t, dt_us.
    replace (ordinal d * US_PER_DAY + tod_us d + delta)
      with ((tod_us d + delta) + ordinal d * US_PER_DAY) by lia.
    rewrite Z.div_add by lia. lia. }
  assert (Erem : (tod_us d + delta) mod US_PER_DAY = t mod US_PER_DAY).
  { unfold t, dt_us.
    replace (ordinal d * US_PER_DAY + tod_us d + delta)
      with ((tod_us d + delta) + ordinal d * US_PER_DAY) by lia.
    now rewrite Z.mod_add by lia. }
  rewrite Eday, Erem.
  destruct ((1 <=? t / US_PER_DAY) && (t / US_PER_DAY <=? MAXORDINAL))
    eqn:Hrange; [|reflexivity].
  eexists. split; [reflexivity|].
  pose proof (Z.mod_pos_bound t US_PER_DAY Hd) as Hb.
  destruct (fields_of_us _ Hb) as [Hvalid Hsum].
  repeat split.
  - unfold valid_datetime. cbn [ordinal hour minute second microsecond].
    rewrite Hrange. exact Hvalid.
  - unfold dt_us, tod_us. cbn [ordinal hour minute second microsecond].
    rewrite Hsum. pose proof (Z.div_mod t US_PER_DAY ltac:(lia)). lia.
Qed.

Lemma dt_add_returned d delta d' :
  valid_datetime d = true ->
  dt_add d delta = Returned d' ->
  valid_datetime d' = true /\ dt_us d' = dt_us d + delta
  /\ tzinfo d' = tzinfo d.
Proof.
  intros Hv E. pose proof (dt_add_spec d delta Hv) as H. cbv zeta in H.
  destruct (_ && _).
  - destruct H as (d'' & E' & H). rewrite E in E'. now injection E' as <-.
  - rewrite E in H. discriminate.
Qed.

Lemma dt_add_in_range d delta :
  valid_datetime d = true ->
  US_PER_DAY <= dt_us d + delta < (MAXORDINAL + 1) * US_PER_DAY ->
  exists d', dt_add d delta = Returned d'
             /\ valid_datetime d' = true
             /\ dt_us d' = dt_us d + delta
             /\ tzinfo d' = tzinfo d.
Proof.
  intros Hv Hr. pose proof (dt_add_spec d delta Hv) as H. cbv zeta in H.
  assert (Hd : 0 < US_PER_DAY) by (rewrite US_PER_DAY_eq; lia).
  replace ((1 <=? (dt_us d + delta) / US_PER_DAY)
           && ((dt_us d + delta) / US_PER_DAY <=? MAXORDINAL))
    with true in H; [exact H|].
  symmetry. rewrite andb_true_iff, !Z.leb_le. split.
  - apply Z.div_le_lower_bound; lia.
  - apply Z.lt_succ_r. apply Z.div_lt_upper_bound; lia.
Qed.

Lemma replace_hm_spec d h m :
  valid_datetime d = true ->
  0 <= h <= 23 -> 0 <= m <= 59 ->
  exists d', replace_hm d h m = Returned d'
             /\ d' = mkDatetime (ordinal d) h m (second d) (microsecond d)
                                (tzinfo d)
             /\ valid_datetime d' = true.
Proof.
  intros Hv Hh Hm. unfold replace_hm.
  replace ((0 <=? h) && (h <=? 23) && (0 <=? m) && (m <=? 59)) with true
    by (symmetry; rewrite !andb_true_iff, !Z.leb_le; lia).
  eexists. split; [reflexivity|]. split; [reflexivity|].
  apply valid_datetime_bounds in Hv.
  unfold valid_datetime, valid_fields.
  cbn [ordinal hour minute second microsecond].
  rewrite !andb_true_iff, !Z.leb_le. lia.
Qed.

Lemma dt_us_bounds d :
  valid_datetime d = true ->
  ordinal d * US_PER_DAY <= dt_us d < (ordinal d + 1) * US_PER_DAY.
Proof.
  intros Hv. pose proof (tod_us_range d Hv). unfold dt_us. lia.
Qed.

(** ** The slot search *)

Section SlotSearch.
Variable check_availability :
    list cal_call -> datetime -> Z -> outcome bool.

  (** One turn of the [while] loop. *)
Lemma scan_day_S fuel end_time duration increment current l st :
    scan_day check_availability (S fuel) end_time duration increment
             current l st
    = match dt_add current (timedelta 0 0 duration) with
      | Raised e => (Raised e, st)
      | Returned slot_end =>
          if dt_leb slot_end end_time then
            match check_availability (calendar_log st) current duration with
            | Raised e => (Raised e, log_check st current duration)
            | Returned free =>
                let l' := if free then l ++ [current] else l in
                if free && (5 <=? List.length l')%nat then
                  (Returned (Full l'), log_check st current duration)
                else
                  match dt_add current (timedelta 0 0 increment) with
                  | Raised e => (Raised e, log_check st current duration)
                  | Returned next =>
                      scan_day check_availability fuel end_time duration
                               increment next l'
                               (log_check st current duration)
                  end
            end
          else (Returned (More l), st)
      end.
Proof.
    cbn [scan_day]. unfold mbind, lift, call_check_availability, mret, log_check.
    destruct (dt_add current (timedelta 0 0 duration)) as [slot_end|e];
      [|reflexivity].
    destruct (dt_leb slot_end end_time); [|reflexivity].
    destruct (check_availability (calendar_log st) current duration)
      as [free|e]; [|reflexivity].
    destruct (free && _); [reflexivity|].
    destruct (dt_add current (timedelta 0 0 increment)); reflexivity.
Qed.

  (** The search reads the context and only ever asks the calendar for
      availability. *)
Lemma scan_day_frame fuel end_time duration increment :
    forall current l st r st',
      scan_day check_availability fuel end_time duration increment
               current l st = (r, st') ->
      context st' = context st
      /\ exists ext, calendar_log st' = calendar_log st ++ ext
                     /\ forallb is_check ext = true.
Proof.
    induction fuel as [|fuel IH]; intros current l st r st' E.
    - cbn in E. injection E as <- <-. split; [reflexivity|].
      exists []. now rewrite app_nil_r.
    - rewrite scan_day_S in E.
      assert (Hone : context (log_check st current duration) = context st
                     /\ exists ext,
                         calendar_log (log_check st current duration)
                         = calendar_log st ++ ext
                         /\ forallb is_check ext = true).
      { split; [reflexivity|]. eexists. split; reflexivity. }
      destruct (dt_add current (timedelta 0 0 duration)) as [slot_end|e].
      2:{ injection E as <- <-. split; [reflexivity|].
          exists []. now rewrite app_nil_r. }
      destruct (dt_leb slot_end end_time).
      2:{ injection E as <- <-. split; [reflexivity|].
          exists []. now rewrite app_nil_r. }
      destruct (check_availability (calendar_log st) current duration)
        as [free|e].
      2:{ injection E as <- <-. exact Hone. }
      cbv zeta in E. destruct (free && _).
      { injection E as <- <-. exact Hone. }
      destruct (dt_add current (timedelta 0 0 increment)) as [next|e].
      2:{ injection E as <- <-. exact Hone. }
      apply IH in E. destruct E as (Ec & ext & El & Hf).
      split; [exact Ec|].
      exists (CheckAvailability current duration :: ext).
      split; [|exact Hf].
      rewrite El. cbn [log_check calendar_log]. now rewrite <- app_assoc.
Qed.

  (** What a day's scan adds to the suggestions: slots the calendar
      answered free for, at most up to five in all. *)
Lemma scan_day_suggestions fuel end_time duration increment :
    forall current l st r st',
      scan_day check_availability fuel end_time duration increment
               current l st = (Returned r, st') ->
      exists ext,
        suggestions_of r = l ++ ext
        /\ Forall (fun t => exists log,
                       check_availability log t duration = Returned true) ext
        /\ ((List.length l < 5)%nat ->
            (List.length (suggestions_of r) <= 5)%nat
            /\ match r with
               | Full l' => List.length l' = 5%nat
               | More l' => (List.length l' < 5)%nat
               end).
Proof.
    induction fuel as [|fuel IH]; intros current l st r st' E.
    - cbn in E. injection E as <- <-. exists []. cbn.
      rewrite app_nil_r. repeat split; auto; lia.
    - rewrite scan_day_S in E.
      destruct (dt_add current (timedelta 0 0 duration)) as [slot_end|e];
        [|discriminate].
      destruct (dt_leb slot_end end_time).
      2:{ injection E as <- <-. exists []. cbn.
          rewrite app_nil_r. repeat split; auto; lia. }
      destruct (check_availability (calendar_log st) current duration)
        as [free|e] eqn:Ecall; [|discriminate].
      cbv zeta in E. destruct free; cbn [andb] in E.
      + destruct (5 <=? List.length (l ++ [current]))%nat eqn:Hfull.
        * injection E as <- <-. exists [current].
          apply Nat.leb_le in Hfull. rewrite length_app in Hfull.
          cbn [suggestions_of List.length] in *.
          repeat split.
          -- constructor; [|constructor]. eexists; exact Ecall.
          -- rewrite length_app. cbn [List.length]. lia.
          -- rewrite length_app. cbn [List.length]. lia.
        * destruct (dt_add current (timedelta 0 0 increment)) as [next|e];
            [|discriminate].
          apply IH in E. destruct E as (ext & El & Hf & Hlen).
          exists (current :: ext). repeat split.
          -- rewrite El. now rewrite <- app_assoc.
          -- constructor; [eexists; exact Ecall | exact Hf].
          -- apply Hlen. apply Nat.leb_gt in Hfull. exact Hfull.
          -- apply Hlen. apply Nat.leb_gt in Hfull. exact Hfull.
      + destruct (dt_add current (timedelta 0 0 increment)) as [next|e];
          [|discriminate].
        apply IH in E. destruct E as (ext & El & Hf & Hlen).
        exists ext. repeat split; auto; apply Hlen; assumption.
Qed.
End SlotSearch.

Section SlotSearchDays.
Variable check_availability :
    list cal_call -> datetime -> Z -> outcome bool.

  (** One turn of the [for] loop over the days. *)
Lemma scan_days_S remaining day_offset base duration first_inc last_inc
        l st :
    scan_days check_availability (S remaining) day_offset base duration
              first_inc last_inc l st
    = let ctx := context st in
      match dt_add base (timedelta day_offset 0 0) with
      | Raised e => (Raised e, st)
      | Returned current_day =>
          match replace_hm current_day
                           (t_hour (business_hours_start ctx))
                           (t_minute (business_hours_start ctx)) with
          | Raised e => (Raised e, st)
          | Returned start_time =>
              match replace_hm current_day
                               (t_hour (business_hours_end ctx))
                               (t_minute (business_hours_end ctx)) with
              | Raised e => (Raised e, st)
              | Returned end_time =>
                  let increment :=
                    if day_offset =? 0 then first_inc else last_inc in
                  match scan_day check_availability
                                 (S (scan_bound end_time start_time duration
                                                increment))
                                 end_time duration increment start_time l st
                  with
                  | (Raised e, st') => (Raised e, st')
                  | (Returned (Full l'), st') => (Returned l', st')
                  | (Returned (More l'), st') =>
                      scan_days check_availability remaining
                                (day_offset + 1) base duration
                                first_inc last_inc l' st'
                  end
              end
          end
      end.
Proof.
    cbn [scan_days]. unfold mbind, get_context, lift, mret. cbv zeta.
    destruct (dt_add base (timedelta day_offset 0 0)) as [cd|e];
      [|reflexivity].
    destruct (replace_hm cd _ _) as [s|e]; [|reflexivity].
    destruct (replace_hm cd _ _) as [en|e]; [|reflexivity].
    destruct (scan_day _ _ _ _ _ _ _ _) as [[[l'|l']|e] st']; reflexivity.
Qed.

Lemma scan_days_frame remaining :
    forall day_offset base duration first_inc last_inc l st r st',
      scan_days check_availability remaining day_offset base duration
                first_inc last_inc l st = (r, st') ->
      context st' = context st
      /\ exists ext, calendar_log st' = calendar_log st ++ ext
                     /\ forallb is_check ext = true.
Proof.
    induction remaining as [|remaining IH];
      intros day_offset base duration first_inc last_inc l st r st' E.
    - cbn in E. injection E as <- <-. split; [reflexivity|].
      exists []. now rewrite app_nil_r.
    - rewrite scan_days_S in E. cbv zeta in E.
      assert (Hnil : context st = context st
                     /\ exists ext, calendar_log st = calendar_log st ++ ext
                                    /\ forallb is_check ext = true).
      { split; [reflexivity|]. exists []. now rewrite app_nil_r. }
      destruct (dt_add base (timedelta day_offset 0 0)) as [cd|e].
      2:{ injection E as <- <-. exact Hnil. }
      destruct (replace_hm cd _ _) as [s|e].
      2:{ injection E as <- <-. exact Hnil. }
      destruct (replace_hm cd _ _) as [en|e].
      2:{ injection E as <- <-. exact Hnil. }
      destruct (scan_day _ _ _ _ _ _ _ _) as [r1 st1] eqn:Eday.
      apply scan_day_frame in Eday. destruct Eday as (Ec1 & ext1 & El1 & Hf1).
      destruct r1 as [[l'|l']|e].
      + injection E as <- <-. split; [exact Ec1|]. now exists ext1.
      + apply IH in E. destruct E as (Ec & ext & El & Hf).
        split; [congruence|].
        exists (ext1 ++ ext). split.
        * rewrite El, El1. now rewrite app_assoc.
        * rewrite forallb_app. now rewrite Hf1, Hf.
      + injection E as <- <-. split; [exact Ec1|]. now exists ext1.
Qed.

Lemma scan_days_suggestions remaining :
    forall day_offset base duration first_inc last_inc l st r st',
      scan_days check_availability remaining day_offset base duration
                first_inc last_inc l st = (Returned r, st') ->
      exists ext,
        r = l ++ ext
        /\ Forall (fun t => exists log,
                       check_availability log t duration = Returned true) ext
        /\ ((List.length l < 5)%nat -> (List.length r <= 5)%nat).
Proof.
    induction remaining as [|remaining IH];
      intros day_offset base duration first_inc last_inc l st r st' E.
    - cbn in E. injection E as <- <-. exists [].
      rewrite app_nil_r. repeat split; auto. lia.
    - rewrite scan_days_S in E. cbv zeta in E.
      destruct (dt_add base (timedelta day_offset 0 0)) as [cd|e];
        [|discriminate].
      destruct (replace_hm cd _ _) as [s|e]; [|discriminate].
      destruct (replace_hm cd _ _) as [en|e]; [|discriminate].
      destruct (scan_day _ _ _ _ _ _ _ _) as [r1 st1] eqn:Eday.
      destruct r1 as [r1|e]; [|discriminate].
      apply scan_day_suggestions in Eday.
      destruct Eday as (ext1 & El1 & Hf1 & Hlen1).
      destruct r1 as [l'|l']; cbn [suggestions_of] in *.
      + injection E as <- <-. exists ext1. repeat split; auto.
        intros Hl. now apply Hlen1.
      + apply IH in E. destruct E as (ext & El & Hf & Hlen).
        exists (ext1 ++ ext). repeat split.
        * rewrite El, El1. now rewrite app_assoc.
        * apply Forall_app. now split.
        * intros Hl. apply Hlen. now apply Hlen1.
Qed.

  (** The alternative search never returns more than five slots, each of
      them one the calendar answered free for; it leaves the context as it
      was and asks the calendar for nothing but availability. *)
Theorem _suggest_alternative_times_sound requested duration flexibility
          st r st' :
    _suggest_alternative_times check_availability requested duration
                               flexibility st = (r, st') ->
    context st' = context st
    /\ (exists ext, calendar_log st' = calendar_log st ++ ext
                    /\ forallb is_check ext = true)
    /\ (forall l, r = Returned l ->
                  (List.length l <= 5)%nat
                  /\ Forall (fun t => exists log,
                                 check_availability log t duration
                                 = Returned true) l).
Proof.
    unfold _suggest_alternative_times. intros E.
    destruct (if String.eqb flexibility "very_flexible"
              then (14%nat, [30; 60; 120])
              else if String.eqb flexibility "flexible"
                   then (7%nat, [30; 60]) else (2%nat, [30]))
      as [search_days time_increments].
    pose proof (scan_days_frame _ _ _ _ _ _ _ _ _ _ E) as [Hc Hl].
    split; [exact Hc|]. split; [exact Hl|].
    intros l ->. apply scan_days_suggestions in E.
    destruct E as (ext & -> & Hf & Hlen). cbn [app]. split.
    - apply Hlen. cbn. lia.
    - exact Hf.
Qed.
End SlotSearchDays.

(** *** Fuel: the [while] loop stops by its test *)

Lemma timedelta_minutes n : timedelta 0 0 n = n * US_PER_MINUTE.
Proof. unfold timedelta. lia. Qed.

Lemma US_PER_MINUTE_eq : US_PER_MINUTE = 60000000.
Proof. reflexivity. Qed.

Section Fuel.
Variable check_availability :
    list cal_call -> datetime -> Z -> outcome bool.

Lemma scan_day_fuel_step end_time duration increment :
    0 < increment ->
    forall fuel current l st,
      valid_datetime current = true ->
      (scan_bound end_time current duration increment <= fuel)%nat ->
      scan_day check_availability (S fuel) end_time duration increment
               current l st
      = scan_day check_availability (S (S fuel)) end_time duration increment
                 current l st.
Proof.
    intros Hinc.
    induction fuel as [|fuel IH]; intros current l st Hv Hb.
    - rewrite (scan_day_S _ 1), (scan_day_S _ 0).
      destruct (dt_add current (timedelta 0 0 duration)) as [slot_end|e]
        eqn:Eadd; [|reflexivity].
      destruct (dt_leb slot_end end_time) eqn:Hle; [|reflexivity].
      exfalso.
      apply dt_add_returned in Eadd; [|exact Hv].
      destruct Eadd as (_ & Eus & _). rewrite timedelta_minutes in Eus.
      unfold dt_leb in Hle. apply Z.leb_le in Hle.
      unfold scan_bound in Hb.
      assert (0 <= (dt_us end_time - dt_us current
                    - duration * US_PER_MINUTE)
                   / (increment * US_PER_MINUTE)).
      { apply Z.div_pos; rewrite ?US_PER_MINUTE_eq in *; lia. }
      lia.
    - rewrite (scan_day_S _ (S (S fuel))), (scan_day_S _ (S fuel)).
      destruct (dt_add current (timedelta 0 0 duration)) as [slot_end|e]
        eqn:Eadd; [|reflexivity].
      destruct (dt_leb slot_end end_time) eqn:Hle; [|reflexivity].
      destruct (check_availability (calendar_log st) current duration)
        as [free|e]; [|reflexivity].
      cbv zeta. destruct (free && _); [reflexivity|].
      destruct (dt_add current (timedelta 0 0 increment)) as [next|e]
        eqn:Enext; [|reflexivity].
      apply IH.
      + now apply dt_add_returned in Enext.
      + apply dt_add_returned in Eadd; [|exact Hv].
        apply dt_add_returned in Enext; [|exact Hv].
        destruct Eadd as (_ & Eus & _). destruct Enext as (_ & Eus' & _).
        rewrite timedelta_minutes in Eus, Eus'.
        unfold dt_leb in Hle. apply Z.leb_le in Hle.
        unfold scan_bound in *. rewrite Eus'.
        set (D := dt_us end_time - dt_us current
                  - duration * US_PER_MINUTE) in *.
        set (I := increment * US_PER_MINUTE) in *.
        assert (HI : 0 < I) by (unfold I; rewrite US_PER_MINUTE_eq; lia).
        replace (dt_us end_time - (dt_us current + I)
                 - duration * US_PER_MINUTE) with (D + (-1) * I)
          by (unfold D; lia).
        rewrite Z.div_add by lia.
        assert (0 <= D / I) by (apply Z.div_pos; unfold D; lia).
        lia.
Qed.

  (** More fuel than the measure changes nothing: the fuel the search
      passes never runs out before the loop test fails. *)
Theorem scan_day_fuel end_time duration increment current l st extra :
    0 < increment ->
    valid_datetime current = true ->
    scan_day check_availability
             (S (scan_bound end_time current duration increment) + extra)
             end_time duration increment current l st
    = scan_day check_availability
               (S (scan_bound end_time current duration increment))
               end_time duration increment current l st.
Proof.
    intros Hinc Hv. induction extra as [|extra IH].
    - now rewrite Nat.add_0_r.
    - rewrite <- IH.
      replace (S (scan_bound end_time current duration increment) + S extra)%nat
        with (S (S (scan_bound end_time current duration increment + extra)))
        by lia.
      replace (S (scan_bound end_time current duration increment) + extra)%nat
        with (S (scan_bound end_time current duration increment + extra))
        by lia.
      symmetry. apply scan_day_fuel_step; try assumption. lia.
Qed.
End Fuel.

(** *** The search returns, when nothing it calls raises *)

Section Returns.
Variable check_availability :
    list cal_call -> datetime -> Z -> outcome bool.
Hypothesis check_total :
    forall log t d, exists b, check_availability log t d = Returned b.

Lemma scan_day_returns end_time duration increment :
    valid_datetime end_time = true ->
    ordinal end_time + 2 <= MAXORDINAL ->
    0 <= duration * US_PER_MINUTE < US_PER_DAY ->
    0 < increment <= 120 ->
    forall fuel current l st,
      valid_datetime current = true ->
      ordinal end_time * US_PER_DAY <= dt_us current
      <= dt_us end_time + US_PER_DAY ->
      exists r st',
        scan_day check_availability fuel end_time duration increment
                 current l st = (Returned r, st').
Proof.
    intros Hve Hmax Hdur Hinc.
    pose proof (valid_datetime_bounds _ Hve) as Hbe.
    pose proof (dt_us_bounds _ Hve) as Hue.
    induction fuel as [|fuel IH]; intros current l st Hv Hcur.
    - cbn. unfold mret. eauto.
    - rewrite scan_day_S.
      destruct (dt_add_in_range current (timedelta 0 0 duration) Hv)
        as (slot_end & -> & _ & Eus & _).
      { rewrite timedelta_minutes. rewrite US_PER_DAY_eq in *.
        unfold MAXORDINAL in *. lia. }
      destruct (dt_leb slot_end end_time) eqn:Hle; [|eauto].
      destruct (check_total (calendar_log st) current duration) as [free ->].
      cbv zeta. destruct (free && _); [eauto|].
      unfold dt_leb in Hle. apply Z.leb_le in Hle.
      rewrite timedelta_minutes in Eus.
      destruct (dt_add_in_range current (timedelta 0 0 increment) Hv)
        as (next & -> & Hvn & Eusn & _).
      { rewrite timedelta_minutes. rewrite US_PER_DAY_eq in *.
        rewrite US_PER_MINUTE_eq in *. unfold MAXORDINAL in *. lia. }
      apply IH; [exact Hvn|].
      rewrite Eusn, timedelta_minutes.
      rewrite US_PER_DAY_eq in *. rewrite US_PER_MINUTE_eq in *. lia.
Qed.

Lemma scan_days_returns duration first_inc last_inc :
    0 <= duration * US_PER_MINUTE < US_PER_DAY ->
    0 < first_inc <= 120 ->
    0 < last_inc <= 120 ->
    forall remaining day_offset base l st,
      valid_datetime base = true ->
      valid_time (business_hours_start (context st)) = true ->
      valid_time (business_hours_end (context st)) = true ->
      0 <= day_offset ->
      ordinal base + day_offset + Z.of_nat remaining + 1 <= MAXORDINAL ->
      exists r st',
        scan_days check_availability remaining day_offset base duration
                  first_inc last_inc l st = (Returned r, st').
Proof.
    intros Hdur Hfi Hli.
    induction remaining as [|remaining IH];
      intros day_offset base l st Hv Hbs Hbe Hoff Hmax.
    - cbn. unfold mret. eauto.
    - rewrite scan_days_S. cbv zeta.
      pose proof (valid_datetime_bounds _ Hv) as Hb.
      rewrite (dt_add_days _ _ Hv) by lia.
      set (cd := mkDatetime (ordinal base + day_offset) (hour base)
                            (minute base) (second base) (microsecond base)
                            (tzinfo base)).
      assert (Hvcd : valid_datetime cd = true).
      { unfold valid_datetime, valid_fields, cd.
        cbn [ordinal hour minute second microsecond].
        rewrite !andb_true_iff, !Z.leb_le. lia. }
      pose proof (valid_fields_bounds _ _ _ _ Hbs) as Bs.
      pose proof (valid_fields_bounds _ _ _ _ Hbe) as Be.
      destruct (replace_hm_spec cd (t_hour (business_hours_start (context st)))
                  (t_minute (business_hours_start (context st))) Hvcd)
        as (s & -> & Es & Hvs); [lia | lia |].
      destruct (replace_hm_spec cd (t_hour (business_hours_end (context st)))
                  (t_minute (business_hours_end (context st))) Hvcd)
        as (en & -> & Een & Hven); [lia | lia |].
      assert (Hos : ordinal s = ordinal base + day_offset) by now subst s.
      assert (Hoe : ordinal en = ordinal base + day_offset) by now subst en.
      pose proof (dt_us_bounds _ Hvs) as Hus.
      pose proof (dt_us_bounds _ Hven) as Hue.
      destruct (scan_day_returns en duration
                  (if day_offset =? 0 then first_inc else last_inc)
                  Hven ltac:(lia) Hdur
                  ltac:(destruct (day_offset =? 0); lia)
                  (S (scan_bound en s duration
                        (if day_offset =? 0 then first_inc else last_inc)))
                  s l st Hvs ltac:(rewrite US_PER_DAY_eq in *; lia))
        as (r1 & st1 & Eday).
      rewrite Eday.
      destruct r1 as [l'|l']; [eauto|].
      pose proof (scan_day_frame _ _ _ _ _ _ _ _ _ _ Eday) as [Hc _].
      apply IH; try assumption; try lia; now rewrite Hc.
Qed.
End Returns.

(** *** The suggestions come in chronological order *)

Lemma StronglySorted_app {A} (R : A -> A -> Prop) l1 l2 :
  StronglySorted R l1 -> StronglySorted R l2 ->
  (forall x y, In x l1 -> In y l2 -> R x y) ->
  StronglySorted R (l1 ++ l2).
Proof.
  induction 1 as [|a l Hs IH Ha]; intros H2 Hx; cbn [app].
  - exact H2.
  - constructor.
    + apply IH; [exact H2|]. intros x y Hi Hj. apply Hx; [now right|exact Hj].
    + apply Forall_app. split; [exact Ha|].
      apply Forall_forall. intros y Hy. apply Hx; [now left|exact Hy].
Qed.

Lemma replace_hm_returned d h m d' :
  valid_datetime d = true ->
  replace_hm d h m = Returned d' ->
  valid_datetime d' = true /\ ordinal d' = ordinal d.
Proof.
  intros Hv. unfold replace_hm.
  destruct ((0 <=? h) && (h <=? 23) && (0 <=? m) && (m <=? 59)) eqn:E;
    [|discriminate].
  intros H. injection H as <-. split; [|reflexivity].
  apply valid_datetime_bounds in Hv.
  rewrite !andb_true_iff, !Z.leb_le in E.
  unfold valid_datetime, valid_fields.
  cbn [ordinal hour minute second microsecond].
  rewrite !andb_true_iff, !Z.leb_le. lia.
Qed.

Section Chronological.
Variable check_availability :
    list cal_call -> datetime -> Z -> outcome bool.

  (** What one day adds: slots in increasing order, none before the
      first probe, each ending by the day's [end_time]. *)
Lemma scan_day_chronological end_time duration increment :
    0 < increment ->
    forall fuel current l st r st',
      valid_datetime current = true ->
      scan_day check_availability fuel end_time duration increment
               current l st = (Returned r, st') ->
      exists ext,
        suggestions_of r = l ++ ext
        /\ StronglySorted earlier ext
        /\ Forall (fun a => dt_us current <= dt_us a
                            /\ dt_us a + duration * US_PER_MINUTE
                               <= dt_us end_time) ext.
Proof.
    intros Hinc.
    induction fuel as [|fuel IH]; intros current l st r st' Hv E.
    - cbn in E. injection E as <- <-. exists []. cbn [suggestions_of].
      rewrite app_nil_r. repeat constructor.
    - rewrite scan_day_S in E.
      destruct (dt_add current (timedelta 0 0 duration)) as [slot_end|e]
        eqn:Eadd; [|discriminate].
      destruct (dt_leb slot_end end_time) eqn:Hle.
      2:{ injection E as <- <-. exists []. cbn [suggestions_of].
          rewrite app_nil_r. repeat constructor. }
      apply dt_add_returned in Eadd; [|exact Hv].
      destruct Eadd as (_ & Eus & _). rewrite timedelta_minutes in Eus.
      unfold dt_leb in Hle. apply Z.leb_le in Hle. rewrite Eus in Hle.
      destruct (check_availability (calendar_log st) current duration)
        as [free|e]; [|discriminate].
      cbv zeta in E. destruct (free && _) eqn:Hfull.
      { injection E as <- <-. cbn [suggestions_of].
        destruct free; [|discriminate].
        exists [current]. repeat constructor; lia. }
      destruct (dt_add current (timedelta 0 0 increment)) as [next|e]
        eqn:Enext; [|discriminate].
      apply dt_add_returned in Enext; [|exact Hv].
      destruct Enext as (Hvn & Eusn & _). rewrite timedelta_minutes in Eusn.
      assert (Hlt : dt_us current < dt_us next).
      { rewrite Eusn. rewrite US_PER_MINUTE_eq. lia. }
      apply IH in E; [|exact Hvn].
      destruct E as (ext & Eext & Hsorted & Hall).
      assert (Hall' : Forall (fun a => dt_us current <= dt_us a
                                       /\ dt_us a + duration * US_PER_MINUTE
                                          <= dt_us end_time) ext).
      { eapply Forall_impl; [|exact Hall]. cbv beta. intros a Ha. lia. }
      destruct free.
      + exists (current :: ext). repeat split.
        * rewrite Eext, <- app_assoc. reflexivity.
        * constructor; [exact Hsorted|].
          eapply Forall_impl; [|exact Hall]. cbv beta. unfold earlier.
          intros a Ha. lia.
        * constructor; [lia | exact Hall'].
      + exists ext. repeat split; assumption.
Qed.

Lemma scan_days_chronological base duration first_inc last_inc :
    valid_datetime base = true ->
    0 <= duration ->
    0 < first_inc -> 0 < last_inc ->
    forall remaining day_offset l st r st',
      scan_days check_availability remaining day_offset base duration
                first_inc last_inc l st = (Returned r, st') ->
      exists ext,
        r = l ++ ext
        /\ StronglySorted earlier ext
        /\ Forall (fun a => (ordinal base + day_offset) * US_PER_DAY
                            <= dt_us a) ext.
Proof.
    intros Hv Hdur Hfi Hli.
    pose proof (dt_us_bounds _ Hv) as Hub.
    induction remaining as [|remaining IH];
      intros day_offset l st r st' E.
    - cbn in E. injection E as <- <-. exists [].
      rewrite app_nil_r. repeat constructor.
    - rewrite scan_days_S in E. cbv zeta in E.
      destruct (dt_add base (timedelta day_offset 0 0)) as [cd|e] eqn:Ecd;
        [|discriminate].
      apply dt_add_returned in Ecd; [|exact Hv].
      destruct Ecd as (Hvcd & Euscd & _).
      replace (timedelta day_offset 0 0) with (day_offset * US_PER_DAY)
        in Euscd by (unfold timedelta; lia).
      pose proof (dt_us_bounds _ Hvcd) as Hucd.
      assert (Hocd : ordinal cd = ordinal base + day_offset).
      { rewrite US_PER_DAY_eq in *. lia. }
      destruct (replace_hm cd _ _) as [s|e] eqn:Es; [|discriminate].
      destruct (replace_hm cd _ _) as [en|e] eqn:Een in E; [|discriminate].
      apply replace_hm_returned in Es; [|exact Hvcd].
      apply replace_hm_returned in Een; [|exact Hvcd].
      destruct Es as [Hvs Hos]. destruct Een as [Hven Hoen].
      pose proof (dt_us_bounds _ Hvs) as Hus.
      pose proof (dt_us_bounds _ Hven) as Huen.
      destruct (scan_day _ _ _ _ _ _ _ _) as [r1 st1] eqn:Eday.
      destruct r1 as [r1|e]; [|discriminate].
      apply scan_day_chronological in Eday;
        [|destruct (day_offset =? 0); assumption | exact Hvs].
      destruct Eday as (ext1 & Eext1 & Hsorted1 & Hall1).
      assert (Hlow1 : Forall (fun a => (ordinal base + day_offset)
                                       * US_PER_DAY <= dt_us a) ext1).
      { eapply Forall_impl; [|exact Hall1]. cbv beta. intros a Ha.
        rewrite Hos, Hocd in Hus. rewrite US_PER_DAY_eq in *. lia. }
      destruct r1 as [l'|l']; cbn [suggestions_of] in Eext1.
      + injection E as <- <-. exists ext1. repeat split; assumption.
      + apply IH in E. destruct E as (ext2 & Eext2 & Hsorted2 & Hall2).
        exists (ext1 ++ ext2). repeat split.
        * rewrite Eext2, Eext1, <- app_assoc. reflexivity.
        * apply StronglySorted_app; try assumption.
          intros x y Hx Hy. unfold earlier.
          rewrite Forall_forall in Hall1, Hall2.
          specialize (Hall1 x Hx). specialize (Hall2 y Hy).
          rewrite Hoen, Hocd in Huen.
          rewrite US_PER_MINUTE_eq in *. rewrite US_PER_DAY_eq in *. lia.
        * apply Forall_app. split; [exact Hlow1|].
          eapply Forall_impl; [|exact Hall2]. cbv beta. intros a Ha.
          rewrite US_PER_DAY_eq in *. lia.
Qed.

  (** The suggestions are returned earliest first. *)
Theorem _suggest_alternative_times_chronological requested duration
          flexibility st l st' :
    valid_datetime requested = true ->
    0 <= duration ->
    _suggest_alternative_times check_availability requested duration
                               flexibility st = (Returned l, st') ->
    StronglySorted earlier l.
Proof.
    intros Hv Hdur. unfold _suggest_alternative_times.
    destruct (String.eqb flexibility "very_flexible");
      [|destruct (String.eqb flexibility "flexible")];
      cbn [hd last]; intros E;
      apply scan_days_chronological in E; try assumption; try lia;
      destruct E as (ext & -> & Hs & _); exact Hs.
Qed.
End Chronological.

(** *** The window the slots are tested against *)

Lemma dt_add_days_returned base k cd :
  valid_datetime base = true ->
  dt_add base (timedelta k 0 0) = Returned cd ->
  cd = mkDatetime (ordinal base + k) (hour base) (minute base)
                  (second base) (microsecond base) (tzinfo base).
Proof.
  intros Hv E. pose proof (dt_add_spec base (timedelta k 0 0) Hv) as H.
  cbv zeta in H.
  pose proof (tod_us_range base Hv) as Ht.
  assert (Hd : 0 < US_PER_DAY) by (rewrite US_PER_DAY_eq; lia).
  assert (Eday : (dt_us base + timedelta k 0 0) / US_PER_DAY
                 = ordinal base + k).
  { unfold dt_us, timedelta.
    replace (ordinal base * US_PER_DAY + tod_us base
             + (k * US_PER_DAY + 0 * US_PER_HOUR + 0 * US_PER_MINUTE))
      with (tod_us base + (ordinal base + k) * US_PER_DAY) by lia.
    rewrite Z.div_add by lia. rewrite Z.div_small by lia. lia. }
  rewrite Eday in H.
  destruct ((1 <=? ordinal base + k) && (ordinal base + k <=? MAXORDINAL))
    eqn:Hr.
  - apply andb_true_iff in Hr. rewrite !Z.leb_le in Hr.
    rewrite (dt_add_days _ _ Hv) in E by lia. now injection E as <-.
  - rewrite E in H. discriminate.
Qed.

Lemma replace_hm_value d h m d' :
  replace_hm d h m = Returned d' ->
  d' = mkDatetime (ordinal d) h m (second d) (microsecond d) (tzinfo d).
Proof.
  unfold replace_hm. destruct (_ && _); [|discriminate].
  now intros [= <-].
Qed.

Section Window.
Variable check_availability :
    list cal_call -> datetime -> Z -> outcome bool.

Lemma scan_days_window base duration first_inc last_inc :
    valid_datetime base = true ->
    0 < first_inc -> 0 < last_inc ->
    forall remaining day_offset l st r st',
      scan_days check_availability remaining day_offset base duration
                first_inc last_inc l st = (Returned r, st') ->
      exists ext,
        r = l ++ ext
        /\ Forall (fun a => exists k,
                       day_offset <= k < day_offset + Z.of_nat remaining
                       /\ in_window (context st) base duration k a) ext.
Proof.
    intros Hv Hfi Hli.
    induction remaining as [|remaining IH];
      intros day_offset l st r st' E.
    - cbn in E. injection E as <- <-. exists [].
      rewrite app_nil_r. repeat constructor.
    - rewrite scan_days_S in E. cbv zeta in E.
      destruct (dt_add base (timedelta day_offset 0 0)) as [cd|e] eqn:Ecd;
        [|discriminate].
      pose proof (dt_add_returned _ _ _ Hv Ecd) as (Hvcd & _).
      apply dt_add_days_returned in Ecd; [|exact Hv].
      destruct (replace_hm cd _ _) as [s|e] eqn:Es; [|discriminate].
      destruct (replace_hm cd _ _) as [en|e] eqn:Een in E; [|discriminate].
      pose proof (replace_hm_returned _ _ _ _ Hvcd Es) as [Hvs _].
      apply replace_hm_value in Es. apply replace_hm_value in Een.
      destruct (scan_day _ _ _ _ _ _ _ _) as [r1 st1] eqn:Eday.
      destruct r1 as [r1|e]; [|discriminate].
      pose proof (scan_day_frame _ _ _ _ _ _ _ _ _ _ Eday) as [Hctx _].
      apply scan_day_chronological in Eday;
        [|destruct (day_offset =? 0); assumption | exact Hvs].
      destruct Eday as (ext1 & Eext1 & _ & Hall1).
      assert (Hwin1 : Forall (fun a => exists k,
                                  day_offset <= k
                                  < day_offset + Z.of_nat (S remaining)
                                  /\ in_window (context st) base duration k a)
                             ext1).
      { eapply Forall_impl; [|exact Hall1]. cbv beta. intros a [Hlo Hhi].
        exists day_offset. split; [lia|].
        unfold in_window. cbv zeta.
        subst s en cd. unfold dt_us, tod_us, fields_us in Hlo, Hhi.
        cbn [ordinal hour minute second microsecond] in Hlo, Hhi.
        unfold dt_us, tod_us, fields_us. lia. }
      destruct r1 as [l'|l']; cbn [suggestions_of] in Eext1.
      + injection E as <- <-. exists ext1. split; assumption.
      + apply IH in E. destruct E as (ext2 & Eext2 & Hall2).
        exists (ext1 ++ ext2). split.
        * rewrite Eext2, Eext1, <- app_assoc. reflexivity.
        * apply Forall_app. split; [exact Hwin1|].
          eapply Forall_impl; [|exact Hall2]. cbv beta.
          intros a (k & Hk & Hw). exists k. split; [lia|].
          now rewrite <- Hctx.
Qed.

  (** Every suggestion lies in its day's window and ends by the end of
      that window; the window is the business hours exactly when the
      requested time has no seconds and no microseconds. *)
Theorem _suggest_alternative_times_window requested duration flexibility
          st l st' :
    valid_datetime requested = true ->
    _suggest_alternative_times check_availability requested duration
                               flexibility st = (Returned l, st') ->
    Forall (fun a => exists k,
                0 <= k < 14
                /\ in_window (context st) requested duration k a) l.
Proof.
    intros Hv. unfold _suggest_alternative_times.
    destruct (String.eqb flexibility "very_flexible");
      [|destruct (String.eqb flexibility "flexible")];
      cbn [hd last]; intros E;
      apply scan_days_window in E; try assumption; try lia;
      destruct E as (ext & -> & Hall); cbn [app];
      (eapply Forall_impl; [|exact Hall]); cbv beta;
      intros a (k & Hk & Hw); exists k; (split; [lia | exact Hw]).
Qed.
End Window.

(** *** Where a day's candidates start *)

Section OpeningSlot.
Variable check_availability :
    list cal_call -> datetime -> Z -> outcome bool.
Hypothesis check_total :
    forall log t d, exists b, check_availability log t d = Returned b.

Lemma scan_days_first_slot remaining requested duration first_inc last_inc
        st :
    let ctx := context st in
    valid_time (business_hours_start ctx) = true ->
    valid_time (business_hours_end ctx) = true ->
    valid_datetime requested = true ->
    ordinal requested + Z.of_nat remaining + 2 <= MAXORDINAL ->
    0 < duration ->
    minute_of_day (t_hour (business_hours_start ctx))
                  (t_minute (business_hours_start ctx)) + duration
    <= minute_of_day (t_hour (business_hours_end ctx))
                     (t_minute (business_hours_end ctx)) ->
    0 < first_inc <= 120 ->
    0 < last_inc <= 120 ->
    check_availability (calendar_log st) (opening_slot ctx requested) duration
    = Returned true ->
    exists rest st',
      scan_days check_availability (S remaining) 0 requested duration
                first_inc last_inc [] st
      = (Returned (opening_slot ctx requested :: rest), st').
Proof.
    intros ctx Hbs Hbe Hv Hmax Hdur Hfit Hfi Hli Hfree.
    pose proof (valid_datetime_bounds _ Hv) as Hb.
    pose proof (valid_fields_bounds _ _ _ _ Hbs) as Bs.
    pose proof (valid_fields_bounds _ _ _ _ Hbe) as Be.
    unfold minute_of_day in Hfit.
    assert (Hd : 0 <= duration * US_PER_MINUTE < US_PER_DAY).
    { rewrite US_PER_DAY_eq, US_PER_MINUTE_eq. lia. }
    rewrite scan_days_S. cbv zeta. fold ctx.
    rewrite (dt_add_days _ _ Hv) by lia.
    rewrite Z.add_0_r.
    set (cd := mkDatetime (ordinal requested) (hour requested)
                          (minute requested) (second requested)
                          (microsecond requested) (tzinfo requested)).
    assert (Hvcd : valid_datetime cd = true) by (destruct requested; exact Hv).
    destruct (replace_hm_spec cd (t_hour (business_hours_start ctx))
                (t_minute (business_hours_start ctx)) Hvcd)
      as (s & -> & Es & Hvs); [lia | lia |].
    destruct (replace_hm_spec cd (t_hour (business_hours_end ctx))
                (t_minute (business_hours_end ctx)) Hvcd)
      as (en & -> & Een & Hven); [lia | lia |].
    change (mkDatetime (ordinal cd) (t_hour (business_hours_start ctx))
              (t_minute (business_hours_start ctx)) (second cd)
              (microsecond cd) (tzinfo cd))
      with (opening_slot ctx requested) in Es.
    subst s.
    set (s := opening_slot ctx requested) in *.
    assert (Hoe : ordinal en = ordinal requested) by now subst en.
    pose proof (dt_us_bounds _ Hvs) as Hus.
    pose proof (dt_us_bounds _ Hven) as Hue.
    assert (Hos : ordinal s = ordinal requested) by reflexivity.
    change (0 =? 0) with true. cbv iota.
    rewrite scan_day_S.
    destruct (dt_add_in_range s (timedelta 0 0 duration) Hvs)
      as (slot_end & -> & _ & Eus & _).
    { rewrite timedelta_minutes. rewrite US_PER_DAY_eq in *.
      unfold MAXORDINAL in *. lia. }
    assert (Hle : dt_leb slot_end en = true).
    { unfold dt_leb. apply Z.leb_le. rewrite Eus, timedelta_minutes.
      subst en. unfold s, opening_slot, dt_us, tod_us, fields_us, cd.
      cbn [ordinal hour minute second microsecond].
      unfold US_PER_HOUR. rewrite US_PER_MINUTE_eq. lia. }
    rewrite Hle. rewrite Hfree. cbv zeta. cbn [app List.length andb Nat.leb].
    destruct (dt_add_in_range s (timedelta 0 0 first_inc) Hvs)
      as (next & -> & Hvn & Eusn & _).
    { rewrite timedelta_minutes. rewrite US_PER_DAY_eq in *.
      rewrite US_PER_MINUTE_eq in *. unfold MAXORDINAL in *. lia. }
    destruct (scan_day_returns check_availability check_total en duration
                first_inc Hven ltac:(lia) Hd Hfi
                (scan_bound en s duration first_inc) next [s]
                (log_check st s duration) Hvn)
      as (r1 & st1 & Eday).
    { rewrite Eusn, timedelta_minutes.
      unfold dt_leb in Hle. apply Z.leb_le in Hle.
      rewrite Eus, timedelta_minutes in Hle.
      rewrite US_PER_DAY_eq in *. rewrite US_PER_MINUTE_eq in *. lia. }
    rewrite Eday.
    pose proof (scan_day_suggestions _ _ _ _ _ _ _ _ _ _ Eday)
      as (ext & Eext & _).
    destruct r1 as [l'|l']; cbn [suggestions_of] in Eext.
    - exists ext, st1. now rewrite Eext.
    - pose proof (scan_day_frame _ _ _ _ _ _ _ _ _ _ Eday) as [Hc _].
      cbn [log_check context] in Hc.
      destruct (scan_days_returns check_availability check_total duration
                  first_inc last_inc Hd Hfi Hli remaining (0 + 1) requested
                  l' st1 Hv)
        as (r2 & st2 & Edays); try (rewrite Hc; assumption); try lia.
      rewrite Edays.
      pose proof (scan_days_suggestions _ _ _ _ _ _ _ _ _ _ _ Edays)
        as (ext2 & Eext2 & _).
      exists (ext ++ ext2), st2. rewrite Eext2, Eext. reflexivity.
Qed.

  (** Whatever the hour and minute requested, the first slot the search
      probes is [opening_slot]: the business-hours start of the requested
      day, with the seconds and microseconds of the requested time.  When
      the calendar answers free for it, it heads the result, and it is
      strictly earlier than a requested time later in the day. *)
Theorem alternatives_start_at_business_open :
    forall st requested duration flexibility,
      let ctx := context st in
      valid_time (business_hours_start ctx) = true ->
      valid_time (business_hours_end ctx) = true ->
      valid_datetime requested = true ->
      ordinal requested + 16 <= MAXORDINAL ->
      0 < duration ->
      minute_of_day (t_hour (business_hours_start ctx))
                    (t_minute (business_hours_start ctx)) + duration
      <= minute_of_day (t_hour (business_hours_end ctx))
                       (t_minute (business_hours_end ctx)) ->
      check_availability (calendar_log st) (opening_slot ctx requested)
                         duration = Returned true ->
      exists rest st',
        _suggest_alternative_times check_availability requested duration
                                   flexibility st
        = (Returned (opening_slot ctx requested :: rest), st')
        /\ (minute_of_day (t_hour (business_hours_start ctx))
                          (t_minute (business_hours_start ctx))
            < minute_of_day (hour requested) (minute requested) ->
            dt_ltb (opening_slot ctx requested) requested = true).
Proof.
    intros st requested duration flexibility ctx Hbs Hbe Hv Hmax Hdur Hfit
           Hfree.
    assert (Hlt : minute_of_day (t_hour (business_hours_start ctx))
                                (t_minute (business_hours_start ctx))
                  < minute_of_day (hour requested) (minute requested) ->
                  dt_ltb (opening_slot ctx requested) requested = true).
    { unfold minute_of_day, dt_ltb. intros H. apply Z.ltb_lt.
      unfold opening_slot, dt_us, tod_us, fields_us.
      cbn [ordinal hour minute second microsecond].
      unfold US_PER_HOUR. rewrite US_PER_MINUTE_eq. lia. }
    unfold _suggest_alternative_times.
    destruct (String.eqb flexibility "very_flexible");
      [|destruct (String.eqb flexibility "flexible")];
      cbn [hd last];
      (edestruct scan_days_first_slot as (rest & st' & E);
       [exact Hbs | exact Hbe | exact Hv | | exact Hdur | exact Hfit
        | | | exact Hfree | exists rest, st'; split; [exact E | exact Hlt]]);
      cbn; lia.
Qed.
End OpeningSlot.

(** C10 (evaluation at the failing input): a requested time of
    14:00:30.000005, sixty minutes, "rigid", business hours 09:00 to
    17:00, a calendar free in the minute of 09:00 only.  The first slot
    probed, and the candidate returned for each of the two days, is
    09:00:30.000005 and not the business-hours start 09:00:00:
    [replace(hour=, minute=)] keeps the seconds and microseconds of the
    requested time, so where a day's candidates start depends on the
    requested time; asked for 14:00:00 on the same day, the search
    returns 09:00:00.  The candidate of the first day is strictly
    earlier than the requested time. *)
Theorem first_candidates_carry_requested_seconds :
  let requested := mkDatetime 739001 14 0 30 5 "Asia/Kolkata" in
  let on_the_minute := mkDatetime 739001 14 0 0 0 "Asia/Kolkata" in
  let business_start := mkDatetime 739001 9 0 0 0 "Asia/Kolkata" in
  let first := mkDatetime 739001 9 0 30 5 "Asia/Kolkata" in
  fst (_suggest_alternative_times free_at_nine requested 60 "rigid"
                                  fresh_state)
  = Returned [first; mkDatetime 739002 9 0 30 5 "Asia/Kolkata"]
  /\ hd_error (calendar_log
                 (snd (_suggest_alternative_times free_at_nine requested 60
                                                  "rigid" fresh_state)))
     = Some (CheckAvailability first 60)
  /\ first <> business_start
  /\ dt_ltb business_start first = true
  /\ dt_ltb first requested = true
  /\ fst (_suggest_alternative_times free_at_nine on_the_minute 60 "rigid"
                                     fresh_state)
     = Returned [business_start; mkDatetime 739002 9 0 0 0 "Asia/Kolkata"].
Proof.
  vm_compute. repeat split. discriminate.
Qed.

(** ** The booking handler *)

Section Handler.
Variable check_availability :
    list cal_call -> datetime -> Z -> outcome bool.
Variable create_event :
    list cal_call -> option string -> datetime -> Z -> option string
    -> outcome string.
Variable response_chain :
    string -> string -> string -> ConversationContext -> outcome string.
Variable strftime : datetime -> string.
Variable time_strftime : time -> string.

#[local] Abbreviation handle :=
    (_handle_booking_request check_availability create_event response_chain
                             strftime time_strftime).
#[local] Abbreviation respond := (_generate_response response_chain).
#[local] Abbreviation search := (_suggest_alternative_times check_availability).

Lemma _generate_response_pure situation text st :
    exists s, respond situation text st = (Returned s, st).
Proof.
    unfold _generate_response.
    destruct (response_chain _ _ _ _); eauto.
Qed.

  (** With no start time the handler touches neither the calendar nor the
      context: it asks the user for a time, or, for a request without a
      summary, fails on [request.summary.lower()] and answers with the
      error text. *)
Lemma _handle_booking_request_unresolved request st :
    start_time request = None ->
    snd (handle request st) = st
    /\ match summary request with
       | Some s =>
           respond "unclear_time" (unclear_time_text (Str.lower s)) st
           = (Returned (fst (handle request st)), st)
       | None => fst (handle request st) = booking_error_text
       end.
Proof.
    intros E. unfold _handle_booking_request, try_except, booking_body.
    rewrite E. unfold mbind, lift.
    destruct (summary request) as [s|]; cbn [lower_opt].
    - destruct (_generate_response_pure "unclear_time"
                  (unclear_time_text (Str.lower s)) st) as [r Er].
      rewrite Er. cbn. split; reflexivity.
    - cbn. split; reflexivity.
Qed.

Lemma _handle_booking_request_paths request start st :
    start_time request = Some start ->
    _check_business_hours (context st) start = true ->
    booking_path check_availability create_event request start st
                 (snd (handle request st)).
Proof.
    intros E Hbh. unfold _handle_booking_request, try_except, booking_body.
    rewrite E. unfold mbind at 1. unfold get_context at 1.
    rewrite Hbh. cbn [negb].
    unfold mbind at 1. unfold call_check_availability at 1.
    fold (log_check st start (duration request)).
    destruct (check_availability (calendar_log st) start (duration request))
      as [[|]|e] eqn:Echeck.
    - (* free *)
      unfold mbind at 1. unfold call_create_event at 1.
      destruct (create_event _ _ _ _ _) as [result|e] eqn:Ecreate.
      + unfold mbind, get_context, put_context, lift.
        cbn [context calendar_log].
        destruct (summary request) as [s|] eqn:Es; cbn [lower_opt].
        * match goal with
          | |- context [respond ?a ?b ?c] =>
              pose proof (_generate_response_pure a b c) as Hr
          end.
          destruct Hr as [r Er]. rewrite Er. cbn [snd].
          eapply path_success; [exact Echeck | | reflexivity].
          rewrite Es. exact Ecreate.
        * cbn [snd].
          eapply path_success; [exact Echeck | | reflexivity].
          rewrite Es. exact Ecreate.
      + cbn [snd]. eapply path_create_raised; [exact Echeck | | reflexivity].
        exact Ecreate.
    - (* busy *)
      unfold mbind at 1.
      destruct (search start (duration request) (flexibility request)
                       (log_check st start (duration request)))
        as [[alts|e] st1] eqn:Esearch.
      + pose proof (_suggest_alternative_times_sound _ _ _ _ _ _ _ Esearch)
          as (Hc & _ & _).
        destruct alts as [|a rest].
        * destruct (_generate_response_pure "no_alternatives"
                      ("Unfortunately, " ++ strftime start
                   ++ " is already booked, and I couldn't find any suitable alternatives in the next few days. Could you suggest a different time or date range?")%string
                      st1) as [r Er].
          rewrite Er. cbn [snd].
          apply path_no_alternatives; [exact Echeck | exact Esearch].
        * unfold mbind, get_context, put_context.
          match goal with
          | |- context [respond ?a ?b ?c] =>
              pose proof (_generate_response_pure a b c) as Hr
          end.
          destruct Hr as [r Er]. rewrite Er.
          cbn [snd].
          eapply path_alternatives with (a := a) (rest := rest);
            [exact Echeck | | cbn [context]; now rewrite Hc].
          cbn [calendar_log]. rewrite Esearch. f_equal.
          destruct st1 as [c1 l1]. cbn in Hc. now subst.
      + cbn [snd]. eapply path_search_raised; [exact Echeck | |].
        * now rewrite Esearch.
        * now rewrite Esearch.
    - cbn [snd]. eapply path_check_raised; [exact Echeck | reflexivity].
Qed.
End Handler.

Section HandlerLog.
Variable check_availability :
    list cal_call -> datetime -> Z -> outcome bool.
Variable create_event :
    list cal_call -> option string -> datetime -> Z -> option string
    -> outcome string.
Variable response_chain :
    string -> string -> string -> ConversationContext -> outcome string.
Variable strftime : datetime -> string.
Variable time_strftime : time -> string.

#[local] Abbreviation handle' :=
    (_handle_booking_request check_availability create_event response_chain
                             strftime time_strftime).

  (** Outside business hours the handler only words its answer. *)
Lemma _handle_booking_request_outside_hours request start st :
    start_time request = Some start ->
    _check_business_hours (context st) start = false ->
    snd (handle' request st) = st.
Proof.
    intros E Hbh. unfold _handle_booking_request, try_except, booking_body.
    rewrite E. unfold mbind at 1. unfold get_context at 1.
    rewrite Hbh. cbn [negb].
    match goal with
    | |- context [_generate_response response_chain ?a ?b ?c] =>
        pose proof (_generate_response_pure response_chain a b c) as Hr
    end.
    destruct Hr as [r Er]. rewrite Er. reflexivity.
Qed.

  (** Inside business hours the handler's first calendar operation is
      the availability check for the requested start. *)
Lemma _handle_booking_request_checks_first request start st :
    start_time request = Some start ->
    _check_business_hours (context st) start = true ->
    exists ext,
      calendar_log (snd (handle' request st))
      = calendar_log st ++ CheckAvailability start (duration request) :: ext.
Proof.
    intros E Hbh.
    destruct (_handle_booking_request_paths check_availability create_event
                response_chain strftime time_strftime request start st E Hbh)
      as [e Hc Hst | e Hc Hcr Hctx | result Hc Hcr Hctx | e Hc Hs Hst
          | a rest Hc Hs Hctx | Hc Hs].
    - rewrite Hst. exists []. reflexivity.
    - clear Hctx. unfold _handle_booking_request, try_except, booking_body.
      rewrite E. unfold mbind at 1. unfold get_context at 1.
      rewrite Hbh. cbn [negb]. unfold mbind at 1.
      unfold call_check_availability at 1. rewrite Hc.
      unfold mbind at 1. unfold call_create_event at 1.
      fold (log_check st start (duration request)). rewrite Hcr.
      cbn [snd calendar_log log_check].
      eexists. rewrite <- app_assoc. reflexivity.
    - clear Hctx. unfold _handle_booking_request, try_except, booking_body.
      rewrite E. unfold mbind at 1. unfold get_context at 1.
      rewrite Hbh. cbn [negb]. unfold mbind at 1.
      unfold call_check_availability at 1. rewrite Hc.
      unfold mbind at 1. unfold call_create_event at 1.
      fold (log_check st start (duration request)). rewrite Hcr.
      unfold mbind, get_context, put_context, lift.
      destruct (summary request) as [s|]; cbn [lower_opt].
      + match goal with
        | |- context [_generate_response response_chain ?a ?b ?c] =>
            pose proof (_generate_response_pure response_chain a b c) as Hr
        end.
        destruct Hr as [r Er]. rewrite Er.
        cbn [snd calendar_log log_check].
        eexists. rewrite <- app_assoc. reflexivity.
      + cbn [snd calendar_log log_check].
        eexists. rewrite <- app_assoc. reflexivity.
    - rewrite Hst.
      destruct (_suggest_alternative_times check_availability start
                  (duration request) (flexibility request)
                  (log_check st start (duration request)))
        as [r1 st1] eqn:Es.
      apply _suggest_alternative_times_sound in Es.
      destruct Es as (_ & (ext & El & _) & _).
      cbn [snd]. rewrite El. cbn [log_check calendar_log].
      exists ext. now rewrite <- app_assoc.
    - apply _suggest_alternative_times_sound in Hs.
      destruct Hs as (_ & (ext & El & _) & _).
      cbn [calendar_log log_check] in El. rewrite El.
      exists ext. now rewrite <- app_assoc.
    - apply _suggest_alternative_times_sound in Hs.
      destruct Hs as (_ & (ext & El & _) & _).
      cbn [calendar_log log_check] in El. rewrite El.
      exists ext. now rewrite <- app_assoc.
Qed.
End HandlerLog.

(** ** Claims about the booking handler *)

(** C7 (evaluation at the failing input): a request with no start time
    and no summary, as the extraction builds it from a reply whose
    ["summary"] and ["start_time"] are both null.  The handler attempts no
    calendar operation, but it does not ask for the time either:
    [request.summary.lower()] raises inside the [try] and the handler
    answers with its error text. *)
Theorem booking_without_time_or_summary_is_an_error :
  forall check_availability create_event response_chain strftime
         time_strftime st,
    _handle_booking_request check_availability create_event response_chain
                            strftime time_strftime
      (mkRequest BOOK_MEETING None None None 60 [] None "meeting" "normal"
                 "rigid") st
    = (booking_error_text, st).
Proof. reflexivity. Qed.

(** C8: when the availability check answers false and the alternative
    search finds nothing, the handler leaves the context (its pending
    booking included) as it was and asks the calendar for nothing but
    availability; and whenever the handler changes the pending booking,
    either the check answered true and the event was created (pending
    cleared) or the check answered false and the search found a slot
    (pending set to the request). *)
Theorem pending_booking_only_on_success_or_conflict :
  forall check_availability create_event response_chain strftime
         time_strftime request st,
    let st' := snd (_handle_booking_request check_availability create_event
                      response_chain strftime time_strftime request st) in
    (forall start,
        start_time request = Some start ->
        _check_business_hours (context st) start = true ->
        check_availability (calendar_log st) start (duration request)
        = Returned false ->
        fst (_suggest_alternative_times check_availability start
               (duration request) (flexibility request)
               (log_check st start (duration request))) = Returned [] ->
        context st' = context st
        /\ exists ext, calendar_log st' = calendar_log st ++ ext
                       /\ forallb is_check ext = true)
    /\ (pending_booking (context st') <> pending_booking (context st) ->
        exists start,
          start_time request = Some start
          /\ ((check_availability (calendar_log st) start (duration request)
               = Returned true
               /\ (exists result,
                      create_event
                        (calendar_log (log_check st start (duration request)))
                        (summary request) start (duration request)
                        (description request) = Returned result)
               /\ pending_booking (context st') = None)
              \/ (check_availability (calendar_log st) start
                                     (duration request) = Returned false
                  /\ (exists a rest,
                         fst (_suggest_alternative_times check_availability
                                start (duration request) (flexibility request)
                                (log_check st start (duration request)))
                         = Returned (a :: rest))
                  /\ pending_booking (context st')
                     = Some (PendingRequest request)))).
Proof.
  intros check_availability create_event response_chain strftime
         time_strftime request st.
  cbv zeta.
  set (st' := snd (_handle_booking_request check_availability create_event
                     response_chain strftime time_strftime request st)).
  split.
  - intros start E Hbh Hc Hs.
    pose proof (_handle_booking_request_paths check_availability create_event
                  response_chain strftime time_strftime request start st E Hbh)
      as P.
    change (snd _) with st' in P.
    destruct P
      as [e Hc' Hst | e Hc' Hcr Hctx | result Hc' Hcr Hctx | e Hc' Hs' Hst
          | a rest Hc' Hs' Hctx | Hc' Hs']; try congruence.
    + rewrite Hs' in Hs. discriminate.
    + apply _suggest_alternative_times_sound in Hs'.
      destruct Hs' as (Hctx & (ext & El & Hf) & _).
      split; [exact Hctx|].
      exists (CheckAvailability start (duration request) :: ext).
      split; [|exact Hf].
      rewrite El. cbn [log_check calendar_log]. now rewrite <- app_assoc.
  - intros Hneq.
    destruct (start_time request) as [start|] eqn:E.
    2:{ exfalso. apply Hneq. unfold st'.
        destruct (_handle_booking_request_unresolved check_availability
                    create_event response_chain strftime time_strftime
                    request st E) as [-> _].
        reflexivity. }
    destruct (_check_business_hours (context st) start) eqn:Hbh.
    2:{ exfalso. apply Hneq. unfold st'.
        now rewrite (_handle_booking_request_outside_hours check_availability
                       create_event response_chain strftime time_strftime
                       request start st E Hbh). }
    exists start. split; [reflexivity|].
    pose proof (_handle_booking_request_paths check_availability create_event
                  response_chain strftime time_strftime request start st E Hbh)
      as P.
    change (snd _) with st' in P.
    destruct P
      as [e Hc' Hst | e Hc' Hcr Hctx | result Hc' Hcr Hctx | e Hc' Hs' Hst
          | a rest Hc' Hs' Hctx | Hc' Hs'].
    + exfalso. apply Hneq. now rewrite Hst.
    + exfalso. apply Hneq. now rewrite Hctx.
    + left. split; [exact Hc'|]. split; [now exists result|].
      now rewrite Hctx.
    + exfalso. apply Hneq. rewrite Hst.
      destruct (_suggest_alternative_times check_availability start
                  (duration request) (flexibility request)
                  (log_check st start (duration request)))
        as [r1 st1] eqn:Es.
      apply _suggest_alternative_times_sound in Es.
      destruct Es as (Hctx & _). cbn [snd]. now rewrite Hctx.
    + right. split; [exact Hc'|]. split.
      * exists a, rest. now rewrite Hs'.
      * now rewrite Hctx.
    + exfalso. apply Hneq.
      apply _suggest_alternative_times_sound in Hs'.
      destruct Hs' as (Hctx & _). now rewrite Hctx.
Qed.

Lemma pending_booking_only_on_success_or_conflict_witness :
  let request :=
    mkRequest BOOK_MEETING (Some "Meeting")
              (Some (mkDatetime 739001 14 0 0 0 "Asia/Kolkata"))
              None 60 [] None "meeting" "normal" "rigid" in
  let st' := snd (_handle_booking_request always_busy create_ok llm_down
                    no_strftime no_time_strftime request fresh_state) in
  context st' = context fresh_state
  /\ exists ext, calendar_log st' = calendar_log fresh_state ++ ext
                 /\ forallb is_check ext = true.
Proof.
  intros request st'.
  apply (proj1 (pending_booking_only_on_success_or_conflict
                  always_busy create_ok llm_down no_strftime no_time_strftime
                  request fresh_state)
               (mkDatetime 739001 14 0 0 0 "Asia/Kolkata")).
  - reflexivity.
  - reflexivity.
  - reflexivity.
  - vm_compute. reflexivity.
Defined.

Lemma alternatives_start_at_business_open_witness :
  let requested := mkDatetime 739001 14 0 30 5 "Asia/Kolkata" in
  exists rest st',
    _suggest_alternative_times always_free requested 60 "flexible"
                               fresh_state
    = (Returned (mkDatetime 739001 9 0 30 5 "Asia/Kolkata" :: rest), st')
    /\ dt_ltb (mkDatetime 739001 9 0 30 5 "Asia/Kolkata") requested = true.
Proof.
  intros requested.
  destruct (alternatives_start_at_business_open always_free
              (fun _ _ _ => ex_intro _ true eq_refl)
              fresh_state requested 60 "flexible"
              eq_refl eq_refl eq_refl)
    as (rest & st' & E & Hlt).
  - unfold MAXORDINAL. simpl. lia.
  - lia.
  - vm_compute. discriminate.
  - reflexivity.
  - exists rest, st'. split; [exact E|].
    apply Hlt. vm_compute. reflexivity.
Defined.

(** ** Claims about the fallback extractor and the slot search *)

(** C2 (counterexample): on a Wednesday morning, with the default context,
    the fallback extractor does not leave the start time of "schedule
    something flexible around next Monday" unresolved. *)
Lemma fallback_next_monday_is_resolved :
  ~ (exists r,
        _fallback_parsing default_context sample_now
          "schedule something flexible around next Monday" = Returned r
        /\ start_time r = None).
Proof.
  intros (r & E & Hnone).
  vm_compute in E. injection E as <-. discriminate.
Qed.

(** C2 (amended): the fallback extractor gives "schedule something flexible
    around next Monday" the summary "Meeting", the default duration, the
    flexibility "flexible" and a start time: the Monday strictly after
    today at the business-hours start.  With that start inside business
    hours the booking handler does not ask for a time: its first calendar
    operation is the availability check for it. *)
Theorem fallback_next_monday_then_availability_check :
  forall check_availability create_event response_chain strftime
         time_strftime st now,
    let ctx := context st in
    let monday :=
      mkDatetime (ordinal now + days_to_next now 0)
                 (t_hour (business_hours_start ctx))
                 (t_minute (business_hours_start ctx))
                 0 0 (tzinfo now) in
    let request :=
      mkRequest BOOK_MEETING (Some "Meeting") (Some monday) None
                (preferred_meeting_duration ctx) [] None "meeting" "normal"
                "flexible" in
    valid_time (business_hours_start ctx) = true ->
    valid_datetime now = true ->
    ordinal now + 7 <= MAXORDINAL ->
    _fallback_parsing ctx now
      "schedule something flexible around next Monday" = Returned request
    /\ weekday monday = 0
    /\ ordinal now < ordinal monday <= ordinal now + 7
    /\ (_check_business_hours ctx monday = true ->
        exists ext,
          calendar_log
            (snd (_handle_booking_request check_availability create_event
                    response_chain strftime time_strftime request st))
          = calendar_log st
            ++ CheckAvailability monday (preferred_meeting_duration ctx)
            :: ext).
Proof.
  intros check_availability create_event response_chain strftime
         time_strftime st now ctx monday request Hbs Hv Hmax.
  destruct (days_to_next_spec now 0 ltac:(lia)) as (Hk & Hwd & _).
  repeat split.
  - unfold _fallback_parsing, duration_patterns, parse_duration.
    unfold _parse_time_advanced, relative_patterns, first_resolving.
    run_closed.
    match goal with
    | |- context [_parse_next_weekday ctx now ?m] =>
        rewrite (_parse_next_weekday_spec ctx now m "monday" 0 eq_refl eq_refl
                   Hbs Hv Hmax)
    end.
    reflexivity.
  - exact Hwd.
  - cbn [monday ordinal]. lia.
  - cbn [monday ordinal]. lia.
  - intros Hbh.
    apply (_handle_booking_request_checks_first check_availability
             create_event response_chain strftime time_strftime
             request monday st eq_refl Hbh).
Qed.

Lemma fallback_next_monday_then_availability_check_witness :
  _fallback_parsing default_context sample_now
    "schedule something flexible around next Monday"
  = Returned (mkRequest BOOK_MEETING (Some "Meeting")
                (Some (mkDatetime 739005 9 0 0 0 "Asia/Kolkata")) None
                60 [] None "meeting" "normal" "flexible").
Proof.
  apply (fallback_next_monday_then_availability_check
           always_busy create_ok llm_down no_strftime no_time_strftime
           fresh_state sample_now).
  - reflexivity.
  - reflexivity.
  - unfold MAXORDINAL. simpl. lia.
Defined.

(** C6 (evaluation at the failing input): a requested time of 14:00:30,
    sixty minutes, business hours 09:00 to 17:00, a calendar taken until
    16:00.  The search returns the 16:00:30 slot of both days, and the
    first ends at 17:00:30, after the business-hours end:
    [replace(hour=, minute=)] keeps the seconds of the requested time in
    the window the slots are tested against. *)
Theorem alternative_slot_overruns_business_end :
  let requested := mkDatetime 739001 14 0 30 0 "Asia/Kolkata" in
  let slot := mkDatetime 739001 16 0 30 0 "Asia/Kolkata" in
  let slot_end := mkDatetime 739001 17 0 30 0 "Asia/Kolkata" in
  fst (_suggest_alternative_times busy_before_16 requested 60 "rigid"
                                  fresh_state)
  = Returned [slot; mkDatetime 739002 16 0 30 0 "Asia/Kolkata"]
  /\ dt_add slot (timedelta 0 0 60) = Returned slot_end
  /\ _check_business_hours default_context slot_end = false.
Proof. vm_compute. repeat split. Qed.

(** ** The conversation history *)

Lemma lastn_length {A} n (l : list A) : (List.length (lastn n l) <= n)%nat.
Proof. unfold lastn. rewrite length_skipn. lia. Qed.

Lemma lastn_all {A} n (l : list A) :
  (List.length l <= n)%nat -> lastn n l = l.
Proof.
  intros H. unfold lastn.
  replace (List.length l - n)%nat with 0%nat by lia. reflexivity.
Qed.

Lemma lastn_lastn {A} m n (l : list A) :
  (m <= n)%nat -> lastn m (lastn n l) = lastn m l.
Proof.
  intros H. unfold lastn. rewrite length_skipn, skipn_skipn.
  f_equal. lia.
Qed.

Lemma lastn_app {A} n (a b : list A) :
  lastn n (a ++ b)
  = if (List.length b <=? n)%nat then lastn (n - List.length b) a ++ b
    else lastn n b.
Proof.
  unfold lastn. rewrite length_app, skipn_app.
  destruct (Nat.leb_spec (List.length b) n).
  - replace (List.length a + List.length b - n)%nat
      with (List.length a - (n - List.length b))%nat by lia.
    replace (List.length a - (n - List.length b) - List.length a)%nat
      with 0%nat by lia.
    reflexivity.
  - rewrite skipn_all2 by lia. cbn [app]. f_equal. lia.
Qed.

Lemma lastn_lastn_app {A} n (l l' : list A) :
  lastn n (lastn n l ++ l') = lastn n (l ++ l').
Proof.
  rewrite !lastn_app.
  destruct (List.length l' <=? n)%nat eqn:E; [|reflexivity].
  apply Nat.leb_le in E. rewrite lastn_lastn by lia. reflexivity.
Qed.

(** [history[-10:]] taken only when the list is longer than ten is
    [history[-10:]]. *)
Lemma cap_is_lastn {A} (l : list A) :
  (if (10 <? List.length l)%nat then lastn 10 l else l) = lastn 10 l.
Proof.
  destruct (Nat.ltb_spec 10 (List.length l)); [reflexivity|].
  symmetry. apply lastn_all. lia.
Qed.

Lemma set_last_assistant_snoc h e r :
  set_last_assistant (h ++ [e]) r
  = Returned (h ++ [mkEntry (h_user e) (h_timestamp e) (Some r)]).
Proof.
  induction h as [|x h IH]; [reflexivity|].
  cbn [app set_last_assistant].
  destruct (h ++ [e]) as [|y t] eqn:E.
  - destruct h; discriminate.
  - rewrite IH. reflexivity.
Qed.

Section History.
Variable check_availability :
    list cal_call -> datetime -> Z -> outcome bool.
Variable create_event :
    list cal_call -> option string -> datetime -> Z -> option string
    -> outcome string.
Variable response_chain :
    string -> string -> string -> ConversationContext -> outcome string.
Variable intent_chain : string -> ConversationContext -> outcome string.
Variable extraction_chain :
    string -> datetime -> ConversationContext -> outcome llm_extraction.
Variable strftime : datetime -> string.
Variable time_strftime : time -> string.
Variable other_handlers :
    Intent -> string -> datetime -> agent_state -> handled.

#[local] Abbreviation run' :=
    (run check_availability create_event response_chain intent_chain
         extraction_chain strftime time_strftime other_handlers).
#[local] Abbreviation run_turns' :=
    (run_turns check_availability create_event response_chain intent_chain
               extraction_chain strftime time_strftime other_handlers).

  (** The booking handler does not write the history. *)
Lemma _handle_booking_request_history request st :
    conversation_history
      (context (snd (_handle_booking_request check_availability create_event
                       response_chain strftime time_strftime request st)))
    = conversation_history (context st).
Proof.
    destruct (start_time request) as [start|] eqn:E.
    2:{ destruct (_handle_booking_request_unresolved check_availability
                    create_event response_chain strftime time_strftime
                    request st E) as [-> _].
        reflexivity. }
    destruct (_check_business_hours (context st) start) eqn:Hbh.
    2:{ now rewrite (_handle_booking_request_outside_hours check_availability
                       create_event response_chain strftime time_strftime
                       request start st E Hbh). }
    destruct (_handle_booking_request_paths check_availability create_event
                response_chain strftime time_strftime request start st E Hbh)
      as [e Hc' Hst | e Hc' Hcr Hctx | result Hc' Hcr Hctx | e Hc' Hs' Hst
          | a rest Hc' Hs' Hctx | Hc' Hs'].
    - now rewrite Hst.
    - now rewrite Hctx.
    - now rewrite Hctx.
    - rewrite Hst.
      destruct (_suggest_alternative_times check_availability start
                  (duration request) (flexibility request)
                  (log_check st start (duration request)))
        as [r1 st1] eqn:Es.
      apply _suggest_alternative_times_sound in Es.
      destruct Es as (Hctx & _). cbn [snd]. now rewrite Hctx.
    - now rewrite Hctx.
    - apply _suggest_alternative_times_sound in Hs'.
      destruct Hs' as (Hctx & _). now rewrite Hctx.
Qed.

Lemma dispatch_history intent user_input now st r st' :
    dispatch check_availability create_event response_chain extraction_chain
             strftime time_strftime other_handlers intent user_input now st
    = (r, st') ->
    conversation_history (context st') = conversation_history (context st).
Proof.
    unfold dispatch.
    destruct intent;
      try (intros E; injection E as <- <-; reflexivity).
    unfold mbind, _extract_booking_details.
    destruct (extraction_chain user_input now (context st)) as [[|req]|e].
    - destruct (_fallback_parsing _ _ _) as [req|e].
      + pose proof (_handle_booking_request_history req st) as H.
        destruct (_handle_booking_request _ _ _ _ _ req st) as [r1 st1].
        intros E; injection E as <- <-. exact H.
      + intros E; injection E as <- <-. reflexivity.
    - pose proof (_handle_booking_request_history req st) as H.
      destruct (_handle_booking_request _ _ _ _ _ req st) as [r1 st1].
      intros E; injection E as <- <-. exact H.
    - destruct (_fallback_parsing _ _ _) as [req|e'].
      + pose proof (_handle_booking_request_history req st) as H.
        destruct (_handle_booking_request _ _ _ _ _ req st) as [r1 st1].
        intros E; injection E as <- <-. exact H.
      + intros E; injection E as <- <-. reflexivity.
Qed.

  (** One turn: the entry of the turn is appended, the list is cut to its
      last ten, and the entry may have received the response. *)
Lemma run_history user_input timestamp now st :
    exists e,
      h_user e = user_input /\ h_timestamp e = timestamp
      /\ conversation_history
           (context (snd (run' user_input timestamp now st)))
         = lastn 10 (conversation_history (context st) ++ [e]).
Proof.
    unfold run. rewrite cap_is_lastn.
    set (e0 := mkEntry user_input timestamp None).
    set (H0 := conversation_history (context st)).
    assert (Hsplit : lastn 10 (H0 ++ [e0]) = lastn 9 H0 ++ [e0]).
    { rewrite lastn_app. reflexivity. }
    set (st1 := mkState (set_history (context st) (lastn 10 (H0 ++ [e0])))
                        (calendar_log st)).
    set (intent := _recognize_intent intent_chain user_input (context st1)).
    unfold mbind at 1.
    destruct (dispatch _ _ _ _ _ _ _ intent user_input now st1)
      as [[r|e] st2] eqn:Ed.
    - apply dispatch_history in Ed. cbn [st1 context set_history
                                          conversation_history] in Ed.
      unfold mbind, get_context, lift, put_context, mret.
      rewrite Ed, Hsplit, set_last_assistant_snoc.
      cbn [snd context set_last_intent set_history conversation_history].
      exists (mkEntry (h_user e0) (h_timestamp e0) (Some r)).
      repeat split. rewrite lastn_app. reflexivity.
    - apply dispatch_history in Ed. cbn [st1 context set_history
                                          conversation_history] in Ed.
      cbn [snd]. exists e0. repeat split. exact Ed.
Qed.

Lemma run_turns_history :
    forall t turns st,
    exists entries,
      map h_user entries = map turn_text (t :: turns)
      /\ map h_timestamp entries = map turn_timestamp (t :: turns)
      /\ conversation_history (context (run_turns' (t :: turns) st))
         = lastn 10 (conversation_history (context st) ++ entries).
Proof.
    intros t turns. revert t.
    induction turns as [|t2 turns IH]; intros t st.
    - cbn [run_turns].
      destruct (run_history (turn_text t) (turn_timestamp t) (turn_now t) st)
        as (e & Hu & Ht & Hh).
      exists [e]. cbn [map]. rewrite Hu, Ht. auto.
    - cbn [run_turns].
      destruct (run_history (turn_text t) (turn_timestamp t) (turn_now t) st)
        as (e & Hu & Ht & Hh).
      specialize (IH t2 (snd (run' (turn_text t) (turn_timestamp t)
                                   (turn_now t) st))).
      cbn [run_turns] in IH.
      destruct IH as (es & Hus & Hts & Hhs).
      exists (e :: es). cbn [map]. rewrite Hu, Ht.
      cbn [map] in Hus, Hts. rewrite Hus, Hts.
      repeat split.
      rewrite Hhs, Hh, lastn_lastn_app, <- app_assoc. reflexivity.
Qed.

  (** C9: after one or more turns, from any state, the history is the last
      ten entries of the old history followed by one entry per turn, in
      the order of the turns: never more than ten, the oldest dropped
      first, the order of the others kept.  From a new agent this holds
      after every sequence of turns, the empty one included. *)
Theorem history_capped_fifo :
    (forall t turns st,
        let st' := run_turns' (t :: turns) st in
        (List.length (conversation_history (context st')) <= 10)%nat
        /\ exists entries,
            map h_user entries = map turn_text (t :: turns)
            /\ map h_timestamp entries = map turn_timestamp (t :: turns)
            /\ conversation_history (context st')
               = lastn 10 (conversation_history (context st) ++ entries))
    /\ (forall turns log,
           let st' := run_turns' turns (mkState default_context log) in
           (List.length (conversation_history (context st')) <= 10)%nat
           /\ exists entries,
               map h_user entries = map turn_text turns
               /\ map h_timestamp entries = map turn_timestamp turns
               /\ conversation_history (context st') = lastn 10 entries).
Proof.
    split.
    - intros t turns st st'.
      destruct (run_turns_history t turns st) as (es & Hu & Ht & Hh).
      split; [|now exists es].
      subst st'. rewrite Hh. apply lastn_length.
    - intros [|t turns] log st'.
      + cbn in st'. subst st'. cbn. split; [lia|]. now exists [].
      + destruct (run_turns_history t turns (mkState default_context log))
          as (es & Hu & Ht & Hh).
        cbn [context default_context conversation_history app] in Hh.
        split; [|now exists es].
        subst st'. rewrite Hh. apply lastn_length.
Qed.
End History.

(** ** Claims about the calendar service *)

Module CalendarFacts.
Import Calendar.

Lemma try_except2_raised body on_http on_other s e s' :
  body s = (Raised e, s') ->
  try_except2 body on_http on_other s
  = (match e with
     | HttpError reason => on_http reason
     | _ => on_other e
     end, s').
Proof.
  intros E. unfold try_except2. rewrite E. destruct e; reflexivity.
Qed.

Lemma try_except2_returned body on_http on_other s v s' :
  body s = (Returned v, s') ->
  try_except2 body on_http on_other s = (v, s').
Proof. intros E. unfold try_except2. now rewrite E. Qed.

Section Operations.
Variable api_list : list api_request -> api_request
                      -> outcome (list api_event).
Variable api_insert : list api_request -> api_request
                        -> outcome (option string * option string).
Variable api_delete : list api_request -> api_request -> outcome unit.
Variable api_get : list api_request -> api_request -> outcome api_event.
Variable api_update : list api_request -> api_request -> outcome unit.
Variable fromisoformat : string -> outcome datetime.
Variable isoformat : datetime -> string.
Variable strftime : string -> datetime -> string.
Variable _get_cache_key : string -> list (string * string) -> string.
Variable str_exn : exn -> string.
Variable minutes_between : datetime -> datetime -> Z.
Variable str_replace_Z : string -> string.

  (** C4 (amended): whatever is raised inside an operation, by the API or
      by the operation's own code, the operation returns: [False] from
      [check_availability], [cancel_event] and [reschedule_event], the
      empty list from [get_upcoming_events] and [get_busy_times], and from
      [create_event] a text that starts " Failed to create event: ". *)
Theorem operations_report_failure :
    forall s e s',
      (forall start_time duration_minutes buffer_minutes,
          check_availability_body api_list isoformat _get_cache_key
            start_time duration_minutes buffer_minutes s = (Raised e, s') ->
          check_availability api_list isoformat _get_cache_key
            start_time duration_minutes buffer_minutes s
          = (PBool false, s'))
      /\ (forall now limit days_ahead,
             get_upcoming_events_body api_list fromisoformat isoformat
               _get_cache_key minutes_between str_replace_Z now limit
               days_ahead s = (Raised e, s') ->
             get_upcoming_events api_list fromisoformat isoformat
               _get_cache_key minutes_between str_replace_Z now limit
               days_ahead s = (PEvents [], s'))
      /\ (forall now reference,
             cancel_event_body api_list api_delete fromisoformat isoformat
               strftime _get_cache_key minutes_between str_replace_Z now
               reference s = (Raised e, s') ->
             cancel_event api_list api_delete fromisoformat isoformat
               strftime _get_cache_key minutes_between str_replace_Z now
               reference s = (PBool false, s'))
      /\ (forall now reference new_start_time new_duration,
             reschedule_event_body api_list api_get api_update fromisoformat
               isoformat strftime _get_cache_key minutes_between
               str_replace_Z now reference new_start_time new_duration s
             = (Raised e, s') ->
             reschedule_event api_list api_get api_update fromisoformat
               isoformat strftime _get_cache_key minutes_between
               str_replace_Z now reference new_start_time new_duration s
             = (PBool false, s'))
      /\ (forall start_time end_time,
             get_busy_times_body api_list fromisoformat isoformat
               str_replace_Z start_time end_time s = (Raised e, s') ->
             get_busy_times api_list fromisoformat isoformat str_replace_Z
               start_time end_time s = (PIntervals [], s'))
      /\ (forall created_at summary start_time duration_minutes description
                 attendees location,
             create_event_body api_insert isoformat strftime created_at
               summary start_time duration_minutes description attendees
               location s = (Raised e, s') ->
             exists reason,
               create_event api_insert isoformat strftime str_exn created_at
                 summary start_time duration_minutes description attendees
                 location s
               = (PStr (" Failed to create event: " ++ reason)%string, s')).
Proof.
    intros s e s'. repeat split.
    - intros start_time duration_minutes buffer_minutes E.
      unfold check_availability.
      rewrite (try_except2_raised _ _ _ _ _ _ E). destruct e; reflexivity.
    - intros now limit days_ahead E. unfold get_upcoming_events.
      rewrite (try_except2_raised _ _ _ _ _ _ E). destruct e; reflexivity.
    - intros now reference E. unfold cancel_event.
      rewrite (try_except2_raised _ _ _ _ _ _ E). destruct e; reflexivity.
    - intros now reference new_start_time new_duration E.
      unfold reschedule_event.
      rewrite (try_except2_raised _ _ _ _ _ _ E). destruct e; reflexivity.
    - intros start_time end_time E. unfold get_busy_times.
      rewrite (try_except2_raised _ _ _ _ _ _ E). destruct e; reflexivity.
    - intros created_at summary start_time duration_minutes description
             attendees location E.
      unfold create_event. rewrite (try_except2_raised _ _ _ _ _ _ E).
      destruct e; eexists; reflexivity.
Qed.

  (** An error of the API on the listing makes [check_availability]
      answer [False], unless the answer is served from the cache. *)
Lemma check_availability_api_error start_time duration_minutes s e :
    valid_datetime start_time = true ->
    US_PER_DAY <= dt_us start_time + duration_minutes * US_PER_MINUTE
    < (MAXORDINAL + 1) * US_PER_DAY ->
    _cache_expiry s = [] ->
    (forall log r, api_list log r = Raised e) ->
    fst (check_availability api_list isoformat _get_cache_key
                            start_time duration_minutes 0 s)
    = PBool false.
Proof.
    intros Hv Hr Hc Hapi.
    pose proof (dt_us_bounds _ Hv) as Hb.
    pose proof (valid_datetime_bounds _ Hv) as Hvb.
    unfold check_availability, try_except2, check_availability_body.
    unfold bind at 1. unfold _rate_limit at 1.
    unfold bind at 1. unfold lift_outcome at 1.
    destruct (dt_add_in_range start_time (- timedelta 0 0 0) Hv)
      as (cs & -> & Hvcs & _).
    { rewrite timedelta_minutes. rewrite US_PER_DAY_eq in *.
      unfold MAXORDINAL in *. lia. }
    unfold bind at 1. unfold lift_outcome at 1.
    destruct (dt_add_in_range start_time (timedelta 0 0 duration_minutes) Hv)
      as (en & -> & Hven & Een & _).
    { now rewrite timedelta_minutes. }
    unfold bind at 1. unfold lift_outcome at 1.
    destruct (dt_add_in_range en (timedelta 0 0 0) Hven)
      as (ce & -> & _).
    { rewrite Een, !timedelta_minutes. lia. }
    unfold bind at 1. unfold _is_cache_valid at 1.
    cbn [_cache_expiry]. rewrite Hc. cbn [assoc].
    unfold bind at 1. unfold send at 1. rewrite Hapi.
    destruct e; reflexivity.
Qed.
End Operations.

(** C4 (counterexample): when the API refuses the insertion,
    [create_event] returns the text " Failed to create event: quota
    exceeded", which is neither [False] nor an empty list. *)
Lemma create_event_failure_is_a_text :
  fst (create_event quota_exceeded no_isoformat no_format no_text
                    some_slot "Standup" some_slot 30 "" [] "" idle_service)
  = PStr " Failed to create event: quota exceeded"
  /\ ~ fail_soft
       (fst (create_event quota_exceeded no_isoformat no_format no_text
                          some_slot "Standup" some_slot 30 "" [] ""
                          idle_service)).
Proof.
  split; [vm_compute; reflexivity|].
  intros [H | [H | H]]; vm_compute in H; discriminate.
Qed.

Lemma operations_report_failure_witness :
  check_availability quota_exceeded no_isoformat no_key some_slot 30 0
                     idle_service
  = (PBool false,
     mkService [] [] 1000 1000 [EventsList "" "" None]).
Proof.
  apply (proj1 (operations_report_failure
                  quota_exceeded quota_exceeded quota_exceeded quota_exceeded
                  quota_exceeded no_parse no_isoformat no_format no_key
                  no_text no_minutes no_replace idle_service
                  (HttpError (Some "quota exceeded"))
                  (mkService [] [] 1000 1000 [EventsList "" "" None]))).
  vm_compute. reflexivity.
Defined.

End CalendarFacts.
(** ** The matcher against the declarative reading *)

Lemma length_app_string (a b : string) :
  String.length (a ++ b)%string = (String.length a + String.length b)%nat.
Proof. induction a as [|c a IH]; simpl; [reflexivity | now rewrite IH]. Qed.

Lemma take_app (a b : string) : Str.take (String.length a) (a ++ b)%string = a.
Proof. induction a as [|c a IH]; simpl; [now destruct b | now rewrite IH]. Qed.

Lemma drop_app (a b : string) : Str.drop (String.length a) (a ++ b)%string = b.
Proof. induction a as [|c a IH]; simpl; [reflexivity | exact IH]. Qed.

Lemma consumed_app (t s' : string) : consumed (t ++ s')%string s' = t.
Proof.
  unfold consumed. rewrite length_app_string.
  replace (String.length t + String.length s' - String.length s')%nat
    with (String.length t) by lia.
  apply take_app.
Qed.

Lemma append_assoc (a b c : string) :
  ((a ++ b) ++ c = a ++ (b ++ c))%string.
Proof. induction a as [|x a IH]; simpl; [reflexivity | now rewrite IH]. Qed.

Lemma append_nil_r (a : string) : (a ++ "")%string = a.
Proof. induction a as [|x a IH]; simpl; [reflexivity | now rewrite IH]. Qed.

Lemma prefix_append (l s : string) : prefix l (l ++ s)%string = true.
Proof.
  induction l as [|c l IH]; simpl; [now destruct s|].
  destruct (ascii_dec c c); [exact IH | congruence].
Qed.

Lemma all_in_class_digits s : all_in_class Digit s = Str.all_digits s.
Proof. induction s as [|a s IH]; simpl; [reflexivity | now rewrite IH]. Qed.

Lemma all_in_class_app c a b :
  all_in_class c (a ++ b)%string = all_in_class c a && all_in_class c b.
Proof.
  induction a as [|x a IH]; simpl; [reflexivity|].
  now rewrite IH, andb_assoc.
Qed.

Lemma lookup_app n (a b : captures) :
  lookup n (a ++ b)
  = match lookup n a with Some x => Some x | None => lookup n b end.
Proof.
  induction a as [|[m s] a IH]; simpl; [reflexivity|].
  destruct (Nat.eqb n m); [reflexivity | exact IH].
Qed.

(** Whatever [star_match] returns, its continuation returned, after a run
    of characters of the class. *)
Lemma star_match_sound {A} c (k : string -> option A) :
  forall s x,
    star_match c k s = Some x ->
    exists t s', s = (t ++ s')%string /\ all_in_class c t = true
                 /\ k s' = Some x.
Proof.
  induction s as [|a s IH]; intros x H; simpl in H.
  - exists "", "". auto.
  - destruct (in_class c a) eqn:Ea.
    + destruct (star_match c k s) as [r|] eqn:Es.
      * injection H as <-.
        destruct (IH r eq_refl) as (t & s' & -> & Ht & Hk).
        exists (String a t), s'. simpl. rewrite Ea, Ht. auto.
      * exists "", (String a s). auto.
    + exists "", (String a s). auto.
Qed.

(** The repetition is greedy: when the continuation accepts what follows
    the longest run, that is the match. *)
Lemma star_match_greedy {A} c (k : string -> option A) w t x :
  all_in_class c w = true ->
  match t with String a _ => in_class c a = false | EmptyString => True end ->
  k t = Some x ->
  star_match c k (w ++ t)%string = Some x.
Proof.
  intros Hw Ht Hk. induction w as [|b w IH]; simpl.
  - destruct t as [|a t]; simpl; [exact Hk | now rewrite Ht].
  - simpl in Hw. apply andb_true_iff in Hw as [Hb Hw].
    rewrite Hb, (IH Hw). reflexivity.
Qed.

Lemma captured_ok_mono r r' e :
  (forall n r1, In (n, r1) (bodies r) -> In (n, r1) (bodies r')) ->
  captured_ok r e -> captured_ok r' e.
Proof. intros H (r1 & Hi & Hm). exists r1. auto. Qed.

(** Soundness of the matcher: a successful match splits the subject into
    the text the pattern matches and the rest, on which the continuation
    succeeded; every group it captured is one of the pattern's, with a
    text its body matches; the groups outside [?] and [|] are all
    captured. *)
Lemma re_match_sound {A} r :
  forall s caps (k : string -> captures -> option A) x,
    re_match r s caps k = Some x ->
    exists t s' new,
      s = (t ++ s')%string /\ matches r t
      /\ k s' (new ++ caps) = Some x
      /\ Forall (captured_ok r) new
      /\ (forall n, In n (mandatory r) -> exists txt, lookup n new = Some txt).
Proof.
  induction r as [l|c|r1 IH1 r2 IH2|r1 IH1 r2 IH2|r1 IH1|c|c|n r1 IH1];
    intros s caps k x H; simpl in H.
  - destruct (prefix l s) eqn:Ep; [|discriminate].
    apply prefix_app in Ep as [rest ->]. rewrite drop_app in H.
    exists l, rest, []. repeat split; auto using matches_lit.
    intros n [].
  - destruct s as [|a s]; [discriminate|].
    destruct (in_class c a) eqn:Ea; [|discriminate].
    exists (String a ""), s, []. repeat split; auto using matches_cls.
    intros n [].
  - apply IH1 in H as (t1 & s1 & new1 & -> & M1 & H & F1 & G1).
    apply IH2 in H as (t2 & s2 & new2 & -> & M2 & H & F2 & G2).
    exists (t1 ++ t2)%string, s2, (new2 ++ new1).
    rewrite append_assoc, <- app_assoc.
    repeat split; auto using matches_seq.
    + apply Forall_app. split.
      * eapply Forall_impl; [|exact F2]. intros e.
        apply captured_ok_mono. intros; simpl; apply in_or_app; auto.
      * eapply Forall_impl; [|exact F1]. intros e.
        apply captured_ok_mono. intros; simpl; apply in_or_app; auto.
    + intros n Hn. simpl in Hn. rewrite lookup_app.
      destruct (lookup n new2) as [txt|] eqn:E2; [eauto|].
      apply in_app_or in Hn as [Hn|Hn]; [now apply G1|].
      destruct (G2 n Hn) as [txt E]. congruence.
  - destruct (re_match r1 s caps k) as [y|] eqn:E1.
    + injection H as <-.
      apply IH1 in E1 as (t & s' & new & -> & M & H & F & _).
      exists t, s', new. repeat split; auto using matches_alt_l.
      * eapply Forall_impl; [|exact F]. intros e.
        apply captured_ok_mono. intros; simpl; apply in_or_app; auto.
      * intros n [].
    + apply IH2 in H as (t & s' & new & -> & M & H & F & _).
      exists t, s', new. repeat split; auto using matches_alt_r.
      * eapply Forall_impl; [|exact F]. intros e.
        apply captured_ok_mono. intros; simpl; apply in_or_app; auto.
      * intros n [].
  - destruct (re_match r1 s caps k) as [y|] eqn:E1.
    + injection H as <-.
      apply IH1 in E1 as (t & s' & new & -> & M & H & F & _).
      exists t, s', new. repeat split; auto using matches_opt_some.
      intros n [].
    + exists "", s, []. repeat split; auto using matches_opt_none.
      intros n [].
  - apply star_match_sound in H as (t & s' & -> & Ht & H).
    exists t, s', []. repeat split; auto using matches_star.
    intros n [].
  - destruct s as [|a s]; [discriminate|].
    destruct (in_class c a) eqn:Ea; [|discriminate].
    apply star_match_sound in H as (t & s' & -> & Ht & H).
    exists (String a t), s', []. repeat split; auto using matches_plus.
    intros n [].
  - apply IH1 in H as (t & s' & new & -> & M & H & F & G).
    rewrite consumed_app in H.
    exists t, s', ((n, t) :: new).
    repeat split; auto using matches_grp.
    + constructor.
      * exists r1. simpl. auto.
      * eapply Forall_impl; [|exact F]. intros e.
        apply captured_ok_mono. intros; simpl; auto.
    + intros m Hm. simpl.
      destruct (Nat.eqb m n) eqn:E; [eauto|].
      destruct Hm as [<-|Hm]; [now rewrite Nat.eqb_refl in E|].
      now apply G.
Qed.

(** A pattern of optional parts matches wherever its continuation does. *)
Lemma star_match_always {A} c (k : string -> option A) :
  (forall s, k s <> None) -> forall s, star_match c k s <> None.
Proof.
  intros Hk. induction s as [|a s IH]; simpl; [apply Hk|].
  destruct (in_class c a); [|apply Hk].
  destruct (star_match c k s); [discriminate | apply Hk].
Qed.

Lemma re_match_always {A} r :
  always r = true ->
  forall (k : string -> captures -> option A),
    (forall s c, k s c <> None) ->
    forall s caps, re_match r s caps k <> None.
Proof.
  induction r as [l|c|r1 IH1 r2 IH2|r1 IH1 r2 IH2|r1 IH1|c|c|n r1 IH1];
    simpl; intros Ha k Hk s caps; try discriminate.
  - apply andb_true_iff in Ha as [H1 H2].
    apply IH1; [exact H1|]. intros s' c'. now apply IH2.
  - destruct (re_match r1 s caps k); [discriminate | apply Hk].
  - apply star_match_always. intros s'. apply Hk.
  - apply IH1; [exact Ha|]. intros s' c'. apply Hk.
Qed.

(** [re.search] returns the match at the first position that has one. *)
Lemma search_here r s m : match_here r s = Some m -> search r s = Some m.
Proof. intros H. destruct s; simpl; now rewrite H. Qed.

Lemma search_sound r :
  forall s m, search r s = Some m ->
              exists pre s0, s = (pre ++ s0)%string
                             /\ match_here r s0 = Some m.
Proof.
  induction s as [|a s IH]; intros m H; simpl in H.
  - destruct (match_here r "") eqn:E; [|discriminate].
    injection H as ->. exists "", "". auto.
  - destruct (match_here r (String a s)) eqn:E.
    + injection H as ->. exists "", (String a s). auto.
    + apply IH in H as (pre & s0 & -> & H).
      exists (String a pre), s0. auto.
Qed.

(** What a match object holds. *)
Lemma match_here_sound r s m :
  match_here r s = Some m ->
  exists t s', s = (t ++ s')%string /\ matches r t /\ whole m = t
               /\ groups_len m = ngroups r
               /\ Forall (captured_ok r) (caps m)
               /\ (forall n, In n (mandatory r) ->
                             exists txt, group m n = Some txt).
Proof.
  unfold match_here. intros H.
  apply re_match_sound in H as (t & s' & new & -> & M & H & F & G).
  injection H as <-. rewrite app_nil_r, consumed_app.
  exists t, s'. simpl. repeat split; auto.
Qed.

Lemma lookup_captured r new n txt :
  Forall (captured_ok r) new -> lookup n new = Some txt ->
  exists r1, In (n, r1) (bodies r) /\ matches r1 txt.
Proof.
  induction new as [|[m s] new IH]; simpl; [discriminate|].
  intros F H. inversion F as [|e l He F']; subst.
  destruct (Nat.eqb n m) eqn:E.
  - apply Nat.eqb_eq in E as ->. injection H as ->. exact He.
  - now apply IH.
Qed.

(** The text of a group of [\d+] is a number [int] reads. *)
Lemma digit_val_nonneg a : Str.is_digit a = true -> 0 <= Str.digit_val a <= 9.
Proof.
  unfold Str.is_digit, Str.digit_val. cbv zeta.
  rewrite andb_true_iff, !N.leb_le. intros [H1 H2]. lia.
Qed.

Lemma int_acc_nonneg t :
  forall acc, 0 <= acc -> Str.all_digits t = true -> 0 <= Str.int_acc acc t.
Proof.
  induction t as [|b t IH]; cbn [Str.int_acc Str.all_digits];
    intros acc Hacc H; [exact Hacc|].
  apply andb_true_iff in H as [Hb H]. apply IH; [|exact H].
  apply digit_val_nonneg in Hb. lia.
Qed.

Lemma matches_plus_digit s :
  (String.length s <= Str.MAX_STR_DIGITS)%nat ->
  matches (Plus Digit) s -> exists n, Str.int s = Returned n /\ 0 <= n.
Proof.
  intros Hlen M. inversion M as [| | | | | | | |c a t Ha Ht|]; subst.
  rewrite all_in_class_digits in Ht. change (in_class Digit a) with (Str.is_digit a) in Ha.
  unfold Str.int. cbn [Str.all_digits Str.int_acc]. rewrite Ha, Ht.
  apply Nat.leb_le in Hlen. rewrite Hlen. cbn [andb].
  eexists. split; [reflexivity|].
  apply int_acc_nonneg; [|exact Ht].
  apply digit_val_nonneg in Ha. lia.
Qed.

(** No group is longer than the text searched. *)
Lemma length_take n (s : string) :
  (String.length (Str.take n s) <= String.length s)%nat.
Proof.
  revert s. induction n as [|n IH]; intros [|a s]; simpl; try lia.
  specialize (IH s). lia.
Qed.

Lemma length_drop n (s : string) :
  (String.length (Str.drop n s) <= String.length s)%nat.
Proof.
  revert s. induction n as [|n IH]; intros [|a s]; simpl; try lia.
  specialize (IH s). lia.
Qed.

Lemma re_match_len {A} r :
  forall s caps (k : string -> captures -> option A) x,
    re_match r s caps k = Some x ->
    exists s' new,
      k s' (new ++ caps) = Some x
      /\ (String.length s' <= String.length s)%nat
      /\ Forall (fun e => (String.length (snd e) <= String.length s)%nat) new.
Proof.
  induction r as [l|c|r1 IH1 r2 IH2|r1 IH1 r2 IH2|r1 IH1|c|c|n r1 IH1];
    intros s caps k x H; simpl in H.
  - destruct (prefix l s); [|discriminate].
    exists (Str.drop (String.length l) s), []. repeat split; auto.
    apply length_drop.
  - destruct s as [|a s]; [discriminate|].
    destruct (in_class c a); [|discriminate].
    exists s, []. repeat split; auto. simpl. lia.
  - apply IH1 in H as (s1 & new1 & H & L1 & F1).
    apply IH2 in H as (s2 & new2 & H & L2 & F2).
    exists s2, (new2 ++ new1). rewrite <- app_assoc.
    repeat split; [exact H | lia |].
    apply Forall_app. split; [|exact F1].
    eapply Forall_impl; [|exact F2]. cbv beta. intros e He. lia.
  - destruct (re_match r1 s caps k) as [y|] eqn:E1.
    + injection H as <-. now apply IH1 in E1.
    + now apply IH2 in H.
  - destruct (re_match r1 s caps k) as [y|] eqn:E1.
    + injection H as <-. now apply IH1 in E1.
    + exists s, []. repeat split; auto.
  - apply star_match_sound in H as (t & s' & -> & _ & H).
    exists s', []. repeat split; auto.
    rewrite length_app_string. lia.
  - destruct s as [|a s]; [discriminate|].
    destruct (in_class c a); [|discriminate].
    apply star_match_sound in H as (t & s' & -> & _ & H).
    exists s', []. repeat split; auto.
    simpl. rewrite length_app_string. lia.
  - apply IH1 in H as (s' & new & H & L & F).
    exists s', ((n, consumed s s') :: new).
    repeat split; [exact H | exact L |].
    constructor; [|exact F].
    cbn [snd]. unfold consumed. apply length_take.
Qed.

Lemma lookup_Forall (P : string -> Prop) n (c : captures) txt :
  Forall (fun e => P (snd e)) c -> lookup n c = Some txt -> P txt.
Proof.
  induction c as [|[m s] c IH]; simpl; [discriminate|].
  intros F H. inversion F as [|e l He F']; subst.
  destruct (Nat.eqb n m); [injection H as <-; exact He | now apply IH].
Qed.

Lemma search_group_len r :
  forall s m n txt,
    search r s = Some m -> group m n = Some txt ->
    (String.length txt <= String.length s)%nat.
Proof.
  intros s m n txt Hs Hg.
  apply search_sound in Hs as (pre & s0 & -> & Hm).
  unfold match_here in Hm.
  apply re_match_len in Hm as (s' & new & Hk & _ & F).
  injection Hk as <-. unfold group in Hg. cbn [caps] in Hg.
  rewrite app_nil_r in Hg.
  pose proof (lookup_Forall
                (fun t => (String.length t <= String.length s0)%nat)
                n new txt F Hg) as H.
  cbv beta in H. rewrite length_app_string. lia.
Qed.

Lemma length_lower s : String.length (Str.lower s) = String.length s.
Proof. induction s as [|a s IH]; simpl; [reflexivity | now rewrite IH]. Qed.
(** ** Phrases of the parser, for every text of a form *)

Lemma re_match_lit {A} l s caps (k : string -> captures -> option A) :
  re_match (Lit l) (l ++ s)%string caps k = k s caps.
Proof. simpl. now rewrite prefix_append, drop_app. Qed.

(** A group of [c+] takes the whole run [w] when the rest of the pattern
    accepts what follows it. *)
Lemma re_match_grp_plus {A} n c w t caps
      (k : string -> captures -> option A) x :
  w <> "" -> all_in_class c w = true -> match t with String a _ => in_class c a = false | EmptyString => True end ->
  k t ((n, w) :: caps) = Some x ->
  re_match (Grp n (Plus c)) (w ++ t)%string caps k = Some x.
Proof.
  intros Hne Hw Ht Hk. destruct w as [|a w]; [congruence|].
  simpl in Hw. apply andb_true_iff in Hw as [Ha Hw].
  cbn [re_match append]. rewrite Ha.
  apply star_match_greedy; [exact Hw | exact Ht |].
  change (String a (w ++ t)%string) with (String a w ++ t)%string.
  now rewrite consumed_app.
Qed.

Lemma int_nonempty ds n : Str.int ds = Returned n ->
                          ds <> "" /\ Str.all_digits ds = true.
Proof.
  unfold Str.int. destruct ds as [|a ds]; [discriminate|].
  destruct (Str.all_digits (String a ds)); [|discriminate].
  intros _. split; [discriminate | reflexivity].
Qed.

Lemma weekday_names_words w :
  In w weekday_names -> w <> "" /\ all_in_class Word w = true.
Proof.
  intros H.
  assert (E : forallb (fun w => negb (String.eqb w "") && all_in_class Word w)
                      weekday_names = true) by reflexivity.
  rewrite forallb_forall in E. apply E in H.
  apply andb_true_iff in H as [H1 H2]. split; [|exact H2].
  intros ->. discriminate.
Qed.

Lemma re_match_seq {A} r1 r2 s caps (k : string -> captures -> option A) :
  re_match (Seq r1 r2) s caps k
  = re_match r1 s caps (fun s' caps' => re_match r2 s' caps' k).
Proof. reflexivity. Qed.

Lemma re_match_alt {A} r1 r2 s caps (k : string -> captures -> option A) :
  re_match (Alt r1 r2) s caps k
  = match re_match r1 s caps k with
    | Some x => Some x
    | None => re_match r2 s caps k
    end.
Proof. reflexivity. Qed.

(** The end of a match that closes with [s?]. *)
Lemma opt_s_final s0 post caps n :
  exists m, re_match opt_s post caps
                     (fun s' c => Some (mkMatch (consumed s0 s') c n))
            = Some m
            /\ Re.caps m = caps.
Proof.
  unfold opt_s. cbn [re_match].
  destruct (prefix "s" post); eexists; split; reflexivity.
Qed.

(** The unit and what follows it: "hour", "hr", "minute", "min". *)
Lemma offset_tail rx u post s0 n caps :
  In (rx, u) [(Alt (Lit "hour") (Lit "hr"), "hour");
              (Alt (Lit "hour") (Lit "hr"), "hr");
              (Alt (Lit "minute") (Lit "min"), "minute");
              (Alt (Lit "minute") (Lit "min"), "min")] ->
  exists m, re_match (Seq rx opt_s) (u ++ post)%string caps
                     (fun s' c => Some (mkMatch (consumed s0 s') c n))
            = Some m
            /\ Re.caps m = caps.
Proof.
  assert (Hfirst : forall l r2 post,
             exists m, re_match (Seq (Alt (Lit l) r2) opt_s)
                                (l ++ post)%string caps
                                (fun s' c => Some (mkMatch (consumed s0 s') c n))
                       = Some m
                       /\ Re.caps m = caps).
  { intros l r2 post'. rewrite re_match_seq, re_match_alt, re_match_lit.
    destruct (opt_s_final s0 post' caps n) as (m & E & Hc).
    rewrite E. eauto. }
  assert (Hsecond : forall l1 l post,
             prefix l1 (l ++ post)%string = false ->
             exists m, re_match (Seq (Alt (Lit l1) (Lit l)) opt_s)
                                (l ++ post)%string caps
                                (fun s' c => Some (mkMatch (consumed s0 s') c n))
                       = Some m
                       /\ Re.caps m = caps).
  { intros l1 l post' Hp. rewrite re_match_seq, re_match_alt.
    replace (re_match (Lit l1) (l ++ post')%string caps
               (fun s' caps' =>
                  re_match opt_s s' caps'
                    (fun s'0 c => Some (mkMatch (consumed s0 s'0) c n))))
      with (@None match_obj) by (simpl; now rewrite Hp).
    rewrite re_match_lit.
    destruct (opt_s_final s0 post' caps n) as (m & E & Hc).
    rewrite E. eauto. }
  intros Hin. simpl in Hin.
  destruct Hin as [E|[E|[E|[E|[]]]]]; injection E as <- <-.
  - apply Hfirst.
  - apply Hsecond. reflexivity.
  - apply Hfirst.
  - destruct (prefix "ute" post) eqn:Eu.
    + apply prefix_app in Eu as [post' ->].
      change ("min" ++ "ute" ++ post')%string with ("minute" ++ post')%string.
      apply Hfirst.
    + apply Hsecond. exact Eu.
Qed.

(** "in N hours", "in N hr", "in N minutes", "in N min", with anything
    after the unit: the pattern matches at the start and its group is the
    number as written. *)
Lemma search_in_offset rx u ds post :
  In (rx, u) [(pat_in_hours, "hour"); (pat_in_hours, "hr");
              (pat_in_minutes, "minute"); (pat_in_minutes, "min")] ->
  ds <> "" -> Str.all_digits ds = true ->
  exists m, search rx ("in " ++ ds ++ " " ++ u ++ post)%string = Some m
            /\ group m 1 = Some ds.
Proof.
  intros Hin Hne Hd.
  assert (G : forall rxu,
             In (rxu, u) [(Alt (Lit "hour") (Lit "hr"), "hour");
                          (Alt (Lit "hour") (Lit "hr"), "hr");
                          (Alt (Lit "minute") (Lit "min"), "minute");
                          (Alt (Lit "minute") (Lit "min"), "min")] ->
             exists m,
               match_here (seqs [Lit "in "; Grp 1 (Plus Digit); Lit " ";
                                 rxu; opt_s])
                          ("in " ++ ds ++ " " ++ u ++ post)%string = Some m
               /\ group m 1 = Some ds).
  { intros rxu Hu. unfold match_here. cbn [seqs].
    match goal with
    | |- context [re_match _ ?s0 [] (fun s' c => Some (mkMatch _ c ?n))] =>
        destruct (offset_tail rxu u post s0 n [(1%nat, ds)] Hu)
          as (m & E & Hc)
    end.
    exists m. split; [|unfold group; rewrite Hc; simpl; reflexivity].
    rewrite re_match_seq, re_match_lit, re_match_seq.
    apply re_match_grp_plus; auto.
    - now rewrite all_in_class_digits.
    - reflexivity.
    - rewrite re_match_seq.
      change (" " ++ u ++ post)%string with (" " ++ (u ++ post))%string.
      rewrite re_match_lit. exact E. }
  simpl in Hin.
  destruct Hin as [E|[E|[E|[E|[]]]]]; injection E as <- <-;
    (edestruct G as (m & Em & Hg);
     [|exists m; split; [apply search_here; exact Em | exact Hg]]);
    simpl; auto.
Qed.

(** X1: in an ASCII text, "in N hours" and "in N minutes" (units "hour",
    "hr", "minute", "min", with or without the plural "s", and anything
    after; N a run of digits that [int] reads, so of at most 4300
    digits) resolve to the clock reading moved by exactly that much:
    seconds and microseconds are those of the clock.  For the minute
    forms the text must hold no "in N hours" phrase, which is tried
    first. *)
Theorem relative_offset_resolves :
  forall ctx now text ds n u per post,
    Str.is_ascii text = true ->
    Str.int ds = Returned n ->
    In (u, per) offset_units ->
    Str.lower text = ("in " ++ ds ++ " " ++ u ++ post)%string ->
    (per = US_PER_MINUTE -> search pat_in_hours (Str.lower text) = None) ->
    valid_datetime now = true ->
    US_PER_DAY <= dt_us now + n * per < (MAXORDINAL + 1) * US_PER_DAY ->
    exists r,
      _parse_time_advanced ctx now text = Some r
      /\ dt_us r = dt_us now + n * per
      /\ tzinfo r = tzinfo now
      /\ valid_datetime r = true.
Proof.
  intros ctx now text ds n u per post _ Hint Hu Htext Hmin Hv Hrange.
  destruct (int_nonempty _ _ Hint) as [Hne Hd].
  destruct (dt_add_in_range now (n * per) Hv Hrange) as (r & Er & Hvr & Hus & Htz).
  exists r. repeat split; auto.
  unfold _parse_time_advanced, relative_patterns.
  unfold offset_units in Hu. simpl in Hu.
  destruct Hu as [E|[E|[E|[E|[]]]]]; injection E as <- <-.
  - destruct (search_in_offset pat_in_hours "hour" ds post) as (m & Em & Hg);
      [simpl; auto | exact Hne | exact Hd |].
    rewrite <- Htext in Em.
    eapply first_resolving_hit; [exact Em|].
    rewrite Hg. cbn [Str.int_opt obind]. rewrite Hint. cbn [obind].
    replace (timedelta 0 n 0) with (n * US_PER_HOUR) by (unfold timedelta; lia).
    now rewrite Er.
  - destruct (search_in_offset pat_in_hours "hr" ds post) as (m & Em & Hg);
      [simpl; auto | exact Hne | exact Hd |].
    rewrite <- Htext in Em.
    eapply first_resolving_hit; [exact Em|].
    rewrite Hg. cbn [Str.int_opt obind]. rewrite Hint. cbn [obind].
    replace (timedelta 0 n 0) with (n * US_PER_HOUR) by (unfold timedelta; lia).
    now rewrite Er.
  - destruct (search_in_offset pat_in_minutes "minute" ds post)
      as (m & Em & Hg); [simpl; auto | exact Hne | exact Hd |].
    rewrite <- Htext in Em.
    rewrite first_resolving_skip by (apply Hmin; reflexivity).
    eapply first_resolving_hit; [exact Em|].
    rewrite Hg. cbn [Str.int_opt obind]. rewrite Hint. cbn [obind].
    replace (timedelta 0 0 n) with (n * US_PER_MINUTE)
      by (unfold timedelta; lia).
    now rewrite Er.
  - destruct (search_in_offset pat_in_minutes "min" ds post)
      as (m & Em & Hg); [simpl; auto | exact Hne | exact Hd |].
    rewrite <- Htext in Em.
    rewrite first_resolving_skip by (apply Hmin; reflexivity).
    eapply first_resolving_hit; [exact Em|].
    rewrite Hg. cbn [Str.int_opt obind]. rewrite Hint. cbn [obind].
    replace (timedelta 0 0 n) with (n * US_PER_MINUTE)
      by (unfold timedelta; lia).
    now rewrite Er.
Qed.

Lemma relative_offset_resolves_witness :
  exists r,
    _parse_time_advanced default_context sample_now "In 36 hours, please" = Some r
    /\ dt_us r = dt_us sample_now + 36 * US_PER_HOUR
    /\ tzinfo r = tzinfo sample_now
    /\ valid_datetime r = true.
Proof.
  apply (relative_offset_resolves default_context sample_now
           "In 36 hours, please" "36" 36 "hour" US_PER_HOUR "s, please").
  - reflexivity.
  - reflexivity.
  - simpl. auto.
  - reflexivity.
  - intros H. vm_compute in H. discriminate.
  - reflexivity.
  - vm_compute. split; [discriminate | reflexivity].
Defined.

(** X2: whatever follows "next <weekday>" is ignored.  An ASCII text that
    starts with "next" and a day name (no "in N hours", "in N minutes" or
    "tomorrow at N" phrase in it) resolves to the next such day strictly
    after today at the business-hours start, also when a clock time
    follows the name, as in "next Monday at 10am". *)
Theorem next_weekday_ignores_what_follows :
  forall ctx now text w i rest,
    Str.is_ascii text = true ->
    dict_get w weekdays = Some i ->
    Str.lower text = ("next " ++ w ++ rest)%string ->
    word_ends rest ->
    search pat_in_hours (Str.lower text) = None ->
    search pat_in_minutes (Str.lower text) = None ->
    search pat_tomorrow_at (Str.lower text) = None ->
    valid_time (business_hours_start ctx) = true ->
    valid_datetime now = true ->
    ordinal now + 7 <= MAXORDINAL ->
    _parse_time_advanced ctx now text
    = Some (mkDatetime (ordinal now + days_to_next now i)
              (t_hour (business_hours_start ctx))
              (t_minute (business_hours_start ctx))
              0 0 (tzinfo now))
    /\ 1 <= days_to_next now i <= 7
    /\ (ordinal now + days_to_next now i + 6) mod 7 = i.
Proof.
  intros ctx now text w i rest _ Hw Htext Hrest H1 H2 H3 Hbs Hv Hmax.
  pose proof (dict_get_In _ _ Hw) as Hin.
  destruct (weekday_names_words _ Hin) as [Hne Hword].
  pose proof (weekdays_range _ _ Hw) as Hi.
  destruct (days_to_next_spec now i Hi) as (Hk & Hmod & _).
  split; [|split; assumption].
  assert (Em : exists m, search pat_next (Str.lower text) = Some m
                         /\ group m 1 = Some w).
  { rewrite Htext. eexists. split.
    - apply search_here. unfold match_here, pat_next. cbn [seqs].
      rewrite re_match_seq, re_match_lit.
      apply re_match_grp_plus; [exact Hne | exact Hword | exact Hrest |].
      reflexivity.
    - reflexivity. }
  destruct Em as (m & Em & Hg).
  unfold _parse_time_advanced, relative_patterns.
  rewrite !first_resolving_skip by assumption.
  eapply first_resolving_hit; [exact Em|].
  apply (_parse_next_weekday_spec ctx now m w i); auto.
  now rewrite (weekday_names_lower _ Hin).
Qed.

Lemma next_weekday_ignores_what_follows_witness :
  _parse_time_advanced default_context sample_now "next Monday at 10am"
  = Some (mkDatetime 739005 9 0 0 0 "Asia/Kolkata").
Proof.
  apply (next_weekday_ignores_what_follows default_context sample_now
           "next Monday at 10am" "monday" 0 " at 10am");
    try reflexivity.
  unfold MAXORDINAL. simpl. lia.
Defined.

(** The clock part of a pattern: one or two digits. *)
Lemma matches_digit12_int s :
  matches digit12 s -> exists n, Str.int s = Returned n.
Proof.
  unfold digit12. intros M.
  inversion M as [| |r1 r2 s1 s2 M1 M2| | | | | | |]; subst.
  inversion M1 as [|c a Ha| | | | | | | |]; subst.
  change (in_class Digit a) with (Str.is_digit a) in Ha.
  inversion M2 as [| | | | |r|r s M3| | |]; subst.
  - unfold Str.int. simpl. rewrite Ha. simpl. eauto.
  - inversion M3 as [|c b Hb| | | | | | | |]; subst.
    change (in_class Digit b) with (Str.is_digit b) in Hb.
    unfold Str.int. simpl. rewrite Ha, Hb. simpl. eauto.
Qed.

Lemma matches_digit2_int s :
  matches digit2 s -> exists n, int_or_zero (Some s) = Returned n.
Proof.
  unfold digit2. intros M.
  inversion M as [| |r1 r2 s1 s2 M1 M2| | | | | | |]; subst.
  inversion M1 as [|c a Ha| | | | | | | |]; subst.
  inversion M2 as [|c b Hb| | | | | | | |]; subst.
  change (in_class Digit a) with (Str.is_digit a) in Ha.
  change (in_class Digit b) with (Str.is_digit b) in Hb.
  unfold int_or_zero, Str.int_opt, Str.int. simpl. rewrite Ha, Hb. simpl.
  eauto.
Qed.

(** X3: in an ASCII text, a word before " at <clock>" that is no day
    name leaves the time unresolved.  The pattern "<word> at <clock>" is tried before
    "at <clock>", and its resolver returns no time for an unknown day
    name, so "today at 3pm" or "meeting at 3pm" give no start time. *)
Theorem word_before_at_shadows_clock :
  forall ctx now text w d rest,
    Str.is_ascii text = true ->
    Str.lower text = (w ++ " at " ++ String d rest)%string ->
    w <> "" ->
    all_in_class Word w = true ->
    Str.is_digit d = true ->
    dict_get (Str.lower w) weekdays = None ->
    search pat_in_hours (Str.lower text) = None ->
    search pat_in_minutes (Str.lower text) = None ->
    search pat_tomorrow_at (Str.lower text) = None ->
    search pat_next (Str.lower text) = None ->
    _parse_time_advanced ctx now text = None.
Proof.
  intros ctx now text w d rest _ Htext Hne Hword Hd Hw H1 H2 H3 H4.
  set (tail := seqs (Lit " at " :: clock 2 ++ [Opt (Grp 4 ampm)])).
  set (s0 := (w ++ " at " ++ String d rest)%string).
  set (kf := fun s' c => Some (mkMatch (consumed s0 s') c
                                       (ngroups pat_weekday_at))).
  (* the rest of the pattern accepts " at <digit>..." *)
  assert (Htail : exists m,
             re_match tail (" at " ++ String d rest)%string [(1%nat, w)] kf
             = Some m).
  { destruct (re_match tail (" at " ++ String d rest)%string
                       [(1%nat, w)] kf) as [m|] eqn:E; [eauto|].
    exfalso. revert E. unfold tail. cbn [seqs clock app].
    rewrite re_match_seq, re_match_lit.
    unfold digit12. cbn [re_match].
    change (in_class Digit d) with (Str.is_digit d). rewrite Hd.
    match goal with
    | |- match ?a with _ => _ end = None -> False =>
        destruct a eqn:E1; [discriminate|]
    end.
    intros E. revert E.
    match goal with
    | |- ?a = None -> False =>
        change (a <> None)
    end.
    repeat match goal with
           | |- re_match ?r _ _ _ <> None =>
               apply (re_match_always r eq_refl); intros
           | |- star_match _ _ _ <> None =>
               apply star_match_always; intros
           | |- match ?a with _ => _ end <> None =>
               destruct a; [discriminate|]
           end; try discriminate. }
  destruct Htail as (m & Hm).
  assert (Em : search pat_weekday_at (Str.lower text) = Some m).
  { rewrite Htext. apply search_here. unfold match_here.
    fold s0. fold kf. unfold s0 at 1. unfold pat_weekday_at.
    change (seqs (Grp 1 (Plus Word) :: Lit " at " :: clock 2
                      ++ [Opt (Grp 4 ampm)]))
      with (Seq (Grp 1 (Plus Word)) tail).
    rewrite re_match_seq.
    apply re_match_grp_plus; [exact Hne | exact Hword | reflexivity |].
    exact Hm. }
  apply re_match_sound in Hm
    as (t & s' & new & _ & _ & Hk & Hcaps & Hmand).
  unfold kf in Hk. injection Hk as <-.
  assert (Hnew1 : lookup 1 new = None).
  { destruct (lookup 1 new) as [txt|] eqn:E; [|reflexivity].
    destruct (lookup_captured _ _ _ _ Hcaps E) as (r1 & Hin & _).
    simpl in Hin.
    repeat destruct Hin as [Hin|Hin]; try discriminate; contradiction. }
  destruct (Hmand 2%nat) as [txt2 E2]; [simpl; auto|].
  destruct (lookup_captured _ _ _ _ Hcaps E2) as (r2 & Hin2 & M2).
  assert (r2 = digit12) as ->.
  { simpl in Hin2.
    repeat destruct Hin2 as [Hin2|Hin2]; try discriminate;
      try contradiction.
    now injection Hin2 as <-. }
  destruct (matches_digit12_int _ M2) as [h Eh].
  assert (E3 : exists mi, int_or_zero (lookup 3 new) = Returned mi).
  { destruct (lookup 3 new) as [txt3|] eqn:E3.
    - destruct (lookup_captured _ _ _ _ Hcaps E3) as (r3 & Hin3 & M3).
      assert (r3 = digit2) as ->.
      { simpl in Hin3.
        repeat destruct Hin3 as [Hin3|Hin3]; try discriminate;
          try contradiction.
        now injection Hin3 as <-. }
      apply matches_digit2_int. exact M3.
    - exists 0. reflexivity. }
  destruct E3 as [mi E3].
  unfold _parse_time_advanced, relative_patterns.
  rewrite !first_resolving_skip by assumption.
  eapply first_resolving_hit; [exact Em|].
  unfold _parse_weekday_time, group. cbn [Re.caps].
  rewrite !lookup_app, Hnew1, E2. cbn [lookup Nat.eqb].
  cbn [lower_opt obind Str.int_opt]. rewrite Eh. cbn [obind].
  destruct (lookup 3 new) as [txt3|]; cbn [lookup Nat.eqb] in *;
    rewrite E3; cbn [obind]; rewrite Hw; reflexivity.
Qed.

Lemma word_before_at_shadows_clock_witness :
  _parse_time_advanced default_context sample_now "Today at 3pm" = None.
Proof.
  apply (word_before_at_shadows_clock default_context sample_now
           "Today at 3pm" "today" "3" "pm"); try reflexivity.
  discriminate.
Defined.
(** ** The fallback extractor on every text *)

(** A group of [\d+] outside [?] and [|]: whenever the pattern is found,
    [int] reads the group. *)
Lemma digit_group r s m n :
  (String.length s <= Str.MAX_STR_DIGITS)%nat ->
  search r s = Some m ->
  In n (mandatory r) ->
  (forall r1, In (n, r1) (bodies r) -> r1 = Plus Digit) ->
  exists v, Str.int_opt (group m n) = Returned v /\ 0 <= v.
Proof.
  intros Hlen Hs Hn Hb.
  pose proof (fun txt => search_group_len r s m n txt Hs) as Hgl.
  apply search_sound in Hs as (pre & s0 & _ & Hm).
  apply match_here_sound in Hm as (t & s' & _ & _ & _ & _ & Hc & Hg).
  destruct (Hg n Hn) as [txt E]. specialize (Hgl txt E). rewrite E.
  destruct (lookup_captured _ _ _ _ Hc E) as (r1 & Hin & M).
  rewrite (Hb r1 Hin) in M. cbn [Str.int_opt].
  apply matches_plus_digit; [lia | exact M].
Qed.

Lemma search_groups_len r s m :
  search r s = Some m -> groups_len m = ngroups r.
Proof.
  intros Hs. apply search_sound in Hs as (pre & s0 & _ & Hm).
  now apply match_here_sound in Hm as (t & s' & _ & _ & _ & Hl & _).
Qed.

Lemma parse_duration_step pattern rx rest text default m :
  (String.length text <= Str.MAX_STR_DIGITS)%nat ->
  search rx text = Some m ->
  In 1%nat (mandatory rx) ->
  (ngroups rx = 1%nat \/ In 2%nat (mandatory rx)) ->
  (forall n r1, In (n, r1) (bodies rx) -> r1 = Plus Digit) ->
  exists d, parse_duration ((pattern, rx) :: rest) text default = Returned d
            /\ 0 <= d.
Proof.
  intros Hlen E H1 H2 Hb. cbn [parse_duration]. rewrite E.
  rewrite (search_groups_len _ _ _ E).
  destruct (digit_group _ _ _ 1%nat Hlen E H1 (Hb 1%nat)) as (v1 & -> & Hv1).
  cbn [obind].
  destruct (ngroups rx =? 1)%nat eqn:En.
  - destruct (Str.contains "hour" pattern || Str.contains "hr" pattern);
      eexists; (split; [reflexivity | lia]).
  - destruct H2 as [H2|H2]; [rewrite H2 in En; discriminate|].
    destruct (digit_group _ _ _ 2%nat Hlen E H2 (Hb 2%nat))
      as (v2 & -> & Hv2).
    cbn [obind]. eexists. split; [reflexivity | lia].
Qed.

Lemma parse_duration_miss pattern rx rest text default :
  search rx text = None ->
  parse_duration ((pattern, rx) :: rest) text default
  = parse_duration rest text default.
Proof. intros E. cbn [parse_duration]. now rewrite E. Qed.

(** The duration is read without error, and is never negative. *)
Lemma parse_duration_returns text default :
  (String.length text <= Str.MAX_STR_DIGITS)%nat ->
  0 <= default ->
  exists d, parse_duration duration_patterns text default = Returned d
            /\ 0 <= d.
Proof.
  intros Hlen Hd. unfold duration_patterns.
  assert (Hb : forall rx n r1,
             In rx (map snd duration_patterns) ->
             In (n, r1) (bodies rx) -> r1 = Plus Digit).
  { intros rx n r1 Hrx Hin. simpl in Hrx.
    destruct Hrx as [<-|[<-|[<-|[]]]]; simpl in Hin;
      repeat destruct Hin as [Hin|Hin]; try discriminate;
      try contradiction; now injection Hin as _ <-. }
  match goal with
  | |- context [parse_duration ((_, ?rx) :: _) text default] =>
      destruct (search rx text) as [m|] eqn:E1
  end.
  { eapply parse_duration_step;
      [exact Hlen | exact E1 | simpl; auto | left; reflexivity |].
    intros n r1. apply Hb. simpl. auto. }
  rewrite parse_duration_miss by exact E1.
  match goal with
  | |- context [parse_duration ((_, ?rx) :: _) text default] =>
      destruct (search rx text) as [m|] eqn:E2
  end.
  { eapply parse_duration_step;
      [exact Hlen | exact E2 | simpl; auto | left; reflexivity |].
    intros n r1. apply Hb. simpl. auto. }
  rewrite parse_duration_miss by exact E2.
  match goal with
  | |- context [parse_duration ((_, ?rx) :: _) text default] =>
      destruct (search rx text) as [m|] eqn:E3
  end.
  { eapply parse_duration_step;
      [exact Hlen | exact E3 | simpl; auto | right; simpl; auto |].
    intros n r1. apply Hb. simpl. auto. }
  rewrite parse_duration_miss by exact E3.
  eexists. split; [reflexivity | exact Hd].
Qed.

(** X4: the fallback extractor never fails.  For every ASCII text
    (within the length [int] accepts), context and clock it returns a
    booking request
    whose summary is one of the five it knows, whose duration is not
    negative, whose flexibility is "flexible" or "rigid", with no
    attendees, no end time and no description, and whose start time is
    what the time parser makes of the lower-cased text. *)
Theorem fallback_parsing_returns :
  forall ctx now user_input,
    Str.is_ascii user_input = true ->
    (String.length user_input <= Str.MAX_STR_DIGITS)%nat ->
    0 <= preferred_meeting_duration ctx ->
    exists r,
      _fallback_parsing ctx now user_input = Returned r
      /\ intent r = BOOK_MEETING
      /\ In (summary r) fallback_summaries
      /\ 0 <= duration r
      /\ In (flexibility r) fallback_flexibilities
      /\ attendees r = [] /\ end_time r = None /\ description r = None
      /\ start_time r = _parse_time_advanced ctx now (Str.lower user_input).
Proof.
  intros ctx now user_input _ Hlen Hd. unfold _fallback_parsing.
  rewrite <- length_lower in Hlen.
  destruct (parse_duration_returns (Str.lower user_input) _ Hlen Hd)
    as (d & -> & Hd').
  cbn [obind]. eexists. split; [reflexivity|].
  cbn [intent summary duration flexibility attendees end_time description
       start_time].
  repeat split; auto.
  - unfold fallback_summaries.
    repeat match goal with
           | |- context [if ?b then _ else _] => destruct b
           end; simpl; auto 10.
  - unfold fallback_flexibilities.
    destruct (existsb _ _); simpl; auto.
Qed.

Lemma fallback_parsing_returns_witness :
  exists r,
    _fallback_parsing default_context sample_now "standup for 1h 30m" = Returned r
    /\ intent r = BOOK_MEETING
    /\ In (summary r) fallback_summaries
    /\ 0 <= duration r
    /\ In (flexibility r) fallback_flexibilities
    /\ attendees r = [] /\ end_time r = None /\ description r = None
    /\ start_time r
       = _parse_time_advanced default_context sample_now
                              (Str.lower "standup for 1h 30m").
Proof.
  apply (fallback_parsing_returns default_context sample_now
           "standup for 1h 30m").
  - reflexivity.
  - unfold Str.MAX_STR_DIGITS. simpl. lia.
  - simpl. lia.
Defined.
(** ** Clock phrases, scanned *)

Lemma tomorrow_phrases_scanned :
  forallb (fun H =>
    forallb (fun mm =>
      forallb (fun ap => tomorrow_phrase_scanned H mm ap) ampm_written)
      minutes_written)
    hours_two_digits = true.
Proof. vm_compute. reflexivity. Qed.

Lemma at_phrases_scanned :
  forallb (fun H =>
    forallb (fun mm =>
      forallb (fun ap => at_phrase_scanned H mm ap) ampm_written)
      minutes_written)
    hours_two_digits = true.
Proof. vm_compute. reflexivity. Qed.

Lemma bare_phrases_scanned :
  forallb (fun H =>
    forallb (fun mm =>
      forallb (fun a => bare_phrase_scanned H mm a) ["am"; "pm"])
      minutes_written)
    hours_two_digits = true.
Proof. vm_compute. reflexivity. Qed.

Lemma duration_forms_scanned :
  forallb (fun H => forallb (fun M => duration_forms_read H M)
                            numbers_two_digits)
          numbers_two_digits = true.
Proof. vm_compute. reflexivity. Qed.
(** ** Clock phrases resolved *)

Lemma In_two_digits H : 0 <= H <= 99 -> In H hours_two_digits.
Proof.
  intros HH. unfold hours_two_digits. apply in_map_iff.
  exists (Z.to_nat H). split; [lia|]. apply in_seq. lia.
Qed.

Lemma adjust_ampm_nonneg H ap :
  0 <= H -> In ap ampm_written -> 0 <= adjust_ampm H ap.
Proof.
  intros HH Hap.
  destruct Hap as [<-|[<-|[<-|[]]]]; unfold adjust_ampm; simpl;
    repeat match goal with |- context [if ?b then _ else _] =>
                             destruct b end; lia.
Qed.

Lemma clock_minute_range mm :
  match mm with Some M => 0 <= M <= 59 | None => True end ->
  0 <= clock_minute mm <= 59.
Proof. destruct mm; simpl; lia. Qed.

Lemma clock_groups_eq m g H mm ap :
  clock_groups m g H mm ap = true ->
  Str.int_opt (group m g) = Returned H
  /\ int_or_zero (group m (S g)) = Returned (clock_minute mm)
  /\ group m (S (S g)) = ap.
Proof.
  unfold clock_groups. rewrite !andb_true_iff. intros ((G1 & G2) & G3).
  apply outcome_Z_eqb_eq in G1, G2. apply opt_string_eqb_eq in G3. auto.
Qed.

(** One step of the loop, for a pattern that matches and whose resolver
    raises. *)
Lemma first_resolving_raise p f rest text m e :
  search p (Str.lower text) = Some m ->
  f m = Raised e ->
  first_resolving ((p, f) :: rest) text = first_resolving rest text.
Proof. intros E1 E2. simpl. now rewrite E1, E2. Qed.

Lemma replace_hm00_bad_hour d h m :
  23 < h -> replace_hm00 d h m = Raised ValueError.
Proof.
  intros Hh. unfold replace_hm00.
  destruct (Z.leb_spec h 23); [lia|].
  now rewrite andb_false_r.
Qed.

Lemma _parse_tomorrow_time_bad_hour now m H M :
  Str.int_opt (group m 1) = Returned H ->
  int_or_zero (group m 2) = Returned M ->
  23 < adjust_ampm H (group m 3) ->
  valid_datetime now = true ->
  ordinal now < MAXORDINAL ->
  _parse_tomorrow_time now m = Raised ValueError.
Proof.
  intros E1 E2 Hh Hv Hmax.
  pose proof (valid_datetime_bounds now Hv) as Hb.
  unfold _parse_tomorrow_time. rewrite E1, E2. cbn [obind].
  rewrite (dt_add_days _ _ Hv) by (unfold MAXORDINAL in *; lia).
  cbn [obind]. now rewrite replace_hm00_bad_hour.
Qed.

Lemma _parse_weekday_time_unknown now m w H M :
  group m 1 = Some w ->
  dict_get (Str.lower w) weekdays = None ->
  Str.int_opt (group m 2) = Returned H ->
  int_or_zero (group m 3) = Returned M ->
  _parse_weekday_time now m = Returned None.
Proof.
  intros Eg Ed E2 E3. unfold _parse_weekday_time.
  rewrite Eg. cbn [lower_opt obind]. rewrite E2, E3. cbn [obind].
  now rewrite Ed.
Qed.

Lemma _parse_today_time_spec now m H M :
  groups_len m = 3%nat ->
  Str.int_opt (group m 1) = Returned H ->
  int_or_zero (group m 2) = Returned M ->
  0 <= adjust_ampm H (group m 3) <= 23 ->
  0 <= M <= 59 ->
  valid_datetime now = true ->
  ordinal now < MAXORDINAL ->
  _parse_today_time now m
  = Returned (Some (next_occurrence now (adjust_ampm H (group m 3)) M)).
Proof.
  intros El E1 E2 Hh HM Hv Hmax.
  pose proof (valid_datetime_bounds now Hv) as Hb.
  unfold _parse_today_time. rewrite E1, E2, El. cbn [obind].
  change (3 <=? 3)%nat with true. cbv iota.
  set (h := adjust_ampm H (group m 3)) in *.
  rewrite replace_hm00_ok by assumption. cbn [obind].
  unfold next_occurrence, dt_leb, dt_ltb.
  set (today := mkDatetime (ordinal now) h M 0 0 (tzinfo now)).
  destruct (Z.leb_spec (dt_us today) (dt_us now));
    destruct (Z.ltb_spec (dt_us now) (dt_us today)); try lia;
    [|reflexivity].
  assert (Hvt : valid_datetime today = true).
  { unfold valid_datetime, valid_fields, today.
    cbn [ordinal hour minute second microsecond].
    rewrite !andb_true_iff, !Z.leb_le. unfold MAXORDINAL in *. lia. }
  rewrite (dt_add_days _ _ Hvt)
    by (unfold today, MAXORDINAL in *; cbn; lia).
  reflexivity.
Qed.

Lemma _parse_today_time_bad_hour now m H M :
  groups_len m = 3%nat ->
  Str.int_opt (group m 1) = Returned H ->
  int_or_zero (group m 2) = Returned M ->
  23 < adjust_ampm H (group m 3) ->
  _parse_today_time now m = Raised ValueError.
Proof.
  intros El E1 E2 Hh.
  unfold _parse_today_time. rewrite E1, E2, El. cbn [obind].
  change (3 <=? 3)%nat with true. cbv iota.
  now rewrite replace_hm00_bad_hour.
Qed.

(** The next occurrence of a clock time is after now, by a day at most. *)
Lemma next_occurrence_future now h M :
  valid_datetime now = true ->
  0 <= h <= 23 -> 0 <= M <= 59 ->
  dt_us now < dt_us (next_occurrence now h M) <= dt_us now + US_PER_DAY.
Proof.
  intros Hv Hh HM. pose proof (valid_datetime_bounds now Hv) as Hb.
  pose proof (tod_us_range now Hv) as Ht.
  unfold next_occurrence, dt_ltb.
  destruct (Z.ltb_spec (dt_us now)
              (dt_us (mkDatetime (ordinal now) h M 0 0 (tzinfo now))))
    as [Hlt|Hge].
  - split; [exact Hlt|].
    unfold dt_us, tod_us, fields_us in *.
    cbn [ordinal hour minute second microsecond] in *.
    unfold US_PER_DAY, US_PER_HOUR, US_PER_MINUTE, US_PER_SECOND in *. lia.
  - unfold dt_us, tod_us, fields_us in *.
    cbn [ordinal hour minute second microsecond] in *.
    unfold US_PER_DAY, US_PER_HOUR, US_PER_MINUTE, US_PER_SECOND in *. lia.
Qed.

(** X5: "tomorrow at H", "tomorrow at H:MM", with or without "am" or
    "pm", for every hour of one or two digits: the day after today at
    that time, seconds zeroed ("12am" is 00:00, "12pm" is 12:00).  When
    the hour read is above 23 (as in "tomorrow at 13pm" or "tomorrow at
    24") no time is resolved. *)
Theorem tomorrow_phrases_resolve :
  forall ctx now H mm ap,
    0 <= H <= 99 ->
    match mm with Some M => 0 <= M <= 59 | None => True end ->
    In ap ampm_written ->
    valid_datetime now = true ->
    ordinal now < MAXORDINAL ->
    let h := adjust_ampm H ap in
    _parse_time_advanced ctx now
                         ("tomorrow at " ++ clock_phrase H mm ap)%string
    = if h <=? 23
      then Some (mkDatetime (ordinal now + 1) h (clock_minute mm) 0 0
                            (tzinfo now))
      else None.
Proof.
  intros ctx now H mm ap HH Hmm Hap Hv Hmax h.
  pose proof (proj1 (forallb_forall _ _) tomorrow_phrases_scanned H
                    (In_two_digits H HH)) as Hs1.
  pose proof (proj1 (forallb_forall _ _) Hs1 mm (In_minutes_written mm Hmm))
    as Hs2.
  pose proof (proj1 (forallb_forall _ _) Hs2 ap Hap) as Hs3.
  clear Hs1 Hs2. unfold tomorrow_phrase_scanned in Hs3.
  repeat rewrite andb_true_iff in Hs3.
  destruct Hs3 as ((((N1 & N2) & Hm3) & N4) & Hm5).
  apply is_none_true in N1, N2, N4.
  destruct (search pat_tomorrow_at _) as [m3|] eqn:Em3; [|discriminate].
  destruct (search pat_weekday_at _) as [m5|] eqn:Em5; [|discriminate].
  apply clock_groups_eq in Hm3 as (A1 & A2 & A3).
  apply andb_true_iff in Hm5 as [B0 Hm5].
  apply opt_string_eqb_eq in B0.
  apply clock_groups_eq in Hm5 as (B1 & B2 & B3).
  pose proof (adjust_ampm_nonneg H ap (proj1 HH) Hap) as Hh0.
  pose proof (clock_minute_range mm Hmm) as HM.
  unfold _parse_time_advanced, relative_patterns.
  rewrite !first_resolving_skip by assumption.
  fold h in Hh0. destruct (Z.leb_spec h 23) as [Hle|Hgt].
  - apply first_resolving_hit with (m := m3); [assumption|].
    rewrite (_parse_tomorrow_time_spec now m3 H (clock_minute mm));
      try assumption; rewrite A3; fold h; [reflexivity | lia].
  - rewrite (first_resolving_raise _ _ _ _ m3 ValueError); [|assumption|].
    2:{ apply (_parse_tomorrow_time_bad_hour now m3 H (clock_minute mm));
        try assumption. rewrite A3. exact Hgt. }
    rewrite first_resolving_skip by assumption.
    apply first_resolving_hit with (m := m5); [assumption|].
    apply (_parse_weekday_time_unknown now m5 "tomorrow" H (clock_minute mm));
      auto.
Qed.

Lemma tomorrow_phrases_resolve_witness :
  _parse_time_advanced default_context sample_now "tomorrow at 12:05am"
  = Some (mkDatetime 739001 0 5 0 0 "Asia/Kolkata")
  /\ _parse_time_advanced default_context sample_now "tomorrow at 13pm"
     = None.
Proof.
  split.
  - apply (tomorrow_phrases_resolve default_context sample_now 12 (Some 5)
             (Some "am")); simpl; auto; try lia.
    unfold MAXORDINAL. lia.
  - apply (tomorrow_phrases_resolve default_context sample_now 13 None
             (Some "pm")); simpl; auto; try lia.
    unfold MAXORDINAL. lia.
Defined.

(** X6: "at H[:MM][am|pm]" and, on its own, "H[:MM]am" or "H[:MM]pm", for
    every hour of one or two digits: the next occurrence of that clock
    time, today when it is still ahead and tomorrow otherwise, so the
    result is strictly after now and at most a day later.  When the hour
    read is above 23 no time is resolved. *)
Theorem clock_phrases_resolve :
  forall ctx now H mm ap,
    0 <= H <= 99 ->
    match mm with Some M => 0 <= M <= 59 | None => True end ->
    In ap ampm_written ->
    valid_datetime now = true ->
    ordinal now < MAXORDINAL ->
    let h := adjust_ampm H ap in
    let M := clock_minute mm in
    let result := if h <=? 23 then Some (next_occurrence now h M)
                  else None in
    _parse_time_advanced ctx now ("at " ++ clock_phrase H mm ap)%string
    = result
    /\ (ap <> None ->
        _parse_time_advanced ctx now (clock_phrase H mm ap) = result)
    /\ (h <= 23 ->
        dt_us now < dt_us (next_occurrence now h M)
        <= dt_us now + US_PER_DAY).
Proof.
  intros ctx now H mm ap HH Hmm Hap Hv Hmax h M result.
  pose proof (adjust_ampm_nonneg H ap (proj1 HH) Hap) as Hh0.
  pose proof (clock_minute_range mm Hmm) as HM.
  fold h in Hh0. fold M in HM.
  split; [|split].
  - pose proof (proj1 (forallb_forall _ _) at_phrases_scanned H
                      (In_two_digits H HH)) as Hs1.
    pose proof (proj1 (forallb_forall _ _) Hs1 mm
                      (In_minutes_written mm Hmm)) as Hs2.
    pose proof (proj1 (forallb_forall _ _) Hs2 ap Hap) as Hs3.
    clear Hs1 Hs2. unfold at_phrase_scanned in Hs3.
    repeat rewrite andb_true_iff in Hs3.
    destruct Hs3
      as (((((((((N1 & N2) & N3) & N4) & N5) & Hm6) & Hm7) & N8) & N9) & N10).
    apply is_none_true in N1, N2, N3, N4, N5, N8, N9, N10.
    destruct (search pat_at _) as [m6|] eqn:Em6; [|discriminate].
    apply andb_true_iff in Hm6 as [Hm6 L6]. apply Nat.eqb_eq in L6.
    apply clock_groups_eq in Hm6 as (A1 & A2 & A3).
    unfold _parse_time_advanced, relative_patterns.
    rewrite !first_resolving_skip by assumption.
    subst result. destruct (Z.leb_spec h 23) as [Hle|Hgt].
    + apply first_resolving_hit with (m := m6); [assumption|].
      rewrite (_parse_today_time_spec now m6 H M); try assumption;
        rewrite A3; fold h; [reflexivity | lia].
    + rewrite (first_resolving_raise _ _ _ _ m6 ValueError); [|assumption|].
      2:{ apply (_parse_today_time_bad_hour now m6 H M); try assumption.
          rewrite A3. exact Hgt. }
      destruct (search pat_clock_ampm _) as [m7|] eqn:Em7.
      * apply andb_true_iff in Hm7 as [Hm7 L7]. apply Nat.eqb_eq in L7.
        apply clock_groups_eq in Hm7 as (B1 & B2 & B3).
        rewrite (first_resolving_raise _ _ _ _ m7 ValueError);
          [|assumption|].
        2:{ apply (_parse_today_time_bad_hour now m7 H M); try assumption.
            rewrite B3. exact Hgt. }
        rewrite !first_resolving_skip by assumption. reflexivity.
      * rewrite !first_resolving_skip by assumption. reflexivity.
  - intros Hsome.
    assert (Ha : exists a, ap = Some a /\ In a ["am"; "pm"]).
    { destruct Hap as [<-|[<-|[<-|[]]]]; [congruence| |];
        eexists; (split; [reflexivity|]); simpl; auto. }
    destruct Ha as (a & -> & Ha).
    pose proof (proj1 (forallb_forall _ _) bare_phrases_scanned H
                      (In_two_digits H HH)) as Hs1.
    pose proof (proj1 (forallb_forall _ _) Hs1 mm
                      (In_minutes_written mm Hmm)) as Hs2.
    pose proof (proj1 (forallb_forall _ _) Hs2 a Ha) as Hs3.
    clear Hs1 Hs2. unfold bare_phrase_scanned in Hs3.
    repeat rewrite andb_true_iff in Hs3.
    destruct Hs3
      as (((((((((N1 & N2) & N3) & N4) & N5) & N6) & Hm7) & N8) & N9) & N10).
    apply is_none_true in N1, N2, N3, N4, N5, N6, N8, N9, N10.
    destruct (search pat_clock_ampm _) as [m7|] eqn:Em7; [|discriminate].
    apply andb_true_iff in Hm7 as [Hm7 L7]. apply Nat.eqb_eq in L7.
    apply clock_groups_eq in Hm7 as (B1 & B2 & B3).
    unfold _parse_time_advanced, relative_patterns.
    rewrite !first_resolving_skip by assumption.
    subst result. destruct (Z.leb_spec h 23) as [Hle|Hgt].
    + apply first_resolving_hit with (m := m7); [assumption|].
      rewrite (_parse_today_time_spec now m7 H M); try assumption;
        rewrite B3; fold h; [reflexivity | lia].
    + rewrite (first_resolving_raise _ _ _ _ m7 ValueError); [|assumption|].
      2:{ apply (_parse_today_time_bad_hour now m7 H M); try assumption.
          rewrite B3. exact Hgt. }
      rewrite !first_resolving_skip by assumption. reflexivity.
  - intros Hle. apply next_occurrence_future; auto; lia.
Qed.

Lemma clock_phrases_resolve_witness :
  _parse_time_advanced default_context sample_now "at 9:15am"
  = Some (mkDatetime 739001 9 15 0 0 "Asia/Kolkata")
  /\ _parse_time_advanced default_context sample_now "3pm"
     = Some (mkDatetime 739000 15 0 0 0 "Asia/Kolkata").
Proof.
  assert (Hmax : ordinal sample_now < MAXORDINAL)
    by (unfold MAXORDINAL; simpl; lia).
  split.
  - destruct (clock_phrases_resolve default_context sample_now 9 (Some 15)
                (Some "am")) as (E & _ & _);
      simpl; auto; try lia.
  - destruct (clock_phrases_resolve default_context sample_now 3 None
                (Some "pm")) as (_ & E & _);
      simpl; auto; try lia; try (apply E; discriminate).
Defined.
(** ** The week phrases and written durations *)

Lemma add_days_weekday now k :
  (ordinal now + k + 6) mod 7 = (weekday now + k) mod 7.
Proof.
  unfold weekday.
  replace (ordinal now + k + 6) with ((ordinal now + 6) + k) by lia.
  now rewrite Z.add_mod_idemp_l by lia.
Qed.

Lemma _get_end_of_week_spec ctx now :
  valid_time (business_hours_end ctx) = true ->
  valid_datetime now = true ->
  ordinal now + 6 <= MAXORDINAL ->
  exists k,
    0 <= k <= 6
    /\ (ordinal now + k + 6) mod 7 = 4
    /\ (weekday now = 4 -> k = 0)
    /\ _get_end_of_week ctx now
       = Returned (mkDatetime (ordinal now + k)
                     (t_hour (business_hours_end ctx))
                     (t_minute (business_hours_end ctx)) 0 0 (tzinfo now)).
Proof.
  intros Hbe Hv Hmax.
  pose proof (valid_datetime_bounds now Hv) as Hb.
  pose proof (weekday_range now) as Hw.
  apply valid_fields_bounds in Hbe.
  unfold _get_end_of_week.
  set (k := if 4 - weekday now <? 0 then 4 - weekday now + 7
            else 4 - weekday now).
  assert (Hk : 0 <= k <= 6).
  { subst k. destruct (Z.ltb_spec (4 - weekday now) 0); lia. }
  exists k. repeat split; try lia.
  - rewrite add_days_weekday. subst k.
    destruct (Z.ltb_spec (4 - weekday now) 0).
    + replace (weekday now + (4 - weekday now + 7)) with (4 + 1 * 7) by lia.
      now rewrite Z.mod_add by lia.
    + now replace (weekday now + (4 - weekday now)) with 4 by lia.
  - intros E. subst k. rewrite E. reflexivity.
  - rewrite (dt_add_days _ _ Hv) by (unfold MAXORDINAL in *; lia).
    cbn [obind]. now rewrite replace_hm00_ok by lia.
Qed.

Lemma _get_beginning_of_week_spec ctx now :
  valid_time (business_hours_start ctx) = true ->
  valid_datetime now = true ->
  ordinal now + 7 <= MAXORDINAL ->
  exists k,
    1 <= k <= 7
    /\ (ordinal now + k + 6) mod 7 = 0
    /\ _get_beginning_of_week ctx now
       = Returned (mkDatetime (ordinal now + k)
                     (t_hour (business_hours_start ctx))
                     (t_minute (business_hours_start ctx)) 0 0 (tzinfo now)).
Proof.
  intros Hbs Hv Hmax.
  pose proof (valid_datetime_bounds now Hv) as Hb.
  pose proof (weekday_range now) as Hw.
  apply valid_fields_bounds in Hbs.
  unfold _get_beginning_of_week.
  exists (7 - weekday now). repeat split; try lia.
  - rewrite add_days_weekday.
    replace (weekday now + (7 - weekday now)) with (0 + 1 * 7) by lia.
    now rewrite Z.mod_add by lia.
  - rewrite (dt_add_days _ _ Hv) by (unfold MAXORDINAL in *; lia).
    cbn [obind]. now rewrite replace_hm00_ok by lia.
Qed.

(** The parser reads a text through its lower-cased form only. *)
Lemma first_resolving_ext ps t1 t2 :
  Str.lower t1 = Str.lower t2 ->
  first_resolving ps t1 = first_resolving ps t2.
Proof.
  intros E. induction ps as [|[pattern parser] ps IH]; [reflexivity|].
  cbn [first_resolving]. rewrite E, IH. reflexivity.
Qed.

(** X7: an ASCII text that reads "end of week" or "end of the week",
    whatever the case of its letters, resolves to the coming Friday at
    the business-hours end: today when today is a Friday, whatever the
    time (so possibly a time already past), and otherwise one to six days
    ahead.  One that reads "beginning of week" or "beginning of the
    week" resolves to the Monday strictly after today (one to seven days
    ahead) at the business-hours start. *)
Theorem week_phrases_resolve :
  forall ctx now,
    valid_time (business_hours_start ctx) = true ->
    valid_time (business_hours_end ctx) = true ->
    valid_datetime now = true ->
    ordinal now + 7 <= MAXORDINAL ->
    (exists k,
        0 <= k <= 6
        /\ (ordinal now + k + 6) mod 7 = 4
        /\ (weekday now = 4 -> k = 0)
        /\ forall text,
            Str.is_ascii text = true ->
            In (Str.lower text) ["end of week"; "end of the week"] ->
            _parse_time_advanced ctx now text
            = Some (mkDatetime (ordinal now + k)
                      (t_hour (business_hours_end ctx))
                      (t_minute (business_hours_end ctx)) 0 0 (tzinfo now)))
    /\ (exists k,
           1 <= k <= 7
           /\ (ordinal now + k + 6) mod 7 = 0
           /\ forall text,
               Str.is_ascii text = true ->
               In (Str.lower text)
                  ["beginning of week"; "beginning of the week"] ->
               _parse_time_advanced ctx now text
               = Some (mkDatetime (ordinal now + k)
                         (t_hour (business_hours_start ctx))
                         (t_minute (business_hours_start ctx)) 0 0
                         (tzinfo now))).
Proof.
  intros ctx now Hbs Hbe Hv Hmax.
  split.
  - destruct (_get_end_of_week_spec ctx now Hbe Hv ltac:(lia))
      as (k & Hk & Hmod & Hfri & E).
    exists k. repeat split; try assumption; try lia.
    intros text _ Hin. unfold _parse_time_advanced.
    simpl in Hin. destruct Hin as [Hl|[Hl|[]]];
      [rewrite (first_resolving_ext _ text "end of week" (eq_sym Hl))
      |rewrite (first_resolving_ext _ text "end of the week" (eq_sym Hl))];
      unfold relative_patterns;
      rewrite !first_resolving_skip by reflexivity;
      (eapply first_resolving_hit; [vm_compute; reflexivity|]);
      rewrite E; reflexivity.
  - destruct (_get_beginning_of_week_spec ctx now Hbs Hv Hmax)
      as (k & Hk & Hmod & E).
    exists k. repeat split; try assumption; try lia.
    intros text _ Hin. unfold _parse_time_advanced.
    simpl in Hin. destruct Hin as [Hl|[Hl|[]]];
      [rewrite (first_resolving_ext _ text "beginning of week" (eq_sym Hl))
      |rewrite (first_resolving_ext _ text "beginning of the week" (eq_sym Hl))];
      unfold relative_patterns;
      rewrite !first_resolving_skip by reflexivity;
      (eapply first_resolving_hit; [vm_compute; reflexivity|]);
      rewrite E; reflexivity.
Qed.

Lemma week_phrases_resolve_witness :
  _parse_time_advanced default_context sample_now "END of the Week"
  = Some (mkDatetime 739002 17 0 0 0 "Asia/Kolkata")
  /\ _parse_time_advanced default_context sample_now "Beginning Of Week"
     = Some (mkDatetime 739005 9 0 0 0 "Asia/Kolkata").
Proof.
  assert (Hmax : ordinal sample_now + 7 <= MAXORDINAL)
    by (unfold MAXORDINAL; simpl; lia).
  destruct (week_phrases_resolve default_context sample_now
              eq_refl eq_refl eq_refl Hmax)
    as ((k1 & Hk1 & Hm1 & _ & E1) & (k2 & Hk2 & Hm2 & E2)).
  assert (K1 : k1 = 2).
  { clear - Hk1 Hm1. change (ordinal sample_now) with 739000 in Hm1.
    assert (C : k1 = 0 \/ k1 = 1 \/ k1 = 2 \/ k1 = 3 \/ k1 = 4 \/ k1 = 5
                \/ k1 = 6) by lia.
    destruct C as [->|[->|[->|[->|[->|[->| ->]]]]]];
      try reflexivity; vm_compute in Hm1; discriminate. }
  assert (K2 : k2 = 5).
  { clear - Hk2 Hm2. change (ordinal sample_now) with 739000 in Hm2.
    assert (C : k2 = 1 \/ k2 = 2 \/ k2 = 3 \/ k2 = 4 \/ k2 = 5 \/ k2 = 6
                \/ k2 = 7) by lia.
    destruct C as [->|[->|[->|[->|[->|[->| ->]]]]]];
      try reflexivity; vm_compute in Hm2; discriminate. }
  subst k1 k2.
  split; [apply E1 | apply E2]; try reflexivity; simpl; auto.
Defined.

(** A pattern that matched gives the same duration whatever the default. *)
Lemma parse_duration_no_default ps text d1 d2 v :
  parse_duration ps text d1 = Returned v -> v <> d1 ->
  parse_duration ps text d2 = Returned v.
Proof.
  induction ps as [|[pattern rx] ps IH]; cbn [parse_duration].
  - intros E. injection E as <-. congruence.
  - destruct (search rx text); auto.
Qed.

(** X8: how written durations are read.  "H hours M minutes" and
    "H hr M min" give 60 H minutes: the hour pattern is tried first and
    the minutes are dropped.  Only the short form "Hh Mm" gives
    60 H + M; "Hh Mmin" gives M, and "M minutes" alone gives M. *)
Theorem written_durations :
  forall ctx now H M,
    0 <= H <= 99 -> 0 <= M <= 99 ->
    let duration_of text :=
      match _fallback_parsing ctx now text with
      | Returned r => Some (duration r)
      | Raised _ => None
      end in
    duration_of (show H ++ " hours " ++ show M ++ " minutes")%string
    = Some (60 * H)
    /\ duration_of (show H ++ " hr " ++ show M ++ " min")%string
       = Some (60 * H)
    /\ duration_of (show H ++ "h " ++ show M ++ "m")%string
       = Some (60 * H + M)
    /\ duration_of (show H ++ "h " ++ show M ++ "min")%string = Some M
    /\ duration_of (show M ++ " minutes")%string = Some M.
Proof.
  intros ctx now H M HH HM duration_of.
  pose proof (proj1 (forallb_forall _ _) duration_forms_scanned H
                    (In_two_digits H HH)) as Hs1.
  pose proof (proj1 (forallb_forall _ _) Hs1 M (In_two_digits M HM)) as Hs.
  clear Hs1. unfold duration_forms_read in Hs.
  repeat rewrite andb_true_iff in Hs.
  destruct Hs as ((((R1 & R2) & R3) & R4) & R5).
  apply outcome_Z_eqb_eq in R1, R2, R3, R4, R5.
  assert (G : forall text v,
             parse_duration duration_patterns (Str.lower text) (-1)
             = Returned v ->
             0 <= v -> duration_of text = Some v).
  { intros text v E Hv. unfold duration_of, _fallback_parsing.
    rewrite (parse_duration_no_default _ _ (-1)
               (preferred_meeting_duration ctx) v E) by lia.
    reflexivity. }
  repeat split; apply G; try assumption; lia.
Qed.

Lemma written_durations_witness :
  match _fallback_parsing default_context sample_now "1 hours 30 minutes" with
  | Returned r => Some (duration r)
  | Raised _ => None
  end = Some 60.
Proof.
  destruct (written_durations default_context sample_now 1 30)
    as (E & _); [lia | lia |].
  exact E.
Defined.
(** ** The slot search and the business-hours gate *)

Section Alternatives.
Variable check_availability :
    list cal_call -> datetime -> Z -> outcome bool.

#[local] Abbreviation suggest :=
    (_suggest_alternative_times check_availability).

  (** X9: what the alternative-slot search returns.  At most five slots;
      each was answered free by the calendar for the requested duration;
      they are in strictly increasing time order; each lies, with its
      whole duration, in the window of one of the days searched (2 days
      for "rigid" and any unknown flexibility, 7 for "flexible", 14 for
      "very_flexible"), the window being the business hours moved by the
      seconds and microseconds of the requested time; the search leaves
      the context alone and makes availability checks only. *)
Theorem alternatives_are_free_ordered_and_few :
    forall requested duration flexibility st l st',
      valid_datetime requested = true ->
      0 <= duration ->
      suggest requested duration flexibility st = (Returned l, st') ->
      (List.length l <= 5)%nat
      /\ Forall (fun t => exists log,
                     check_availability log t duration = Returned true) l
      /\ StronglySorted earlier l
      /\ Forall (fun a => exists k,
                     0 <= k < search_days flexibility
                     /\ in_window (context st) requested duration k a) l
      /\ context st' = context st
      /\ exists ext, calendar_log st' = calendar_log st ++ ext
                     /\ forallb is_check ext = true.
Proof.
    intros requested duration flexibility st l st' Hv Hd E.
    destruct (_suggest_alternative_times_sound _ _ _ _ _ _ _ E)
      as (Hc & Hl & Hs).
    destruct (Hs l eq_refl) as [Hlen Hfree].
    repeat split; try assumption.
    - eapply _suggest_alternative_times_chronological; eassumption.
    - revert E. unfold _suggest_alternative_times, search_days.
      destruct (String.eqb flexibility "very_flexible");
        [|destruct (String.eqb flexibility "flexible")];
        cbn [hd last]; intros E;
        apply scan_days_window in E; try assumption; try lia;
        destruct E as (ext & -> & Hall); cbn [app];
        (eapply Forall_impl; [|exact Hall]); cbv beta;
        intros a (k & Hk & Hw); exists k; (split; [lia | exact Hw]).
Qed.

  (** X10: the search ends.  With a calendar that answers every check,
      business hours that are times of day, a duration under a day and a
      requested time at least 15 days before the last date, the search
      returns a list; and the loop over one day stops by its own test:
      running it longer changes nothing. *)
Theorem alternatives_search_terminates :
    (forall log t d, exists b, check_availability log t d = Returned b) ->
    forall requested duration flexibility st,
      valid_datetime requested = true ->
      valid_time (business_hours_start (context st)) = true ->
      valid_time (business_hours_end (context st)) = true ->
      0 <= duration * US_PER_MINUTE < US_PER_DAY ->
      ordinal requested + 15 <= MAXORDINAL ->
      (exists l st',
          suggest requested duration flexibility st = (Returned l, st'))
      /\ (forall end_time increment current l st0 more,
             0 < increment ->
             valid_datetime current = true ->
             scan_day check_availability
                      (S (scan_bound end_time current duration increment)
                       + more)
                      end_time duration increment current l st0
             = scan_day check_availability
                        (S (scan_bound end_time current duration increment))
                        end_time duration increment current l st0).
Proof.
    intros Htotal requested duration flexibility st Hv Hs He Hd Hmax.
    split.
    - unfold _suggest_alternative_times.
      destruct (String.eqb flexibility "very_flexible");
        [|destruct (String.eqb flexibility "flexible")];
        cbn [hd last];
        apply (scan_days_returns check_availability Htotal); auto;
        try lia; cbn; lia.
    - intros end_time increment current l st0 more Hinc Hvc.
      now apply scan_day_fuel.
Qed.

  (** A day on which the meeting does not fit: no check is made. *)
Lemma scan_days_no_fit duration first_inc last_inc base :
    valid_datetime base = true ->
    forall remaining day_offset st,
      valid_time (business_hours_start (context st)) = true ->
      valid_time (business_hours_end (context st)) = true ->
      0 <= duration * US_PER_MINUTE < US_PER_DAY ->
      0 <= day_offset ->
      ordinal base + day_offset + Z.of_nat remaining + 1 <= MAXORDINAL ->
      minute_of_day (t_hour (business_hours_end (context st)))
                    (t_minute (business_hours_end (context st)))
      < minute_of_day (t_hour (business_hours_start (context st)))
                      (t_minute (business_hours_start (context st)))
        + duration ->
      scan_days check_availability remaining day_offset base duration
                first_inc last_inc [] st
      = (Returned [], st).
Proof.
    intros Hv. induction remaining as [|remaining IH];
      intros day_offset st Hs He Hd Hoff Hmax Hfit; [reflexivity|].
    pose proof (valid_datetime_bounds base Hv) as Hb.
    pose proof (valid_fields_bounds _ _ _ _ Hs) as Hsb.
    pose proof (valid_fields_bounds _ _ _ _ He) as Heb.
    rewrite scan_days_S. cbv zeta.
    rewrite (dt_add_days _ _ Hv) by (unfold MAXORDINAL in *; lia).
    set (cd := mkDatetime (ordinal base + day_offset) (hour base)
                          (minute base) (second base) (microsecond base)
                          (tzinfo base)).
    assert (Hvcd : valid_datetime cd = true).
    { unfold valid_datetime, valid_fields, cd.
      cbn [ordinal hour minute second microsecond].
      rewrite !andb_true_iff, !Z.leb_le. unfold MAXORDINAL in *. lia. }
    destruct (replace_hm_spec cd _ _ Hvcd (proj1 Hsb) (proj1 (proj2 Hsb)))
      as (s0 & -> & Es0 & Hvs0).
    destruct (replace_hm_spec cd _ _ Hvcd (proj1 Heb) (proj1 (proj2 Heb)))
      as (e0 & -> & Ee0 & Hve0).
    rewrite scan_day_S.
    assert (Hs0 : dt_us s0
                  = (ordinal base + day_offset) * US_PER_DAY
                    + minute_of_day (t_hour (business_hours_start (context st)))
                                    (t_minute (business_hours_start (context st)))
                      * US_PER_MINUTE
                    + second base * US_PER_SECOND + microsecond base).
    { rewrite Es0. unfold dt_us, tod_us, fields_us, minute_of_day, cd.
      cbn [ordinal hour minute second microsecond].
      unfold US_PER_HOUR. lia. }
    assert (He0 : dt_us e0
                  = (ordinal base + day_offset) * US_PER_DAY
                    + minute_of_day (t_hour (business_hours_end (context st)))
                                    (t_minute (business_hours_end (context st)))
                      * US_PER_MINUTE
                    + second base * US_PER_SECOND + microsecond base).
    { rewrite Ee0. unfold dt_us, tod_us, fields_us, minute_of_day, cd.
      cbn [ordinal hour minute second microsecond].
      unfold US_PER_HOUR. lia. }
    pose proof (dt_us_bounds s0 Hvs0) as Hbs0.
    assert (Hos0 : ordinal s0 = ordinal base + day_offset)
      by (rewrite Es0; reflexivity).
    destruct (dt_add_in_range s0 (timedelta 0 0 duration) Hvs0)
      as (slot_end & -> & _ & Hend & _).
    { rewrite timedelta_minutes. rewrite Hos0 in Hbs0.
      rewrite US_PER_DAY_eq in *. unfold MAXORDINAL in *. lia. }
    assert (Hno : dt_leb slot_end e0 = false).
    { unfold dt_leb. apply Z.leb_gt. rewrite Hend, Hs0, He0.
      rewrite timedelta_minutes. rewrite US_PER_MINUTE_eq. lia. }
    rewrite Hno.
    apply IH; auto; lia.
Qed.

  (** X11: a meeting longer than the business day gets no alternative,
      and the calendar is not asked.  When the duration does not fit
      between the business-hours start and end, the search returns the
      empty list and leaves the agent's state as it was. *)
Theorem no_slot_for_overlong_meeting :
    forall requested duration flexibility st,
      valid_datetime requested = true ->
      valid_time (business_hours_start (context st)) = true ->
      valid_time (business_hours_end (context st)) = true ->
      0 <= duration * US_PER_MINUTE < US_PER_DAY ->
      ordinal requested + 15 <= MAXORDINAL ->
      minute_of_day (t_hour (business_hours_end (context st)))
                    (t_minute (business_hours_end (context st)))
      < minute_of_day (t_hour (business_hours_start (context st)))
                      (t_minute (business_hours_start (context st)))
        + duration ->
      suggest requested duration flexibility st = (Returned [], st).
Proof.
    intros requested duration flexibility st Hv Hs He Hd Hmax Hfit.
    unfold _suggest_alternative_times.
    destruct (String.eqb flexibility "very_flexible");
      [|destruct (String.eqb flexibility "flexible")];
      cbn [hd last]; apply scan_days_no_fit; auto; try lia; cbn; lia.
Qed.
End Alternatives.

Lemma alternatives_are_free_ordered_and_few_witness :
  exists l st',
    _suggest_alternative_times busy_before_16
      (mkDatetime 739001 14 0 0 0 "Asia/Kolkata") 30 "flexible" fresh_state
    = (Returned l, st')
    /\ (List.length l <= 5)%nat /\ StronglySorted earlier l.
Proof.
  assert (E : exists l st',
             _suggest_alternative_times busy_before_16
               (mkDatetime 739001 14 0 0 0 "Asia/Kolkata") 30 "flexible"
               fresh_state = (Returned l, st'))
    by (vm_compute; eauto).
  destruct E as (l & st' & E). exists l, st'. split; [exact E|].
  destruct (alternatives_are_free_ordered_and_few busy_before_16
              (mkDatetime 739001 14 0 0 0 "Asia/Kolkata") 30 "flexible"
              fresh_state l st' eq_refl ltac:(lia) E) as (H1 & _ & H3 & _).
  auto.
Defined.

Lemma alternatives_search_terminates_witness :
  exists l st',
    _suggest_alternative_times always_busy
      (mkDatetime 739001 14 0 0 0 "Asia/Kolkata") 60 "very_flexible"
      fresh_state
    = (Returned l, st').
Proof.
  apply (alternatives_search_terminates always_busy);
    try reflexivity.
  - intros log t d. exists false. reflexivity.
  - rewrite US_PER_MINUTE_eq, US_PER_DAY_eq. lia.
  - unfold MAXORDINAL. simpl. lia.
Defined.

Lemma no_slot_for_overlong_meeting_witness :
  _suggest_alternative_times always_free
    (mkDatetime 739001 14 0 0 0 "Asia/Kolkata") 540 "flexible" fresh_state
  = (Returned [], fresh_state).
Proof.
  apply no_slot_for_overlong_meeting; try reflexivity.
  - rewrite US_PER_MINUTE_eq, US_PER_DAY_eq. lia.
  - unfold MAXORDINAL. simpl. lia.
Defined.
(** ** The booking handler: the business-hours gate and the booking *)

Section Gate.
Variable check_availability :
    list cal_call -> datetime -> Z -> outcome bool.
Variable create_event :
    list cal_call -> option string -> datetime -> Z -> option string
    -> outcome string.
Variable response_chain :
    string -> string -> string -> ConversationContext -> outcome string.
Variable strftime : datetime -> string.
Variable time_strftime : time -> string.

#[local] Abbreviation handler :=
    (_handle_booking_request check_availability create_event response_chain
                             strftime time_strftime).

Lemma _check_business_hours_iff ctx start :
    _check_business_hours ctx start = true
    <-> time_us (business_hours_start ctx) <= tod_us start
        <= time_us (business_hours_end ctx).
Proof.
    unfold _check_business_hours, time_leb.
    rewrite andb_true_iff, !Z.leb_le. reflexivity.
Qed.

  (** X12: the business-hours gate.  For a request with a start time, the
      calendar is consulted exactly when the start's time of day lies
      between the business-hours start and end, both included, whatever
      the duration: a meeting that starts at the closing minute is
      checked (and booked when free).  Outside that range the handler
      changes nothing and answers with the wording of the outside-hours
      text. *)
Theorem calendar_consulted_iff_start_in_business_hours :
    forall request start st,
      start_time request = Some start ->
      let ctx := context st in
      let inside := time_us (business_hours_start ctx) <= tod_us start
                    <= time_us (business_hours_end ctx) in
      (inside ->
       exists ext,
         calendar_log (snd (handler request st))
         = calendar_log st
           ++ CheckAvailability start (duration request) :: ext)
      /\ (~ inside ->
          snd (handler request st) = st
          /\ _generate_response response_chain "outside_business_hours"
               (outside_hours_text (strftime start)
                  (time_strftime (business_hours_start ctx))
                  (time_strftime (business_hours_end ctx))) st
             = (Returned (fst (handler request st)), st)).
Proof.
    intros request start st E ctx inside. split.
    - intros Hin. apply _check_business_hours_iff in Hin.
      now apply _handle_booking_request_checks_first.
    - intros Hout.
      assert (Hbh : _check_business_hours ctx start = false).
      { destruct (_check_business_hours ctx start) eqn:Hb; [|reflexivity].
        apply _check_business_hours_iff in Hb. contradiction. }
      assert (Hp : exists r,
                 handler request st = (r, st)
                 /\ _generate_response response_chain
                      "outside_business_hours"
                      (outside_hours_text (strftime start)
                         (time_strftime (business_hours_start ctx))
                         (time_strftime (business_hours_end ctx))) st
                    = (Returned r, st)).
      { unfold _handle_booking_request, try_except, booking_body.
        rewrite E. unfold mbind at 1. unfold get_context at 1.
        fold ctx. rewrite Hbh. cbn [negb].
        unfold outside_hours_text.
        match goal with
        | |- context [_generate_response response_chain ?a ?b ?c] =>
            destruct (_generate_response_pure response_chain a b c)
              as [r Er]
        end.
        rewrite Er. eauto. }
      destruct Hp as (r & -> & Er). cbn [fst snd]. auto.
Qed.

  (** X13: the booking is reported done whatever [create_event] returns.
      When the start is in business hours and the calendar says free,
      the handler calls [create_event] once, does not look at what it
      returned (which may be its failure text), marks the context
      (last intent BOOK_MEETING, no pending booking) and answers with
      the wording of the success text. *)
Theorem booking_reported_whatever_create_event_returns :
    forall request start s st result,
      start_time request = Some start ->
      summary request = Some s ->
      _check_business_hours (context st) start = true ->
      check_availability (calendar_log st) start (duration request)
      = Returned true ->
      create_event
        (calendar_log st ++ [CheckAvailability start (duration request)])
        (Some s) start (duration request) (description request)
      = Returned result ->
      let booked :=
        mkState (set_pending (set_last_intent (context st)
                                              (Some BOOK_MEETING)) None)
                (calendar_log st
                 ++ [CheckAvailability start (duration request);
                     CreateEvent (Some s) start (duration request)
                                 (description request)]) in
      snd (handler request st) = booked
      /\ _generate_response response_chain "booking_successful"
           (booking_done_text (Str.lower s) (strftime start)
                              (duration request)) booked
         = (Returned (fst (handler request st)), booked).
Proof.
    intros request start s st result E Es Hbh Hc Hcr booked.
    assert (Hp : exists r,
               handler request st = (r, booked)
               /\ _generate_response response_chain "booking_successful"
                    (booking_done_text (Str.lower s) (strftime start)
                                       (duration request)) booked
                  = (Returned r, booked)).
    { unfold _handle_booking_request, try_except, booking_body.
      rewrite E. unfold mbind at 1. unfold get_context at 1.
      rewrite Hbh. cbn [negb]. unfold mbind at 1.
      unfold call_check_availability at 1. rewrite Hc.
      unfold mbind at 1. unfold call_create_event at 1.
      cbn [calendar_log context]. rewrite Es, Hcr.
      unfold mbind, get_context, put_context, lift.
      cbn [lower_opt context calendar_log].
      rewrite <- app_assoc. cbn [app]. fold booked.
      unfold booking_done_text.
      match goal with
      | |- context [_generate_response response_chain ?a ?b ?c] =>
          destruct (_generate_response_pure response_chain a b c) as [r Er]
      end.
      rewrite Er. eauto. }
    destruct Hp as (r & -> & Er). cbn [fst snd]. auto.
Qed.
End Gate.

Lemma calendar_consulted_iff_start_in_business_hours_witness :
  exists ext,
    calendar_log
      (snd (_handle_booking_request always_free create_ok llm_down
              no_strftime no_time_strftime closing_time_request fresh_state))
    = [] ++ CheckAvailability (mkDatetime 739001 17 0 0 0 "Asia/Kolkata") 60
         :: ext.
Proof.
  destruct (calendar_consulted_iff_start_in_business_hours
              always_free create_ok llm_down no_strftime no_time_strftime
              closing_time_request
              (mkDatetime 739001 17 0 0 0 "Asia/Kolkata") fresh_state
              eq_refl) as [Hin _].
  apply Hin. vm_compute. split; discriminate.
Defined.

Lemma booking_reported_whatever_create_event_returns_witness :
  _handle_booking_request always_free create_fails llm_down
    no_strftime no_time_strftime afternoon_request fresh_state
  = ("Perfect! I've successfully booked your meeting for  (60 minutes). You should receive a calendar invitation shortly.",
     mkState (set_pending (set_last_intent default_context
                                           (Some BOOK_MEETING)) None)
             [CheckAvailability (mkDatetime 739001 14 0 0 0 "Asia/Kolkata")
                                60;
              CreateEvent (Some "Meeting")
                          (mkDatetime 739001 14 0 0 0 "Asia/Kolkata") 60
                          None]).
Proof.
  destruct (booking_reported_whatever_create_event_returns
              always_free create_fails llm_down no_strftime no_time_strftime
              afternoon_request
              (mkDatetime 739001 14 0 0 0 "Asia/Kolkata") "Meeting"
              fresh_state " Failed to create event: quota exceeded"
              eq_refl eq_refl eq_refl eq_refl eq_refl) as [Hs Hr].
  rewrite (surjective_pairing (_handle_booking_request _ _ _ _ _ _ _)).
  rewrite Hs. f_equal.
Defined.
(** ** The availability handler and its time range *)

Lemma US_PER_HOUR_eq : US_PER_HOUR = 3600000000.
Proof. reflexivity. Qed.

Lemma stamps_nil first close step :
  0 < step -> close <= first -> stamps first close step = [].
Proof.
  intros Hs Hc. unfold stamps.
  assert (H : (close - first + step - 1) / step < 1)
    by (apply Z.div_lt_upper_bound; lia).
  replace (Z.to_nat ((close - first + step - 1) / step)) with 0%nat by lia.
  reflexivity.
Qed.

Lemma stamps_cons first close step :
  0 < step -> first < close ->
  stamps first close step = first :: stamps (first + step) close step.
Proof.
  intros Hs Hc. unfold stamps.
  replace (close - first + step - 1) with ((close - (first + step) + step - 1) + 1 * step)
    by lia.
  rewrite Z.div_add by lia.
  assert (H : 0 <= (close - (first + step) + step - 1) / step)
    by (apply Z.div_pos; lia).
  replace (Z.to_nat ((close - (first + step) + step - 1) / step + 1))
    with (S (Z.to_nat ((close - (first + step) + step - 1) / step))) by lia.
  cbn [seq map]. f_equal; [lia|].
  rewrite <- seq_shift, map_map. apply map_ext. intros i. lia.
Qed.

Lemma slots_until_S fuel end_ step current slots :
  slots_until (S fuel) end_ step current slots
  = if dt_ltb current end_ then
      next <- dt_add current step ;;
      slots_until fuel end_ step next (slots ++ [current])
    else Returned slots.
Proof. reflexivity. Qed.

(** The slot loop: with enough fuel it returns the instants from
    [current] on, [step] apart, that are strictly before [end_]. *)
Lemma slots_until_stamps end_ step :
  0 < step ->
  valid_datetime end_ = true ->
  dt_us end_ + step < (MAXORDINAL + 1) * US_PER_DAY ->
  forall fuel current slots,
    valid_datetime current = true ->
    (slots_bound end_ current step <= fuel)%nat ->
    exists res,
      slots_until (S fuel) end_ step current slots = Returned (slots ++ res)
      /\ map dt_us res = stamps (dt_us current) (dt_us end_) step
      /\ Forall (fun a => valid_datetime a = true
                          /\ tzinfo a = tzinfo current) res.
Proof.
  intros Hs Hve Hmax.
  induction fuel as [|fuel IH]; intros current slots Hv Hb;
    rewrite slots_until_S; unfold dt_ltb;
    destruct (Z.ltb_spec (dt_us current) (dt_us end_)) as [Hlt|Hge].
  - exfalso. unfold slots_bound in Hb.
    assert (0 <= (dt_us end_ - dt_us current) / step)
      by (apply Z.div_pos; lia).
    lia.
  - exists []. rewrite app_nil_r, stamps_nil by lia. auto.
  - pose proof (dt_us_bounds current Hv) as Hcb.
    pose proof (valid_datetime_bounds current Hv) as Hcv.
    destruct (dt_add_in_range current step Hv) as (next & En & Hvn & Hun & Htn).
    { rewrite US_PER_DAY_eq in *. lia. }
    rewrite En. cbn [obind].
    destruct (IH next (slots ++ [current]) Hvn) as (res & Er & Hm & Hf).
    { unfold slots_bound in *. rewrite Hun.
      replace (dt_us end_ - (dt_us current + step))
        with ((dt_us end_ - dt_us current) + (-1) * step) by lia.
      rewrite Z.div_add by lia.
      assert (0 <= (dt_us end_ - dt_us current) / step)
        by (apply Z.div_pos; lia).
      lia. }
    exists (current :: res). rewrite Er, <- app_assoc. cbn [app map].
    split; [reflexivity|]. split.
    + rewrite Hm, Hun. symmetry. now apply stamps_cons.
    + constructor; [auto|].
      eapply Forall_impl; [|exact Hf]. cbv beta. intros a [Ha Hb'].
      split; [exact Ha | congruence].
  - exists []. rewrite app_nil_r, stamps_nil by lia. auto.
Qed.

Lemma replace_hm_us d h m :
  valid_datetime d = true -> 0 <= h <= 23 -> 0 <= m <= 59 ->
  exists d', replace_hm d h m = Returned d'
             /\ valid_datetime d' = true
             /\ tzinfo d' = tzinfo d
             /\ ordinal d' = ordinal d
             /\ second d' = second d /\ microsecond d' = microsecond d
             /\ dt_us d' = ordinal d * US_PER_DAY + h * US_PER_HOUR
                           + m * US_PER_MINUTE + second d * US_PER_SECOND
                           + microsecond d.
Proof.
  intros Hv Hh Hm.
  destruct (replace_hm_spec d h m Hv Hh Hm) as (d' & E & -> & Hv').
  eexists. split; [exact E|]. repeat split; try assumption.
  unfold dt_us, tod_us, fields_us. cbn [ordinal hour minute second microsecond].
  lia.
Qed.

(** X14: the range of "tomorrow".  For a text that mentions "tomorrow",
    the slots to check are the instants one hour apart from tomorrow's
    business-hours start up to, and not including, tomorrow's
    business-hours end, each carrying the seconds and microseconds of the
    clock reading; nothing is asked of their end, so the last slot may
    run past the business-hours end. *)
Theorem tomorrow_range_is_hourly :
  forall ctx now text,
    Str.contains "tomorrow" (Str.lower text) = true ->
    valid_time (business_hours_start ctx) = true ->
    valid_time (business_hours_end ctx) = true ->
    valid_datetime now = true ->
    ordinal now + 2 < MAXORDINAL ->
    exists slots,
      _extract_time_range ctx now text = Returned slots
      /\ map dt_us slots
         = stamps (day_open ctx now 1) (day_close ctx now 1) US_PER_HOUR
      /\ Forall (fun a => valid_datetime a = true
                          /\ tzinfo a = tzinfo now) slots.
Proof.
  intros ctx now text Ht Hs He Hv Hmax.
  pose proof (valid_datetime_bounds now Hv) as Hb.
  pose proof (valid_fields_bounds _ _ _ _ Hs) as Hsb.
  pose proof (valid_fields_bounds _ _ _ _ He) as Heb.
  unfold _extract_time_range. rewrite Ht.
  rewrite (dt_add_days _ _ Hv) by (unfold MAXORDINAL in *; lia).
  cbn [obind].
  set (tomorrow := mkDatetime (ordinal now + 1) (hour now) (minute now)
                              (second now) (microsecond now) (tzinfo now)).
  assert (Hvt : valid_datetime tomorrow = true).
  { unfold valid_datetime, valid_fields, tomorrow.
    cbn [ordinal hour minute second microsecond].
    rewrite !andb_true_iff, !Z.leb_le. unfold MAXORDINAL in *. lia. }
  destruct (replace_hm_us tomorrow _ _ Hvt (proj1 Hsb) (proj1 (proj2 Hsb)))
    as (s0 & -> & Hvs & Hts & Hos & _ & _ & Hus).
  destruct (replace_hm_us tomorrow _ _ Hvt (proj1 Heb) (proj1 (proj2 Heb)))
    as (e0 & -> & Hve & Hte & Hoe & _ & _ & Hue).
  cbn [obind].
  pose proof (dt_us_bounds e0 Hve) as Heb0.
  destruct (slots_until_stamps e0 (timedelta 0 1 0)) with
    (fuel := slots_bound e0 s0 (timedelta 0 1 0)) (current := s0)
    (slots := @nil datetime) as (res & Er & Hm & Hf); auto.
  - unfold timedelta. rewrite US_PER_HOUR_eq. lia.
  - unfold timedelta. rewrite Hoe in Heb0. unfold tomorrow in Heb0.
    cbn [ordinal] in Heb0.
    rewrite US_PER_DAY_eq, US_PER_HOUR_eq in *. unfold MAXORDINAL in *. lia.
  - exists res. cbn [app] in Er. split; [exact Er|]. split.
    + rewrite Hm, Hus, Hue. unfold day_open, day_close, tomorrow.
      cbn [ordinal second microsecond].
      replace (timedelta 0 1 0) with US_PER_HOUR by (unfold timedelta; lia).
      reflexivity.
    + eapply Forall_impl; [|exact Hf]. cbv beta. intros a [Ha Hb'].
      split; [exact Ha|]. rewrite Hb', Hts. reflexivity.
Qed.

Lemma tomorrow_range_is_hourly_witness :
  exists slots,
    _extract_time_range default_context sample_now "What's free tomorrow?"
    = Returned slots
    /\ map hour slots = [9; 10; 11; 12; 13; 14; 15; 16]
    /\ map second slots = [15; 15; 15; 15; 15; 15; 15; 15].
Proof.
  destruct (tomorrow_range_is_hourly default_context sample_now
              "What's free tomorrow?" eq_refl eq_refl eq_refl eq_refl)
    as (slots & E & _ & _).
  { unfold MAXORDINAL. simpl. lia. }
  exists slots. split; [exact E|].
  vm_compute in E. injection E as <-. split; reflexivity.
Defined.

Lemma week_slots_S ctx remaining day next_monday slots :
  week_slots ctx (S remaining) day next_monday slots
  = (d <- dt_add next_monday (timedelta day 0 0) ;;
     day_start <- replace_hm d (t_hour (business_hours_start ctx))
                             (t_minute (business_hours_start ctx)) ;;
     day_end <- replace_hm day_start (t_hour (business_hours_end ctx))
                           (t_minute (business_hours_end ctx)) ;;
     slots' <- slots_until
                 (S (slots_bound day_end day_start (timedelta 0 2 0)))
                 day_end (timedelta 0 2 0) day_start slots ;;
     week_slots ctx remaining (day + 1) next_monday slots').
Proof. reflexivity. Qed.

(** The days of a week's range, one after the other. *)
Lemma week_slots_stamps ctx base :
  valid_time (business_hours_start ctx) = true ->
  valid_time (business_hours_end ctx) = true ->
  valid_datetime base = true ->
  forall remaining day slots,
    0 <= day ->
    ordinal base + day + Z.of_nat remaining + 1 < MAXORDINAL ->
    exists res,
      week_slots ctx remaining day base slots = Returned (slots ++ res)
      /\ map dt_us res
         = flat_map (fun k => stamps (day_open ctx base k)
                                     (day_close ctx base k)
                                     (2 * US_PER_HOUR))
                    (map (fun i => day + Z.of_nat i) (seq 0 remaining))
      /\ Forall (fun a => valid_datetime a = true
                          /\ tzinfo a = tzinfo base) res.
Proof.
  intros Hs He Hv.
  pose proof (valid_datetime_bounds base Hv) as Hb.
  pose proof (valid_fields_bounds _ _ _ _ Hs) as Hsb.
  pose proof (valid_fields_bounds _ _ _ _ He) as Heb.
  induction remaining as [|remaining IH]; intros day slots Hday Hmax.
  - exists []. rewrite app_nil_r. cbn. auto.
  - rewrite week_slots_S.
    rewrite (dt_add_days _ _ Hv) by (unfold MAXORDINAL in *; lia).
    cbn [obind].
    set (d := mkDatetime (ordinal base + day) (hour base) (minute base)
                         (second base) (microsecond base) (tzinfo base)).
    assert (Hvd : valid_datetime d = true).
    { unfold valid_datetime, valid_fields, d.
      cbn [ordinal hour minute second microsecond].
      rewrite !andb_true_iff, !Z.leb_le. unfold MAXORDINAL in *. lia. }
    destruct (replace_hm_us d _ _ Hvd (proj1 Hsb) (proj1 (proj2 Hsb)))
      as (s0 & -> & Hvs & Hts & Hos & Hss & Hms & Hus).
    cbn [obind].
    destruct (replace_hm_us s0 _ _ Hvs (proj1 Heb) (proj1 (proj2 Heb)))
      as (e0 & -> & Hve & Hte & Hoe & _ & _ & Hue).
    cbn [obind].
    pose proof (dt_us_bounds e0 Hve) as Heb0.
    destruct (slots_until_stamps e0 (timedelta 0 2 0)) with
      (fuel := slots_bound e0 s0 (timedelta 0 2 0)) (current := s0)
      (slots := slots) as (res1 & -> & Hm1 & Hf1); auto.
    { unfold timedelta. rewrite US_PER_HOUR_eq. lia. }
    { unfold timedelta. rewrite Hoe, Hos in Heb0. unfold d in Heb0.
      cbn [ordinal] in Heb0.
      rewrite US_PER_DAY_eq, US_PER_HOUR_eq in *. unfold MAXORDINAL in *.
      lia. }
    cbn [obind].
    destruct (IH (day + 1) (slots ++ res1)) as (res2 & -> & Hm2 & Hf2);
      [lia | lia |].
    exists (res1 ++ res2). rewrite app_assoc. split; [reflexivity|].
    split.
    + rewrite map_app, Hm1, Hm2. cbn [seq map flat_map].
      f_equal.
      * rewrite Hus, Hue, Hos, Hss, Hms. unfold day_open, day_close, d.
        cbn [ordinal second microsecond]. rewrite Z.add_0_r.
        replace (timedelta 0 2 0) with (2 * US_PER_HOUR)
          by (unfold timedelta; lia).
        reflexivity.
      * rewrite <- seq_shift, map_map. f_equal. apply map_ext.
        intros i. lia.
    + apply Forall_app. split; [|exact Hf2].
      eapply Forall_impl; [|exact Hf1]. cbv beta. intros a [Ha Hb'].
      split; [exact Ha|]. rewrite Hb', Hts. reflexivity.
Qed.

(** X15: the range of "next week".  For an ASCII text that mentions
    "next week" (and not "tomorrow", which is looked for first), the
    slots to check
    are those of the five days from the Monday after today on: on each
    day the instants two hours apart from the business-hours start up
    to, and not including, the business-hours end, with the seconds and
    microseconds of the clock reading.  An ASCII text that mentions
    neither gives no slot. *)
Theorem next_week_range_is_monday_to_friday :
  forall ctx now text,
    Str.is_ascii text = true ->
    Str.contains "tomorrow" (Str.lower text) = false ->
    valid_time (business_hours_start ctx) = true ->
    valid_time (business_hours_end ctx) = true ->
    valid_datetime now = true ->
    ordinal now + 13 < MAXORDINAL ->
    let monday := 7 - weekday now in
    (Str.contains "next week" (Str.lower text) = true ->
     exists slots,
       _extract_time_range ctx now text = Returned slots
       /\ map dt_us slots
          = flat_map (fun k => stamps (day_open ctx now (monday + k))
                                      (day_close ctx now (monday + k))
                                      (2 * US_PER_HOUR))
                     [0; 1; 2; 3; 4]
       /\ 1 <= monday <= 7
       /\ (ordinal now + monday + 6) mod 7 = 0
       /\ Forall (fun a => valid_datetime a = true
                           /\ tzinfo a = tzinfo now) slots)
    /\ (Str.contains "next week" (Str.lower text) = false ->
        _extract_time_range ctx now text = Returned []).
Proof.
  intros ctx now text _ Ht Hs He Hv Hmax monday.
  pose proof (valid_datetime_bounds now Hv) as Hb.
  pose proof (weekday_range now) as Hw.
  unfold _extract_time_range. rewrite Ht. split; intros Hn; rewrite Hn;
    [|reflexivity].
  rewrite (dt_add_days _ _ Hv) by (unfold MAXORDINAL in *; lia).
  cbn [obind]. fold monday.
  set (nm := mkDatetime (ordinal now + monday) (hour now) (minute now)
                        (second now) (microsecond now) (tzinfo now)).
  assert (Hvn : valid_datetime nm = true).
  { unfold valid_datetime, valid_fields, nm.
    cbn [ordinal hour minute second microsecond].
    rewrite !andb_true_iff, !Z.leb_le. unfold MAXORDINAL in *. lia. }
  destruct (week_slots_stamps ctx nm Hs He Hvn 5 0 [])
    as (res & Er & Hm & Hf); [lia | unfold nm; cbn [ordinal]; lia |].
  exists res. cbn [app] in Er. split; [exact Er|].
  split; [|split; [lia|split]].
  - assert (Ho : forall k, day_open ctx nm k = day_open ctx now (monday + k)).
    { intros k. unfold day_open, nm. cbn [ordinal second microsecond].
      rewrite US_PER_DAY_eq. lia. }
    assert (Hc : forall k, day_close ctx nm k
                           = day_close ctx now (monday + k)).
    { intros k. unfold day_close, nm. cbn [ordinal second microsecond].
      rewrite US_PER_DAY_eq. lia. }
    rewrite Hm.
    change (map (fun i => 0 + Z.of_nat i) (seq 0 5)) with [0; 1; 2; 3; 4].
    cbn [flat_map]. now rewrite !Ho, !Hc.
  - rewrite add_days_weekday. unfold monday.
    replace (weekday now + (7 - weekday now)) with (0 + 1 * 7) by lia.
    now rewrite Z.mod_add by lia.
  - exact Hf.
Qed.

Lemma next_week_range_is_monday_to_friday_witness :
  exists slots,
    _extract_time_range default_context sample_now "Show me free slots next week"
    = Returned slots
    /\ map (fun a => (ordinal a, hour a)) slots
       = [(739005, 9); (739005, 11); (739005, 13); (739005, 15);
          (739006, 9); (739006, 11); (739006, 13); (739006, 15);
          (739007, 9); (739007, 11); (739007, 13); (739007, 15);
          (739008, 9); (739008, 11); (739008, 13); (739008, 15);
          (739009, 9); (739009, 11); (739009, 13); (739009, 15)].
Proof.
  destruct (next_week_range_is_monday_to_friday default_context sample_now
              "Show me free slots next week" eq_refl eq_refl eq_refl eq_refl
              eq_refl)
    as [Hweek _].
  { unfold MAXORDINAL. simpl. lia. }
  destruct (Hweek eq_refl) as (slots & E & _).
  exists slots. split; [exact E|].
  vm_compute in E. injection E as <-. reflexivity.
Defined.

Section AvailabilityCheck.
Variable check_availability :
    list cal_call -> datetime -> Z -> outcome bool.
Variable strftime : datetime -> string.

Lemma check_slots_run free_at :
    (forall log t d, check_availability log t d = Returned (free_at t)) ->
    forall slots available st,
      check_slots check_availability slots available st
      = (Returned (available ++ filter free_at slots),
         mkState (context st)
                 (calendar_log st
                  ++ map (fun s => CheckAvailability s
                                     (preferred_meeting_duration (context st)))
                         slots)).
Proof.
    intros Hfree. induction slots as [|slot slots IH]; intros available st.
    - cbn. rewrite !app_nil_r. now destruct st.
    - cbn [check_slots]. unfold mbind at 1. unfold get_context at 1.
      unfold mbind at 1. unfold call_check_availability at 1.
      rewrite Hfree. rewrite IH. cbn [context calendar_log filter map].
      rewrite <- app_assoc. cbn [app].
      destruct (free_at slot); [rewrite <- app_assoc|]; reflexivity.
Qed.

  (** X16: the availability handler asks the calendar once per slot of
      the range, in order, with the preferred meeting duration, and
      nothing else; it leaves the context alone.  With a calendar whose
      answer depends on the slot only, it lists the free slots (the first
      ten), says that none is free, or, when the text names no range,
      asks for one without calling the calendar. *)
Theorem availability_check_asks_once_per_slot :
    forall text now st slots free_at,
      _extract_time_range (context st) now text = Returned slots ->
      (forall log t d, check_availability log t d = Returned (free_at t)) ->
      _handle_availability_check check_availability strftime text now st
      = (match slots with
         | [] => availability_prompt_text
         | _ :: _ =>
             match filter free_at slots with
             | [] => availability_none_text
             | _ :: _ => availability_listing strftime (filter free_at slots)
             end
         end,
         mkState (context st)
                 (calendar_log st
                  ++ map (fun s => CheckAvailability s
                                     (preferred_meeting_duration (context st)))
                         slots)).
Proof.
    intros text now st slots free_at Er Hfree.
    unfold _handle_availability_check, try_except, availability_body.
    unfold mbind at 1. unfold get_context at 1.
    unfold mbind at 1. unfold lift at 1. rewrite Er.
    destruct slots as [|slot slots].
    - cbn. rewrite app_nil_r. now destruct st.
    - unfold mbind. rewrite (check_slots_run free_at Hfree). cbn [app].
      destruct (filter free_at (slot :: slots)); reflexivity.
Qed.
End AvailabilityCheck.

Lemma availability_check_asks_once_per_slot_witness :
  exists r log,
    _handle_availability_check free_after_noon no_strftime
      "What's free tomorrow?" sample_now fresh_state
    = (r, mkState default_context log)
    /\ List.length log = 8%nat
    /\ forallb is_check log = true.
Proof.
  assert (E : exists slots,
             _extract_time_range (context fresh_state) sample_now
                                 "What's free tomorrow?" = Returned slots)
    by (vm_compute; eauto).
  destruct E as (slots & E).
  pose proof (availability_check_asks_once_per_slot free_after_noon
                no_strftime "What's free tomorrow?" sample_now fresh_state
                slots (fun t => 12 <=? hour t) E (fun _ _ _ => eq_refl))
    as H.
  vm_compute in E. injection E as <-.
  eexists. eexists. split; [exact H|]. split; reflexivity.
Defined.
(** ** Cancelling, rescheduling and listing *)

Lemma matches_min_len r t : matches r t -> (min_len r <= String.length t)%nat.
Proof.
  induction 1; cbn [min_len String.length]; try lia.
  rewrite length_app_string. lia.
Qed.

Lemma first_match_sound ps text m :
  first_match ps text = Some m ->
  exists p, In p ps /\ search p text = Some m.
Proof.
  induction ps as [|p ps IH]; cbn [first_match]; [discriminate|].
  destruct (search p text) as [m'|] eqn:E.
  - intros H. injection H as <-. exists p. simpl. auto.
  - intros H. destruct (IH H) as (q & Hq & Hs). exists q. simpl. auto.
Qed.

Lemma first_match_none ps text :
  first_match ps text = None ->
  forall p, In p ps -> search p text = None.
Proof.
  induction ps as [|q ps IH]; cbn [first_match]; intros H p Hp;
    [contradiction|].
  destruct (search q text) eqn:E; [discriminate|].
  destruct Hp as [<-|Hp]; [exact E | now apply IH].
Qed.

(** X17: the meeting reference is a piece of the text.  In an ASCII
    text, when one of the four reference patterns is found, the
    reference handed to the
    calendar is a non-empty run of characters of the lower-cased text
    (a clock time, a day word, "meeting with <word>" or
    "<word> meeting"), tagged "pattern_match"; it is never the empty
    text, which the calendar's search would find in every title.  When
    none is found there is no reference. *)
Theorem meeting_reference_is_a_piece_of_the_text :
  forall text,
    Str.is_ascii text = true ->
    match _extract_meeting_reference text with
    | Some info =>
        occurs_in (reference info) (Str.lower text)
        /\ reference info <> ""
        /\ reference_type info = "pattern_match"
    | None =>
        forall p, In p reference_patterns ->
                  search p (Str.lower text) = None
    end.
Proof.
  intros text _. unfold _extract_meeting_reference.
  destruct (first_match reference_patterns (Str.lower text)) as [m|] eqn:E.
  - apply first_match_sound in E as (p & Hp & Hs).
    apply search_sound in Hs as (pre & s0 & Hpre & Hm).
    apply match_here_sound in Hm as (t & s' & Hs0 & M & Hw & _).
    cbn [reference reference_type]. rewrite Hw. repeat split.
    + exists pre, s'. now rewrite Hpre, Hs0.
    + apply matches_min_len in M.
      assert (1 <= min_len p)%nat.
      { simpl in Hp. destruct Hp as [<-|[<-|[<-|[<-|[]]]]]; cbn; lia. }
      intros ->. simpl in M. lia.
  - now apply first_match_none.
Qed.

Lemma meeting_reference_is_a_piece_of_the_text_witness :
  exists info,
    _extract_meeting_reference "Cancel my 3:00 PM meeting" = Some info
    /\ occurs_in (reference info) (Str.lower "Cancel my 3:00 PM meeting")
    /\ reference info <> "".
Proof.
  pose proof (meeting_reference_is_a_piece_of_the_text
                "Cancel my 3:00 PM meeting" eq_refl) as H.
  destruct (_extract_meeting_reference "Cancel my 3:00 PM meeting")
    as [info|] eqn:E.
  - exists info. destruct H as (H1 & H2 & _). auto.
  - vm_compute in E. discriminate E.
Defined.

Section Cancel.
Variable cancel_event :
    list cal_call -> meeting_reference -> outcome bool.

  (** The cancel handler leaves the context alone; without a reference
      in the text it asks for one and calls nothing; with one it calls
      [cancel_event] once and answers by what came back.  The success
      test of the [DELETE /meetings] route holds of its answer exactly
      when the calendar returned true. *)
Lemma _handle_cancel_meeting_answer :
    forall text st,
      let r := fst (_handle_cancel_meeting cancel_event text st) in
      let st' := snd (_handle_cancel_meeting cancel_event text st) in
      context st' = context st
      /\ match _extract_meeting_reference text with
         | None => r = cancel_prompt_text
                   /\ calendar_log st' = calendar_log st
         | Some info =>
             calendar_log st' = calendar_log st ++ [OtherCall "cancel_event"]
             /\ r = match cancel_event (calendar_log st) info with
                    | Returned true => cancel_done_text
                    | Returned false => cancel_not_found_text
                    | Raised _ => cancel_error_text
                    end
         end
      /\ (cancel_success r = true
          <-> exists info,
                _extract_meeting_reference text = Some info
                /\ cancel_event (calendar_log st) info = Returned true).
Proof.
    intros text st r st'. subst r st'.
    unfold _handle_cancel_meeting, try_except, cancel_body.
    destruct (_extract_meeting_reference text) as [info|].
    - unfold mbind, call_other.
      destruct (cancel_event (calendar_log st) info) as [[|]|e] eqn:Ec;
        cbn [fst snd context calendar_log mret];
        (split; [reflexivity|]); (split; [auto|]); split.
      + intros _. exists info. auto.
      + reflexivity.
      + intros H. vm_compute in H. discriminate.
      + intros (i & Hi & Hc). injection Hi as <-. congruence.
      + intros H. vm_compute in H. discriminate.
      + intros (i & Hi & Hc). injection Hi as <-. congruence.
    - cbn [fst snd mret]. split; [reflexivity|]. split; [auto|].
      split; [intros H; vm_compute in H; discriminate|].
      intros (i & Hi & _). discriminate.
Qed.
End Cancel.

Section Reschedule.
Variable check_availability :
    list cal_call -> datetime -> Z -> outcome bool.
Variable reschedule_event :
    list cal_call -> meeting_reference -> datetime -> Z -> outcome bool.
Variable extraction_chain :
    string -> datetime -> ConversationContext -> outcome llm_extraction.
Variable strftime : datetime -> string.

#[local] Abbreviation reschedule :=
    (_handle_reschedule_meeting check_availability reschedule_event
                                extraction_chain strftime).

  (** X19: the reschedule handler moves a meeting only after the calendar
      said the new time is free.  Whatever the collaborators answer, the
      handler's calendar operations are: none; or availability checks
      only; or one availability check for the new start, answered true,
      followed by one [reschedule_event].  Without a reference in the
      text it calls nothing and changes nothing.  The context changes
      only when a reference is found and the new time is not: the
      pending booking then records the reference. *)
Theorem reschedule_only_after_a_free_check :
    forall text now st,
      let st' := snd (reschedule text now st) in
      (exists ext,
          calendar_log st' = calendar_log st ++ ext
          /\ (forallb is_check ext = true
              \/ exists r start info,
                   fst (_extract_booking_details extraction_chain text now st)
                   = Returned r
                   /\ start_time r = Some start
                   /\ _extract_meeting_reference text = Some info
                   /\ check_availability (calendar_log st) start (duration r)
                      = Returned true
                   /\ ext = [CheckAvailability start (duration r);
                             OtherCall "reschedule_event"]))
      /\ (_extract_meeting_reference text = None -> st' = st)
      /\ (context st' <> context st ->
          exists r info,
            fst (_extract_booking_details extraction_chain text now st)
            = Returned r
            /\ start_time r = None
            /\ _extract_meeting_reference text = Some info
            /\ st' = mkState (set_pending (context st)
                                (Some (PendingReschedule (reference info))))
                             (calendar_log st)).
Proof.
    intros text now st st'. subst st'.
    destruct (reschedule text now st) as [resp st'] eqn:Eh. cbn [snd].
    revert Eh.
    unfold _handle_reschedule_meeting, try_except, reschedule_body.
    unfold mbind at 1.
    assert (Hst : snd (_extract_booking_details extraction_chain text now st)
                  = st).
    { unfold _extract_booking_details.
      destruct (extraction_chain text now (context st)) as [[|r]|e];
        reflexivity. }
    destruct (_extract_booking_details extraction_chain text now st)
      as [[r|e] st0] eqn:Ed; cbn [snd fst] in *; subst st0.
    2:{ intros Eh. injection Eh as <- <-.
        split; [exists []; rewrite app_nil_r; auto|].
        split; [intros _; reflexivity|].
        intros H. exfalso. apply H. reflexivity. }
    destruct (_extract_meeting_reference text) as [info|].
    2:{ cbn [mret]. intros Eh. injection Eh as <- <-.
        split; [exists []; rewrite app_nil_r; auto|].
        split; [intros _; reflexivity|].
        intros H. exfalso. apply H. reflexivity. }
    destruct (start_time r) as [start|] eqn:Es.
    2:{ unfold mbind, get_context, put_context, mret.
        intros Eh. injection Eh as <- <-.
        split; [exists []; cbn [calendar_log]; rewrite app_nil_r; auto|].
        split; [discriminate|]. intros _.
        exists r, info. auto. }
    unfold mbind at 1. unfold call_check_availability at 1.
    destruct (check_availability (calendar_log st) start (duration r))
      as [[|]|e] eqn:Ec.
    - unfold mbind, call_other. cbn [calendar_log context].
      intros Eh.
      assert (Hst' : st' = mkState (context st)
                             ((calendar_log st
                               ++ [CheckAvailability start (duration r)])
                              ++ [OtherCall "reschedule_event"])).
      { destruct (reschedule_event _ info start (duration r)) as [[|]|e];
          now injection Eh as _ <-. }
      clear Eh. subst st'. cbn [calendar_log context]. split.
      + eexists. rewrite <- app_assoc. split; [reflexivity|].
        right. exists r, start, info. cbn [app]. auto.
      + split; [discriminate|]. intros H. exfalso. apply H. reflexivity.
    - unfold mbind.
      destruct (_suggest_alternative_times check_availability start
                  (duration r) "flexible"
                  (mkState (context st)
                     (calendar_log st
                      ++ [CheckAvailability start (duration r)])))
        as [res st1] eqn:Esearch.
      destruct (_suggest_alternative_times_sound _ _ _ _ _ _ _ Esearch)
        as (Hc & (ext & Hl & Hchk) & _).
      cbn [context calendar_log] in Hc, Hl.
      intros Eh.
      assert (Hst' : st' = st1).
      { destruct res as [[|a alts]|e]; now injection Eh as _ <-. }
      clear Eh. subst st'. split.
      + exists (CheckAvailability start (duration r) :: ext).
        rewrite Hl, <- app_assoc. split; [reflexivity|].
        left. cbn [forallb is_check]. exact Hchk.
      + split; [discriminate|]. intros H. exfalso. apply H. exact Hc.
    - intros Eh. injection Eh as <- <-. cbn [calendar_log context]. split.
      + exists [CheckAvailability start (duration r)]. auto.
      + split; [discriminate|]. intros H. exfalso. apply H. reflexivity.
Qed.
End Reschedule.
(** ** The agent on a failing calendar *)

Module ServiceFacts.
Import Calendar.

Section FailingApi.
Variable api_list : list api_request -> api_request
                      -> outcome (list api_event).
Variable api_delete : list api_request -> api_request -> outcome unit.
Variable fromisoformat : string -> outcome datetime.
Variable isoformat : datetime -> string.
Variable strftime : string -> datetime -> string.
Variable _get_cache_key : string -> list (string * string) -> string.
Variable minutes_between : datetime -> datetime -> Z.
Variable str_replace_Z : string -> string.

Hypothesis api_down : forall log r, exists e, api_list log r = Raised e.

Lemma get_upcoming_events_api_error now limit days_ahead s :
    valid_datetime now = true ->
    0 <= days_ahead ->
    ordinal now + days_ahead <= MAXORDINAL ->
    _cache_expiry s = [] ->
    fst (get_upcoming_events api_list fromisoformat isoformat _get_cache_key
                             minutes_between str_replace_Z now limit
                             days_ahead s)
    = PEvents [].
Proof.
    intros Hv Hd Hmax Hc.
    pose proof (valid_datetime_bounds _ Hv) as Hvb.
    unfold get_upcoming_events, try_except2, get_upcoming_events_body.
    unfold bind at 1. unfold _rate_limit at 1.
    unfold bind at 1. unfold lift_outcome at 1.
    rewrite (dt_add_days _ _ Hv) by (unfold MAXORDINAL in *; lia).
    unfold bind at 1. unfold _is_cache_valid at 1.
    cbn [_cache_expiry]. rewrite Hc. cbn [assoc].
    unfold bind at 1. unfold send at 1.
    match goal with
    | |- context [api_list ?l ?r] => destruct (api_down l r) as [e ->]
    end.
    destruct e; reflexivity.
Qed.

Lemma cancel_event_api_error now reference s :
    valid_datetime now = true ->
    ordinal now + 7 <= MAXORDINAL ->
    _cache_expiry s = [] ->
    fst (cancel_event api_list api_delete fromisoformat isoformat strftime
                      _get_cache_key minutes_between str_replace_Z now
                      reference s)
    = PBool false.
Proof.
    intros Hv Hmax Hc.
    unfold cancel_event, try_except2, cancel_event_body.
    unfold bind at 1. unfold _rate_limit at 1.
    unfold bind at 1. unfold _find_event_by_reference at 1.
    match goal with
    | |- context [get_upcoming_events _ _ _ _ _ _ now 50 7 ?s1] =>
        pose proof (get_upcoming_events_api_error now 50 7 s1 Hv
                      ltac:(lia) Hmax Hc) as Hg;
        destruct (get_upcoming_events api_list fromisoformat isoformat
                    _get_cache_key minutes_between str_replace_Z now 50 7 s1)
          as [recent s2]
    end.
    cbn [fst] in Hg. subst recent. reflexivity.
Qed.

  (** X20: a calendar that cannot be reached reads as an empty one.  When
      every listing request to the calendar API fails (and nothing is
      cached), the service's fail-soft answers reach the user as plain
      facts: the list handler answers that there are no upcoming
      meetings, and the cancel handler that it could not find the
      meeting; neither gives its own error text. *)
Theorem unreachable_calendar_reads_as_empty :
    forall utc_now service agent_strftime,
      valid_datetime utc_now = true ->
      ordinal utc_now + 30 <= MAXORDINAL ->
      _cache_expiry service = [] ->
      (forall st,
          fst (_handle_list_meetings
                 (service_get_upcoming_events api_list fromisoformat
                    isoformat _get_cache_key minutes_between str_replace_Z
                    utc_now service)
                 agent_strftime st)
          = list_none_text)
      /\ (forall text st info,
             _extract_meeting_reference text = Some info ->
             fst (_handle_cancel_meeting
                    (service_cancel_event api_list api_delete fromisoformat
                       isoformat strftime _get_cache_key minutes_between
                       str_replace_Z utc_now service)
                    text st)
             = cancel_not_found_text).
Proof.
    intros utc_now service agent_strftime Hv Hmax Hc. split.
    - intros st.
      unfold _handle_list_meetings, try_except, list_body, mbind, call_other.
      unfold service_get_upcoming_events.
      rewrite get_upcoming_events_api_error; [reflexivity | exact Hv | lia | exact Hmax | exact Hc].
    - intros text st info Hi.
      unfold _handle_cancel_meeting, try_except, cancel_body. rewrite Hi.
      unfold mbind, call_other, service_cancel_event.
      rewrite cancel_event_api_error; [reflexivity | exact Hv | lia | exact Hc].
Qed.
End FailingApi.

Lemma unreachable_calendar_reads_as_empty_witness :
  fst (_handle_list_meetings
         (service_get_upcoming_events quota_exceeded no_parse no_isoformat
            no_key no_minutes no_replace sample_utc_now idle_service)
         no_strftime fresh_state)
  = list_none_text
  /\ fst (_handle_cancel_meeting
            (service_cancel_event quota_exceeded quota_exceeded no_parse
               no_isoformat no_format no_key no_minutes no_replace
               sample_utc_now idle_service)
            "cancel my 3:00 pm meeting" fresh_state)
     = cancel_not_found_text.
Proof.
  destruct (unreachable_calendar_reads_as_empty quota_exceeded quota_exceeded
              no_parse no_isoformat no_format no_key no_minutes no_replace
              (fun _ _ => ex_intro _ _ eq_refl)
              sample_utc_now idle_service no_strftime eq_refl)
    as [Hl Hc]; [unfold MAXORDINAL; simpl; lia | reflexivity |].
  split; [apply Hl|].
  apply (Hc "cancel my 3:00 pm meeting" fresh_state
            (mkReference "3:00 pm" "pattern_match")).
  reflexivity.
Defined.

End ServiceFacts.
(** ** The availability cache *)

Module CacheFacts.
Import Calendar.

Lemma assoc_set_same {V} k (v : V) d : assoc k (assoc_set k v d) = Some v.
Proof. unfold assoc_set. cbn [assoc]. now rewrite String.eqb_refl. Qed.

Lemma assoc_filter_keep {V} (keep : string -> bool) k
      (d : list (string * V)) :
  keep k = true ->
  assoc k (filter (fun kv => keep (fst kv)) d) = assoc k d.
Proof.
  intros Hk. induction d as [|[k' v] d IH]; [reflexivity|].
  cbn [filter fst assoc].
  destruct (String.eqb k k') eqn:E.
  - apply String.eqb_eq in E. subst k'. rewrite Hk. cbn [assoc].
    now rewrite String.eqb_refl.
  - destruct (keep k'); cbn [assoc]; [rewrite E|]; exact IH.
Qed.

(** No digest starts with the name of an operation. *)
Lemma hexdigest_no_prefix k :
  hexdigest k = true ->
  prefix "check_availability" k = false
  /\ prefix "upcoming_events" k = false.
Proof.
  unfold hexdigest. intros H. apply andb_true_iff in H. destruct H as [Hl H].
  destruct k as [|a [|b t]]; try discriminate.
  cbn [list_ascii_of_string forallb] in H.
  apply andb_true_iff in H. destruct H as [Ha H].
  apply andb_true_iff in H. destruct H as [Hb _].
  split.
  - cbn [prefix].
    destruct (ascii_dec "c" a) as [<-|]; [|reflexivity].
    destruct (ascii_dec "h" b) as [<-|]; [|reflexivity].
    vm_compute in Hb. discriminate.
  - cbn [prefix].
    destruct (ascii_dec "u" a) as [<-|]; [|reflexivity].
    vm_compute in Ha. discriminate.
Qed.

Section Cache.
Variable api_list : list api_request -> api_request
                      -> outcome (list api_event).
Variable api_insert : list api_request -> api_request
                        -> outcome (option string * option string).
Variable isoformat : datetime -> string.
Variable strftime : string -> datetime -> string.
Variable _get_cache_key : string -> list (string * string) -> string.
Variable str_exn : exn -> string.

#[local] Abbreviation check :=
    (check_availability api_list isoformat _get_cache_key).

  (** The three instants of a check, when the dates stay in range. *)
Lemma check_window start dur buf :
    valid_datetime start = true ->
    0 <= dur -> 0 <= buf ->
    US_PER_DAY <= dt_us start - buf * US_PER_MINUTE ->
    dt_us start + (dur + buf) * US_PER_MINUTE
    < (MAXORDINAL + 1) * US_PER_DAY ->
    exists cs en ce,
      dt_add start (- timedelta 0 0 buf) = Returned cs
      /\ dt_add start (timedelta 0 0 dur) = Returned en
      /\ dt_add en (timedelta 0 0 buf) = Returned ce.
Proof.
    intros Hv Hd Hb Hlo Hhi.
    assert (Hm : 0 < US_PER_MINUTE) by (rewrite US_PER_MINUTE_eq; lia).
    destruct (dt_add_in_range start (- timedelta 0 0 buf) Hv)
      as (cs & Ecs & _).
    { rewrite timedelta_minutes. nia. }
    destruct (dt_add_in_range start (timedelta 0 0 dur) Hv)
      as (en & Een & Hven & Eus & _).
    { rewrite timedelta_minutes. nia. }
    destruct (dt_add_in_range en (timedelta 0 0 buf) Hven)
      as (ce & Ece & _).
    { rewrite Eus, !timedelta_minutes. nia. }
    exists cs, en, ce. auto.
Qed.

  (** A check that finds no valid entry asks the API and stores the
      answer for [_cache_duration]. *)
Lemma check_miss start dur buf s cs en ce events :
    dt_add start (- timedelta 0 0 buf) = Returned cs ->
    dt_add start (timedelta 0 0 dur) = Returned en ->
    dt_add en (timedelta 0 0 buf) = Returned ce ->
    let key := _get_cache_key "check_availability"
                 [("start", isoformat cs); ("end", isoformat ce)] in
    let r := EventsList (isoformat cs) (isoformat ce) None in
    let s0 := snd (_rate_limit s) in
    match assoc key (_cache_expiry s) with
    | Some e => e <= clock_ms s0
    | None => True
    end ->
    api_list (requests s) r = Returned events ->
    let is_available :=
      (List.length (filter (fun e => negb (is_cancelled e)) events) =? 0)%nat
    in
    check start dur buf s
    = (PBool is_available,
       mkService (assoc_set key (PBool is_available) (_events_cache s))
                 (assoc_set key (clock_ms s0 + _cache_duration)
                            (_cache_expiry s))
                 (clock_ms s0) (clock_ms s0) (requests s ++ [r])).
Proof.
    intros E1 E2 E3 key r s0 Hexp Hapi is_available.
    unfold check_availability, try_except2, check_availability_body.
    unfold bind at 1. unfold _rate_limit at 1.
    unfold bind at 1. unfold lift_outcome at 1. rewrite E1.
    unfold bind at 1. unfold lift_outcome at 1. rewrite E2.
    unfold bind at 1. unfold lift_outcome at 1. rewrite E3.
    fold key. fold r. subst s0.
    destruct s as [cache expiry last clock reqs].
    cbn [_rate_limit snd clock_ms _cache_expiry _events_cache requests
         _last_request_time] in *.
    set (c := if clock - last <? _min_request_interval
              then clock + (_min_request_interval - (clock - last))
              else clock) in *.
    unfold bind at 1. unfold _is_cache_valid at 1.
    cbn [_cache_expiry clock_ms].
    assert (Hmiss :
              match assoc key expiry with
              | Some e => (Returned (c <? e), mkService cache expiry c c reqs)
              | None => (Returned false, mkService cache expiry c c reqs)
              end = (Returned false, mkService cache expiry c c reqs)).
    { destruct (assoc key expiry) as [e|]; [|reflexivity].
      apply Z.ltb_ge in Hexp. now rewrite Hexp. }
    rewrite Hmiss.
    unfold bind at 1. unfold send at 1. cbn [requests]. rewrite Hapi.
    fold is_available.
    unfold bind at 1. unfold _set_cache at 1.
    cbn [_events_cache _cache_expiry clock_ms _last_request_time requests].
    unfold bind at 1.
    destruct is_available.
    - reflexivity.
    - unfold lift_outcome.
      destruct (log_conflicts _) as [[]|e]; [reflexivity|].
      destruct e; reflexivity.
Qed.

  (** A check that finds a valid entry returns it and asks nothing. *)
Lemma check_hit start dur buf s cs en ce e v :
    dt_add start (- timedelta 0 0 buf) = Returned cs ->
    dt_add start (timedelta 0 0 dur) = Returned en ->
    dt_add en (timedelta 0 0 buf) = Returned ce ->
    let key := _get_cache_key "check_availability"
                 [("start", isoformat cs); ("end", isoformat ce)] in
    let s0 := snd (_rate_limit s) in
    assoc key (_cache_expiry s) = Some e ->
    clock_ms s0 < e ->
    assoc key (_events_cache s) = Some v ->
    check start dur buf s = (v, s0).
Proof.
    intros E1 E2 E3 key s0 Hexp Hlt Hv.
    unfold check_availability, try_except2, check_availability_body.
    unfold bind at 1. unfold _rate_limit at 1.
    unfold bind at 1. unfold lift_outcome at 1. rewrite E1.
    unfold bind at 1. unfold lift_outcome at 1. rewrite E2.
    unfold bind at 1. unfold lift_outcome at 1. rewrite E3.
    fold key. subst s0.
    destruct s as [cache expiry last clock reqs].
    cbn [_rate_limit snd clock_ms _cache_expiry _events_cache requests
         _last_request_time] in *.
    set (c := if clock - last <? _min_request_interval
              then clock + (_min_request_interval - (clock - last))
              else clock) in *.
    unfold bind at 1. unfold _is_cache_valid at 1.
    cbn [_cache_expiry clock_ms]. rewrite Hexp.
    apply Z.ltb_lt in Hlt. rewrite Hlt.
    unfold cache_get. cbn [_events_cache]. rewrite Hv. reflexivity.
Qed.

  (** The clock after [_rate_limit], when [ms] have passed since a call
      that left the clock at the time of its request. *)
Lemma clock_after_elapse ms s :
    0 <= ms ->
    _last_request_time s = clock_ms s ->
    clock_ms (snd (_rate_limit (elapse ms s)))
    = Z.max (clock_ms s + ms) (clock_ms s + _min_request_interval).
Proof.
    intros Hms Hl. unfold _rate_limit, elapse, _min_request_interval.
    cbn [snd clock_ms _last_request_time _events_cache _cache_expiry
         requests]. rewrite Hl.
    destruct (clock_ms s + ms - clock_ms s <? 100) eqn:E.
    - apply Z.ltb_lt in E. lia.
    - apply Z.ltb_ge in E. lia.
Qed.

  (** A check that finds no valid entry sends one listing request,
      whatever the API answers. *)
Lemma check_miss_requests start dur buf s cs en ce :
    dt_add start (- timedelta 0 0 buf) = Returned cs ->
    dt_add start (timedelta 0 0 dur) = Returned en ->
    dt_add en (timedelta 0 0 buf) = Returned ce ->
    let key := _get_cache_key "check_availability"
                 [("start", isoformat cs); ("end", isoformat ce)] in
    let r := EventsList (isoformat cs) (isoformat ce) None in
    match assoc key (_cache_expiry s) with
    | Some e => e <= clock_ms (snd (_rate_limit s))
    | None => True
    end ->
    requests (snd (check start dur buf s)) = requests s ++ [r].
Proof.
    intros E1 E2 E3 key r Hexp.
    destruct (api_list (requests s) r) as [events|e] eqn:Hapi.
    - rewrite (check_miss start dur buf s cs en ce events E1 E2 E3 Hexp Hapi).
      reflexivity.
    - unfold check_availability, try_except2, check_availability_body.
      unfold bind at 1. unfold _rate_limit at 1.
      unfold bind at 1. unfold lift_outcome at 1. rewrite E1.
      unfold bind at 1. unfold lift_outcome at 1. rewrite E2.
      unfold bind at 1. unfold lift_outcome at 1. rewrite E3.
      fold key. fold r.
      destruct s as [cache expiry last clock reqs].
      cbn [_rate_limit snd clock_ms _cache_expiry _events_cache requests
           _last_request_time] in *.
      set (c := if clock - last <? _min_request_interval
                then clock + (_min_request_interval - (clock - last))
                else clock) in *.
      unfold bind at 1. unfold _is_cache_valid at 1.
      cbn [_cache_expiry clock_ms].
      assert (Hmiss :
                match assoc key expiry with
                | Some e => (Returned (c <? e),
                             mkService cache expiry c c reqs)
                | None => (Returned false, mkService cache expiry c c reqs)
                end = (Returned false, mkService cache expiry c c reqs)).
      { destruct (assoc key expiry) as [e0|]; [|reflexivity].
        apply Z.ltb_ge in Hexp. now rewrite Hexp. }
      rewrite Hmiss.
      unfold bind at 1. unfold send at 1. cbn [requests]. rewrite Hapi.
      destruct e; reflexivity.
Qed.

  (** X21: an availability answer is reused for 300 seconds.  After a
      check that asked the API and got an answer, the same check made
      less than 300 000 ms later returns the same value and sends
      nothing to the API, whatever the calendar holds by then; made
      300 000 ms later or more, it sends the same listing request
      again. *)
Theorem availability_answer_is_reused_for_300_seconds :
    forall s start dur buf ms,
      valid_datetime start = true ->
      0 <= dur -> 0 <= buf ->
      US_PER_DAY <= dt_us start - buf * US_PER_MINUTE ->
      dt_us start + (dur + buf) * US_PER_MINUTE
      < (MAXORDINAL + 1) * US_PER_DAY ->
      _cache_expiry s = [] ->
      (forall r, exists events, api_list (requests s) r = Returned events) ->
      0 <= ms ->
      let first := check start dur buf s in
      let second := check start dur buf (elapse ms (snd first)) in
      exists r,
        requests (snd first) = requests s ++ [r]
        /\ (ms < _cache_duration ->
            fst second = fst first
            /\ requests (snd second) = requests (snd first))
        /\ (_cache_duration <= ms ->
            requests (snd second) = requests (snd first) ++ [r]).
Proof.
    intros s start dur buf ms Hv Hd Hb Hlo Hhi Hfresh Hapi Hms.
    destruct (check_window start dur buf Hv Hd Hb Hlo Hhi)
      as (cs & en & ce & E1 & E2 & E3).
    set (key := _get_cache_key "check_availability"
                  [("start", isoformat cs); ("end", isoformat ce)]).
    set (r := EventsList (isoformat cs) (isoformat ce) None).
    destruct (Hapi r) as [events Hr].
    assert (Hnone : match assoc key (_cache_expiry s) with
                    | Some e => e <= clock_ms (snd (_rate_limit s))
                    | None => True
                    end).
    { rewrite Hfresh. exact I. } 
    pose proof (check_miss start dur buf s cs en ce events E1 E2 E3 Hnone Hr)
      as Hfirst.
    cbv zeta in Hfirst. fold key in Hfirst. fold r in Hfirst.
    set (c := clock_ms (snd (_rate_limit s))) in *.
    intros first second. subst second. subst first.
    rewrite Hfirst. cbn [fst snd requests].
    set (s1 := mkService _ _ c c _).
    assert (Hc2 : clock_ms (snd (_rate_limit (elapse ms s1)))
                  = Z.max (c + ms) (c + _min_request_interval)).
    { apply (clock_after_elapse ms s1 Hms). reflexivity. }
    exists r. split; [reflexivity|]. split.
    - intros Hlt.
      rewrite (check_hit start dur buf (elapse ms s1) cs en ce
                 (c + _cache_duration)
                 (PBool (List.length
                           (filter (fun e => negb (is_cancelled e)) events)
                         =? 0)%nat) E1 E2 E3).
      + split; reflexivity.
      + fold key. unfold elapse, s1. cbn [_cache_expiry].
        apply assoc_set_same.
      + rewrite Hc2. unfold _min_request_interval, _cache_duration in *. lia.
      + fold key. unfold elapse, s1. cbn [_events_cache].
        apply assoc_set_same.
    - intros Hge.
      rewrite (check_miss_requests start dur buf (elapse ms s1) cs en ce
                 E1 E2 E3).
      + reflexivity.
      + cbv zeta. rewrite Hc2.
        change (_cache_expiry (elapse ms s1))
          with (assoc_set key (c + _cache_duration) (_cache_expiry s)).
        fold key. rewrite assoc_set_same.
        unfold _min_request_interval, _cache_duration in *. lia.
Qed.

  (** [create_event], when the API accepts the insertion: one request,
      a text that reports the booking, and every entry stored under a
      digest still in the cache. *)
Lemma create_event_keeps_digests created_at summary start dur description
        attendees location s en :
    dt_add start (timedelta 0 0 dur) = Returned en ->
    (forall r, exists created, api_insert (requests s) r = Returned created) ->
    exists rest body s',
      create_event api_insert isoformat strftime str_exn created_at summary
                   start dur description attendees location s
      = (PStr (glyph_done ++ " Successfully booked: " ++ summary ++ rest)%string,
         s')
      /\ requests s' = requests s ++ [EventsInsert body]
      /\ clock_ms s' = clock_ms (snd (_rate_limit s))
      /\ _last_request_time s' = clock_ms s'
      /\ (forall k, hexdigest k = true ->
                    assoc k (_events_cache s') = assoc k (_events_cache s)
                    /\ assoc k (_cache_expiry s') = assoc k (_cache_expiry s)).
Proof.
    intros E Hapi.
    unfold create_event, try_except2, create_event_body.
    unfold bind at 1. unfold _rate_limit at 1.
    unfold bind at 1. unfold lift_outcome at 1. rewrite E.
    unfold bind at 1. unfold send at 1. cbn [requests].
    match goal with
    | |- context [api_insert (requests s) ?r] =>
        destruct (Hapi r) as [created ->]
    end.
    unfold bind at 1. unfold _clear_cache_for_timerange at 1.
    cbn [_events_cache _cache_expiry _last_request_time clock_ms requests].
    unfold ret.
    match goal with
    | |- context [EventsInsert ?b] => set (body := b)
    end.
    match goal with
    | |- exists rest body0 s', (?v, ?st) = _ /\ _ =>
        assert (Hmsg : exists rest,
                   v = PStr (glyph_done ++ " Successfully booked: "
                                        ++ summary ++ rest)%string)
    end.
    { destruct (String.eqb (get_or (snd created) "") "").
      - eexists. reflexivity.
      - eexists. rewrite !append_assoc. reflexivity. }
    destruct Hmsg as [rest Hmsg]. rewrite Hmsg.
    eexists rest, body, _. split; [reflexivity|].
    cbn [requests clock_ms _last_request_time _events_cache _cache_expiry snd
         _rate_limit].
    repeat split.
    - apply (assoc_filter_keep
               (fun k0 => negb (prefix "check_availability" k0
                                || prefix "upcoming_events" k0))).
      destruct (hexdigest_no_prefix k H) as [-> ->]. reflexivity.
    - apply (assoc_filter_keep
               (fun k0 => negb (prefix "check_availability" k0
                                || prefix "upcoming_events" k0))).
      destruct (hexdigest_no_prefix k H) as [-> ->]. reflexivity.
Qed.

  (** X22: booking a slot leaves its cached availability in place.  The
      cache keys are digests, so the clearing that [create_event] does
      by key prefix removes nothing: after a check that found the slot
      free and a booking of that slot that the API accepted, the same
      check, made while the entry is young, still answers free and sends
      nothing to the API. *)
Theorem booking_leaves_cached_availability :
    forall s start dur created_at summary description attendees location
           ms1 ms2,
      (forall method kwargs,
          hexdigest (_get_cache_key method kwargs) = true) ->
      valid_datetime start = true ->
      0 <= dur ->
      dt_us start + dur * US_PER_MINUTE < (MAXORDINAL + 1) * US_PER_DAY ->
      _cache_expiry s = [] ->
      (forall r, api_list (requests s) r = Returned []) ->
      (forall log r, exists created, api_insert log r = Returned created) ->
      0 <= ms1 -> 0 <= ms2 ->
      ms1 + ms2 + 2 * _min_request_interval < _cache_duration ->
      let first := check start dur 0 s in
      let booked :=
        create_event api_insert isoformat strftime str_exn created_at summary
                     start dur description attendees location
                     (elapse ms1 (snd first)) in
      let again := check start dur 0 (elapse ms2 (snd booked)) in
      fst first = PBool true
      /\ (exists rest,
             fst booked
             = PStr (glyph_done ++ " Successfully booked: " ++ summary
                                ++ rest)%string)
      /\ fst again = PBool true
      /\ exists r body,
           requests (snd again) = requests s ++ [r; EventsInsert body].
Proof.
    intros s start dur created_at summary description attendees location
           ms1 ms2 Hkeys Hv Hd Hhi Hfresh Hfree Hins Hms1 Hms2 Hyoung.
    pose proof (dt_us_bounds _ Hv) as Hb.
    pose proof (valid_datetime_bounds _ Hv) as Hvb.
    assert (Hday : 0 < US_PER_DAY) by (rewrite US_PER_DAY_eq; lia).
    destruct (check_window start dur 0 Hv Hd ltac:(lia))
      as (cs & en & ce & E1 & E2 & E3); [nia | lia |].
    set (key := _get_cache_key "check_availability"
                  [("start", isoformat cs); ("end", isoformat ce)]).
    set (r := EventsList (isoformat cs) (isoformat ce) None).
    assert (Hnone : match assoc key (_cache_expiry s) with
                    | Some e => e <= clock_ms (snd (_rate_limit s))
                    | None => True
                    end).
    { rewrite Hfresh. exact I. }
    pose proof (check_miss start dur 0 s cs en ce [] E1 E2 E3 Hnone
                           (Hfree r)) as Hfirst.
    cbv zeta in Hfirst. fold key in Hfirst. fold r in Hfirst.
    cbn [filter List.length Nat.eqb] in Hfirst.
    set (c := clock_ms (snd (_rate_limit s))) in *.
    intros first booked again. subst again booked first.
    rewrite Hfirst. cbn [fst snd].
    set (s1 := mkService _ _ c c _).
    destruct (create_event_keeps_digests created_at summary start dur
                description attendees location (elapse ms1 s1) en E2
                (fun r0 => Hins _ r0))
      as (rest & body & s2 & Hbooked & Hreq2 & Hclock2 & Hlast2 & Hkeep).
    rewrite Hbooked. cbn [fst snd].
    rewrite (clock_after_elapse ms1 s1 Hms1 eq_refl) in Hclock2.
    cbn [s1 clock_ms] in Hclock2.
    destruct (Hkeep key (Hkeys _ _)) as [Hcache Hexp].
    rewrite (check_hit start dur 0 (elapse ms2 s2) cs en ce
               (c + _cache_duration) (PBool true) E1 E2 E3).
    - split; [reflexivity|]. split; [now exists rest|].
      split; [reflexivity|].
      exists r, body. cbn [snd _rate_limit requests elapse].
      rewrite Hreq2. cbn [elapse requests s1].
      rewrite <- app_assoc. reflexivity.
    - fold key. change (_cache_expiry (elapse ms2 s2)) with (_cache_expiry s2).
      rewrite Hexp. cbn [elapse s1 _cache_expiry]. apply assoc_set_same.
    - rewrite (clock_after_elapse ms2 s2 Hms2 Hlast2), Hclock2.
      unfold _min_request_interval, _cache_duration in *. lia.
    - fold key. change (_events_cache (elapse ms2 s2)) with (_events_cache s2).
      rewrite Hcache. cbn [elapse s1 _events_cache]. apply assoc_set_same.
Qed.
End Cache.

Lemma availability_answer_is_reused_for_300_seconds_witness :
  exists r,
    requests (snd (check_availability empty_calendar no_isoformat digest_key
                                      some_slot 30 0 idle_service))
    = requests idle_service ++ [r]
    /\ (299999 < _cache_duration ->
        fst (check_availability empty_calendar no_isoformat digest_key
               some_slot 30 0
               (elapse 299999
                  (snd (check_availability empty_calendar no_isoformat
                          digest_key some_slot 30 0 idle_service))))
        = fst (check_availability empty_calendar no_isoformat digest_key
                                  some_slot 30 0 idle_service)
        /\ requests
             (snd (check_availability empty_calendar no_isoformat digest_key
                     some_slot 30 0
                     (elapse 299999
                        (snd (check_availability empty_calendar no_isoformat
                                digest_key some_slot 30 0 idle_service)))))
           = requests
               (snd (check_availability empty_calendar no_isoformat
                       digest_key some_slot 30 0 idle_service)))
    /\ (_cache_duration <= 299999 ->
        requests
          (snd (check_availability empty_calendar no_isoformat digest_key
                  some_slot 30 0
                  (elapse 299999
                     (snd (check_availability empty_calendar no_isoformat
                             digest_key some_slot 30 0 idle_service)))))
        = requests
            (snd (check_availability empty_calendar no_isoformat digest_key
                    some_slot 30 0 idle_service)) ++ [r]).
Proof.
  apply (availability_answer_is_reused_for_300_seconds
           empty_calendar no_isoformat digest_key idle_service some_slot
           30 0 299999).
  - reflexivity.
  - lia.
  - lia.
  - vm_compute. discriminate.
  - vm_compute. reflexivity.
  - reflexivity.
  - intros r. exists []. reflexivity.
  - lia.
Defined.

Lemma booking_leaves_cached_availability_witness :
  fst (check_availability empty_calendar no_isoformat digest_key some_slot
         30 0
         (elapse 60000
            (snd (create_event accepts_insert no_isoformat no_format no_text
                    some_slot "Standup" some_slot 30 "" [] ""
                    (elapse 5000
                       (snd (check_availability empty_calendar no_isoformat
                               digest_key some_slot 30 0 idle_service)))))))
  = PBool true.
Proof.
  apply (booking_leaves_cached_availability
           empty_calendar accepts_insert no_isoformat no_format digest_key
           no_text idle_service some_slot 30 some_slot "Standup" "" [] ""
           5000 60000).
  - intros method kwargs. unfold digest_key.
    destruct (String.eqb method "check_availability"); reflexivity.
  - reflexivity.
  - lia.
  - vm_compute. reflexivity.
  - reflexivity.
  - intros r. reflexivity.
  - intros log r. eexists. reflexivity.
  - lia.
  - lia.
  - vm_compute. reflexivity.
Defined.

End CacheFacts.
(** ** Listing and cancelling events *)

Module EventFacts.
Import Calendar.

Lemma contains_empty s : Str.contains "" s = true.
Proof. destruct s; reflexivity. Qed.

Section Events.
Variable api_list : list api_request -> api_request
                      -> outcome (list api_event).
Variable api_delete : list api_request -> api_request -> outcome unit.
Variable fromisoformat : string -> outcome datetime.
Variable isoformat : datetime -> string.
Variable strftime : string -> datetime -> string.
Variable _get_cache_key : string -> list (string * string) -> string.
Variable minutes_between : datetime -> datetime -> Z.
Variable str_replace_Z : string -> string.

#[local] Abbreviation format :=
    (format_events fromisoformat minutes_between str_replace_Z).
#[local] Abbreviation upcoming :=
    (get_upcoming_events api_list fromisoformat isoformat _get_cache_key
                         minutes_between str_replace_Z).
#[local] Abbreviation cancel :=
    (cancel_event api_list api_delete fromisoformat isoformat strftime
                  _get_cache_key minutes_between str_replace_Z).

  (** The loop of the listing: it raises exactly when an event that is
      not cancelled lacks its start or end, and otherwise keeps, in
      order, some of the events that are not cancelled. *)
Lemma format_events_spec events :
    match format events with
    | Returned l =>
        existsb lacks_time events = false
        /\ exists kept,
            subseq kept events
            /\ Forall (fun e => is_cancelled e = false) kept
            /\ Forall2 (formats minutes_between) kept l
    | Raised e => e = KeyError /\ existsb lacks_time events = true
    end.
Proof.
    induction events as [|event rest IH].
    - cbn. split; [reflexivity|]. exists []. repeat constructor.
    - cbn [format_events existsb].
      destruct (is_cancelled event) eqn:Hc.
      + assert (Hl : lacks_time event = false)
          by (unfold lacks_time; now rewrite Hc).
        rewrite Hl. cbn [orb].
        destruct (format rest) as [l|e]; [|exact IH].
        destruct IH as (Hn & kept & Hs & Hk & Hf).
        split; [exact Hn|]. exists kept.
        split; [now constructor|]. auto.
      + destruct (e_start event) as [st|] eqn:Est.
        2:{ assert (Hl : lacks_time event = true)
              by (unfold lacks_time; now rewrite Hc, Est).
            rewrite Hl. cbn. auto. }
        destruct (e_end event) as [en|] eqn:Een.
        2:{ assert (Hl : lacks_time event = true)
              by (unfold lacks_time; now rewrite Hc, Est, Een).
            rewrite Hl. cbn. auto. }
        assert (Hl : lacks_time event = false)
          by (unfold lacks_time; now rewrite Hc, Est, Een).
        rewrite Hl. cbn [time_text obind orb].
        destruct (format rest) as [l|e]; [|cbn [obind]; exact IH].
        destruct IH as (Hn & kept & Hs & Hk & Hf).
        cbn [obind].
        destruct (_parse_datetime _ _ _) as [start_dt|];
          [destruct (_parse_datetime _ _ _) as [end_dt|]|].
        * split; [exact Hn|]. exists (event :: kept).
          split; [now constructor|].
          split; [now constructor|].
          constructor; [|exact Hf].
          repeat split.
        * split; [exact Hn|]. exists kept.
          split; [now constructor|]. auto.
        * split; [exact Hn|]. exists kept.
          split; [now constructor|]. auto.
Qed.

Lemma subseq_nil_l {A} (l : list A) : subseq [] l.
Proof. induction l; now constructor. Qed.

  (** X23: what the listing holds.  With nothing cached and an API that
      answers, [get_upcoming_events] returns entries for some of the
      API's events that are not cancelled, in the API's order, each with
      the id, the title (or "Untitled Meeting"), the description and the
      location of its event and the minutes between its own start and
      end; events whose start or end does not parse are left out; and
      one event that is not cancelled and has no start or no end empties
      the whole listing. *)
Theorem listing_keeps_order_and_drops_cancelled :
    forall s now limit days_ahead events,
      valid_datetime now = true ->
      0 <= days_ahead ->
      ordinal now + days_ahead <= MAXORDINAL ->
      _cache_expiry s = [] ->
      (forall r, api_list (requests s) r = Returned events) ->
      exists l,
        fst (upcoming now limit days_ahead s) = PEvents l
        /\ (exists kept,
               subseq kept events
               /\ Forall (fun e => is_cancelled e = false) kept
               /\ Forall2 (formats minutes_between) kept l)
        /\ (existsb lacks_time events = true -> l = []).
Proof.
    intros s now limit days_ahead events Hv Hd Hmax Hc Hapi.
    pose proof (valid_datetime_bounds _ Hv) as Hvb.
    pose proof (format_events_spec events) as Hf.
    unfold get_upcoming_events, try_except2, get_upcoming_events_body.
    unfold bind at 1. unfold _rate_limit at 1.
    unfold bind at 1. unfold lift_outcome at 1.
    rewrite (dt_add_days _ _ Hv) by (unfold MAXORDINAL in *; lia).
    unfold bind at 1. unfold _is_cache_valid at 1.
    cbn [_cache_expiry]. rewrite Hc. cbn [assoc].
    unfold bind at 1. unfold send at 1. cbn [requests]. rewrite Hapi.
    unfold bind at 1. unfold lift_outcome at 1.
    destruct (format events) as [l|e].
    - destruct Hf as (Hn & Hkept).
      exists l. split; [reflexivity|]. split; [exact Hkept|].
      intros Ht. rewrite Hn in Ht. discriminate.
    - destruct Hf as (-> & Ht).
      exists []. split; [reflexivity|].
      split; [|reflexivity].
      exists []. split; [apply subseq_nil_l|]. split; constructor.
Qed.

  (** The search stops at the first event that the reference is found
      in, and returns its id. *)
Lemma find_in_spec reference_text events :
    match find_in strftime reference_text events with
    | Some id =>
        exists before e after,
          events = before ++ e :: after
          /\ f_id e = Some id
          /\ refers_to strftime reference_text e = true
          /\ Forall (fun x => refers_to strftime reference_text x = false)
                    before
    | None => True
    end.
Proof.
    induction events as [|event rest IH]; [exact I|].
    cbn [find_in].
    destruct (refers_to strftime reference_text event) eqn:Hr.
    - assert (E : (if Str.contains reference_text
                        (Str.lower (f_summary event))
                   then f_id event
                   else if Str.contains reference_text
                             (Str.lower (strftime "%I:%M %p"
                                                  (f_start_time event)))
                        then f_id event
                        else find_in strftime reference_text rest)
                  = f_id event).
      { unfold refers_to in Hr.
        destruct (Str.contains reference_text (Str.lower (f_summary event)));
          [reflexivity|].
        cbn [orb] in Hr. now rewrite Hr. }
      rewrite E. destruct (f_id event) as [id|] eqn:Hid; [|exact I].
      exists [], event, rest. repeat split; auto.
    - unfold refers_to in Hr. apply orb_false_iff in Hr.
      destruct Hr as [H1 H2]. rewrite H1, H2.
      destruct (find_in strftime reference_text rest) as [id|]; [|exact I].
      destruct IH as (before & e & after & -> & Hid & Hhit & Hb).
      exists (event :: before), e, after. repeat split; auto.
      constructor; [|exact Hb].
      unfold refers_to. apply orb_false_iff. split; assumption.
Qed.

  (** [cancel_event], step by step. *)
Lemma cancel_event_run s now reference :
    cancel now reference s
    = let (recent, s2) := upcoming now 50 7 (snd (_rate_limit s)) in
      match recent with
      | PEvents events =>
          match find_in strftime (Str.lower (get_or reference "")) events
          with
          | Some (String a id) =>
              match api_delete (requests s2) (EventsDelete (String a id))
              with
              | Returned _ =>
                  (PBool true,
                   mkService [] [] (_last_request_time s2) (clock_ms s2)
                             (requests s2 ++ [EventsDelete (String a id)]))
              | Raised _ =>
                  (PBool false,
                   mkService (_events_cache s2) (_cache_expiry s2)
                             (_last_request_time s2) (clock_ms s2)
                             (requests s2 ++ [EventsDelete (String a id)]))
              end
          | _ => (PBool false, s2)
          end
      | _ => (PBool false, s2)
      end.
Proof.
    unfold cancel_event, try_except2, cancel_event_body.
    unfold bind at 1.
    change (_rate_limit s) with (Returned tt, snd (_rate_limit s)).
    cbv iota beta. cbn [snd].
    unfold bind at 1. unfold _find_event_by_reference at 1.
    destruct (upcoming now 50 7 (snd (_rate_limit s))) as [recent s2].
    destruct recent as [b|t|events|iv]; try reflexivity.
    destruct (find_in strftime (Str.lower (get_or reference "")) events)
      as [[|a id]|]; try reflexivity.
    cbn [truthy_id Str.truthy negb get_or].
    unfold bind at 1. unfold send at 1.
    destruct (api_delete (requests s2) (EventsDelete (String a id)))
      as [[]|err]; [reflexivity|].
    destruct err; reflexivity.
Qed.

  (** X24: what [cancel_event] deletes, when the reference, the titles
      of the listed events and the start times as written are ASCII
      text.  After its listing of the next seven days, it sends at most
      one request, the deletion of the first listed event whose
      lower-cased title, or start time written as hours, minutes and
      AM/PM, holds the lower-cased reference, and only when that event
      has a non-empty id.  It returns a boolean, true only when the API
      accepted the deletion, and both caches are then empty.  A missing
      or empty reference is found in every event, so the first listed
      event is the one deleted. *)
Theorem cancel_deletes_the_first_match :
    forall s now reference,
      Str.is_ascii (get_or reference "") = true ->
      (forall d, Str.is_ascii (strftime "%I:%M %p" d) = true) ->
      (forall events,
          fst (upcoming now 50 7 (snd (_rate_limit s))) = PEvents events ->
          Forall (fun e => Str.is_ascii (f_summary e) = true) events) ->
      let listing := upcoming now 50 7 (snd (_rate_limit s)) in
      let result := cancel now reference s in
      let reference_text := Str.lower (get_or reference "") in
      exists ext,
        requests (snd result) = requests (snd listing) ++ ext
        /\ (ext = []
            \/ exists events before e after id,
                ext = [EventsDelete id]
                /\ fst listing = PEvents events
                /\ events = before ++ e :: after
                /\ f_id e = Some id
                /\ id <> ""
                /\ refers_to strftime reference_text e = true
                /\ Forall (fun x => refers_to strftime reference_text x
                                    = false) before)
        /\ (fst result = PBool true \/ fst result = PBool false)
        /\ (fst result = PBool true ->
            exists id,
              ext = [EventsDelete id]
              /\ api_delete (requests (snd listing)) (EventsDelete id)
                 = Returned tt
              /\ _events_cache (snd result) = []
              /\ _cache_expiry (snd result) = [])
        /\ (get_or reference "" = "" ->
            forall e, refers_to strftime reference_text e = true).
Proof.
    intros s now reference _ _ _ listing result reference_text.
    assert (Hempty : get_or reference "" = "" ->
                     forall e, refers_to strftime reference_text e = true).
    { intros E e. unfold refers_to, reference_text. rewrite E.
      cbn [Str.lower]. now rewrite contains_empty. }
    pose proof (cancel_event_run s now reference) as Hrun.
    fold result listing reference_text in Hrun.
    clearbody result. subst result.
    destruct listing as [recent s2]. cbn [fst snd].
    assert (Hnone :
              exists ext,
                requests (snd (PBool false, s2)) = requests s2 ++ ext
                /\ (ext = []
                    \/ exists events before e after id,
                        ext = [EventsDelete id]
                        /\ recent = PEvents events
                        /\ events = before ++ e :: after
                        /\ f_id e = Some id
                        /\ id <> ""
                        /\ refers_to strftime reference_text e = true
                        /\ Forall (fun x =>
                                     refers_to strftime reference_text x
                                     = false) before)
                /\ (fst (PBool false, s2) = PBool true
                    \/ fst (PBool false, s2) = PBool false)
                /\ (fst (PBool false, s2) = PBool true ->
                    exists id,
                      ext = [EventsDelete id]
                      /\ api_delete (requests s2) (EventsDelete id)
                         = Returned tt
                      /\ _events_cache (snd (PBool false, s2)) = []
                      /\ _cache_expiry (snd (PBool false, s2)) = [])
                /\ (get_or reference "" = "" ->
                    forall e, refers_to strftime reference_text e = true)).
    { exists []. cbn [fst snd]. rewrite app_nil_r. split; [reflexivity|].
      split; [now left|]. split; [now right|].
      split; [discriminate|exact Hempty]. }
    destruct recent as [b|t|events|iv]; try exact Hnone.
    pose proof (find_in_spec reference_text events) as Hfind.
    destruct (find_in strftime reference_text events) as [[|a id]|];
      try exact Hnone.
    clear Hnone.
    destruct Hfind as (before & e & after & Hev & Hid & Hhit & Hb).
    exists [EventsDelete (String a id)].
    assert (Hfirst :
              exists events0 before0 e0 after0 id0,
                [EventsDelete (String a id)] = [EventsDelete id0]
                /\ PEvents events = PEvents events0
                /\ events0 = before0 ++ e0 :: after0
                /\ f_id e0 = Some id0
                /\ id0 <> ""
                /\ refers_to strftime reference_text e0 = true
                /\ Forall (fun x => refers_to strftime reference_text x
                                    = false) before0).
    { exists events, before, e, after, (String a id).
      repeat split; auto. discriminate. }
    destruct (api_delete (requests s2) (EventsDelete (String a id)))
      as [[]|err] eqn:Hdel; cbn [fst snd requests _events_cache
                                 _cache_expiry].
    - split; [reflexivity|]. split; [right; exact Hfirst|].
      split; [now left|]. split; [|exact Hempty].
      intros _. exists (String a id). auto.
    - split; [reflexivity|]. split; [right; exact Hfirst|].
      split; [now right|]. split; [discriminate|exact Hempty].
Qed.
End Events.

Lemma listing_keeps_order_and_drops_cancelled_witness :
  exists l,
    fst (get_upcoming_events lists_two_events parses_to_some_slot
           no_isoformat no_key no_minutes no_replace sample_utc_now 10 30
           idle_service)
    = PEvents l
    /\ (exists kept,
           subseq kept two_events
           /\ Forall (fun e => is_cancelled e = false) kept
           /\ Forall2 (formats no_minutes) kept l)
    /\ (existsb lacks_time two_events = true -> l = []).
Proof.
  apply (listing_keeps_order_and_drops_cancelled
           lists_two_events parses_to_some_slot no_isoformat no_key
           no_minutes no_replace idle_service sample_utc_now 10 30
           two_events).
  - reflexivity.
  - lia.
  - unfold MAXORDINAL. simpl. lia.
  - reflexivity.
  - intros r. reflexivity.
Defined.

Lemma cancel_deletes_the_first_match_witness :
  exists ext,
    requests
      (snd (cancel_event lists_two_events accepts_delete parses_to_some_slot
              no_isoformat fixed_clock_text no_key no_minutes no_replace
              sample_utc_now (Some "Untitled") idle_service))
    = requests
        (snd (get_upcoming_events lists_two_events parses_to_some_slot
                no_isoformat no_key no_minutes no_replace sample_utc_now
                50 7
                (snd (_rate_limit idle_service))))
      ++ ext
    /\ fst (cancel_event lists_two_events accepts_delete parses_to_some_slot
              no_isoformat fixed_clock_text no_key no_minutes no_replace
              sample_utc_now (Some "Untitled") idle_service)
       = PBool true.
Proof.
  destruct (cancel_deletes_the_first_match
              lists_two_events accepts_delete parses_to_some_slot
              no_isoformat fixed_clock_text no_key no_minutes no_replace
              idle_service sample_utc_now (Some "Untitled"))
    as (ext & Hreq & _).
  - reflexivity.
  - intros d. reflexivity.
  - intros events E. vm_compute in E. injection E as <-.
    repeat constructor.
  - exists ext. split; [exact Hreq|]. vm_compute. reflexivity.
Defined.

End EventFacts.
(** ** What a turn leaves behind *)

Section Turn.
Variable check_availability :
    list cal_call -> datetime -> Z -> outcome bool.
Variable create_event :
    list cal_call -> option string -> datetime -> Z -> option string
    -> outcome string.
Variable response_chain :
    string -> string -> string -> ConversationContext -> outcome string.
Variable intent_chain : string -> ConversationContext -> outcome string.
Variable extraction_chain :
    string -> datetime -> ConversationContext -> outcome llm_extraction.
Variable strftime : datetime -> string.
Variable time_strftime : time -> string.
Variable other_handlers :
    Intent -> string -> datetime -> agent_state -> handled.

#[local] Abbreviation turn_run :=
    (run check_availability create_event response_chain intent_chain
         extraction_chain strftime time_strftime other_handlers).

  (** The dispatch raises only on a booking turn whose extraction
      raised, and then leaves the state as it was. *)
Lemma dispatch_raises intent user_input now st e st' :
    dispatch check_availability create_event response_chain extraction_chain
             strftime time_strftime other_handlers intent user_input now st
    = (Raised e, st') ->
    intent = BOOK_MEETING
    /\ st' = st
    /\ _fallback_parsing (context st) now user_input = Raised e.
Proof.
    unfold dispatch.
    destruct intent; try (intros E; discriminate E).
    unfold mbind, _extract_booking_details.
    destruct (extraction_chain user_input now (context st)) as [[|req]|e0].
    - destruct (_fallback_parsing _ _ _) as [req|e'].
      + destruct (_handle_booking_request _ _ _ _ _ req st); discriminate.
      + intros E; injection E as <- <-. auto.
    - destruct (_handle_booking_request _ _ _ _ _ req st); discriminate.
    - destruct (_fallback_parsing _ _ _) as [req|e'].
      + destruct (_handle_booking_request _ _ _ _ _ req st); discriminate.
      + intros E; injection E as <- <-. auto.
Qed.

  (** X25: what a turn leaves behind.  [run] enters the user's text in
      the history (cut to its last ten entries) and recognises the
      intent.  Then either the turn is answered: the entry of the turn
      holds the text returned, [last_intent] is the recognised intent
      and the summary reports its name; or the turn is a booking turn
      whose fallback extraction raised: the text returned is the general
      apology, the entry has no answer and nothing else has changed,
      [last_intent] included.  A greeting is answered with the greeting
      text by a dispatch that touches neither the calendar nor the
      pending booking. *)
Theorem answered_turn_is_recorded :
    forall user_input timestamp now st,
      let old := conversation_history (context st) in
      let entered :=
        mkState (set_history (context st)
                   (lastn 10 (old ++ [mkEntry user_input timestamp None])))
                (calendar_log st) in
      let intent :=
        _recognize_intent intent_chain user_input (context entered) in
      let r := fst (turn_run user_input timestamp now st) in
      let st' := snd (turn_run user_input timestamp now st) in
      (last_intent (context st') = Some intent
       /\ conversation_history (context st')
          = lastn 9 old ++ [mkEntry user_input timestamp (Some r)]
       /\ cs_last_intent (get_conversation_summary (context st'))
          = Some (intent_value intent)
       /\ cs_conversation_length (get_conversation_summary (context st'))
          = Nat.min 10 (S (List.length old))
       /\ (intent = GREETING ->
           r = greeting_text
           /\ calendar_log st' = calendar_log st
           /\ pending_booking (context st') = pending_booking (context st)))
      \/ (intent = BOOK_MEETING
          /\ r = run_error_text
          /\ st' = entered
          /\ exists e,
               _fallback_parsing (context entered) now user_input
               = Raised e).
Proof.
    intros user_input timestamp now st old entered intent r st'.
    destruct (turn_run user_input timestamp now st) as [r0 st0] eqn:Erun.
    subst r st'. cbn [fst snd].
    revert Erun. unfold run. rewrite cap_is_lastn.
    fold old. fold entered. fold intent.
    assert (Hsplit : lastn 10 (old ++ [mkEntry user_input timestamp None])
                     = lastn 9 old ++ [mkEntry user_input timestamp None]).
    { rewrite lastn_app. reflexivity. }
    assert (Hlen : List.length (lastn 9 old) = Nat.min 9 (List.length old)).
    { unfold lastn. rewrite length_skipn. lia. }
    unfold mbind at 1.
    destruct (dispatch _ _ _ _ _ _ _ intent user_input now entered)
      as [[r1|e] st2] eqn:Ed.
    - pose proof (dispatch_history _ _ _ _ _ _ _ _ _ _ _ _ _ Ed) as Hh.
      cbn [entered context set_history conversation_history] in Hh.
      unfold mbind, get_context, lift, put_context, mret.
      rewrite Hh, Hsplit, set_last_assistant_snoc.
      cbn [h_user h_timestamp].
      intros E. injection E as <- <-. left.
      cbn [context set_last_intent set_history conversation_history
           last_intent get_conversation_summary cs_last_intent
           cs_conversation_length option_map].
      split; [reflexivity|]. split; [reflexivity|]. split; [reflexivity|].
      split.
      { rewrite length_app, Hlen. cbn [List.length]. lia. }
      intros Hg. rewrite Hg in Ed. cbn [dispatch] in Ed. unfold mret in Ed.
      injection Ed as <- <-.
      cbn [entered calendar_log context set_last_intent set_history
           pending_booking]. auto.
    - intros E. injection E as <- <-. right.
      destruct (dispatch_raises _ _ _ _ _ _ Ed) as (Hi & -> & Hf).
      split; [exact Hi|]. split; [reflexivity|]. split; [reflexivity|].
      now exists e.
Qed.
End Turn.
(** ** The booking route's success flag *)

Lemma lower_append a b :
  Str.lower (a ++ b) = (Str.lower a ++ Str.lower b)%string.
Proof.
  induction a as [|c a IH]; [reflexivity|].
  cbn [append Str.lower]. now rewrite IH.
Qed.

Lemma prefix_append_l n a b :
  prefix n a = true -> prefix n (a ++ b) = true.
Proof.
  intros H. destruct (prefix_app n a H) as [rest ->].
  rewrite append_assoc. apply prefix_append.
Qed.

Lemma contains_append_l n a b :
  Str.contains n a = true -> Str.contains n (a ++ b) = true.
Proof.
  induction a as [|c a IH].
  - cbn [Str.contains]. destruct n; [|discriminate].
    intros _. destruct b; reflexivity.
  - cbn [Str.contains append].
    destruct (prefix n (String c a)) eqn:Hp.
    + intros _.
      change (String c (a ++ b)) with (String c a ++ b)%string.
      now rewrite (prefix_append_l _ _ b Hp).
    + intros H. rewrite (IH H).
      destruct (prefix n (String c (a ++ b))); reflexivity.
Qed.

Section BookingAnswer.
Variable check_availability :
    list cal_call -> datetime -> Z -> outcome bool.
Variable create_event :
    list cal_call -> option string -> datetime -> Z -> option string
    -> outcome string.
Variable response_chain :
    string -> string -> string -> ConversationContext -> outcome string.
Variable strftime : datetime -> string.
Variable time_strftime : time -> string.

  (** The booking handler without the response model: when the start is
      in business hours and the calendar says free, its answer is its
      own success text, whatever [create_event] returned. *)
Lemma _handle_booking_request_own_text request start s st result :
    start_time request = Some start ->
    summary request = Some s ->
    _check_business_hours (context st) start = true ->
    check_availability (calendar_log st) start (duration request)
    = Returned true ->
    create_event
      (calendar_log st ++ [CheckAvailability start (duration request)])
      (Some s) start (duration request) (description request)
    = Returned result ->
    (forall situation user_input default_response ctx,
        exists e,
          response_chain situation user_input default_response ctx
          = Raised e) ->
    fst (_handle_booking_request check_availability create_event
           response_chain strftime time_strftime request st)
    = booking_done_text (Str.lower s) (strftime start) (duration request).
Proof.
    intros E Es Hbh Hc Hcr Hdown.
    unfold _handle_booking_request, try_except, booking_body.
    rewrite E. unfold mbind at 1. unfold get_context at 1.
    rewrite Hbh. cbn [negb]. unfold mbind at 1.
    unfold call_check_availability at 1. rewrite Hc.
    unfold mbind at 1. unfold call_create_event at 1.
    cbn [calendar_log context]. rewrite Es, Hcr.
    unfold mbind, get_context, put_context, lift.
    cbn [lower_opt context calendar_log].
    unfold _generate_response.
    match goal with
    | |- context [response_chain ?a ?b ?c ?d] =>
        destruct (Hdown a b c d) as [e ->]
    end.
    reflexivity.
Qed.

Lemma book_success_own_text summary_lower when_ duration :
    book_success (booking_done_text summary_lower when_ duration) = true.
Proof.
    unfold book_success, any_phrase, booking_done_text.
    match goal with
    | |- context [("Perfect! I've successfully booked your " ++ ?r)%string] =>
        set (rest := r)
    end.
    destruct ("Perfect! I've successfully booked your " ++ rest)%string
      as [|c t] eqn:Heq; [discriminate Heq|].
    rewrite <- Heq. cbn [existsb].
    rewrite lower_append.
    rewrite (contains_append_l "successfully booked"); reflexivity.
Qed.
End BookingAnswer.

Section Routes.
Variable check_availability :
    list cal_call -> datetime -> Z -> outcome bool.
Variable create_event :
    list cal_call -> option string -> datetime -> Z -> option string
    -> outcome string.
Variable response_chain :
    string -> string -> string -> ConversationContext -> outcome string.
Variable intent_chain : string -> ConversationContext -> outcome string.
Variable extraction_chain :
    string -> datetime -> ConversationContext -> outcome llm_extraction.
Variable strftime : datetime -> string.
Variable time_strftime : time -> string.
Variable other_handlers :
    Intent -> string -> datetime -> agent_state -> handled.
Variable cancel_event :
    list cal_call -> meeting_reference -> outcome bool.

#[local] Abbreviation agent_run :=
    (run check_availability create_event response_chain intent_chain
         extraction_chain strftime time_strftime other_handlers).

  (** What the dispatch returns is what [run] returns. *)
Lemma run_answer user_input timestamp now st r st2 :
    dispatch check_availability create_event response_chain extraction_chain
             strftime time_strftime other_handlers
             (_recognize_intent intent_chain user_input
                (context (turn_entered user_input timestamp st)))
             user_input now (turn_entered user_input timestamp st)
    = (Returned r, st2) ->
    fst (agent_run user_input timestamp now st) = r.
Proof.
    intros Ed. unfold run. rewrite cap_is_lastn.
    fold (turn_entered user_input timestamp st).
    unfold mbind at 1. rewrite Ed.
    pose proof (dispatch_history _ _ _ _ _ _ _ _ _ _ _ _ _ Ed) as Hh.
    cbn [turn_entered context set_history conversation_history] in Hh.
    unfold mbind, get_context, lift, put_context, mret.
    rewrite Hh, lastn_app. cbn [List.length Nat.leb Nat.sub].
    rewrite set_last_assistant_snoc. reflexivity.
Qed.

  (** X18: the [DELETE /meetings] route's success flag on a cancelling
      turn.  For an ASCII message on which the intent recognised is
      CANCEL_MEETING, [run], dispatching to the cancel handler, returns
      that handler's answer: the request for a reference when the
      message holds none, and otherwise the text for what [cancel_event]
      returned; and the route's success flag, read off the wording of
      what [run] returned, is true exactly when the calendar returned
      true. *)
Theorem cancel_answer_follows_the_calendar :
    forall message timestamp now st,
      Str.is_ascii message = true ->
      let entered := turn_entered message timestamp st in
      _recognize_intent intent_chain message (context entered)
      = CANCEL_MEETING ->
      response (other_handlers CANCEL_MEETING message now entered)
      = fst (_handle_cancel_meeting cancel_event message entered) ->
      let answer := fst (agent_run message timestamp now st) in
      answer
      = match _extract_meeting_reference message with
        | None => cancel_prompt_text
        | Some info =>
            match cancel_event (calendar_log st) info with
            | Returned true => cancel_done_text
            | Returned false => cancel_not_found_text
            | Raised _ => cancel_error_text
            end
        end
      /\ (cancel_success answer = true
          <-> exists info,
                _extract_meeting_reference message = Some info
                /\ cancel_event (calendar_log st) info = Returned true).
Proof.
    intros message timestamp now st _ entered Hintent Hhandler answer.
    assert (Ha : answer
                 = fst (_handle_cancel_meeting cancel_event message entered)).
    { subst answer. rewrite <- Hhandler.
      eapply run_answer. fold entered. rewrite Hintent.
      cbn [dispatch]. reflexivity. }
    destruct (_handle_cancel_meeting_answer cancel_event message entered)
      as (_ & Hr & Hs).
    cbv zeta in Hr, Hs. rewrite <- Ha in Hr, Hs.
    change (calendar_log entered) with (calendar_log st) in Hr, Hs.
    split; [|exact Hs].
    destruct (_extract_meeting_reference message) as [info|].
    - apply Hr.
    - apply Hr.
Qed.

  (** X26: the [POST /book] route reports success for an event that was
      not created.  On a turn whose recognised intent is BOOK_MEETING
      and whose extracted request has a summary and a start in business
      hours, when the calendar says free and the response model is
      unavailable, [run] returns the booking handler's own success text,
      and the route's success flag, read off the wording of what [run]
      returned, is true, whatever [create_event] returned, its failure
      text included. *)
Theorem book_route_reports_success_whatever_was_created :
    forall message timestamp now st request start s result,
      let entered := turn_entered message timestamp st in
      _recognize_intent intent_chain message (context entered)
      = BOOK_MEETING ->
      fst (_extract_booking_details extraction_chain message now entered)
      = Returned request ->
      start_time request = Some start ->
      summary request = Some s ->
      _check_business_hours (context st) start = true ->
      check_availability (calendar_log st) start (duration request)
      = Returned true ->
      create_event
        (calendar_log st ++ [CheckAvailability start (duration request)])
        (Some s) start (duration request) (description request)
      = Returned result ->
      (forall situation user_input default_response ctx,
          exists e,
            response_chain situation user_input default_response ctx
            = Raised e) ->
      let answer := fst (agent_run message timestamp now st) in
      answer = booking_done_text (Str.lower s) (strftime start)
                                 (duration request)
      /\ book_success answer = true.
Proof.
    intros message timestamp now st request start s result entered Hintent
           Hext E Es Hbh Hc Hcr Hdown answer.
    assert (Ha : answer = booking_done_text (Str.lower s) (strftime start)
                                            (duration request)).
    { subst answer.
      rewrite <- (_handle_booking_request_own_text check_availability
                    create_event response_chain strftime time_strftime
                    request start s entered result E Es Hbh Hc Hcr Hdown).
      destruct (_handle_booking_request check_availability create_event
                  response_chain strftime time_strftime request entered)
        as [r st2] eqn:Eh.
      eapply (run_answer message timestamp now st r st2).
      fold entered. rewrite Hintent. cbn [dispatch].
      unfold mbind.
      assert (Hx : _extract_booking_details extraction_chain message now
                     entered = (Returned request, entered)).
      { revert Hext. unfold _extract_booking_details.
        destruct (extraction_chain message now (context entered))
          as [[|req]|e]; cbn [fst]; intros ->; reflexivity. }
      rewrite Hx, Eh. reflexivity. }
    split; [exact Ha|]. rewrite Ha. apply book_success_own_text.
Qed.
End Routes.

Lemma cancel_answer_follows_the_calendar_witness :
  cancel_success
    (fst (run always_free create_ok llm_down says_cancel extracts_afternoon
              no_strftime no_time_strftime cancelling_handlers
              "Cancel my 3:00 PM meeting" "2024-04-23T10:30:15" sample_now
              fresh_state))
  = true.
Proof.
  destruct (cancel_answer_follows_the_calendar
              always_free create_ok llm_down says_cancel extracts_afternoon
              no_strftime no_time_strftime cancelling_handlers cancels_all
              "Cancel my 3:00 PM meeting" "2024-04-23T10:30:15" sample_now
              fresh_state eq_refl eq_refl eq_refl) as [_ Hs].
  apply Hs. eexists. split; reflexivity.
Defined.

Lemma book_route_reports_success_whatever_was_created_witness :
  book_success
    (fst (run always_free create_fails llm_down says_book extracts_afternoon
              no_strftime no_time_strftime cancelling_handlers
              "Book a meeting on Thursday at 2pm" "2024-04-23T10:30:15"
              sample_now fresh_state))
  = true.
Proof.
  apply (book_route_reports_success_whatever_was_created
           always_free create_fails llm_down says_book extracts_afternoon
           no_strftime no_time_strftime cancelling_handlers
           "Book a meeting on Thursday at 2pm" "2024-04-23T10:30:15"
           sample_now fresh_state afternoon_request
           (mkDatetime 739001 14 0 0 0 "Asia/Kolkata") "Meeting"
           " Failed to create event: quota exceeded");
    try reflexivity.
  intros situation user_input default_response ctx. eexists. reflexivity.
Defined.
